(** * DigitalCart: the storage contract, its two backends and coupon validation

    A shallow embedding of [server/firebase-storage.ts] (the document
    backend [FirebaseStorage]), [server/storage.ts] (the contract [IStorage],
    the relational backend [DatabaseStorage] and the backend selector),
    [shared/schema.ts] (the table declarations) and of the routes of
    [server/routes.ts] that go through the storage contract.

    JavaScript objects are finite maps from property names to values; a
    thrown exception is an explicit [Throw] outcome; the two stores (Cloud
    Firestore and PostgreSQL behind drizzle) are explicit states threaded
    through every method. *)

From Stdlib Require Import ZArith OrderedTypeEx.
From stdpp Require Import gmap strings list fin_maps sorting.

#[local] Set Warnings "-register-all".
#[local] Open Scope Z_scope.

(** ** JavaScript values *)

(** A JS [Date]: a time value in milliseconds since the epoch, or the
    Invalid Date (time value NaN). *)
Inductive Date :=
| ValidDate (ms : Z)
| InvalidDate.

(** The values that flow through the storage layer.  Numbers are restricted
    to integers (every numeric column of the schema is an [integer]; decimals
    travel as strings).  [VTimestamp] is a Firestore [Timestamp] object. *)
Inductive Value :=
| VUndefined
| VNull
| VBool (b : bool)
| VNum (n : Z)
| VStr (s : string)
| VDate (d : Date)
| VTimestamp (ms : Z)
| VArr (l : list Value)
| VObj (o : gmap string Value).

Abbreviation Obj := (gmap string Value).

(** Property read [o.k]: a missing property reads as [undefined]. *)
Definition prop (o : Obj) (k : string) : Value := default VUndefined (o !! k).

(** ToBoolean. *)
Definition truthy (v : Value) : bool :=
  match v with
  | VUndefined | VNull => false
  | VBool b => b
  | VNum n => negb (n =? 0)
  | VStr s => negb (String.eqb s "")
  | VDate _ | VTimestamp _ | VArr _ | VObj _ => true
  end.

(** [v ?? d]. *)
Definition coalesce (v d : Value) : Value :=
  match v with
  | VUndefined | VNull => d
  | _ => v
  end.

(** The parts of the JS semantics that the storage code can reach only with
    values outside the declared TypeScript types are left abstract: the
    result of [Date.parse] on a string, of [>=] on operands that are not both
    numbers, and of [new Date(v)] on a value that is neither a [Date], a
    string nor a number. *)
Class JsPrims := {
  parseDate : string → Date;
  geOther : Value → Value → bool;
  newDateOther : Value → Date
}.

(** [a >= b]. *)
Definition js_ge {prims : JsPrims} (a b : Value) : bool :=
  match a, b with
  | VNum x, VNum y => y <=? x
  | _, _ => geOther a b
  end.

(** [new Date(v)]; a number outside the range of ECMAScript time values gives
    the Invalid Date. *)
Definition new_Date {prims : JsPrims} (v : Value) : Date :=
  match v with
  | VDate d => d
  | VStr s => parseDate s
  | VNum n => if (Z.abs n <=? 8640000000000000) then ValidDate n else InvalidDate
  | _ => newDateOther v
  end.

(** [d1 < d2] on two dates: the comparison of the time values, false as soon
    as one of them is NaN. *)
Definition date_lt (d1 d2 : Date) : bool :=
  match d1, d2 with
  | ValidDate a, ValidDate b => a <? b
  | _, _ => false
  end.

(** ** Exceptions and the store monad *)

Record JsError := { err_code : Value; err_message : string }.

Inductive Outcome (A : Type) :=
| Ok (a : A)
| Throw (e : JsError).
Arguments Ok {A} a.
Arguments Throw {A} e.

(** An asynchronous method over a store of type [S]: it ends with a value or
    with a thrown error, and leaves a store behind in both cases. *)
Definition M (S A : Type) : Type := S → Outcome A * S.

#[global] Instance M_ret {S} : MRet (M S) := λ A a s, (Ok a, s).
#[global] Instance M_bind {S} : MBind (M S) := λ A B f m s,
  match m s with
  | (Ok a, s') => f a s'
  | (Throw e, s') => (Throw e, s')
  end.

Definition throw {S A} (e : JsError) : M S A := λ s, (Throw e, s).

(** [try { m } catch (error) { h error }]. *)
Definition try_catch {S A} (m : M S A) (h : JsError → M S A) : M S A := λ s,
  match m s with
  | (Ok a, s') => (Ok a, s')
  | (Throw e, s') => h e s'
  end.

(** A pure computation that may throw, run inside a method. *)
Definition lift {S A} (o : Outcome A) : M S A := λ s, (o, s).

(** [Promise.all(xs.map(async x => f x))]: the callbacks only read the store,
    so running them one after the other gives the results of any
    interleaving; the first rejection rejects the whole. *)
Fixpoint Promise_all_map {S A B} (f : A → M S B) (xs : list A) : M S (list B) :=
  match xs with
  | [] => mret []
  | x :: xs' => y ← f x; ys ← Promise_all_map f xs'; mret (y :: ys)
  end.

(** [error.code === 5]. *)
Definition code_is_5 (e : JsError) : bool :=
  match err_code e with
  | VNum 5 => true
  | _ => false
  end.

(** The handler every guarded read of the document backend installs:
    [if (error.code === 5) return dflt; throw error]. *)
Definition catch_not_found {S A} (dflt : A) (m : M S A) : M S A :=
  try_catch m (λ e, if code_is_5 e then mret dflt else throw e).

(** ** Helpers of [firebase-storage.ts] *)

Definition TypeError (msg : string) : JsError :=
  {| err_code := VUndefined; err_message := msg |}.

(** [toDate(timestamp)].  The [in] operator throws on a primitive, and a
    [toDate] property that is not a function cannot be called. *)
Definition toDate {prims : JsPrims} (timestamp : Value) : Outcome Value :=
  if negb (truthy timestamp) then Ok VNull
  else match timestamp with
       | VDate d => Ok (VDate d)
       | VStr s => Ok (VDate (parseDate s))
       | VTimestamp ms => Ok (VDate (ValidDate ms))
       | VObj o =>
           match o !! "toDate" with
           | Some _ => Throw (TypeError "timestamp.toDate is not a function")
           | None => Ok VNull
           end
       | VArr _ => Ok VNull
       | _ => Throw (TypeError "Cannot use 'in' operator to search for 'toDate'")
       end.

(** [serializeForFirestore(obj)]: dates are kept, arrays are mapped, and every
    other object (a [Timestamp] included, whose own properties are
    [_seconds] and [_nanoseconds]) is rebuilt from its entries without the
    [undefined] ones. *)
Fixpoint serializeForFirestore (obj : Value) : Value :=
  match obj with
  | VNull | VUndefined => obj
  | VDate _ => obj
  | VArr l => VArr (map serializeForFirestore l)
  | VObj o =>
      VObj (omap (λ value, match value with
                           | VUndefined => None
                           | _ => Some (serializeForFirestore value)
                           end) o)
  | VTimestamp ms =>
      VObj (<["_seconds" := VNum (ms / 1000)]>
              (<["_nanoseconds" := VNum ((ms mod 1000) * 1000000)]> ∅))
  | _ => obj
  end.

(** The same function on a top-level object, which is how every method calls
    it. *)
Definition serializeObj (o : Obj) : Obj :=
  match serializeForFirestore (VObj o) with
  | VObj o' => o'
  | _ => ∅
  end.

(** ** A model of the Firestore client

    The store is outside the repository; this is the behaviour the backend
    relies on.  A collection maps document ids to documents.  A request to a
    collection listed in [fs_faults] fails with the listed error (a
    collection or database that is not provisioned answers with gRPC code 5,
    NOT_FOUND).  On a write the client turns every valid [Date] into a
    [Timestamp] and rejects [undefined] and the Invalid Date. *)

Record Firestore := {
  fs_colls : gmap string (gmap string Obj);
  fs_faults : gmap string JsError
}.

Definition fs_docs (c : string) (db : Firestore) : gmap string Obj :=
  default ∅ (fs_colls db !! c).

Definition fs_put_docs (c : string) (docs : gmap string Obj) (db : Firestore) : Firestore :=
  {| fs_colls := <[c := docs]> (fs_colls db); fs_faults := fs_faults db |}.

Definition fs_request {A} (c : string) (k : M Firestore A) : M Firestore A := λ db,
  match fs_faults db !! c with
  | Some e => (Throw e, db)
  | None => k db
  end.

Fixpoint fs_encode (v : Value) : option Value :=
  match v with
  | VUndefined => None
  | VDate (ValidDate ms) => Some (VTimestamp ms)
  | VDate InvalidDate => None
  | VArr l => VArr <$> mapM fs_encode l
  | VObj o =>
      let o' := omap fs_encode o in
      if decide (size o' = size o) then Some (VObj o') else None
  | _ => Some v
  end.

Definition fs_encode_obj (o : Obj) : option Obj :=
  match fs_encode (VObj o) with
  | Some (VObj o') => Some o'
  | _ => None
  end.

Definition InvalidArgument : JsError :=
  {| err_code := VUndefined; err_message := "Value for argument is not a valid Firestore document" |}.

Definition NotFound : JsError :=
  {| err_code := VNum 5; err_message := "5 NOT_FOUND" |}.

(** [collection(c).doc(id).get()]: [None] is a snapshot whose [exists] is
    false, [Some data] one whose [data()] is [data]. *)
Definition doc_get (c id : string) : M Firestore (option Obj) :=
  fs_request c (λ db, (Ok (fs_docs c db !! id), db)).

(** [collection(c).doc(id).set(data)]. *)
Definition doc_set (c id : string) (data : Obj) : M Firestore unit :=
  match fs_encode_obj data with
  | None => throw InvalidArgument
  | Some d => fs_request c (λ db, (Ok tt, fs_put_docs c (<[id := d]> (fs_docs c db)) db))
  end.

(** The client refuses an update without fields. *)
Definition NoFieldToUpdate : JsError :=
  {| err_code := VUndefined; err_message := "At least one field must be updated." |}.

(** [docRef.update(data)]: the fields of [data] replace those of the stored
    document; the client refuses an empty [data], and updating a document
    that does not exist is a NOT_FOUND error.  Property names are taken as
    plain field names (none holds a dot). *)
Definition doc_update (c id : string) (data : Obj) : M Firestore unit :=
  if decide (size data = 0%nat) then throw NoFieldToUpdate else
  match fs_encode_obj data with
  | None => throw InvalidArgument
  | Some d =>
      fs_request c (λ db,
        match fs_docs c db !! id with
        | None => (Throw NotFound, db)
        | Some old => (Ok tt, fs_put_docs c (<[id := d ∪ old]> (fs_docs c db)) db)
        end)
  end.

(** [docRef.delete()]. *)
Definition doc_delete (c id : string) : M Firestore unit :=
  fs_request c (λ db, (Ok tt, fs_put_docs c (delete id (fs_docs c db)) db)).

(** ** Ordering of query results *)

(** A stable insertion sort: of two elements that compare equal, the one
    that comes first in the input comes first in the output. *)
Fixpoint insert_by {A} (leb : A → A → bool) (x : A) (l : list A) : list A :=
  match l with
  | [] => [x]
  | y :: l' => if leb x y then x :: y :: l' else y :: insert_by leb x l'
  end.

Definition sort_by {A} (leb : A → A → bool) (l : list A) : list A :=
  foldr (insert_by leb) [] l.

(** The order of both engines on the values of one field: values of
    different types are ordered by type (Firestore: null, boolean, number,
    timestamp, string, array, map; the slots of [undefined] and [Date], which
    are never stored there, are arbitrary), values of one scalar type by
    content, strings byte-wise.  Arrays and maps are compared by type only.
    [nulls_high] places null above every other value, as PostgreSQL does
    (ASC is NULLS LAST, DESC is NULLS FIRST); Firestore places it below. *)
Definition type_rank (nulls_high : bool) (v : Value) : Z :=
  match v with
  | VNull => if nulls_high then 100 else 0
  | VBool _ => 1
  | VNum _ => 2
  | VTimestamp _ => 3
  | VDate _ => 4
  | VStr _ => 5
  | VArr _ => 6
  | VObj _ => 7
  | VUndefined => 8
  end.

Definition same_type_leb (a b : Value) : bool :=
  match a, b with
  | VBool x, VBool y => implb x y
  | VNum x, VNum y => x <=? y
  | VTimestamp x, VTimestamp y => x <=? y
  | VDate (ValidDate x), VDate (ValidDate y) => x <=? y
  | VDate (ValidDate _), VDate InvalidDate => false
  | VStr x, VStr y => String.leb x y
  | _, _ => true
  end.

Definition value_leb (nulls_high : bool) (a b : Value) : bool :=
  (type_rank nulls_high a <? type_rank nulls_high b)
  || ((type_rank nulls_high a =? type_rank nulls_high b) && same_type_leb a b).

(** ** Firestore queries *)

Record Query := {
  q_coll : string;
  q_where : list (string * string);
  q_orderBy : option string;
  q_limit : option Z
}.

(** [db.collection(c)]. *)
Definition collection (c : string) : Query :=
  {| q_coll := c; q_where := []; q_orderBy := None; q_limit := None |}.

(** [.where(field, "==", value)]; every comparison value in the source is a
    string. *)
Definition where_eq (field value : string) (q : Query) : Query :=
  {| q_coll := q_coll q; q_where := q_where q ++ [(field, value)];
     q_orderBy := q_orderBy q; q_limit := q_limit q |}.

(** [.orderBy(field, "desc")]. *)
Definition orderBy_desc (field : string) (q : Query) : Query :=
  {| q_coll := q_coll q; q_where := q_where q;
     q_orderBy := Some field; q_limit := q_limit q |}.

(** [.limit(n)], for an integer [n]. *)
Definition limit (n : Z) (q : Query) : Query :=
  {| q_coll := q_coll q; q_where := q_where q;
     q_orderBy := q_orderBy q; q_limit := Some n |}.

Definition field_is (o : Obj) (field value : string) : bool :=
  match o !! field with
  | Some (VStr s) => bool_decide (s = value)
  | _ => false
  end.

Definition matches (conds : list (string * string)) (o : Obj) : bool :=
  forallb (λ c, field_is o c.1 c.2) conds.

(** The documents of a query, as pairs of [doc.id] and [doc.data()].  Without
    [orderBy] they come in ascending order of document id.  With
    [orderBy(field, "desc")] the documents that have the field come in
    descending order of its value, those with equal values in descending
    order of document id.  The client sends a limit only when it is not 0. *)
Definition run_query (q : Query) (docs : gmap string Obj) : list (string * Obj) :=
  let hits := filter (λ d, matches (q_where q) d.2 = true) (map_to_list docs) in
  let ordered :=
    match q_orderBy q with
    | None => sort_by (λ a b, String.leb a.1 b.1) hits
    | Some field =>
        sort_by (λ a b, value_leb false (prop b.2 field) (prop a.2 field))
          (sort_by (λ a b, String.leb b.1 a.1)
             (filter (λ d, is_Some (d.2 !! field)) hits))
    end in
  match q_limit q with
  | None => ordered
  | Some n => if 0 <? n then take (Z.to_nat n) ordered else ordered
  end.

(** The store answers a query whose limit is negative with the gRPC code 3,
    INVALID_ARGUMENT. *)
Definition InvalidLimit : JsError :=
  {| err_code := VNum 3; err_message := "3 INVALID_ARGUMENT: limit is negative" |}.

Definition q_rejected (q : Query) : bool :=
  match q_limit q with
  | Some n => n <? 0
  | None => false
  end.

(** [query.get()], giving [snapshot.docs]. *)
Definition query_get (q : Query) : M Firestore (list (string * Obj)) :=
  fs_request (q_coll q) (λ db,
    if q_rejected q then (Throw InvalidLimit, db)
    else (Ok (run_query q (fs_docs (q_coll q) db)), db)).

#[global] Instance Outcome_ret : MRet Outcome := λ A a, Ok a.
#[global] Instance Outcome_bind : MBind Outcome := λ A B f o,
  match o with
  | Ok a => f a
  | Throw e => Throw e
  end.

(** [xs.map(f)] with a callback that may throw. *)
Fixpoint Array_map {A B} (f : A → Outcome B) (xs : list A) : Outcome (list B) :=
  match xs with
  | [] => Ok []
  | x :: xs' => y ← f x; ys ← Array_map f xs'; Ok (y :: ys)
  end.

(** A call [this.getX(v)] whose argument is read from a document:
    [collection(c).doc(v)] accepts a string only. *)
Definition with_id {S A} (v : Value) (k : string → M S A) : M S A :=
  match v with
  | VStr s => k s
  | _ => throw InvalidArgument
  end.

(** [updated.data()!] followed by a property read: [data()] of a missing
    document is [undefined]. *)
Definition data_of {S} (snapshot : option Obj) : M S Obj :=
  match snapshot with
  | Some data => mret data
  | None => throw (TypeError "Cannot read properties of undefined")
  end.

(** ** The document backend: [class FirebaseStorage]

    [generateId()] and [new Date()] are the two inputs a method takes from
    its environment; a create method receives them as [id] and [now]. *)
Module FirebaseStorage.
Section methods.
Context {prims : JsPrims}.

Definition getUser (id : string) : M Firestore (option Obj) :=
  catch_not_found None (
    doc ← doc_get "users" id;
    match doc with
    | None => mret None
    | Some data => mret (Some (data ∪ {["id" := VStr id]}))
    end).

Definition getUserByEmail (email : string) : M Firestore (option Obj) :=
  catch_not_found None (
    snapshot ← query_get (limit 1 (where_eq "email" email (collection "users")));
    match snapshot with
    | [] => mret None
    | (doc_id, data) :: _ => mret (Some (data ∪ {["id" := VStr doc_id]}))
    end).

Definition createUser (id : string) (user : Obj) : M Firestore Obj :=
  let userWithDefaults :=
    <["domainVerified" := coalesce (prop user "domainVerified") (VBool false)]>
      (<["primaryColor" := coalesce (prop user "primaryColor") (VStr "#2563eb")]>
         (<["id" := VStr id]> user)) in
  let userData := serializeObj userWithDefaults in
  _ ← doc_set "users" id userData;
  mret userWithDefaults.

Definition updateUser (id : string) (data : Obj) : M Firestore (option Obj) :=
  doc ← doc_get "users" id;
  match doc with
  | None => mret None
  | Some _ =>
      _ ← doc_update "users" id (serializeObj data);
      updated ← doc_get "users" id;
      mret (Some (default ∅ updated ∪ {["id" := VStr id]}))
  end.

Definition getProducts (userId : string) : M Firestore (list Obj) :=
  catch_not_found [] (
    snapshot ← query_get (orderBy_desc "createdAt"
                  (where_eq "userId" userId (collection "products")));
    lift (Array_map (λ doc : string * Obj,
      let data := doc.2 in
      createdAt ← toDate (prop data "createdAt");
      Ok (<["createdAt" := createdAt]> (<["id" := VStr doc.1]> data))) snapshot)).

Definition getProduct (id : string) : M Firestore (option Obj) :=
  catch_not_found None (
    doc ← doc_get "products" id;
    match doc with
    | None => mret None
    | Some data =>
        createdAt ← lift (toDate (prop data "createdAt"));
        mret (Some (<["createdAt" := createdAt]> (<["id" := VStr id]> data)))
    end).

Definition createProduct (id : string) (now : Z) (product : Obj) : M Firestore Obj :=
  let createdAt := VDate (ValidDate now) in
  let productWithDefaults :=
    <["isActive" := coalesce (prop product "isActive") (VBool true)]>
      (<["downloadLimit" := coalesce (prop product "downloadLimit") (VNum 5)]>
         (<["createdAt" := createdAt]> (<["id" := VStr id]> product))) in
  let productData := serializeObj productWithDefaults in
  _ ← doc_set "products" id productData;
  mret productWithDefaults.

Definition updateProduct (id : string) (data : Obj) : M Firestore (option Obj) :=
  doc ← doc_get "products" id;
  match doc with
  | None => mret None
  | Some _ =>
      _ ← doc_update "products" id (serializeObj data);
      updated ← doc_get "products" id;
      updatedData ← data_of updated;
      createdAt ← lift (toDate (prop updatedData "createdAt"));
      mret (Some (<["createdAt" := createdAt]> (<["id" := VStr id]> updatedData)))
  end.

Definition deleteProduct (id : string) : M Firestore bool :=
  doc ← doc_get "products" id;
  match doc with
  | None => mret false
  | Some _ => _ ← doc_delete "products" id; mret true
  end.

(** The part shared by the three checkout-page reads: hydrate the page, then
    [this.getProduct(page.productId)] and [{ ...page, product }]; an absent
    product is the property [product: undefined]. *)
Definition page_with_product (doc_id : string) (data : Obj) : M Firestore Obj :=
  createdAt ← lift (toDate (prop data "createdAt"));
  let page := <["createdAt" := createdAt]> (<["id" := VStr doc_id]> data) in
  product ← with_id (prop page "productId") getProduct;
  mret (<["product" := from_option VObj VUndefined product]> page).

Definition getCheckoutPages (userId : string) : M Firestore (list Obj) :=
  catch_not_found [] (
    snapshot ← query_get (orderBy_desc "createdAt"
                  (where_eq "userId" userId (collection "checkoutPages")));
    pages ← Promise_all_map (λ doc : string * Obj, page_with_product doc.1 doc.2) snapshot;
    mret pages).

Definition getCheckoutPage (id : string) : M Firestore (option Obj) :=
  catch_not_found None (
    doc ← doc_get "checkoutPages" id;
    match doc with
    | None => mret None
    | Some data => page ← page_with_product id data; mret (Some page)
    end).

Definition getCheckoutPageBySlug (slug : string) : M Firestore (option Obj) :=
  catch_not_found None (
    snapshot ← query_get (limit 1 (where_eq "slug" slug (collection "checkoutPages")));
    match snapshot with
    | [] => mret None
    | (doc_id, data) :: _ => page ← page_with_product doc_id data; mret (Some page)
    end).

Definition createCheckoutPage (id : string) (now : Z) (page : Obj) : M Firestore Obj :=
  let createdAt := VDate (ValidDate now) in
  let pageWithDefaults :=
    <["isPublished" := coalesce (prop page "isPublished") (VBool false)]>
      (<["customStyles" := coalesce (prop page "customStyles") (VObj ∅)]>
         (<["blocks" := coalesce (prop page "blocks") (VArr [])]>
            (<["template" := coalesce (prop page "template") (VStr "publisher")]>
               (<["createdAt" := createdAt]> (<["id" := VStr id]> page))))) in
  let pageData := serializeObj pageWithDefaults in
  _ ← doc_set "checkoutPages" id pageData;
  mret pageWithDefaults.

Definition updateCheckoutPage (id : string) (data : Obj) : M Firestore (option Obj) :=
  doc ← doc_get "checkoutPages" id;
  match doc with
  | None => mret None
  | Some _ =>
      _ ← doc_update "checkoutPages" id (serializeObj data);
      updated ← doc_get "checkoutPages" id;
      updatedData ← data_of updated;
      createdAt ← lift (toDate (prop updatedData "createdAt"));
      mret (Some (<["createdAt" := createdAt]> (<["id" := VStr id]> updatedData)))
  end.

Definition deleteCheckoutPage (id : string) : M Firestore bool :=
  doc ← doc_get "checkoutPages" id;
  match doc with
  | None => mret false
  | Some _ => _ ← doc_delete "checkoutPages" id; mret true
  end.

(** The hydration the three coupon reads apply to a document. *)
Definition coupon_of (doc_id : string) (data : Obj) : Outcome Obj :=
  createdAt ← toDate (prop data "createdAt");
  expiresAt ← toDate (prop data "expiresAt");
  Ok (<["expiresAt" := expiresAt]>
        (<["createdAt" := createdAt]> (<["id" := VStr doc_id]> data))).

Definition getCoupons (userId : string) : M Firestore (list Obj) :=
  catch_not_found [] (
    snapshot ← query_get (orderBy_desc "createdAt"
                  (where_eq "userId" userId (collection "coupons")));
    lift (Array_map (λ doc : string * Obj, coupon_of doc.1 doc.2) snapshot)).

Definition getCoupon (id : string) : M Firestore (option Obj) :=
  catch_not_found None (
    doc ← doc_get "coupons" id;
    match doc with
    | None => mret None
    | Some data => coupon ← lift (coupon_of id data); mret (Some coupon)
    end).

Definition getCouponByCode (code userId : string) : M Firestore (option Obj) :=
  catch_not_found None (
    snapshot ← query_get (limit 1 (where_eq "userId" userId
                  (where_eq "code" code (collection "coupons"))));
    match snapshot with
    | [] => mret None
    | (doc_id, data) :: _ => coupon ← lift (coupon_of doc_id data); mret (Some coupon)
    end).

Definition createCoupon (id : string) (now : Z) (coupon : Obj) : M Firestore Obj :=
  let createdAt := VDate (ValidDate now) in
  let couponWithDefaults :=
    <["isActive" := coalesce (prop coupon "isActive") (VBool true)]>
      (<["usedCount" := VNum 0]>
         (<["createdAt" := createdAt]> (<["id" := VStr id]> coupon))) in
  let couponData := serializeObj couponWithDefaults in
  _ ← doc_set "coupons" id couponData;
  mret couponWithDefaults.

Definition updateCoupon (id : string) (data : Obj) : M Firestore (option Obj) :=
  doc ← doc_get "coupons" id;
  match doc with
  | None => mret None
  | Some _ =>
      _ ← doc_update "coupons" id (serializeObj data);
      updated ← doc_get "coupons" id;
      updatedData ← data_of updated;
      createdAt ← lift (toDate (prop updatedData "createdAt"));
      expiresAt ← lift (toDate (prop updatedData "expiresAt"));
      mret (Some (<["expiresAt" := expiresAt]>
                    (<["createdAt" := createdAt]> (<["id" := VStr id]> updatedData))))
  end.

Definition deleteCoupon (id : string) : M Firestore bool :=
  doc ← doc_get "coupons" id;
  match doc with
  | None => mret false
  | Some _ => _ ← doc_delete "coupons" id; mret true
  end.

Definition getCustomers (userId : string) : M Firestore (list Obj) :=
  catch_not_found [] (
    snapshot ← query_get (orderBy_desc "createdAt"
                  (where_eq "userId" userId (collection "customers")));
    lift (Array_map (λ doc : string * Obj,
      let data := doc.2 in
      createdAt ← toDate (prop data "createdAt");
      Ok (<["createdAt" := createdAt]> (<["id" := VStr doc.1]> data))) snapshot)).

Definition getCustomer (id : string) : M Firestore (option Obj) :=
  catch_not_found None (
    doc ← doc_get "customers" id;
    match doc with
    | None => mret None
    | Some data =>
        createdAt ← lift (toDate (prop data "createdAt"));
        mret (Some (<["createdAt" := createdAt]> (<["id" := VStr id]> data)))
    end).

Definition getCustomerByEmail (email userId : string) : M Firestore (option Obj) :=
  catch_not_found None (
    snapshot ← query_get (limit 1 (where_eq "userId" userId
                  (where_eq "email" email (collection "customers"))));
    match snapshot with
    | [] => mret None
    | (doc_id, data) :: _ =>
        createdAt ← lift (toDate (prop data "createdAt"));
        mret (Some (<["createdAt" := createdAt]> (<["id" := VStr doc_id]> data)))
    end).

(** The stored document is [{ ...customer, id, createdAt }], the returned
    object [{ id, ...customer, createdAt }]. *)
Definition createCustomer (id : string) (now : Z) (customer : Obj) : M Firestore Obj :=
  let createdAt := VDate (ValidDate now) in
  let customerData :=
    serializeObj (<["createdAt" := createdAt]> (<["id" := VStr id]> customer)) in
  _ ← doc_set "customers" id customerData;
  mret (<["createdAt" := createdAt]> (customer ∪ {["id" := VStr id]})).

Definition updateCustomer (id : string) (data : Obj) : M Firestore (option Obj) :=
  doc ← doc_get "customers" id;
  match doc with
  | None => mret None
  | Some _ =>
      _ ← doc_update "customers" id (serializeObj data);
      updated ← doc_get "customers" id;
      updatedData ← data_of updated;
      createdAt ← lift (toDate (prop updatedData "createdAt"));
      mret (Some (<["createdAt" := createdAt]> (<["id" := VStr id]> updatedData)))
  end.

(** The [try] block returns [Promise.all(...)] without awaiting it: the
    handler covers the query, and an error of a callback goes to the
    caller.  [None] is the handler's answer. *)
Definition getOrders (userId : string) : M Firestore (list Obj) :=
  pending ← catch_not_found None (
    snapshot ← query_get (orderBy_desc "createdAt"
                  (where_eq "userId" userId (collection "orders")));
    mret (Some snapshot));
  match pending with
  | None => mret []
  | Some snapshot =>
      Promise_all_map (λ doc : string * Obj,
        let data := doc.2 in
        createdAt ← lift (toDate (prop data "createdAt"));
        let order := <["createdAt" := createdAt]> (<["id" := VStr doc.1]> data) in
        customer ← with_id (prop order "customerId") getCustomer;
        itemsSnapshot ← query_get (where_eq "orderId" doc.1 (collection "orderItems"));
        let items := map (λ itemDoc : string * Obj,
                            VObj (<["id" := VStr itemDoc.1]> itemDoc.2)) itemsSnapshot in
        mret (<["items" := VArr items]>
                (<["customer" := from_option VObj VUndefined customer]> order))) snapshot
  end.

Definition getOrderItems (orderId : string) : M Firestore (list Obj) :=
  snapshot ← query_get (where_eq "orderId" orderId (collection "orderItems"));
  Promise_all_map (λ doc : string * Obj,
    let data := doc.2 in
    tokenExpiresAt ← lift (toDate (prop data "tokenExpiresAt"));
    let item := <["tokenExpiresAt" := tokenExpiresAt]> (<["id" := VStr doc.1]> data) in
    product ← with_id (prop item "productId") getProduct;
    mret (<["product" := from_option VObj VUndefined product]> item)) snapshot.

Definition getOrder (id : string) : M Firestore (option Obj) :=
  doc ← doc_get "orders" id;
  match doc with
  | None => mret None
  | Some data =>
      createdAt ← lift (toDate (prop data "createdAt"));
      let order := <["createdAt" := createdAt]> (<["id" := VStr id]> data) in
      customer ← with_id (prop order "customerId") getCustomer;
      items ← getOrderItems id;
      mret (Some (<["items" := VArr (VObj <$> items)]>
                    (<["customer" := from_option VObj VUndefined customer]> order)))
  end.

Definition createOrder (id : string) (now : Z) (order : Obj) : M Firestore Obj :=
  let createdAt := VDate (ValidDate now) in
  let orderWithDefaults :=
    <["discount" := coalesce (prop order "discount") (VStr "0")]>
      (<["status" := coalesce (prop order "status") (VStr "pending")]>
         (<["createdAt" := createdAt]> (<["id" := VStr id]> order))) in
  let orderData := serializeObj orderWithDefaults in
  _ ← doc_set "orders" id orderData;
  mret orderWithDefaults.

Definition updateOrder (id : string) (data : Obj) : M Firestore (option Obj) :=
  doc ← doc_get "orders" id;
  match doc with
  | None => mret None
  | Some _ =>
      _ ← doc_update "orders" id (serializeObj data);
      updated ← doc_get "orders" id;
      updatedData ← data_of updated;
      createdAt ← lift (toDate (prop updatedData "createdAt"));
      mret (Some (<["createdAt" := createdAt]> (<["id" := VStr id]> updatedData)))
  end.

Definition createOrderItem (id : string) (item : Obj) : M Firestore Obj :=
  let itemWithDefaults :=
    <["downloadCount" := coalesce (prop item "downloadCount") (VNum 0)]>
      (<["itemType" := coalesce (prop item "itemType") (VStr "main")]>
         (<["id" := VStr id]> item)) in
  let itemData := serializeObj itemWithDefaults in
  _ ← doc_set "orderItems" id itemData;
  mret itemWithDefaults.

Definition getEmailTemplates (userId : string) : M Firestore (list Obj) :=
  catch_not_found [] (
    snapshot ← query_get (where_eq "userId" userId (collection "emailTemplates"));
    mret (map (λ doc : string * Obj, <["id" := VStr doc.1]> doc.2) snapshot)).

Definition getEmailTemplate (id : string) : M Firestore (option Obj) :=
  doc ← doc_get "emailTemplates" id;
  match doc with
  | None => mret None
  | Some data => mret (Some (data ∪ {["id" := VStr id]}))
  end.

Definition createEmailTemplate (id : string) (template : Obj) : M Firestore Obj :=
  let templateWithDefaults :=
    <["isActive" := coalesce (prop template "isActive") (VBool true)]>
      (<["id" := VStr id]> template) in
  let templateData := serializeObj templateWithDefaults in
  _ ← doc_set "emailTemplates" id templateData;
  mret templateWithDefaults.

Definition updateEmailTemplate (id : string) (data : Obj) : M Firestore (option Obj) :=
  doc ← doc_get "emailTemplates" id;
  match doc with
  | None => mret None
  | Some _ =>
      _ ← doc_update "emailTemplates" id (serializeObj data);
      updated ← doc_get "emailTemplates" id;
      mret (Some (default ∅ updated ∪ {["id" := VStr id]}))
  end.

Definition deleteEmailTemplate (id : string) : M Firestore bool :=
  doc ← doc_get "emailTemplates" id;
  match doc with
  | None => mret false
  | Some _ => _ ← doc_delete "emailTemplates" id; mret true
  end.

Definition createPixelEvent (id : string) (now : Z) (event : Obj) : M Firestore Obj :=
  let createdAt := VDate (ValidDate now) in
  let eventWithDefaults :=
    <["sentToServer" := coalesce (prop event "sentToServer") (VBool false)]>
      (<["actionSource" := coalesce (prop event "actionSource") (VStr "website")]>
         (<["createdAt" := createdAt]> (<["id" := VStr id]> event))) in
  let eventData := serializeObj eventWithDefaults in
  _ ← doc_set "pixelEvents" id eventData;
  mret eventWithDefaults.

(** [limit = 100]: [None] is a call without the second argument. *)
Definition getPixelEvents (userId : string) (limit_arg : option Z) : M Firestore (list Obj) :=
  let limit_ := default 100 limit_arg in
  catch_not_found [] (
    snapshot ← query_get (limit limit_ (orderBy_desc "createdAt"
                  (where_eq "userId" userId (collection "pixelEvents"))));
    lift (Array_map (λ doc : string * Obj,
      let data := doc.2 in
      createdAt ← toDate (prop data "createdAt");
      eventTime ← toDate (prop data "eventTime");
      Ok (<["eventTime" := eventTime]>
            (<["createdAt" := createdAt]> (<["id" := VStr doc.1]> data)))) snapshot)).

Definition createAbandonedCart (id : string) (now : Z) (cart : Obj) : M Firestore Obj :=
  let createdAt := VDate (ValidDate now) in
  let cartWithDefaults :=
    <["recoveryEmailSent" := coalesce (prop cart "recoveryEmailSent") (VBool false)]>
      (<["createdAt" := createdAt]> (<["id" := VStr id]> cart)) in
  let cartData := serializeObj cartWithDefaults in
  _ ← doc_set "abandonedCarts" id cartData;
  mret cartWithDefaults.

Definition getAbandonedCarts (userId : string) : M Firestore (list Obj) :=
  catch_not_found [] (
    snapshot ← query_get (orderBy_desc "createdAt"
                  (where_eq "userId" userId (collection "abandonedCarts")));
    lift (Array_map (λ doc : string * Obj,
      let data := doc.2 in
      createdAt ← toDate (prop data "createdAt");
      recoveredAt ← toDate (prop data "recoveredAt");
      Ok (<["recoveredAt" := recoveredAt]>
            (<["createdAt" := createdAt]> (<["id" := VStr doc.1]> data)))) snapshot)).

Definition updateAbandonedCart (id : string) (data : Obj) : M Firestore (option Obj) :=
  doc ← doc_get "abandonedCarts" id;
  match doc with
  | None => mret None
  | Some _ =>
      _ ← doc_update "abandonedCarts" id (serializeObj data);
      updated ← doc_get "abandonedCarts" id;
      updatedData ← data_of updated;
      createdAt ← lift (toDate (prop updatedData "createdAt"));
      recoveredAt ← lift (toDate (prop updatedData "recoveredAt"));
      mret (Some (<["recoveredAt" := recoveredAt]>
                    (<["createdAt" := createdAt]> (<["id" := VStr id]> updatedData))))
  end.

End methods.
End FirebaseStorage.

(** ** The schema: [shared/schema.ts]

    A column is declared the way drizzle's builders declare it; columns are
    named by their JS property, tables by their exported name.  Every
    [references] of the schema targets the [id] column of the named table. *)

Inductive ColType := uuid | text | integer | boolean | timestamp | decimal | jsonb.

Inductive ColDefault :=
| NoDefault
| DefaultRandomUuid            (* .default(sql`gen_random_uuid()`) *)
| DefaultNow                   (* .defaultNow() *)
| DefaultValue (v : Value).    (* .default(v) *)

Record Column := {
  col_name : string;
  col_type : ColType;
  col_primaryKey : bool;
  col_notNull : bool;
  col_unique : bool;
  col_default : ColDefault;
  col_references : option string
}.

Definition col (ty : ColType) (name : string) : Column :=
  {| col_name := name; col_type := ty; col_primaryKey := false; col_notNull := false;
     col_unique := false; col_default := NoDefault; col_references := None |}.
Definition primaryKey (c : Column) : Column :=
  {| col_name := col_name c; col_type := col_type c; col_primaryKey := true;
     col_notNull := col_notNull c; col_unique := col_unique c;
     col_default := col_default c; col_references := col_references c |}.
Definition notNull (c : Column) : Column :=
  {| col_name := col_name c; col_type := col_type c; col_primaryKey := col_primaryKey c;
     col_notNull := true; col_unique := col_unique c;
     col_default := col_default c; col_references := col_references c |}.
Definition unique (c : Column) : Column :=
  {| col_name := col_name c; col_type := col_type c; col_primaryKey := col_primaryKey c;
     col_notNull := col_notNull c; col_unique := true;
     col_default := col_default c; col_references := col_references c |}.
Definition withDefault (d : ColDefault) (c : Column) : Column :=
  {| col_name := col_name c; col_type := col_type c; col_primaryKey := col_primaryKey c;
     col_notNull := col_notNull c; col_unique := col_unique c;
     col_default := d; col_references := col_references c |}.
Definition references (t : string) (c : Column) : Column :=
  {| col_name := col_name c; col_type := col_type c; col_primaryKey := col_primaryKey c;
     col_notNull := col_notNull c; col_unique := col_unique c;
     col_default := col_default c; col_references := Some t |}.

Record Table := pgTable { tbl_name : string; tbl_columns : list Column }.

(** [uuid("id").primaryKey().default(sql`gen_random_uuid()`)]. *)
Definition id_column : Column := withDefault DefaultRandomUuid (primaryKey (col uuid "id")).
(** [uuid("user_id").notNull().references(() => users.id)]. *)
Definition userId_column : Column := references "users" (notNull (col uuid "userId")).
(** [timestamp("created_at").defaultNow()]. *)
Definition createdAt_column : Column := withDefault DefaultNow (col timestamp "createdAt").

Definition users : Table := pgTable "users" [
  id_column;
  unique (notNull (col text "email"));
  notNull (col text "password");
  col text "businessName";
  col text "logoUrl";
  withDefault (DefaultValue (VStr "#2563eb")) (col text "primaryColor");
  col text "facebookPixelId";
  col text "facebookAccessToken";
  col text "uddoktapayApiKey";
  col text "uddoktapayApiUrl";
  col text "sendgridApiKey";
  col text "fromEmail";
  col text "customDomain";
  withDefault (DefaultValue (VBool false)) (col boolean "domainVerified") ].

Definition products : Table := pgTable "products" [
  id_column;
  userId_column;
  notNull (col text "name");
  col text "description";
  notNull (col decimal "price");
  col decimal "compareAtPrice";
  col text "imageUrl";
  col text "fileUrl";
  col text "fileName";
  col integer "fileSize";
  withDefault (DefaultValue (VNum 5)) (col integer "downloadLimit");
  withDefault (DefaultValue (VBool true)) (col boolean "isActive");
  createdAt_column ].

Definition checkoutPages : Table := pgTable "checkoutPages" [
  id_column;
  userId_column;
  references "products" (notNull (col uuid "productId"));
  notNull (col text "name");
  notNull (col text "slug");
  withDefault (DefaultValue (VStr "publisher")) (col text "template");
  withDefault (DefaultValue (VArr [])) (col jsonb "blocks");
  withDefault (DefaultValue (VObj ∅)) (col jsonb "customStyles");
  withDefault (DefaultValue (VBool false)) (col boolean "isPublished");
  createdAt_column ].

Definition orderBumps : Table := pgTable "orderBumps" [
  id_column;
  references "checkoutPages" (notNull (col uuid "checkoutPageId"));
  references "products" (notNull (col uuid "productId"));
  notNull (col text "headline");
  col text "description";
  withDefault (DefaultValue (VStr "fixed")) (col text "discountType");
  withDefault (DefaultValue (VStr "0")) (col decimal "discountValue");
  withDefault (DefaultValue (VNum 0)) (col integer "position");
  withDefault (DefaultValue (VBool true)) (col boolean "isActive") ].

Definition upsells : Table := pgTable "upsells" [
  id_column;
  references "checkoutPages" (notNull (col uuid "checkoutPageId"));
  references "products" (notNull (col uuid "productId"));
  notNull (col text "headline");
  col text "description";
  withDefault (DefaultValue (VStr "fixed")) (col text "discountType");
  withDefault (DefaultValue (VStr "0")) (col decimal "discountValue");
  withDefault (DefaultValue (VNum 0)) (col integer "position");
  withDefault (DefaultValue (VBool true)) (col boolean "isActive") ].

Definition coupons : Table := pgTable "coupons" [
  id_column;
  userId_column;
  notNull (col text "code");
  notNull (col text "discountType");
  notNull (col decimal "discountValue");
  col integer "usageLimit";
  withDefault (DefaultValue (VNum 0)) (col integer "usedCount");
  col timestamp "expiresAt";
  withDefault (DefaultValue (VBool true)) (col boolean "isActive");
  createdAt_column ].

Definition customers : Table := pgTable "customers" [
  id_column;
  userId_column;
  notNull (col text "email");
  col text "firstName";
  col text "lastName";
  col text "phone";
  col text "country";
  createdAt_column ].

Definition orders : Table := pgTable "orders" [
  id_column;
  userId_column;
  references "customers" (notNull (col uuid "customerId"));
  references "checkoutPages" (col uuid "checkoutPageId");
  withDefault (DefaultValue (VStr "pending")) (col text "status");
  notNull (col decimal "subtotal");
  withDefault (DefaultValue (VStr "0")) (col decimal "discount");
  notNull (col decimal "total");
  references "coupons" (col uuid "couponId");
  col text "paymentMethod";
  col text "transactionId";
  col text "invoiceId";
  col text "eventId";
  col text "ipAddress";
  col text "userAgent";
  createdAt_column ].

Definition orderItems : Table := pgTable "orderItems" [
  id_column;
  references "orders" (notNull (col uuid "orderId"));
  references "products" (notNull (col uuid "productId"));
  withDefault (DefaultValue (VStr "main")) (col text "itemType");
  notNull (col decimal "price");
  withDefault (DefaultValue (VNum 0)) (col integer "downloadCount");
  col text "downloadToken";
  col timestamp "tokenExpiresAt" ].

Definition abandonedCarts : Table := pgTable "abandonedCarts" [
  id_column;
  userId_column;
  references "checkoutPages" (notNull (col uuid "checkoutPageId"));
  col text "email";
  col jsonb "cartData";
  col text "ipAddress";
  col text "userAgent";
  withDefault (DefaultValue (VBool false)) (col boolean "recoveryEmailSent");
  col timestamp "recoveredAt";
  createdAt_column ].

Definition emailTemplates : Table := pgTable "emailTemplates" [
  id_column;
  userId_column;
  notNull (col text "type");
  notNull (col text "subject");
  notNull (col text "body");
  withDefault (DefaultValue (VBool true)) (col boolean "isActive") ].

Definition pixelEvents : Table := pgTable "pixelEvents" [
  id_column;
  userId_column;
  notNull (col text "eventName");
  notNull (col text "eventId");
  notNull (col timestamp "eventTime");
  col jsonb "userData";
  col jsonb "customData";
  withDefault (DefaultValue (VStr "website")) (col text "actionSource");
  withDefault (DefaultValue (VBool false)) (col boolean "sentToServer");
  createdAt_column ].

Definition schema : list Table :=
  [users; products; checkoutPages; orderBumps; upsells; coupons; customers;
   orders; orderItems; abandonedCarts; emailTemplates; pixelEvents].

(** ** A model of PostgreSQL behind drizzle

    The engine is outside the repository; this is the behaviour the backend
    relies on.  A table is the list of its rows in insertion order, a row an
    object with one property per column.  Identifiers are compared as text;
    column types are not checked.  The constraints the schema declares are
    checked on every write, and a violation raises the error of that
    constraint and leaves the database as it was. *)

Abbreviation Database := (gmap string (list Obj)).

Definition db_rows (name : string) (db : Database) : list Obj := default [] (db !! name).

Definition PgError (code msg : string) : JsError :=
  {| err_code := VStr code; err_message := msg |}.
Definition not_null_violation : JsError := PgError "23502" "null value violates not-null constraint".
Definition foreign_key_violation : JsError := PgError "23503" "violates foreign key constraint".
Definition unique_violation : JsError := PgError "23505" "duplicate key value violates unique constraint".

Definition is_null (v : Value) : bool :=
  match v with
  | VNull => true
  | _ => false
  end.

Definition is_undefined (v : Value) : bool :=
  match v with
  | VUndefined => true
  | _ => false
  end.

(** [eq(column, value)]: the source compares uuid and text columns only;
    nothing is equal to null. *)
Definition sql_eq (a b : Value) : bool :=
  match a, b with
  | VStr x, VStr y => bool_decide (x = y)
  | _, _ => false
  end.

Definition satisfies (conds : list (string * Value)) (r : Obj) : bool :=
  forallb (λ c, sql_eq (prop r c.1) c.2) conds.

Record Select := {
  s_from : Table;
  s_where : list (string * Value);
  s_orderBy : option string;
  s_limit : option Z
}.

(** [db.select().from(t)]. *)
Definition select_from (t : Table) : Select :=
  {| s_from := t; s_where := []; s_orderBy := None; s_limit := None |}.
(** [.where(and(eq(c1, v1), ...))]. *)
Definition where_ (conds : list (string * Value)) (q : Select) : Select :=
  {| s_from := s_from q; s_where := conds; s_orderBy := s_orderBy q; s_limit := s_limit q |}.
(** [.orderBy(desc(t.c))]. *)
Definition orderBy_desc_col (c : string) (q : Select) : Select :=
  {| s_from := s_from q; s_where := s_where q; s_orderBy := Some c; s_limit := s_limit q |}.
(** [.limit(n)], for an integer [n]. *)
Definition limit_rows (n : Z) (q : Select) : Select :=
  {| s_from := s_from q; s_where := s_where q; s_orderBy := s_orderBy q; s_limit := Some n |}.

(** Rows that tie under [ORDER BY], and rows of a query without it, come in
    insertion order.  The query builder writes a LIMIT clause only for a
    limit that is not negative. *)
Definition run_select (q : Select) (db : Database) : list Obj :=
  let hits := filter (λ r, satisfies (s_where q) r = true) (db_rows (tbl_name (s_from q)) db) in
  let ordered :=
    match s_orderBy q with
    | None => hits
    | Some c => sort_by (λ a b, value_leb true (prop b c) (prop a c)) hits
    end in
  match s_limit q with
  | None => ordered
  | Some n => if 0 <=? n then take (Z.to_nat n) ordered else ordered
  end.

(** [await query]. *)
Definition select (q : Select) : M Database (list Obj) := λ db, (Ok (run_select q db), db).

Definition default_value (id : string) (now : Z) (d : ColDefault) : Value :=
  match d with
  | NoDefault => VNull
  | DefaultRandomUuid => VStr id
  | DefaultNow => VDate (ValidDate now)
  | DefaultValue v => v
  end.

(** The row an INSERT builds: a column takes the supplied value, or its
    default when the value is [undefined]; other properties are ignored. *)
Definition new_row (t : Table) (id : string) (now : Z) (values : Obj) : Obj :=
  list_to_map (map (λ c, (col_name c,
    match prop values (col_name c) with
    | VUndefined => default_value id now (col_default c)
    | v => v
    end)) (tbl_columns t)).

Definition not_null_ok (t : Table) (r : Obj) : bool :=
  forallb (λ c, negb ((col_notNull c || col_primaryKey c) && is_null (prop r (col_name c))))
          (tbl_columns t).

Definition unique_ok (t : Table) (others : list Obj) (r : Obj) : bool :=
  forallb (λ c, negb ((col_unique c || col_primaryKey c)
                      && existsb (λ r', sql_eq (prop r' (col_name c)) (prop r (col_name c))) others))
          (tbl_columns t).

Definition fk_ok (db : Database) (t : Table) (r : Obj) : bool :=
  forallb (λ c, match col_references c with
                | None => true
                | Some t' =>
                    is_null (prop r (col_name c))
                    || existsb (λ r', sql_eq (prop r' "id") (prop r (col_name c))) (db_rows t' db)
                end)
          (tbl_columns t).

(** Some row of some table references the row of [t] whose id is [idv]. *)
Definition referenced (db : Database) (t : Table) (idv : Value) : bool :=
  existsb (λ t',
    existsb (λ c, match col_references c with
                  | Some n =>
                      bool_decide (n = tbl_name t)
                      && existsb (λ r, sql_eq (prop r (col_name c)) idv) (db_rows (tbl_name t') db)
                  | None => false
                  end)
            (tbl_columns t'))
    schema.

(** [db.insert(t).values(values).returning()]. *)
Definition db_insert (t : Table) (id : string) (now : Z) (values : Obj) : M Database (list Obj) :=
  λ db,
    let r := new_row t id now values in
    if negb (not_null_ok t r) then (Throw not_null_violation, db)
    else if negb (unique_ok t (db_rows (tbl_name t) db) r) then (Throw unique_violation, db)
    else if negb (fk_ok db t r) then (Throw foreign_key_violation, db)
    else (Ok [r], <[tbl_name t := db_rows (tbl_name t) db ++ [r]]> db).

(** SET: the columns of [t] that [data] defines. *)
Definition set_columns (t : Table) (data : Obj) (r : Obj) : Obj :=
  foldr (λ c acc, match prop data (col_name c) with
                  | VUndefined => acc
                  | v => <[col_name c := v]> acc
                  end) r (tbl_columns t).

Fixpoint distinct_on (c : string) (l : list Obj) : bool :=
  match l with
  | [] => true
  | r :: l' => negb (existsb (λ r', sql_eq (prop r' c) (prop r c)) l') && distinct_on c l'
  end.

Definition unique_after (t : Table) (l : list Obj) : bool :=
  forallb (λ c, negb (col_unique c || col_primaryKey c) || distinct_on (col_name c) l)
          (tbl_columns t).

(** [set(data)] of the query builder throws when [data] defines no value. *)
Definition no_values_to_set : JsError :=
  {| err_code := VUndefined; err_message := "No values to set" |}.

(** An UPDATE whose SET list is empty is a syntax error. *)
Definition syntax_error : JsError := PgError "42601" "syntax error at or near WHERE".

(** [data] defines a value. *)
Definition defines_value (data : Obj) : bool :=
  existsb (λ kv : string * Value, negb (is_undefined kv.2)) (map_to_list data).

(** [data] defines a value for a column of [t]. *)
Definition sets_column (t : Table) (data : Obj) : bool :=
  existsb (λ c, negb (is_undefined (prop data (col_name c)))) (tbl_columns t).

(** [db.update(t).set(data).where(conds).returning()]: the SET list holds
    the columns of [t] that [data] defines. *)
Definition db_update (t : Table) (data : Obj) (conds : list (string * Value))
    : M Database (list Obj) :=
  λ db,
    let old := db_rows (tbl_name t) db in
    let new := map (λ r, if satisfies conds r then set_columns t data r else r) old in
    let hit := filter (λ r, satisfies conds r = true) old in
    let updated := map (set_columns t data) hit in
    if negb (defines_value data) then (Throw no_values_to_set, db)
    else if negb (sets_column t data) then (Throw syntax_error, db)
    else if bool_decide (hit = []) then (Ok [], db)
    else if negb (forallb (not_null_ok t) updated) then (Throw not_null_violation, db)
    else if negb (unique_after t new) then (Throw unique_violation, db)
    else if negb (forallb (fk_ok db t) updated) then (Throw foreign_key_violation, db)
    else if existsb (λ r, negb (sql_eq (prop r "id") (prop (set_columns t data r) "id"))
                          && referenced db t (prop r "id")) hit
         then (Throw foreign_key_violation, db)
    else (Ok updated, <[tbl_name t := new]> db).

(** [db.delete(t).where(conds).returning()]. *)
Definition db_delete (t : Table) (conds : list (string * Value)) : M Database (list Obj) :=
  λ db,
    let old := db_rows (tbl_name t) db in
    let deleted := filter (λ r, satisfies conds r = true) old in
    if existsb (λ r, referenced db t (prop r "id")) deleted
    then (Throw foreign_key_violation, db)
    else (Ok deleted, <[tbl_name t := filter (λ r, satisfies conds r ≠ true) old]> db).

(** ** The relational backend: [class DatabaseStorage]

    [id] and [now] are what [gen_random_uuid()] and [now()] give when the
    insert runs. *)
Module DatabaseStorage.

Definition getUser (id : string) : M Database (option Obj) :=
  rows ← select (where_ [("id", VStr id)] (select_from users));
  mret (head rows).

Definition getUserByEmail (email : string) : M Database (option Obj) :=
  rows ← select (where_ [("email", VStr email)] (select_from users));
  mret (head rows).

Definition createUser (id : string) (user : Obj) : M Database Obj :=
  rows ← db_insert users id 0 user;
  mret (default ∅ (head rows)).

Definition updateUser (id : string) (data : Obj) : M Database (option Obj) :=
  rows ← db_update users data [("id", VStr id)];
  mret (head rows).

Definition getProducts (userId : string) : M Database (list Obj) :=
  select (orderBy_desc_col "createdAt" (where_ [("userId", VStr userId)] (select_from products))).

Definition getProduct (id : string) : M Database (option Obj) :=
  rows ← select (where_ [("id", VStr id)] (select_from products));
  mret (head rows).

Definition createProduct (id : string) (now : Z) (product : Obj) : M Database Obj :=
  rows ← db_insert products id now product;
  mret (default ∅ (head rows)).

Definition updateProduct (id : string) (data : Obj) : M Database (option Obj) :=
  rows ← db_update products data [("id", VStr id)];
  mret (head rows).

Definition deleteProduct (id : string) : M Database bool :=
  result ← db_delete products [("id", VStr id)];
  mret (bool_decide (0 < length result)%nat).

(** [const [product] = await db.select()...; return { ...page, product }]. *)
Definition with_product (page : Obj) : M Database Obj :=
  rows ← select (where_ [("id", prop page "productId")] (select_from products));
  mret (<["product" := from_option VObj VUndefined (head rows)]> page).

Definition getCheckoutPages (userId : string) : M Database (list Obj) :=
  pages ← select (orderBy_desc_col "createdAt"
             (where_ [("userId", VStr userId)] (select_from checkoutPages)));
  pagesWithProducts ← Promise_all_map with_product pages;
  mret pagesWithProducts.

Definition getCheckoutPage (id : string) : M Database (option Obj) :=
  rows ← select (where_ [("id", VStr id)] (select_from checkoutPages));
  match head rows with
  | None => mret None
  | Some page => p ← with_product page; mret (Some p)
  end.

Definition getCheckoutPageBySlug (slug : string) : M Database (option Obj) :=
  rows ← select (where_ [("slug", VStr slug)] (select_from checkoutPages));
  match head rows with
  | None => mret None
  | Some page => p ← with_product page; mret (Some p)
  end.

Definition createCheckoutPage (id : string) (now : Z) (page : Obj) : M Database Obj :=
  rows ← db_insert checkoutPages id now page;
  mret (default ∅ (head rows)).

Definition updateCheckoutPage (id : string) (data : Obj) : M Database (option Obj) :=
  rows ← db_update checkoutPages data [("id", VStr id)];
  mret (head rows).

Definition deleteCheckoutPage (id : string) : M Database bool :=
  result ← db_delete checkoutPages [("id", VStr id)];
  mret (bool_decide (0 < length result)%nat).

Definition getCoupons (userId : string) : M Database (list Obj) :=
  select (orderBy_desc_col "createdAt" (where_ [("userId", VStr userId)] (select_from coupons))).

Definition getCoupon (id : string) : M Database (option Obj) :=
  rows ← select (where_ [("id", VStr id)] (select_from coupons));
  mret (head rows).

Definition getCouponByCode (code userId : string) : M Database (option Obj) :=
  rows ← select (where_ [("code", VStr code); ("userId", VStr userId)] (select_from coupons));
  mret (head rows).

Definition createCoupon (id : string) (now : Z) (coupon : Obj) : M Database Obj :=
  rows ← db_insert coupons id now coupon;
  mret (default ∅ (head rows)).

Definition updateCoupon (id : string) (data : Obj) : M Database (option Obj) :=
  rows ← db_update coupons data [("id", VStr id)];
  mret (head rows).

Definition deleteCoupon (id : string) : M Database bool :=
  result ← db_delete coupons [("id", VStr id)];
  mret (bool_decide (0 < length result)%nat).

Definition getCustomers (userId : string) : M Database (list Obj) :=
  select (orderBy_desc_col "createdAt" (where_ [("userId", VStr userId)] (select_from customers))).

Definition getCustomer (id : string) : M Database (option Obj) :=
  rows ← select (where_ [("id", VStr id)] (select_from customers));
  mret (head rows).

Definition getCustomerByEmail (email userId : string) : M Database (option Obj) :=
  rows ← select (where_ [("email", VStr email); ("userId", VStr userId)] (select_from customers));
  mret (head rows).

Definition createCustomer (id : string) (now : Z) (customer : Obj) : M Database Obj :=
  rows ← db_insert customers id now customer;
  mret (default ∅ (head rows)).

Definition updateCustomer (id : string) (data : Obj) : M Database (option Obj) :=
  rows ← db_update customers data [("id", VStr id)];
  mret (head rows).

Definition getOrders (userId : string) : M Database (list Obj) :=
  allOrders ← select (orderBy_desc_col "createdAt"
                 (where_ [("userId", VStr userId)] (select_from orders)));
  ordersWithDetails ← Promise_all_map (λ order : Obj,
    customer ← select (where_ [("id", prop order "customerId")] (select_from customers));
    items ← select (where_ [("orderId", prop order "id")] (select_from orderItems));
    mret (<["items" := VArr (VObj <$> items)]>
            (<["customer" := from_option VObj VUndefined (head customer)]> order))) allOrders;
  mret ordersWithDetails.

Definition getOrder (id : string) : M Database (option Obj) :=
  rows ← select (where_ [("id", VStr id)] (select_from orders));
  match head rows with
  | None => mret None
  | Some order =>
      customer ← select (where_ [("id", prop order "customerId")] (select_from customers));
      items ← select (where_ [("orderId", prop order "id")] (select_from orderItems));
      itemsWithProducts ← Promise_all_map with_product items;
      mret (Some (<["items" := VArr (VObj <$> itemsWithProducts)]>
                    (<["customer" := from_option VObj VUndefined (head customer)]> order)))
  end.

Definition createOrder (id : string) (now : Z) (order : Obj) : M Database Obj :=
  rows ← db_insert orders id now order;
  mret (default ∅ (head rows)).

Definition updateOrder (id : string) (data : Obj) : M Database (option Obj) :=
  rows ← db_update orders data [("id", VStr id)];
  mret (head rows).

Definition createOrderItem (id : string) (item : Obj) : M Database Obj :=
  rows ← db_insert orderItems id 0 item;
  mret (default ∅ (head rows)).

Definition getOrderItems (orderId : string) : M Database (list Obj) :=
  items ← select (where_ [("orderId", VStr orderId)] (select_from orderItems));
  itemsWithProducts ← Promise_all_map with_product items;
  mret itemsWithProducts.

Definition getEmailTemplates (userId : string) : M Database (list Obj) :=
  select (where_ [("userId", VStr userId)] (select_from emailTemplates)).

Definition getEmailTemplate (id : string) : M Database (option Obj) :=
  rows ← select (where_ [("id", VStr id)] (select_from emailTemplates));
  mret (head rows).

Definition createEmailTemplate (id : string) (template : Obj) : M Database Obj :=
  rows ← db_insert emailTemplates id 0 template;
  mret (default ∅ (head rows)).

Definition updateEmailTemplate (id : string) (data : Obj) : M Database (option Obj) :=
  rows ← db_update emailTemplates data [("id", VStr id)];
  mret (head rows).

Definition deleteEmailTemplate (id : string) : M Database bool :=
  result ← db_delete emailTemplates [("id", VStr id)];
  mret (bool_decide (0 < length result)%nat).

Definition createPixelEvent (id : string) (now : Z) (event : Obj) : M Database Obj :=
  rows ← db_insert pixelEvents id now event;
  mret (default ∅ (head rows)).

(** [limit = 100]: [None] is a call without the second argument. *)
Definition getPixelEvents (userId : string) (limit_arg : option Z) : M Database (list Obj) :=
  let limit_ := default 100 limit_arg in
  select (limit_rows limit_ (orderBy_desc_col "createdAt"
            (where_ [("userId", VStr userId)] (select_from pixelEvents)))).

Definition createAbandonedCart (id : string) (now : Z) (cart : Obj) : M Database Obj :=
  rows ← db_insert abandonedCarts id now cart;
  mret (default ∅ (head rows)).

Definition getAbandonedCarts (userId : string) : M Database (list Obj) :=
  select (orderBy_desc_col "createdAt"
            (where_ [("userId", VStr userId)] (select_from abandonedCarts))).

Definition updateAbandonedCart (id : string) (data : Obj) : M Database (option Obj) :=
  rows ← db_update abandonedCarts data [("id", VStr id)];
  mret (head rows).

End DatabaseStorage.

(** ** The storage contract: [interface IStorage] *)

Class IStorage (S : Type) := {
  getUser : string → M S (option Obj);
  getUserByEmail : string → M S (option Obj);
  createUser : string → Obj → M S Obj;
  updateUser : string → Obj → M S (option Obj);

  getProducts : string → M S (list Obj);
  getProduct : string → M S (option Obj);
  createProduct : string → Z → Obj → M S Obj;
  updateProduct : string → Obj → M S (option Obj);
  deleteProduct : string → M S bool;

  getCheckoutPages : string → M S (list Obj);
  getCheckoutPage : string → M S (option Obj);
  getCheckoutPageBySlug : string → M S (option Obj);
  createCheckoutPage : string → Z → Obj → M S Obj;
  updateCheckoutPage : string → Obj → M S (option Obj);
  deleteCheckoutPage : string → M S bool;

  getCoupons : string → M S (list Obj);
  getCoupon : string → M S (option Obj);
  getCouponByCode : string → string → M S (option Obj);
  createCoupon : string → Z → Obj → M S Obj;
  updateCoupon : string → Obj → M S (option Obj);
  deleteCoupon : string → M S bool;

  getCustomers : string → M S (list Obj);
  getCustomer : string → M S (option Obj);
  getCustomerByEmail : string → string → M S (option Obj);
  createCustomer : string → Z → Obj → M S Obj;
  updateCustomer : string → Obj → M S (option Obj);

  getOrders : string → M S (list Obj);
  getOrder : string → M S (option Obj);
  createOrder : string → Z → Obj → M S Obj;
  updateOrder : string → Obj → M S (option Obj);

  createOrderItem : string → Obj → M S Obj;
  getOrderItems : string → M S (list Obj);

  getEmailTemplates : string → M S (list Obj);
  getEmailTemplate : string → M S (option Obj);
  createEmailTemplate : string → Obj → M S Obj;
  updateEmailTemplate : string → Obj → M S (option Obj);
  deleteEmailTemplate : string → M S bool;

  createPixelEvent : string → Z → Obj → M S Obj;
  getPixelEvents : string → option Z → M S (list Obj);

  createAbandonedCart : string → Z → Obj → M S Obj;
  getAbandonedCarts : string → M S (list Obj);
  updateAbandonedCart : string → Obj → M S (option Obj)
}.

#[global] Instance FirebaseStorage_IStorage {prims : JsPrims} : IStorage Firestore := {|
  getUser := FirebaseStorage.getUser;
  getUserByEmail := FirebaseStorage.getUserByEmail;
  createUser := FirebaseStorage.createUser;
  updateUser := FirebaseStorage.updateUser;
  getProducts := FirebaseStorage.getProducts;
  getProduct := FirebaseStorage.getProduct;
  createProduct := FirebaseStorage.createProduct;
  updateProduct := FirebaseStorage.updateProduct;
  deleteProduct := FirebaseStorage.deleteProduct;
  getCheckoutPages := FirebaseStorage.getCheckoutPages;
  getCheckoutPage := FirebaseStorage.getCheckoutPage;
  getCheckoutPageBySlug := FirebaseStorage.getCheckoutPageBySlug;
  createCheckoutPage := FirebaseStorage.createCheckoutPage;
  updateCheckoutPage := FirebaseStorage.updateCheckoutPage;
  deleteCheckoutPage := FirebaseStorage.deleteCheckoutPage;
  getCoupons := FirebaseStorage.getCoupons;
  getCoupon := FirebaseStorage.getCoupon;
  getCouponByCode := FirebaseStorage.getCouponByCode;
  createCoupon := FirebaseStorage.createCoupon;
  updateCoupon := FirebaseStorage.updateCoupon;
  deleteCoupon := FirebaseStorage.deleteCoupon;
  getCustomers := FirebaseStorage.getCustomers;
  getCustomer := FirebaseStorage.getCustomer;
  getCustomerByEmail := FirebaseStorage.getCustomerByEmail;
  createCustomer := FirebaseStorage.createCustomer;
  updateCustomer := FirebaseStorage.updateCustomer;
  getOrders := FirebaseStorage.getOrders;
  getOrder := FirebaseStorage.getOrder;
  createOrder := FirebaseStorage.createOrder;
  updateOrder := FirebaseStorage.updateOrder;
  createOrderItem := FirebaseStorage.createOrderItem;
  getOrderItems := FirebaseStorage.getOrderItems;
  getEmailTemplates := FirebaseStorage.getEmailTemplates;
  getEmailTemplate := FirebaseStorage.getEmailTemplate;
  createEmailTemplate := FirebaseStorage.createEmailTemplate;
  updateEmailTemplate := FirebaseStorage.updateEmailTemplate;
  deleteEmailTemplate := FirebaseStorage.deleteEmailTemplate;
  createPixelEvent := FirebaseStorage.createPixelEvent;
  getPixelEvents := FirebaseStorage.getPixelEvents;
  createAbandonedCart := FirebaseStorage.createAbandonedCart;
  getAbandonedCarts := FirebaseStorage.getAbandonedCarts;
  updateAbandonedCart := FirebaseStorage.updateAbandonedCart
|}.

#[global] Instance DatabaseStorage_IStorage : IStorage Database := {|
  getUser := DatabaseStorage.getUser;
  getUserByEmail := DatabaseStorage.getUserByEmail;
  createUser := DatabaseStorage.createUser;
  updateUser := DatabaseStorage.updateUser;
  getProducts := DatabaseStorage.getProducts;
  getProduct := DatabaseStorage.getProduct;
  createProduct := DatabaseStorage.createProduct;
  updateProduct := DatabaseStorage.updateProduct;
  deleteProduct := DatabaseStorage.deleteProduct;
  getCheckoutPages := DatabaseStorage.getCheckoutPages;
  getCheckoutPage := DatabaseStorage.getCheckoutPage;
  getCheckoutPageBySlug := DatabaseStorage.getCheckoutPageBySlug;
  createCheckoutPage := DatabaseStorage.createCheckoutPage;
  updateCheckoutPage := DatabaseStorage.updateCheckoutPage;
  deleteCheckoutPage := DatabaseStorage.deleteCheckoutPage;
  getCoupons := DatabaseStorage.getCoupons;
  getCoupon := DatabaseStorage.getCoupon;
  getCouponByCode := DatabaseStorage.getCouponByCode;
  createCoupon := DatabaseStorage.createCoupon;
  updateCoupon := DatabaseStorage.updateCoupon;
  deleteCoupon := DatabaseStorage.deleteCoupon;
  getCustomers := DatabaseStorage.getCustomers;
  getCustomer := DatabaseStorage.getCustomer;
  getCustomerByEmail := DatabaseStorage.getCustomerByEmail;
  createCustomer := DatabaseStorage.createCustomer;
  updateCustomer := DatabaseStorage.updateCustomer;
  getOrders := DatabaseStorage.getOrders;
  getOrder := DatabaseStorage.getOrder;
  createOrder := DatabaseStorage.createOrder;
  updateOrder := DatabaseStorage.updateOrder;
  createOrderItem := DatabaseStorage.createOrderItem;
  getOrderItems := DatabaseStorage.getOrderItems;
  getEmailTemplates := DatabaseStorage.getEmailTemplates;
  getEmailTemplate := DatabaseStorage.getEmailTemplate;
  createEmailTemplate := DatabaseStorage.createEmailTemplate;
  updateEmailTemplate := DatabaseStorage.updateEmailTemplate;
  deleteEmailTemplate := DatabaseStorage.deleteEmailTemplate;
  createPixelEvent := DatabaseStorage.createPixelEvent;
  getPixelEvents := DatabaseStorage.getPixelEvents;
  createAbandonedCart := DatabaseStorage.createAbandonedCart;
  getAbandonedCarts := DatabaseStorage.getAbandonedCarts;
  updateAbandonedCart := DatabaseStorage.updateAbandonedCart
|}.

(** ** The coupon validation route: [POST /api/coupons/validate] *)

Record Response := { status : Z; body : Value }.

(** [res.status(code).json({ error: msg })]. *)
Definition error_response (code : Z) (msg : string) : Response :=
  {| status := code; body := VObj {["error" := VStr msg]} |}.

(** [res.json(value)]. *)
Definition json_response (value : Value) : Response := {| status := 200; body := value |}.

Section routes.
Context {prims : JsPrims} {S : Type} {storage : IStorage S}.

(** The rules applied to what [storage.getCouponByCode] returned, in the
    order of the source; [now] is the value of [new Date()]. *)
Definition validate (now : Z) (coupon : option Obj) : Response :=
  match coupon with
  | None => error_response 404 "Coupon not found"
  | Some coupon =>
      if negb (truthy (prop coupon "isActive")) then
        error_response 400 "Coupon is inactive"
      else if truthy (prop coupon "usageLimit") && truthy (prop coupon "usedCount")
              && js_ge (prop coupon "usedCount") (prop coupon "usageLimit") then
        error_response 400 "Coupon usage limit reached"
      else if truthy (prop coupon "expiresAt")
              && date_lt (new_Date (prop coupon "expiresAt")) (ValidDate now) then
        error_response 400 "Coupon has expired"
      else json_response (VObj coupon)
  end.

(** The validation of a code for an owner. *)
Definition validate_coupon (code userId : string) (now : Z) : M S Response :=
  coupon ← getCouponByCode code userId;
  mret (validate now coupon).

(** [getCurrentUserId()]: the demo user, created on first use with the
    generated id [fresh].  Its result is declared a string; an [id] that is
    not one is outside the type [User], and the model throws there. *)
Definition getCurrentUserId (fresh : string) : M S string :=
  user ← getUserByEmail "demo@example.com";
  user ← match user with
         | Some user => mret user
         | None => createUser fresh
                     (<["businessName" := VStr "Demo Store"]>
                        (<["password" := VStr "demo123"]>
                           {["email" := VStr "demo@example.com"]}))
         end;
  with_id (prop user "id") mret.

(** The whole handler, for a request body whose [code] is a string. *)
Definition post_coupons_validate (fresh : string) (now : Z) (code : string) : M S Response :=
  try_catch
    (userId ← getCurrentUserId fresh;
     validate_coupon code userId now)
    (λ error, mret (error_response 500 "Failed to validate coupon")).

End routes.

(** ** Coupon validation as the specification words it

    "fail with inactive if isActive is false; fail with limit reached if
    usageLimit is set and usedCount >= usageLimit; fail with expired if
    expiresAt is set and in the past; otherwise succeed". *)
Module Claimed.

Definition is_set (v : Value) : bool :=
  match v with
  | VNull | VUndefined => false
  | _ => true
  end.

Definition is_false (v : Value) : bool :=
  match v with
  | VBool false => true
  | _ => false
  end.

Definition count_ge (usedCount usageLimit : Value) : bool :=
  match usedCount, usageLimit with
  | VNum n, VNum l => l <=? n
  | _, _ => false
  end.

Definition in_the_past (now : Z) (v : Value) : bool :=
  match v with
  | VDate (ValidDate t) => t <? now
  | _ => false
  end.

Definition validation (now : Z) (coupon : option Obj) : Response :=
  match coupon with
  | None => error_response 404 "Coupon not found"
  | Some coupon =>
      if is_false (prop coupon "isActive") then
        error_response 400 "Coupon is inactive"
      else if is_set (prop coupon "usageLimit")
              && count_ge (prop coupon "usedCount") (prop coupon "usageLimit") then
        error_response 400 "Coupon usage limit reached"
      else if is_set (prop coupon "expiresAt")
              && in_the_past now (prop coupon "expiresAt") then
        error_response 400 "Coupon has expired"
      else json_response (VObj coupon)
  end.

End Claimed.

(** ** The fields of a coupon at their declared types

    [Coupon] declares [isActive: boolean | null], [usageLimit] and
    [usedCount: number | null] and [expiresAt: Date | null]. *)
Definition nullable {A} (inj : A → Value) (o : option A) : Value := from_option inj VNull o.

Record CouponFields := {
  cf_isActive : option bool;
  cf_usageLimit : option Z;
  cf_usedCount : option Z;
  cf_expiresAt : option Date
}.

Definition has_fields (coupon : Obj) (f : CouponFields) : Prop :=
  prop coupon "isActive" = nullable VBool (cf_isActive f)
  ∧ prop coupon "usageLimit" = nullable VNum (cf_usageLimit f)
  ∧ prop coupon "usedCount" = nullable VNum (cf_usedCount f)
  ∧ prop coupon "expiresAt" = nullable VDate (cf_expiresAt f).

(** The rules as the route applies them, on typed fields. *)
Definition limit_reached (f : CouponFields) : bool :=
  match cf_usageLimit f, cf_usedCount f with
  | Some l, Some n => negb (l =? 0) && negb (n =? 0) && (l <=? n)
  | _, _ => false
  end.

Definition expired (now : Z) (f : CouponFields) : bool :=
  match cf_expiresAt f with
  | Some (ValidDate t) => t <? now
  | _ => false
  end.

Definition verdict (now : Z) (coupon : Obj) (f : CouponFields) : Response :=
  if negb (bool_decide (cf_isActive f = Some true)) then
    error_response 400 "Coupon is inactive"
  else if limit_reached f then error_response 400 "Coupon usage limit reached"
  else if expired now f then error_response 400 "Coupon has expired"
  else json_response (VObj coupon).

(** No stored coupon carries this code for this owner. *)
Definition no_coupon_fs (code userId : string) (db : Firestore) : Prop :=
  ∀ id doc, fs_docs "coupons" db !! id = Some doc →
    field_is doc "code" code && field_is doc "userId" userId = false.

Definition no_coupon_db (code userId : string) (db : Database) : Prop :=
  ∀ r, r ∈ db_rows "coupons" db →
    sql_eq (prop r "code") (VStr code) && sql_eq (prop r "userId") (VStr userId) = false.

(** ** Identifiers and values the engines accept

    Both engines check an identifier before they look anything up, and
    PostgreSQL checks every value against the type of its column; the two
    models above leave these checks out.  The predicates of this section
    say which arguments pass them, and the properties below that depend on
    the checks are stated for such arguments. *)

(** The first character of a string literal. *)
Definition chr (s : string) : Ascii.ascii :=
  match s with
  | String a _ => a
  | EmptyString => Ascii.zero
  end.

Definition is_lower_hex (a : Ascii.ascii) : bool :=
  let n := Ascii.nat_of_ascii a in
  ((48 <=? n) && (n <=? 57) || (97 <=? n) && (n <=? 102))%nat.

(** [n] hexadecimal digits in lower case, giving the rest of the string. *)
Fixpoint hex_run (n : nat) (s : string) : option string :=
  match n with
  | O => Some s
  | S n' =>
      match s with
      | String a s' => if is_lower_hex a then hex_run n' s' else None
      | EmptyString => None
      end
  end.

Definition dash (s : string) : option string :=
  match s with
  | String a s' => if Ascii.eqb a (chr "-") then Some s' else None
  | EmptyString => None
  end.

(** [n] such digits followed by a dash. *)
Definition hex_group (n : nat) (s : string) : option string :=
  match hex_run n s with
  | Some s' => dash s'
  | None => None
  end.

(** A uuid as PostgreSQL prints it and [gen_random_uuid()] and
    [crypto.randomUUID()] give it: 8-4-4-4-12 hexadecimal digits in lower
    case.  A [uuid] column compared with a text that is not a uuid raises
    error 22P02, and one written in upper case or without dashes is read
    back in this form. *)
Definition is_uuid (s : string) : bool :=
  match foldl (λ rest n, from_option (hex_group n) None rest) (Some s) [8; 4; 4; 4]%nat with
  | Some rest =>
      match hex_run 12 rest with
      | Some EmptyString => true
      | _ => false
      end
  | None => false
  end.

Definition has_char (c : Ascii.ascii) (s : string) : bool :=
  existsb (Ascii.eqb c) (String.list_ascii_of_string s).

(** A document id that [collection(c).doc(id)] and the store accept: not
    empty, no slash, neither [.] nor [..], not of the form [__.*__], at
    most 1500 bytes. *)
Definition valid_doc_id (s : string) : bool :=
  let l := String.list_ascii_of_string s in
  negb (String.eqb s "")
  && negb (has_char (chr "/") s)
  && negb (String.eqb s ".") && negb (String.eqb s "..")
  && negb ((4 <=? length l)%nat
           && bool_decide (take 2 l = [chr "_"; chr "_"])
           && bool_decide (drop (length l - 2) l = [chr "_"; chr "_"]))
  && (length l <=? 1500)%nat.

(** A property name that [update] takes as the name of one field: not
    empty and without the characters of a field path. *)
Definition plain_key (k : string) : bool :=
  negb (String.eqb k "")
  && forallb (λ c, negb (has_char (chr c) k)) ["."; "~"; "*"; "/"; "["; "]"].

Definition plain_keys (data : Obj) : bool :=
  forallb (λ kv : string * Value, plain_key kv.1) (map_to_list data).

Definition is_digit (a : Ascii.ascii) : bool :=
  let n := Ascii.nat_of_ascii a in ((48 <=? n) && (n <=? 57))%nat.

(** A [decimal(10, 2)] as PostgreSQL prints it, zero or positive: up to
    eight digits without a leading zero (or the single digit 0), a point
    and two digits. *)
Definition is_decimal (s : string) : bool :=
  let l := String.list_ascii_of_string s in
  let whole := take (length l - 3) l in
  let fraction := drop (length l - 3) l in
  (4 <=? length l)%nat && (length l <=? 11)%nat
  && forallb is_digit whole
  && (bool_decide (whole = [chr "0"]) || negb (bool_decide (head whole = Some (chr "0"))))
  && match fraction with
     | [p; d1; d2] => Ascii.eqb p (chr ".") && is_digit d1 && is_digit d2
     | _ => false
     end.

(** A value that PostgreSQL stores in a column of type [ty] and gives back
    as it was written; null is left to the NOT NULL constraint. *)
Definition pg_value (ty : ColType) (v : Value) : bool :=
  match v with
  | VNull => true
  | _ =>
      match ty, v with
      | uuid, VStr s => is_uuid s
      | text, VStr s => negb (has_char Ascii.zero s)
      | integer, VNum n => (-2147483648 <=? n) && (n <=? 2147483647)
      | boolean, VBool _ => true
      | decimal, VStr s => is_decimal s
      | timestamp, VDate (ValidDate ms) => (0 <=? ms) && (ms <? 253402300800000)
      | _, _ => false
      end
  end.

(** Every column that [data] defines gets such a value. *)
Definition pg_input (t : Table) (data : Obj) : bool :=
  forallb (λ c, is_undefined (prop data (col_name c))
                || pg_value (col_type c) (prop data (col_name c)))
          (tbl_columns t).

(** ** Sample data for the examples *)

(** One choice for the abstract primitives, to evaluate examples with. *)
Definition sample_prims : JsPrims :=
  {| parseDate := λ _, InvalidDate;
     geOther := λ _ _, false;
     newDateOther := λ _, InvalidDate |}.

Definition sample_coupon (isActive usageLimit usedCount expiresAt : Value) : Obj :=
  <["isActive" := isActive]>
    (<["usageLimit" := usageLimit]>
       (<["usedCount" := usedCount]>
          (<["expiresAt" := expiresAt]>
             (<["code" := VStr "SAVE10"]>
                (<["userId" := VStr "u1"]>
                   (<["discountType" := VStr "percentage"]>
                      (<["discountValue" := VStr "10"]>
                         {["id" := VStr "c1"]}))))))).

Definition empty_firestore : Firestore := {| fs_colls := ∅; fs_faults := ∅ |}.

(** ** Documents the Firestore client accepts *)

(** Every defined property of [o] can be written: once serialized it holds
    neither [undefined] nor an Invalid Date. *)
Definition storable (o : Obj) : Prop :=
  ∀ k v, o !! k = Some v → v ≠ VUndefined →
    is_Some (fs_encode (serializeForFirestore v)).

(** The document the store keeps when a method writes the object [o]. *)
Definition stored (o : Obj) : Obj := omap fs_encode (serializeObj o).

(** A store none of whose collections is provisioned yet: every request is
    answered with error code 5. *)
Definition unprovisioned_firestore : Firestore :=
  {| fs_colls := ∅;
     fs_faults := list_to_map ((λ c : string, (c, NotFound)) <$>
       ["users"; "products"; "checkoutPages"; "coupons"; "customers"; "orders";
        "orderItems"; "emailTemplates"; "pixelEvents"; "abandonedCarts"]) |}.

(** ** The entities that have a delete method *)

Inductive Deletable := DProduct | DCheckoutPage | DCoupon | DEmailTemplate.

Definition delete_of {S} {storage : IStorage S} (e : Deletable) : string → M S bool :=
  match e with
  | DProduct => deleteProduct
  | DCheckoutPage => deleteCheckoutPage
  | DCoupon => deleteCoupon
  | DEmailTemplate => deleteEmailTemplate
  end.

Definition get_of {S} {storage : IStorage S} (e : Deletable) : string → M S (option Obj) :=
  match e with
  | DProduct => getProduct
  | DCheckoutPage => getCheckoutPage
  | DCoupon => getCoupon
  | DEmailTemplate => getEmailTemplate
  end.

Definition table_of (e : Deletable) : Table :=
  match e with
  | DProduct => products
  | DCheckoutPage => checkoutPages
  | DCoupon => coupons
  | DEmailTemplate => emailTemplates
  end.

(** A document with this id is stored in the collection of [e]. *)
Definition exists_fs (e : Deletable) (id : string) (db : Firestore) : bool :=
  bool_decide (is_Some (fs_docs (tbl_name (table_of e)) db !! id)).

(** A row with this id is stored in the table of [e]. *)
Definition exists_db (e : Deletable) (id : string) (db : Database) : bool :=
  existsb (λ r, sql_eq (prop r "id") (VStr id)) (db_rows (tbl_name (table_of e)) db).

Definition sample_product (userId name : string) : Obj :=
  <["name" := VStr name]> (<["price" := VStr "19.99"]> {["userId" := VStr userId]}).

Definition sample_user : Obj :=
  <["email" := VStr "demo@example.com"]> {["password" := VStr "demo123"]}.

(** A Firestore holding one user and one product of that user. *)
Definition firestore_with_product : Firestore :=
  (FirebaseStorage.createProduct "p1" 10 (sample_product "u1" "Ebook")
     (FirebaseStorage.createUser "u1" sample_user empty_firestore).2).2.

(** The same content in the relational store. *)
Definition database_with_product : Database :=
  (DatabaseStorage.createProduct "p1" 10 (sample_product "u1" "Ebook")
     (DatabaseStorage.createUser "u1" sample_user ∅).2).2.

(** A relational store holding the user "u1" only. *)
Definition database_with_user : Database :=
  (DatabaseStorage.createUser "u1" sample_user ∅).2.

(** Identifiers of the form the generators give, for the examples. *)
Definition user_1 : string := "00000000-0000-4000-8000-000000000001".
Definition product_1 : string := "00000000-0000-4000-8000-0000000000a1".
Definition product_2 : string := "00000000-0000-4000-8000-0000000000a2".
Definition product_3 : string := "00000000-0000-4000-8000-0000000000a3".
Definition page_1 : string := "00000000-0000-4000-8000-0000000000b1".
Definition event_1 : string := "00000000-0000-4000-8000-0000000000e1".
Definition event_2 : string := "00000000-0000-4000-8000-0000000000e2".
Definition unknown_id : string := "00000000-0000-4000-8000-0000000000ff".

(** The two stores holding the user [user_1] and the product [product_1]
    of that user. *)
Definition documents_with_product : Firestore :=
  (FirebaseStorage.createProduct product_1 10 (sample_product user_1 "Ebook")
     (FirebaseStorage.createUser user_1 sample_user empty_firestore).2).2.

Definition tables_with_product : Database :=
  (DatabaseStorage.createProduct product_1 10 (sample_product user_1 "Ebook")
     (DatabaseStorage.createUser user_1 sample_user ∅).2).2.

(** The body of a coupon creation that carries a [usedCount]. *)
Definition coupon_input_with_usedCount : Obj :=
  <["usedCount" := VNum 7]>
    (<["code" := VStr "SAVE10"]>
       (<["discountType" := VStr "percentage"]>
          (<["discountValue" := VStr "10"]> {["userId" := VStr "u1"]}))).

(** The insert of [values] into [t] violates no constraint. *)
Definition insertable (t : Table) (id : string) (now : Z) (values : Obj) (db : Database) : Prop :=
  not_null_ok t (new_row t id now values) = true
  ∧ unique_ok t (db_rows (tbl_name t) db) (new_row t id now values) = true
  ∧ fk_ok db t (new_row t id now values) = true.

(** ** Listings *)

(** The seven listings ordered by creation time. *)
Inductive Listed :=
| LProducts | LCheckoutPages | LCoupons | LCustomers | LOrders | LPixelEvents
| LAbandonedCarts.

Definition list_of {S} {storage : IStorage S} (e : Listed) (userId : string) : M S (list Obj) :=
  match e with
  | LProducts => getProducts userId
  | LCheckoutPages => getCheckoutPages userId
  | LCoupons => getCoupons userId
  | LCustomers => getCustomers userId
  | LOrders => getOrders userId
  | LPixelEvents => getPixelEvents userId None
  | LAbandonedCarts => getAbandonedCarts userId
  end.

Definition listed_table (e : Listed) : Table :=
  match e with
  | LProducts => products
  | LCheckoutPages => checkoutPages
  | LCoupons => coupons
  | LCustomers => customers
  | LOrders => orders
  | LPixelEvents => pixelEvents
  | LAbandonedCarts => abandonedCarts
  end.

(** Most recent first: of two entries that both carry a creation date, the
    one that comes first is not the older one. *)
Definition newest_first (l : list Obj) : Prop :=
  ∀ (i j : nat) (a b : Obj) (ta tb : Z),
    (i < j)%nat → l !! i = Some a → l !! j = Some b →
    prop a "createdAt" = VDate (ValidDate ta) →
    prop b "createdAt" = VDate (ValidDate tb) →
    tb ≤ ta.

(** What the declared type [Date | null] of [createdAt] is in a stored
    document: a [Timestamp], null, or no value. *)
Definition created_typed (v : Value) : bool :=
  match v with
  | VTimestamp _ | VNull | VUndefined => true
  | _ => false
  end.

Definition timestamps_typed (c : string) (db : Firestore) : Prop :=
  ∀ id doc, fs_docs c db !! id = Some doc → created_typed (prop doc "createdAt") = true.

(** The owner has no product in the store. *)
Definition no_products_fs (userId : string) (db : Firestore) : Prop :=
  ∀ id doc, fs_docs "products" db !! id = Some doc → field_is doc "userId" userId = false.

Definition no_products_db (userId : string) (db : Database) : Prop :=
  ∀ r, r ∈ db_rows "products" db → sql_eq (prop r "userId") (VStr userId) = false.

(** What a listing shows of each entry in the ordering scenario. *)
Definition id_and_created (o : Obj) : Value * Value := (prop o "id", prop o "createdAt").

(** Three creations followed by the listing. *)
Definition create_three_then_list {S} {storage : IStorage S} (userId : string)
    (id1 id2 id3 : string) (t1 t2 t3 : Z) (p1 p2 p3 : Obj) : M S (list Obj) :=
  _ ← createProduct id1 t1 p1;
  _ ← createProduct id2 t2 p2;
  _ ← createProduct id3 t3 p3;
  getProducts userId.

(** ** The pixel-event listing, taken apart *)

(** The events of the owner, most recent first, before the limit applies. *)
Definition pixel_events_ordered (userId : string) (db : Firestore) : list (string * Obj) :=
  run_query (orderBy_desc "createdAt" (where_eq "userId" userId (collection "pixelEvents")))
    (fs_docs "pixelEvents" db).

(** What [FirebaseStorage.getPixelEvents] makes of one document. *)
Definition pixel_event_of {prims : JsPrims} (doc : string * Obj) : Outcome Obj :=
  let data := doc.2 in
  createdAt ← toDate (prop data "createdAt");
  eventTime ← toDate (prop data "eventTime");
  Ok (<["eventTime" := eventTime]>
        (<["createdAt" := createdAt]> (<["id" := VStr doc.1]> data))).

Definition sample_event (userId name : string) (eventTime : Z) : Obj :=
  <["eventName" := VStr name]>
    (<["eventId" := VStr name]>
       (<["eventTime" := VDate (ValidDate eventTime)]> {["userId" := VStr userId]})).

(** A Firestore holding two pixel events of the owner "u1". *)
Definition firestore_with_events : Firestore :=
  (FirebaseStorage.createPixelEvent "e2" 20 (sample_event "u1" "Purchase" 19)
     (FirebaseStorage.createPixelEvent "e1" 10 (sample_event "u1" "PageView" 9)
        empty_firestore).2).2.

(** ** The entities that have an update method *)

Inductive Updatable :=
| UUser | UProduct | UCheckoutPage | UCoupon | UCustomer | UOrder | UEmailTemplate
| UAbandonedCart.

Definition update_of {S} {storage : IStorage S} (e : Updatable)
    : string → Obj → M S (option Obj) :=
  match e with
  | UUser => updateUser
  | UProduct => updateProduct
  | UCheckoutPage => updateCheckoutPage
  | UCoupon => updateCoupon
  | UCustomer => updateCustomer
  | UOrder => updateOrder
  | UEmailTemplate => updateEmailTemplate
  | UAbandonedCart => updateAbandonedCart
  end.

Definition updatable_table (e : Updatable) : Table :=
  match e with
  | UUser => users
  | UProduct => products
  | UCheckoutPage => checkoutPages
  | UCoupon => coupons
  | UCustomer => customers
  | UOrder => orders
  | UEmailTemplate => emailTemplates
  | UAbandonedCart => abandonedCarts
  end.

(** The fields an update method of the document backend reads back through
    [toDate]. *)
Definition date_fields (e : Updatable) : list string :=
  match e with
  | UUser | UEmailTemplate => []
  | UProduct | UCheckoutPage | UCustomer | UOrder => ["createdAt"]
  | UCoupon => ["createdAt"; "expiresAt"]
  | UAbandonedCart => ["createdAt"; "recoveredAt"]
  end.

(** The fields it sets itself in the object it returns: the document id
    (except for users and email templates, where a stored [id] field wins)
    and the date fields. *)
Definition view_fields (e : Updatable) : list string :=
  match e with
  | UUser | UEmailTemplate => []
  | _ => "id" :: date_fields e
  end.

(** The entity an update method of the document backend makes of the
    document [doc] stored under [id]. *)
Definition fs_view {prims : JsPrims} (e : Updatable) (id : string) (doc : Obj) : Outcome Obj :=
  match e with
  | UUser | UEmailTemplate => Ok (doc ∪ {["id" := VStr id]})
  | UProduct | UCheckoutPage | UCustomer | UOrder =>
      createdAt ← toDate (prop doc "createdAt");
      Ok (<["createdAt" := createdAt]> (<["id" := VStr id]> doc))
  | UCoupon =>
      createdAt ← toDate (prop doc "createdAt");
      expiresAt ← toDate (prop doc "expiresAt");
      Ok (<["expiresAt" := expiresAt]>
            (<["createdAt" := createdAt]> (<["id" := VStr id]> doc)))
  | UAbandonedCart =>
      createdAt ← toDate (prop doc "createdAt");
      recoveredAt ← toDate (prop doc "recoveredAt");
      Ok (<["recoveredAt" := recoveredAt]>
            (<["createdAt" := createdAt]> (<["id" := VStr id]> doc)))
  end.

(** A value the store gives back as it was written: it holds no [Date], no
    [Timestamp] object and no [undefined]. *)
Definition plain (v : Value) : Prop := fs_encode (serializeForFirestore v) = Some v.

(** The names of the columns of a table. *)
Definition column_names (t : Table) : list string := col_name <$> tbl_columns t.

(** ** Owners *)

(** The entities that have an owner are those of the tables with a
    [userId] column. *)
Definition has_owner (t : Table) : bool :=
  existsb (λ c, String.eqb (col_name c) "userId") (tbl_columns t).

(** Some row of [users] has the id [v]. *)
Definition user_exists (v : Value) (db : Database) : bool :=
  existsb (λ u, sql_eq (prop u "id") v) (db_rows "users" db).

(** Every row of a table with an owner names an existing user. *)
Definition owners_exist (db : Database) : Prop :=
  ∀ t r, t ∈ schema → has_owner t = true → r ∈ db_rows (tbl_name t) db →
         user_exists (prop r "userId") db = true.

(** The create operations of the entities that have an owner. *)
Inductive Owned :=
| OProduct | OCheckoutPage | OCoupon | OCustomer | OOrder | OEmailTemplate
| OPixelEvent | OAbandonedCart.

Definition create_of {S} {storage : IStorage S} (e : Owned) (id : string) (now : Z)
    : Obj → M S Obj :=
  match e with
  | OProduct => createProduct id now
  | OCheckoutPage => createCheckoutPage id now
  | OCoupon => createCoupon id now
  | OCustomer => createCustomer id now
  | OOrder => createOrder id now
  | OEmailTemplate => createEmailTemplate id
  | OPixelEvent => createPixelEvent id now
  | OAbandonedCart => createAbandonedCart id now
  end.

Definition owned_table (e : Owned) : Table :=
  match e with
  | OProduct => products
  | OCheckoutPage => checkoutPages
  | OCoupon => coupons
  | OCustomer => customers
  | OOrder => orders
  | OEmailTemplate => emailTemplates
  | OPixelEvent => pixelEvents
  | OAbandonedCart => abandonedCarts
  end.

(** A call of a method of the storage contract, with its arguments (and the
    id and the time a create generates). *)
Inductive Call :=
| GetUser (id : string)
| GetUserByEmail (email : string)
| CreateUser (id : string) (user : Obj)
| UpdateUser (id : string) (data : Obj)
| GetProducts (userId : string)
| GetProduct (id : string)
| CreateProduct (id : string) (now : Z) (product : Obj)
| UpdateProduct (id : string) (data : Obj)
| DeleteProduct (id : string)
| GetCheckoutPages (userId : string)
| GetCheckoutPage (id : string)
| GetCheckoutPageBySlug (slug : string)
| CreateCheckoutPage (id : string) (now : Z) (page : Obj)
| UpdateCheckoutPage (id : string) (data : Obj)
| DeleteCheckoutPage (id : string)
| GetCoupons (userId : string)
| GetCoupon (id : string)
| GetCouponByCode (code userId : string)
| CreateCoupon (id : string) (now : Z) (coupon : Obj)
| UpdateCoupon (id : string) (data : Obj)
| DeleteCoupon (id : string)
| GetCustomers (userId : string)
| GetCustomer (id : string)
| GetCustomerByEmail (email userId : string)
| CreateCustomer (id : string) (now : Z) (customer : Obj)
| UpdateCustomer (id : string) (data : Obj)
| GetOrders (userId : string)
| GetOrder (id : string)
| CreateOrder (id : string) (now : Z) (order : Obj)
| UpdateOrder (id : string) (data : Obj)
| CreateOrderItem (id : string) (item : Obj)
| GetOrderItems (orderId : string)
| GetEmailTemplates (userId : string)
| GetEmailTemplate (id : string)
| CreateEmailTemplate (id : string) (template : Obj)
| UpdateEmailTemplate (id : string) (data : Obj)
| DeleteEmailTemplate (id : string)
| CreatePixelEvent (id : string) (now : Z) (event : Obj)
| GetPixelEvents (userId : string) (limit_arg : option Z)
| CreateAbandonedCart (id : string) (now : Z) (cart : Obj)
| GetAbandonedCarts (userId : string)
| UpdateAbandonedCart (id : string) (data : Obj).

(** The store a computation leaves. *)
Definition after {S A} (m : M S A) (s : S) : S := (m s).2.

(** The store after a call, whatever it returns or throws. *)
Definition perform {S} {storage : IStorage S} (c : Call) : S → S :=
  match c with
  | GetUser id => after (getUser id)
  | GetUserByEmail email => after (getUserByEmail email)
  | CreateUser id user => after (createUser id user)
  | UpdateUser id data => after (updateUser id data)
  | GetProducts userId => after (getProducts userId)
  | GetProduct id => after (getProduct id)
  | CreateProduct id now product => after (createProduct id now product)
  | UpdateProduct id data => after (updateProduct id data)
  | DeleteProduct id => after (deleteProduct id)
  | GetCheckoutPages userId => after (getCheckoutPages userId)
  | GetCheckoutPage id => after (getCheckoutPage id)
  | GetCheckoutPageBySlug slug => after (getCheckoutPageBySlug slug)
  | CreateCheckoutPage id now page => after (createCheckoutPage id now page)
  | UpdateCheckoutPage id data => after (updateCheckoutPage id data)
  | DeleteCheckoutPage id => after (deleteCheckoutPage id)
  | GetCoupons userId => after (getCoupons userId)
  | GetCoupon id => after (getCoupon id)
  | GetCouponByCode code userId => after (getCouponByCode code userId)
  | CreateCoupon id now coupon => after (createCoupon id now coupon)
  | UpdateCoupon id data => after (updateCoupon id data)
  | DeleteCoupon id => after (deleteCoupon id)
  | GetCustomers userId => after (getCustomers userId)
  | GetCustomer id => after (getCustomer id)
  | GetCustomerByEmail email userId => after (getCustomerByEmail email userId)
  | CreateCustomer id now customer => after (createCustomer id now customer)
  | UpdateCustomer id data => after (updateCustomer id data)
  | GetOrders userId => after (getOrders userId)
  | GetOrder id => after (getOrder id)
  | CreateOrder id now order => after (createOrder id now order)
  | UpdateOrder id data => after (updateOrder id data)
  | CreateOrderItem id item => after (createOrderItem id item)
  | GetOrderItems orderId => after (getOrderItems orderId)
  | GetEmailTemplates userId => after (getEmailTemplates userId)
  | GetEmailTemplate id => after (getEmailTemplate id)
  | CreateEmailTemplate id template => after (createEmailTemplate id template)
  | UpdateEmailTemplate id data => after (updateEmailTemplate id data)
  | DeleteEmailTemplate id => after (deleteEmailTemplate id)
  | CreatePixelEvent id now event => after (createPixelEvent id now event)
  | GetPixelEvents userId limit_arg => after (getPixelEvents userId limit_arg)
  | CreateAbandonedCart id now cart => after (createAbandonedCart id now cart)
  | GetAbandonedCarts userId => after (getAbandonedCarts userId)
  | UpdateAbandonedCart id data => after (updateAbandonedCart id data)
  end.

(** The store after a sequence of calls. *)
Definition perform_all {S} {storage : IStorage S} (calls : list Call) (s : S) : S :=
  foldl (λ s c, perform c s) s calls.

(** A computation that leaves the store as it found it. *)
Definition readonly {S A} (m : M S A) : Prop := ∀ s, after m s = s.

(** ** Answers of the two backends *)

(** What a call answers: an entity, an absent value, a list or a flag. *)
Inductive Answer :=
| AEntity (entity : Obj)
| AAbsent
| AList (entities : list Obj)
| AFlag (flag : bool).

Definition of_option (o : option Obj) : Answer := from_option AEntity AAbsent o.

Definition returning {S A} (f : A → Answer) (m : M S A) : M S Answer := a ← m; mret (f a).

(** A call through the contract, with its answer. *)
Definition answer {S} {storage : IStorage S} (c : Call) : M S Answer :=
  match c with
  | GetUser id => returning of_option (getUser id)
  | GetUserByEmail email => returning of_option (getUserByEmail email)
  | CreateUser id user => returning AEntity (createUser id user)
  | UpdateUser id data => returning of_option (updateUser id data)
  | GetProducts userId => returning AList (getProducts userId)
  | GetProduct id => returning of_option (getProduct id)
  | CreateProduct id now product => returning AEntity (createProduct id now product)
  | UpdateProduct id data => returning of_option (updateProduct id data)
  | DeleteProduct id => returning AFlag (deleteProduct id)
  | GetCheckoutPages userId => returning AList (getCheckoutPages userId)
  | GetCheckoutPage id => returning of_option (getCheckoutPage id)
  | GetCheckoutPageBySlug slug => returning of_option (getCheckoutPageBySlug slug)
  | CreateCheckoutPage id now page => returning AEntity (createCheckoutPage id now page)
  | UpdateCheckoutPage id data => returning of_option (updateCheckoutPage id data)
  | DeleteCheckoutPage id => returning AFlag (deleteCheckoutPage id)
  | GetCoupons userId => returning AList (getCoupons userId)
  | GetCoupon id => returning of_option (getCoupon id)
  | GetCouponByCode code userId => returning of_option (getCouponByCode code userId)
  | CreateCoupon id now coupon => returning AEntity (createCoupon id now coupon)
  | UpdateCoupon id data => returning of_option (updateCoupon id data)
  | DeleteCoupon id => returning AFlag (deleteCoupon id)
  | GetCustomers userId => returning AList (getCustomers userId)
  | GetCustomer id => returning of_option (getCustomer id)
  | GetCustomerByEmail email userId => returning of_option (getCustomerByEmail email userId)
  | CreateCustomer id now customer => returning AEntity (createCustomer id now customer)
  | UpdateCustomer id data => returning of_option (updateCustomer id data)
  | GetOrders userId => returning AList (getOrders userId)
  | GetOrder id => returning of_option (getOrder id)
  | CreateOrder id now order => returning AEntity (createOrder id now order)
  | UpdateOrder id data => returning of_option (updateOrder id data)
  | CreateOrderItem id item => returning AEntity (createOrderItem id item)
  | GetOrderItems orderId => returning AList (getOrderItems orderId)
  | GetEmailTemplates userId => returning AList (getEmailTemplates userId)
  | GetEmailTemplate id => returning of_option (getEmailTemplate id)
  | CreateEmailTemplate id template => returning AEntity (createEmailTemplate id template)
  | UpdateEmailTemplate id data => returning of_option (updateEmailTemplate id data)
  | DeleteEmailTemplate id => returning AFlag (deleteEmailTemplate id)
  | CreatePixelEvent id now event => returning AEntity (createPixelEvent id now event)
  | GetPixelEvents userId limit_arg => returning AList (getPixelEvents userId limit_arg)
  | CreateAbandonedCart id now cart => returning AEntity (createAbandonedCart id now cart)
  | GetAbandonedCarts userId => returning AList (getAbandonedCarts userId)
  | UpdateAbandonedCart id data => returning of_option (updateAbandonedCart id data)
  end.

(** The answers of a sequence of calls, each made after the one before it
    has answered. *)
Fixpoint answer_all {S} {storage : IStorage S} (calls : list Call) : M S (list Answer) :=
  match calls with
  | [] => mret []
  | c :: calls' => a ← answer c; rest ← answer_all calls'; mret (a :: rest)
  end.

(** ** Parity on products *)

(** A string, a number or a boolean. *)
Definition scalar (v : Value) : bool :=
  match v with
  | VStr _ | VNum _ | VBool _ => true
  | _ => false
  end.

(** Two values of a field that the backends return count as the same when
    they are equal, or when the relational one is null and the document one
    is missing. *)
Definition similar (v_db v_fs : Value) : Prop :=
  v_db = v_fs ∨ (v_db = VNull ∧ v_fs = VUndefined).

Definition same_entity (a_db a_fs : Obj) : Prop :=
  ∀ k, similar (prop a_db k) (prop a_fs k).

Definition same_answer (a_db a_fs : Answer) : Prop :=
  match a_db, a_fs with
  | AEntity x, AEntity y => same_entity x y
  | AAbsent, AAbsent => True
  | AList l, AList l' => Forall2 same_entity l l'
  | AFlag b, AFlag b' => b = b'
  | _, _ => False
  end.

(** The columns of a product that the caller sets. *)
Definition product_fields : list string :=
  filter (λ k, k ≠ "id" ∧ k ≠ "createdAt") (column_names products).

(** An input that gives scalars (in an update, null too) for columns that
    the caller sets. *)
Definition simple_input (null_allowed : bool) (o : Obj) : Prop :=
  ∀ k v, o !! k = Some v →
         k ∈ product_fields ∧ (scalar v = true ∨ (null_allowed = true ∧ v = VNull)).

(** The creation time of a row and of a stored document. *)
Definition row_time (r : Obj) : Z :=
  match prop r "createdAt" with
  | VDate (ValidDate t) => t
  | _ => 0
  end.

Definition doc_time (d : string * Obj) : Z :=
  match prop d.2 "createdAt" with
  | VTimestamp t => t
  | _ => 0
  end.

(** The product that a listing of the document backend makes of a stored
    document with a creation time. *)
Definition product_of (d : string * Obj) : Obj :=
  <["createdAt" := VDate (ValidDate (doc_time d))]> (<["id" := VStr d.1]> d.2).

(** The calls on products, with simple inputs and a creation time that no
    stored product has. *)
Definition product_call (db : Database) (c : Call) : Prop :=
  match c with
  | GetProducts _ | GetProduct _ | DeleteProduct _ => True
  | CreateProduct id now product =>
      simple_input false product
      ∧ ∀ r, r ∈ db_rows "products" db → row_time r ≠ now
  | UpdateProduct id data => simple_input true data
  | _ => False
  end.

Fixpoint product_calls (calls : list Call) (db : Database) : Prop :=
  match calls with
  | [] => True
  | c :: calls' => product_call db c ∧ product_calls calls' (after (answer c) db)
  end.

(** The value a document keeps for the value [v_db] of the column [k] of a
    row: a null column is a null or a missing field, the creation date is a
    [Timestamp]. *)
Definition stored_as (k : string) (v_db v_fs : Value) : Prop :=
  match v_db with
  | VNull => v_fs = VNull ∨ v_fs = VUndefined
  | VStr _ | VNum _ | VBool _ | VUndefined => v_fs = v_db
  | VDate (ValidDate t) => k = "createdAt" ∧ v_fs = VTimestamp t
  | _ => False
  end.

Definition doc_of_row (row doc : Obj) : Prop := ∀ k, stored_as k (prop row k) (prop doc k).

(** The two stores hold the same products: every row has its document under
    its id and every document its row; ids and creation times are those of
    one product only. *)
Record same_products (fs : Firestore) (db : Database) : Prop := {
  sp_faults : fs_faults fs !! "products" = None;
  sp_rows : ∀ r, r ∈ db_rows "products" db →
            ∃ id doc t, prop r "id" = VStr id
                        ∧ prop r "createdAt" = VDate (ValidDate t)
                        ∧ fs_docs "products" fs !! id = Some doc
                        ∧ doc_of_row r doc;
  sp_docs : ∀ id doc, fs_docs "products" fs !! id = Some doc →
            ∃ r, r ∈ db_rows "products" db ∧ prop r "id" = VStr id;
  sp_ids : NoDup ((λ r : Obj, prop r "id") <$> db_rows "products" db);
  sp_times : NoDup ((λ r : Obj, prop r "createdAt") <$> db_rows "products" db)
}.

(** ** Store errors *)

(** The collection that the first request of a call of the document backend
    goes to. *)
Definition call_collection (c : Call) : string :=
  match c with
  | GetUser _ | GetUserByEmail _ | CreateUser _ _ | UpdateUser _ _ => "users"
  | GetProducts _ | GetProduct _ | CreateProduct _ _ _ | UpdateProduct _ _
  | DeleteProduct _ => "products"
  | GetCheckoutPages _ | GetCheckoutPage _ | GetCheckoutPageBySlug _
  | CreateCheckoutPage _ _ _ | UpdateCheckoutPage _ _ | DeleteCheckoutPage _ =>
      "checkoutPages"
  | GetCoupons _ | GetCoupon _ | GetCouponByCode _ _ | CreateCoupon _ _ _
  | UpdateCoupon _ _ | DeleteCoupon _ => "coupons"
  | GetCustomers _ | GetCustomer _ | GetCustomerByEmail _ _ | CreateCustomer _ _ _
  | UpdateCustomer _ _ => "customers"
  | GetOrders _ | GetOrder _ | CreateOrder _ _ _ | UpdateOrder _ _ => "orders"
  | CreateOrderItem _ _ | GetOrderItems _ => "orderItems"
  | GetEmailTemplates _ | GetEmailTemplate _ | CreateEmailTemplate _ _
  | UpdateEmailTemplate _ _ | DeleteEmailTemplate _ => "emailTemplates"
  | CreatePixelEvent _ _ _ | GetPixelEvents _ _ => "pixelEvents"
  | CreateAbandonedCart _ _ _ | GetAbandonedCarts _ | UpdateAbandonedCart _ _ =>
      "abandonedCarts"
  end.

(** The reads of the document backend that have the handler for the error
    code 5. *)
Definition guarded_read (c : Call) : bool :=
  match c with
  | GetUser _ | GetUserByEmail _ | GetProducts _ | GetProduct _
  | GetCheckoutPages _ | GetCheckoutPage _ | GetCheckoutPageBySlug _
  | GetCoupons _ | GetCoupon _ | GetCouponByCode _ _
  | GetCustomers _ | GetCustomer _ | GetCustomerByEmail _ _
  | GetOrders _ | GetEmailTemplates _ | GetPixelEvents _ _ | GetAbandonedCarts _ => true
  | _ => false
  end.

(** The object that a create is given. *)
Definition create_input (c : Call) : option Obj :=
  match c with
  | CreateUser _ o | CreateProduct _ _ o | CreateCheckoutPage _ _ o | CreateCoupon _ _ o
  | CreateCustomer _ _ o | CreateOrder _ _ o | CreateOrderItem _ o
  | CreateEmailTemplate _ o | CreatePixelEvent _ _ o | CreateAbandonedCart _ _ o => Some o
  | _ => None
  end.

(** ** Listings of an owner *)

(** The owner whose entities a listing call asks for. *)
Definition listing_owner (c : Call) : option string :=
  match c with
  | GetProducts u | GetCheckoutPages u | GetCoupons u | GetCustomers u | GetOrders u
  | GetEmailTemplates u | GetPixelEvents u _ | GetAbandonedCarts u => Some u
  | _ => None
  end.

(** ** Lookups by a field *)

(** The fields, with their values, that a lookup asks for. *)
Definition lookup_fields (c : Call) : list (string * string) :=
  match c with
  | GetUserByEmail email => [("email", email)]
  | GetCheckoutPageBySlug slug => [("slug", slug)]
  | GetCouponByCode code userId => [("code", code); ("userId", userId)]
  | GetCustomerByEmail email userId => [("email", email); ("userId", userId)]
  | _ => []
  end.

(** ** Create, then get *)

(** The get by id [i] of the kind of entity that a create makes; the gets
    that join other entities to the result are left out. *)
Definition get_created (c : Call) (i : string) : option Call :=
  match c with
  | CreateUser _ _ => Some (GetUser i)
  | CreateProduct _ _ _ => Some (GetProduct i)
  | CreateCoupon _ _ _ => Some (GetCoupon i)
  | CreateCustomer _ _ _ => Some (GetCustomer i)
  | CreateEmailTemplate _ _ => Some (GetEmailTemplate i)
  | _ => None
  end.

(** An input whose values the document store gives back as they are
    written, or that are [undefined], and that brings no [id]. *)
Definition round_trip_input (o : Obj) : Prop :=
  o !! "id" = None ∧ ∀ k v, o !! k = Some v → v = VUndefined ∨ plain v.

(** The listing for the owner [u] of the kind of entity that a create makes;
    the listings that join other entities or cut the result are left out. *)
Definition listing_of_created (c : Call) (u : string) : option Call :=
  match c with
  | CreateProduct _ _ _ => Some (GetProducts u)
  | CreateCoupon _ _ _ => Some (GetCoupons u)
  | CreateCustomer _ _ _ => Some (GetCustomers u)
  | CreateEmailTemplate _ _ => Some (GetEmailTemplates u)
  | CreateAbandonedCart _ _ _ => Some (GetAbandonedCarts u)
  | _ => None
  end.

(** ** The serializer *)

(** The size of a value, for induction through arrays and objects. *)
Fixpoint vsize (v : Value) : nat :=
  match v with
  | VArr l => S (foldr (λ x acc, vsize x + acc)%nat 0%nat l)
  | VObj o => S (map_fold (λ _ x acc, vsize x + acc)%nat 0%nat o)
  | _ => 1%nat
  end.

(** Some object inside the value, at any depth, has a property whose value
    is [undefined]. *)
Inductive undefined_inside : Value → Prop :=
| undefined_property (o : Obj) k :
    o !! k = Some VUndefined → undefined_inside (VObj o)
| undefined_in_property (o : Obj) k v :
    o !! k = Some v → undefined_inside v → undefined_inside (VObj o)
| undefined_in_element l v :
    v ∈ l → undefined_inside v → undefined_inside (VArr l).

(** ** What a call touches *)

(** The id of the entity that a write is about: the generated id of a
    create, the id given to an update or a delete. *)
Definition call_target (c : Call) : option string :=
  match c with
  | CreateUser id _ | UpdateUser id _
  | CreateProduct id _ _ | UpdateProduct id _ | DeleteProduct id
  | CreateCheckoutPage id _ _ | UpdateCheckoutPage id _ | DeleteCheckoutPage id
  | CreateCoupon id _ _ | UpdateCoupon id _ | DeleteCoupon id
  | CreateCustomer id _ _ | UpdateCustomer id _
  | CreateOrder id _ _ | UpdateOrder id _
  | CreateOrderItem id _
  | CreateEmailTemplate id _ | UpdateEmailTemplate id _ | DeleteEmailTemplate id
  | CreatePixelEvent id _ _
  | CreateAbandonedCart id _ _ | UpdateAbandonedCart id _ => Some id
  | _ => None
  end.

(** The store [db'] differs from [db] at most in the document [id] of the
    collection [c]. *)
Definition only_touches (c id : string) (db db' : Firestore) : Prop :=
  fs_faults db' = fs_faults db
  ∧ ∀ c' id', (c', id') ≠ (c, id) → fs_docs c' db' !! id' = fs_docs c' db !! id'.

(** Whatever a computation answers, the store it leaves is related by [T]
    to the store it found. *)
Definition keeps {S A} (T : S → S → Prop) (m : M S A) : Prop := ∀ s, T s (after m s).

(** The database [db'] has the tables other than [t] as [db] has them, and
    still has every row of [t] whose id is not [id]. *)
Definition rows_kept (t id : string) (db db' : Database) : Prop :=
  (∀ n, n ≠ t → db_rows n db' = db_rows n db)
  ∧ ∀ r, r ∈ db_rows t db → prop r "id" ≠ VStr id → r ∈ db_rows t db'.

(** ** The routes of [registerRoutes]

    A request body is the JSON object that the body parser gives; [fresh],
    [id] and [now] are the ids and the time that are generated while the
    request is handled. *)

(** [res.status(code).json(value)]. *)
Definition status_json (code : Z) (value : Value) : Response :=
  {| status := code; body := value |}.

(** [res.status(204).send()]. *)
Definition no_content : Response := {| status := 204; body := VUndefined |}.

Section crud_routes.
Context {prims : JsPrims} {S : Type} {storage : IStorage S}.

(** [try { ... } catch (error) { res.status(500).json({ error: failure }) }]. *)
Definition handler (failure : string) (m : M S Response) : M S Response :=
  try_catch m (λ error, mret (error_response 500 failure)).

(** The handlers that list what the current user owns. *)
Definition list_handler (list : string → M S (list Obj)) (failure fresh : string)
    : M S Response :=
  handler failure (
    userId ← getCurrentUserId fresh;
    items ← list userId;
    mret (json_response (VArr (VObj <$> items)))).

(** The handlers that read one entity. *)
Definition get_handler (get : string → M S (option Obj)) (missing failure key : string)
    : M S Response :=
  handler failure (
    item ← get key;
    match item with
    | None => mret (error_response 404 missing)
    | Some item => mret (json_response (VObj item))
    end).

(** The handlers that create an entity of the current user. *)
Definition post_handler (create : Obj → M S Obj) (failure fresh : string) (req_body : Obj)
    : M S Response :=
  handler failure (
    userId ← getCurrentUserId fresh;
    item ← create (<["userId" := VStr userId]> req_body);
    mret (status_json 201 (VObj item))).

(** The handlers that update an entity. *)
Definition patch_handler (update : string → Obj → M S (option Obj))
    (missing failure id : string) (req_body : Obj) : M S Response :=
  handler failure (
    item ← update id req_body;
    match item with
    | None => mret (error_response 404 missing)
    | Some item => mret (json_response (VObj item))
    end).

(** The handlers that delete an entity. *)
Definition delete_handler (delete : string → M S bool) (missing failure id : string)
    : M S Response :=
  handler failure (
    deleted ← delete id;
    if negb deleted then mret (error_response 404 missing) else mret no_content).

Definition get_api_products : string → M S Response :=
  list_handler getProducts "Failed to fetch products".
Definition get_api_products_id : string → M S Response :=
  get_handler getProduct "Product not found" "Failed to fetch product".
Definition post_api_products (id : string) (now : Z) : string → Obj → M S Response :=
  post_handler (createProduct id now) "Failed to create product".
Definition patch_api_products_id : string → Obj → M S Response :=
  patch_handler updateProduct "Product not found" "Failed to update product".
Definition delete_api_products_id : string → M S Response :=
  delete_handler deleteProduct "Product not found" "Failed to delete product".

Definition get_api_checkout_pages : string → M S Response :=
  list_handler getCheckoutPages "Failed to fetch checkout pages".
Definition get_api_checkout_pages_id : string → M S Response :=
  get_handler getCheckoutPage "Checkout page not found" "Failed to fetch checkout page".
Definition get_api_checkout_pages_slug : string → M S Response :=
  get_handler getCheckoutPageBySlug "Checkout page not found" "Failed to fetch checkout page".
Definition post_api_checkout_pages (id : string) (now : Z) : string → Obj → M S Response :=
  post_handler (createCheckoutPage id now) "Failed to create checkout page".
Definition patch_api_checkout_pages_id : string → Obj → M S Response :=
  patch_handler updateCheckoutPage "Checkout page not found" "Failed to update checkout page".
Definition delete_api_checkout_pages_id : string → M S Response :=
  delete_handler deleteCheckoutPage "Checkout page not found" "Failed to delete checkout page".

Definition get_api_coupons : string → M S Response :=
  list_handler getCoupons "Failed to fetch coupons".
Definition post_api_coupons (id : string) (now : Z) : string → Obj → M S Response :=
  post_handler (createCoupon id now) "Failed to create coupon".
Definition patch_api_coupons_id : string → Obj → M S Response :=
  patch_handler updateCoupon "Coupon not found" "Failed to update coupon".
Definition delete_api_coupons_id : string → M S Response :=
  delete_handler deleteCoupon "Coupon not found" "Failed to delete coupon".

Definition get_api_customers : string → M S Response :=
  list_handler getCustomers "Failed to fetch customers".
Definition get_api_customers_id : string → M S Response :=
  get_handler getCustomer "Customer not found" "Failed to fetch customer".

Definition get_api_orders : string → M S Response :=
  list_handler getOrders "Failed to fetch orders".
Definition get_api_orders_id : string → M S Response :=
  get_handler getOrder "Order not found" "Failed to fetch order".

Definition get_api_email_templates : string → M S Response :=
  list_handler getEmailTemplates "Failed to fetch email templates".
Definition post_api_email_templates (id : string) : string → Obj → M S Response :=
  post_handler (createEmailTemplate id) "Failed to create email template".
Definition patch_api_email_templates_id : string → Obj → M S Response :=
  patch_handler updateEmailTemplate "Email template not found" "Failed to update email template".
Definition delete_api_email_templates_id : string → M S Response :=
  delete_handler deleteEmailTemplate "Email template not found" "Failed to delete email template".

(** The POST, the DELETE and the list route of a kind of entity. *)
Definition post_route (e : Deletable) (id : string) (now : Z) : string → Obj → M S Response :=
  match e with
  | DProduct => post_api_products id now
  | DCheckoutPage => post_api_checkout_pages id now
  | DCoupon => post_api_coupons id now
  | DEmailTemplate => post_api_email_templates id
  end.

Definition delete_route (e : Deletable) : string → M S Response :=
  match e with
  | DProduct => delete_api_products_id
  | DCheckoutPage => delete_api_checkout_pages_id
  | DCoupon => delete_api_coupons_id
  | DEmailTemplate => delete_api_email_templates_id
  end.

Definition patch_route (e : Deletable) : string → Obj → M S Response :=
  match e with
  | DProduct => patch_api_products_id
  | DCheckoutPage => patch_api_checkout_pages_id
  | DCoupon => patch_api_coupons_id
  | DEmailTemplate => patch_api_email_templates_id
  end.

Definition list_route (e : Deletable) : string → M S Response :=
  match e with
  | DProduct => get_api_products
  | DCheckoutPage => get_api_checkout_pages
  | DCoupon => get_api_coupons
  | DEmailTemplate => get_api_email_templates
  end.

End crud_routes.

(** ** Update, then get *)

(** The get of the entity that an update has written, for the kinds whose
    get returns the entity alone. *)
Definition get_updated (c : Call) : option Call :=
  match c with
  | UpdateUser id _ => Some (GetUser id)
  | UpdateProduct id _ => Some (GetProduct id)
  | UpdateCoupon id _ => Some (GetCoupon id)
  | UpdateCustomer id _ => Some (GetCustomer id)
  | UpdateEmailTemplate id _ => Some (GetEmailTemplate id)
  | _ => None
  end.

(** The partial entity that an update is given. *)
Definition update_data (c : Call) : option Obj :=
  match c with
  | UpdateUser _ data | UpdateProduct _ data | UpdateCheckoutPage _ data
  | UpdateCoupon _ data | UpdateCustomer _ data | UpdateOrder _ data
  | UpdateEmailTemplate _ data | UpdateAbandonedCart _ data => Some data
  | _ => None
  end.

(** ** Unique keys *)

(** In every table no two rows have the same value in a column that is
    declared unique or is the primary key (a null is equal to nothing). *)
Definition keys_unique (db : Database) : Prop :=
  ∀ t c i j r r',
    t ∈ schema → c ∈ tbl_columns t → col_unique c || col_primaryKey c = true →
    db_rows (tbl_name t) db !! i = Some r → db_rows (tbl_name t) db !! j = Some r' →
    sql_eq (prop r (col_name c)) (prop r' (col_name c)) = true → i = j.

(** ** Joins *)

(** The entities that a read attaches to what it returns: the property that
    holds the attached entity, and the property that holds its id. *)
Definition joins (c : Call) : list (string * string) :=
  match c with
  | GetCheckoutPages _ | GetCheckoutPage _ | GetCheckoutPageBySlug _
  | GetOrderItems _ => [("product", "productId")]
  | GetOrders _ | GetOrder _ => [("customer", "customerId")]
  | _ => []
  end.

(** The entity [o] is the one answered, or one of the list answered. *)
Definition answered (a : Answer) (o : Obj) : Prop :=
  match a with
  | AEntity e => o = e
  | AList l => o ∈ l
  | _ => False
  end.

Definition sample_page (userId productId slug : string) : Obj :=
  <["name" := VStr "Offer"]>
    (<["slug" := VStr slug]> (<["productId" := VStr productId]> {["userId" := VStr userId]})).

(** ** What a listing shows *)

(** The documents and the rows of an owner. *)
Definition owner_docs (c userId : string) (db : Firestore) : list (string * Obj) :=
  filter (λ d, field_is d.2 "userId" userId = true) (map_to_list (fs_docs c db)).

Definition owner_rows (t : Table) (userId : string) (db : Database) : list Obj :=
  filter (λ r, sql_eq (prop r "userId") (VStr userId) = true) (db_rows (tbl_name t) db).

(** The query and the select of a listing, before a limit applies. *)
Definition owner_query (c userId : string) : Query :=
  orderBy_desc "createdAt" (where_eq "userId" userId (collection c)).

Definition owner_select (t : Table) (userId : string) : Select :=
  orderBy_desc_col "createdAt" (where_ [("userId", VStr userId)] (select_from t)).

(** Along the list the creation times do not ascend. *)
Definition stamps_descend (docs : list (string * Obj)) : Prop :=
  ∀ (i j : nat) (a b : string * Obj) (ta tb : Z),
    (i < j)%nat → docs !! i = Some a → docs !! j = Some b →
    prop a.2 "createdAt" = VTimestamp ta →
    prop b.2 "createdAt" = VTimestamp tb →
    tb ≤ ta.

(** The fields that a listing of the document backend sets itself: the
    document id, the dates it reads through [toDate] and what it joins. *)
Definition listing_fields (e : Listed) : list string :=
  match e with
  | LProducts | LCustomers => ["id"; "createdAt"]
  | LCheckoutPages => ["id"; "createdAt"; "product"]
  | LCoupons => ["id"; "createdAt"; "expiresAt"]
  | LOrders => ["id"; "createdAt"; "customer"; "items"]
  | LPixelEvents => ["id"; "createdAt"; "eventTime"]
  | LAbandonedCarts => ["id"; "createdAt"; "recoveredAt"]
  end.

(** What a listing of the relational backend adds to a row. *)
Definition joined_fields (e : Listed) : list string :=
  match e with
  | LCheckoutPages => ["product"]
  | LOrders => ["customer"; "items"]
  | _ => []
  end.

(** The entry [o] of a listing shows the document [d]: it carries the id
    of the document, its creation time as a date, and every other field
    as it is stored. *)
Definition shows_doc (e : Listed) (d : string * Obj) (o : Obj) : Prop :=
  prop o "id" = VStr d.1
  ∧ (∀ t, prop d.2 "createdAt" = VTimestamp t → prop o "createdAt" = VDate (ValidDate t))
  ∧ ∀ k, k ∉ listing_fields e → prop o k = prop d.2 k.

(** The entry [o] shows the row [r]. *)
Definition shows_row (e : Listed) (r o : Obj) : Prop :=
  ∀ k, k ∉ joined_fields e → prop o k = prop r k.

(** The whole list, or its first [n] entries. *)
Definition first_of {A} (n : option nat) (l : list A) : list A :=
  match n with
  | Some n => take n l
  | None => l
  end.

(** [l] shows the documents of the owner, the most recent first, all of
    them or the first [n]. *)
Definition lists_docs (e : Listed) (userId : string) (db : Firestore) (n : option nat)
    (l : list Obj) : Prop :=
  ∃ docs, docs ≡ₚ owner_docs (tbl_name (listed_table e)) userId db
          ∧ stamps_descend docs
          ∧ Forall2 (shows_doc e) (first_of n docs) l.

Definition lists_rows (e : Listed) (userId : string) (db : Database) (n : option nat)
    (l : list Obj) : Prop :=
  ∃ rows, rows ≡ₚ owner_rows (listed_table e) userId db
          ∧ newest_first rows
          ∧ Forall2 (shows_row e) (first_of n rows) l.

(** [getPixelEvents] is listed with its default limit. *)
Definition listing_cap (e : Listed) : option nat :=
  match e with
  | LPixelEvents => Some 100%nat
  | _ => None
  end.

Definition is_stamp (v : Value) : bool :=
  match v with
  | VTimestamp _ => true
  | _ => false
  end.

(** Every document of the collection has a [Timestamp] as [createdAt]:
    what the create methods write. *)
Definition stamped (c : string) (db : Firestore) : Prop :=
  ∀ id doc, fs_docs c db !! id = Some doc → is_stamp (prop doc "createdAt") = true.

(** The dates that the listings read are [Timestamp]s, null or missing. *)
Definition dates_typed (c : string) (db : Firestore) : Prop :=
  ∀ id doc, fs_docs c db !! id = Some doc →
    forallb (λ k, created_typed (prop doc k))
      ["createdAt"; "expiresAt"; "eventTime"; "recoveredAt"] = true.

Definition is_doc_ref (v : Value) : bool :=
  match v with
  | VStr r => valid_doc_id r
  | _ => false
  end.

(** The field [k] of every document of [c] is a document id. *)
Definition refs_typed (c k : string) (db : Firestore) : Prop :=
  ∀ id doc, fs_docs c db !! id = Some doc → is_doc_ref (prop doc k) = true.

(** The store answers on the collections that the listing reads, and their
    documents hold what the declared types say. *)
Definition listing_ready (e : Listed) (db : Firestore) : Prop :=
  fs_faults db !! tbl_name (listed_table e) = None
  ∧ stamped (tbl_name (listed_table e)) db
  ∧ dates_typed (tbl_name (listed_table e)) db
  ∧ match e with
    | LCheckoutPages =>
        fs_faults db !! "products" = None ∧ dates_typed "products" db
        ∧ refs_typed "checkoutPages" "productId" db
    | LOrders =>
        fs_faults db !! "customers" = None ∧ dates_typed "customers" db
        ∧ fs_faults db !! "orderItems" = None
        ∧ refs_typed "orders" "customerId" db
    | _ => True
    end.

(** A choice of the abstract primitives under which one ISO date string
    parses, as [Date.parse] reads it: five milliseconds after the epoch. *)
Definition iso_prims : JsPrims :=
  {| parseDate := λ s, if String.eqb s "1970-01-01T00:00:00.005Z" then ValidDate 5
                       else InvalidDate;
     geOther := λ _ _, false;
     newDateOther := λ _, InvalidDate |}.

(** The store [documents_with_product] with a second product, created
    later. *)
Definition documents_with_products : Firestore :=
  (FirebaseStorage.createProduct product_2 20 (sample_product user_1 "Course")
     documents_with_product).2.

(** The products of [user_1] as [getProducts] lists them after an update
    that gives the older product a [createdAt] string. *)
Definition relisted_products : list Obj :=
  match (_ ← FirebaseStorage.updateProduct (prims:=iso_prims) product_1
               {["createdAt" := VStr "1970-01-01T00:00:00.005Z"]};
         FirebaseStorage.getProducts (prims:=iso_prims) user_1) documents_with_products with
  | (Ok l, _) => l
  | (Throw _, _) => []
  end.

(** The two stores holding two pixel events of [user_1]. *)
Definition documents_with_events : Firestore :=
  (FirebaseStorage.createPixelEvent event_2 20 (sample_event user_1 "Purchase" 19)
     (FirebaseStorage.createPixelEvent event_1 10 (sample_event user_1 "PageView" 9)
        empty_firestore).2).2.

Definition tables_with_events : Database :=
  (DatabaseStorage.createPixelEvent event_2 20 (sample_event user_1 "Purchase" 19)
     (DatabaseStorage.createPixelEvent event_1 10 (sample_event user_1 "PageView" 9)
        (DatabaseStorage.createUser user_1 sample_user ∅).2).2).2.

(** The limit that the relational query applies: none when the argument
    is negative. *)
Definition row_limit (n : Z) : option nat :=
  if 0 <=? n then Some (Z.to_nat n) else None.

(** * Properties *)

(** ** Running the store monad *)

Lemma bind_ok {S A B} (m : M S A) (f : A → M S B) s a s' :
  m s = (Ok a, s') → (m ≫= f) s = f a s'.
Proof. intros E. unfold mbind, M_bind. by rewrite E. Qed.

Lemma bind_throw {S A B} (m : M S A) (f : A → M S B) s e s' :
  m s = (Throw e, s') → (m ≫= f) s = (Throw e, s').
Proof. intros E. unfold mbind, M_bind. by rewrite E. Qed.

Lemma catch_not_found_ok {S A} (d : A) (m : M S A) s a s' :
  m s = (Ok a, s') → catch_not_found d m s = (Ok a, s').
Proof. intros E. unfold catch_not_found, try_catch. by rewrite E. Qed.

Lemma catch_not_found_5 {S A} (d : A) (m : M S A) s e s' :
  m s = (Throw e, s') → code_is_5 e = true → catch_not_found d m s = (Ok d, s').
Proof. intros E E5. unfold catch_not_found, try_catch. by rewrite E, E5. Qed.

Lemma catch_not_found_other {S A} (d : A) (m : M S A) s e s' :
  m s = (Throw e, s') → code_is_5 e = false → catch_not_found d m s = (Throw e, s').
Proof. intros E E5. unfold catch_not_found, try_catch. by rewrite E, E5. Qed.

(** ** Coupon validation *)

Lemma filter_none {A} (P : A → Prop) `{∀ x, Decision (P x)} (l : list A) :
  (∀ x, x ∈ l → ¬ P x) → filter P l = [].
Proof.
  induction l as [|x l IH]; intros Hn; [done|].
  rewrite filter_cons_False by (apply Hn; left).
  apply IH. intros y Hy. apply Hn. by right.
Qed.

Lemma doc_get_ok c id db :
  fs_faults db !! c = None → doc_get c id db = (Ok (fs_docs c db !! id), db).
Proof. intros Hf. unfold doc_get, fs_request. by rewrite Hf. Qed.

Lemma doc_get_fault c id db e :
  fs_faults db !! c = Some e → doc_get c id db = (Throw e, db).
Proof. intros Hf. unfold doc_get, fs_request. by rewrite Hf. Qed.

Lemma query_get_ok q db :
  fs_faults db !! q_coll q = None → q_rejected q = false →
  query_get q db = (Ok (run_query q (fs_docs (q_coll q) db)), db).
Proof. intros Hf Hq. unfold query_get, fs_request. by rewrite Hf, Hq. Qed.

Lemma query_get_fault q db e :
  fs_faults db !! q_coll q = Some e → query_get q db = (Throw e, db).
Proof. intros Hf. unfold query_get, fs_request. by rewrite Hf. Qed.

Lemma getCouponByCode_fs_none {prims : JsPrims} code userId db :
  fs_faults db !! "coupons" = None → no_coupon_fs code userId db →
  FirebaseStorage.getCouponByCode code userId db = (Ok None, db).
Proof.
  intros Hf Hn. unfold FirebaseStorage.getCouponByCode.
  apply catch_not_found_ok.
  erewrite bind_ok by (by apply query_get_ok).
  unfold run_query. cbn.
  rewrite filter_none; [done|].
  intros [id doc] Hin. apply elem_of_map_to_list in Hin.
  specialize (Hn id doc Hin). cbn. rewrite andb_true_r.
  intros E. by rewrite E in Hn.
Qed.

Lemma getCouponByCode_db_none code userId (db : Database) :
  no_coupon_db code userId db →
  DatabaseStorage.getCouponByCode code userId db = (Ok None, db).
Proof.
  intros Hn. unfold DatabaseStorage.getCouponByCode.
  erewrite bind_ok by reflexivity.
  unfold run_select. cbn.
  rewrite filter_none; [done|].
  intros r Hin. specialize (Hn r Hin). rewrite andb_true_r.
  intros E. by rewrite E in Hn.
Qed.

Lemma validate_typed {prims : JsPrims} (now : Z) (coupon : Obj) (f : CouponFields) :
  has_fields coupon f → validate now (Some coupon) = verdict now coupon f.
Proof.
  intros (Ha & Hl & Hn & He). unfold validate, verdict, limit_reached, expired.
  rewrite Ha, Hl, Hn, He.
  destruct f as [[[|]|] [l|] [n|] [[t|]|]]; cbn; try reflexivity;
    repeat (destruct (_ =? 0); cbn; try reflexivity);
    repeat (destruct (_ <=? _); cbn; try reflexivity).
Qed.




(** C9: the usage-limit rule fires only when usageLimit and usedCount are
    both truthy (set and non-zero); a coupon whose usageLimit is 0, or whose
    usedCount is 0 or null, is never answered "limit reached". *)
Theorem usage_limit_guard {prims : JsPrims} (now : Z) (coupon : Obj) :
  (validate now (Some coupon) = error_response 400 "Coupon usage limit reached" →
     truthy (prop coupon "usageLimit") = true
     ∧ truthy (prop coupon "usedCount") = true
     ∧ js_ge (prop coupon "usedCount") (prop coupon "usageLimit") = true)
  ∧ (prop coupon "usageLimit" = VNum 0
     ∨ prop coupon "usedCount" = VNum 0
     ∨ prop coupon "usedCount" = VNull →
     validate now (Some coupon) ≠ error_response 400 "Coupon usage limit reached").
Proof.
  assert (Hfire : validate now (Some coupon)
                  = error_response 400 "Coupon usage limit reached" →
                  truthy (prop coupon "usageLimit") = true
                  ∧ truthy (prop coupon "usedCount") = true
                  ∧ js_ge (prop coupon "usedCount") (prop coupon "usageLimit") = true).
  { unfold validate.
    destruct (negb (truthy (prop coupon "isActive"))); [discriminate|].
    destruct (truthy (prop coupon "usageLimit")); cbn [andb].
    - destruct (truthy (prop coupon "usedCount")); cbn [andb].
      + destruct (js_ge _ _); [done|].
        destruct (_ && _); discriminate.
      + destruct (_ && _); discriminate.
    - destruct (_ && _); discriminate. }
  split; [exact Hfire|].
  intros Hz Hv. destruct (Hfire Hv) as (Hl & Hn & _).
  destruct Hz as [Hz|[Hz|Hz]]; rewrite Hz in *; discriminate.
Qed.

Lemma usage_limit_guard_witness :
  (truthy (VNum 3) = true ∧ truthy (VNum 3) = true
   ∧ js_ge (prims:=sample_prims) (VNum 3) (VNum 3) = true)
  ∧ validate (prims:=sample_prims) 50
      (Some (sample_coupon (VBool true) (VNum 0) (VNum 7) VNull))
    ≠ error_response 400 "Coupon usage limit reached".
Proof.
  split.
  - apply (usage_limit_guard (prims:=sample_prims) 50
             (sample_coupon (VBool true) (VNum 3) (VNum 3) VNull)).
    reflexivity.
  - apply (usage_limit_guard (prims:=sample_prims) 50
             (sample_coupon (VBool true) (VNum 0) (VNum 7) VNull)).
    left. reflexivity.
Defined.

(** ** Writing to Firestore *)

Lemma omap_size_total {A B} (f : A → option B) (m : gmap string A) :
  (∀ k v, m !! k = Some v → is_Some (f v)) → size (omap f m) = size m.
Proof.
  induction m as [|i x m Hi IH] using map_ind; intros Hall.
  - by rewrite omap_empty.
  - destruct (Hall i x) as [y Hy]; [by rewrite lookup_insert_eq|].
    rewrite (omap_insert_Some f m i x y Hy).
    rewrite !map_size_insert_None; [|done|by rewrite lookup_omap, Hi].
    f_equal. apply IH. intros k v Hk. apply (Hall k v).
    rewrite lookup_insert_ne; [done|]. intros ->. by rewrite Hi in Hk.
Qed.

Lemma serializeObj_lookup (o : Obj) k :
  serializeObj o !! k
  = match o !! k with
    | Some VUndefined | None => None
    | Some v => Some (serializeForFirestore v)
    end.
Proof.
  unfold serializeObj. cbn. rewrite lookup_omap.
  destruct (o !! k) as [[]|]; reflexivity.
Qed.

Lemma fs_encode_VObj (o : Obj) :
  fs_encode (VObj o)
  = if decide (size (omap fs_encode o) = size o)
    then Some (VObj (omap fs_encode o)) else None.
Proof. reflexivity. Qed.

Lemma fs_encode_obj_stored (o : Obj) :
  storable o → fs_encode_obj (serializeObj o) = Some (stored o).
Proof.
  intros Hs. unfold fs_encode_obj, stored. rewrite fs_encode_VObj.
  rewrite decide_True; [done|].
  apply omap_size_total. intros k v Hk. rewrite serializeObj_lookup in Hk.
  destruct (o !! k) as [w|] eqn:Hw; [|done].
  assert (w ≠ VUndefined) as Hne by (intros ->; discriminate).
  destruct (Hs k w Hw Hne) as [e He].
  assert (v = serializeForFirestore w) as ->
    by (destruct w; congruence).
  by eexists.
Qed.

Lemma storable_insert (o : Obj) k v :
  storable o → (v ≠ VUndefined → is_Some (fs_encode (serializeForFirestore v))) →
  storable (<[k := v]> o).
Proof.
  intros Hs Hv k' v' Hk Hne. destruct (decide (k = k')) as [->|Hkk].
  - rewrite lookup_insert_eq in Hk. simplify_eq. by apply Hv.
  - rewrite lookup_insert_ne in Hk by done. by apply (Hs k' v').
Qed.

Lemma storable_coalesce (o : Obj) k d :
  storable o → is_Some (fs_encode (serializeForFirestore d)) →
  coalesce (prop o k) d ≠ VUndefined →
  is_Some (fs_encode (serializeForFirestore (coalesce (prop o k) d))).
Proof.
  intros Hs Hd Hne. unfold prop in *. destruct (o !! k) as [v|] eqn:Hv.
  - destruct v; first [exact Hd | apply (Hs k _ Hv); congruence].
  - exact Hd.
Qed.

Lemma fs_docs_put_same c docs db : fs_docs c (fs_put_docs c docs db) = docs.
Proof. unfold fs_docs, fs_put_docs. cbn. by rewrite lookup_insert_eq. Qed.

Lemma fs_docs_put_other c c' docs db :
  c ≠ c' → fs_docs c' (fs_put_docs c docs db) = fs_docs c' db.
Proof. intros Hc. unfold fs_docs, fs_put_docs. cbn. by rewrite lookup_insert_ne. Qed.

Lemma fs_faults_put c docs db : fs_faults (fs_put_docs c docs db) = fs_faults db.
Proof. reflexivity. Qed.

Lemma doc_set_ok c id (o : Obj) db :
  fs_faults db !! c = None → storable o →
  doc_set c id (serializeObj o) db
  = (Ok tt, fs_put_docs c (<[id := stored o]> (fs_docs c db)) db).
Proof.
  intros Hf Hs. unfold doc_set. rewrite (fs_encode_obj_stored o Hs).
  unfold fs_request. by rewrite Hf.
Qed.

Lemma doc_delete_ok c id db :
  fs_faults db !! c = None →
  doc_delete c id db = (Ok tt, fs_put_docs c (delete id (fs_docs c db)) db).
Proof. intros Hf. unfold doc_delete, fs_request. by rewrite Hf. Qed.

(** ** Reads of the document backend over a collection that answers code 5 *)

Section not_found.
Context {prims : JsPrims}.
Variables (db : Firestore) (e : JsError).
Hypothesis He : code_is_5 e = true.

Ltac guarded :=
  intros Hf; eapply catch_not_found_5; [|exact He];
  apply bind_throw; first [by apply doc_get_fault | by apply query_get_fault].

Lemma getUser_not_found id :
  fs_faults db !! "users" = Some e → FirebaseStorage.getUser id db = (Ok None, db).
Proof. guarded. Qed.
Lemma getUserByEmail_not_found email :
  fs_faults db !! "users" = Some e → FirebaseStorage.getUserByEmail email db = (Ok None, db).
Proof. guarded. Qed.
Lemma getProducts_not_found userId :
  fs_faults db !! "products" = Some e → FirebaseStorage.getProducts userId db = (Ok [], db).
Proof. guarded. Qed.
Lemma getProduct_not_found id :
  fs_faults db !! "products" = Some e → FirebaseStorage.getProduct id db = (Ok None, db).
Proof. guarded. Qed.
Lemma getCheckoutPages_not_found userId :
  fs_faults db !! "checkoutPages" = Some e →
  FirebaseStorage.getCheckoutPages userId db = (Ok [], db).
Proof. guarded. Qed.
Lemma getCheckoutPage_not_found id :
  fs_faults db !! "checkoutPages" = Some e →
  FirebaseStorage.getCheckoutPage id db = (Ok None, db).
Proof. guarded. Qed.
Lemma getCheckoutPageBySlug_not_found slug :
  fs_faults db !! "checkoutPages" = Some e →
  FirebaseStorage.getCheckoutPageBySlug slug db = (Ok None, db).
Proof. guarded. Qed.
Lemma getCoupons_not_found userId :
  fs_faults db !! "coupons" = Some e → FirebaseStorage.getCoupons userId db = (Ok [], db).
Proof. guarded. Qed.
Lemma getCoupon_not_found id :
  fs_faults db !! "coupons" = Some e → FirebaseStorage.getCoupon id db = (Ok None, db).
Proof. guarded. Qed.
Lemma getCouponByCode_not_found code userId :
  fs_faults db !! "coupons" = Some e →
  FirebaseStorage.getCouponByCode code userId db = (Ok None, db).
Proof. guarded. Qed.
Lemma getCustomers_not_found userId :
  fs_faults db !! "customers" = Some e → FirebaseStorage.getCustomers userId db = (Ok [], db).
Proof. guarded. Qed.
Lemma getCustomer_not_found id :
  fs_faults db !! "customers" = Some e → FirebaseStorage.getCustomer id db = (Ok None, db).
Proof. guarded. Qed.
Lemma getCustomerByEmail_not_found email userId :
  fs_faults db !! "customers" = Some e →
  FirebaseStorage.getCustomerByEmail email userId db = (Ok None, db).
Proof. guarded. Qed.
Lemma getOrders_not_found userId :
  fs_faults db !! "orders" = Some e → FirebaseStorage.getOrders userId db = (Ok [], db).
Proof.
  intros Hf. unfold FirebaseStorage.getOrders.
  rewrite (bind_ok _ _ _ None db); [reflexivity|].
  eapply catch_not_found_5; [|exact He]. apply bind_throw. by apply query_get_fault.
Qed.
Lemma getEmailTemplates_not_found userId :
  fs_faults db !! "emailTemplates" = Some e →
  FirebaseStorage.getEmailTemplates userId db = (Ok [], db).
Proof. guarded. Qed.
Lemma getPixelEvents_not_found userId lim :
  fs_faults db !! "pixelEvents" = Some e →
  FirebaseStorage.getPixelEvents userId lim db = (Ok [], db).
Proof. guarded. Qed.
Lemma getAbandonedCarts_not_found userId :
  fs_faults db !! "abandonedCarts" = Some e →
  FirebaseStorage.getAbandonedCarts userId db = (Ok [], db).
Proof. guarded. Qed.

(** The three reads without a handler let the same error through. *)
Lemma getOrder_not_found id :
  fs_faults db !! "orders" = Some e → FirebaseStorage.getOrder id db = (Throw e, db).
Proof. intros Hf. apply bind_throw. by apply doc_get_fault. Qed.
Lemma getOrderItems_not_found orderId :
  fs_faults db !! "orderItems" = Some e →
  FirebaseStorage.getOrderItems orderId db = (Throw e, db).
Proof. intros Hf. apply bind_throw. by apply query_get_fault. Qed.
Lemma getEmailTemplate_not_found id :
  fs_faults db !! "emailTemplates" = Some e →
  FirebaseStorage.getEmailTemplate id db = (Throw e, db).
Proof. intros Hf. apply bind_throw. by apply doc_get_fault. Qed.

End not_found.

(** C3 (code defect): on a store whose collections answer code 5, the
    guarded reads give an empty sequence or an absent value, but [getOrder],
    [getOrderItems] and [getEmailTemplate] have no handler and throw the
    error to the caller. *)
Theorem unguarded_reads_throw_not_found :
  let db := unprovisioned_firestore in
  code_is_5 NotFound = true
  ∧ FirebaseStorage.getOrder (prims:=sample_prims) "o1" db = (Throw NotFound, db)
  ∧ FirebaseStorage.getOrderItems (prims:=sample_prims) "o1" db = (Throw NotFound, db)
  ∧ FirebaseStorage.getEmailTemplate "t1" db = (Throw NotFound, db)
  ∧ FirebaseStorage.getOrders (prims:=sample_prims) "u1" db = (Ok [], db)
  ∧ FirebaseStorage.getProducts (prims:=sample_prims) "u1" db = (Ok [], db)
  ∧ FirebaseStorage.getProduct (prims:=sample_prims) "p1" db = (Ok None, db)
  ∧ FirebaseStorage.getEmailTemplates "u1" db = (Ok [], db).
Proof. cbv zeta. repeat split; reflexivity. Qed.

(** ** Delete *)

Lemma filter_filter_neg {A} (f : A → bool) (l : list A) :
  filter (λ r, f r = true) (filter (λ r, f r ≠ true) l) = [].
Proof.
  apply filter_none. intros x Hx. apply list_elem_of_filter in Hx. tauto.
Qed.

Lemma length_filter_existsb {A} (f : A → bool) (l : list A) :
  bool_decide (0 < length (filter (λ r, f r = true) l))%nat = existsb f l.
Proof.
  induction l as [|x l IH]; [done|]. cbn [existsb]. destruct (f x) eqn:Hx.
  - rewrite filter_cons_True by done. cbn. apply bool_decide_eq_true. lia.
  - rewrite filter_cons_False by congruence. by rewrite IH.
Qed.

Lemma existsb_pointwise {A} (f g : A → bool) (l : list A) :
  (∀ x, f x = g x) → existsb f l = existsb g l.
Proof. intros Hfg. induction l as [|x l IH]; [done|]. cbn. by rewrite Hfg, IH. Qed.

Lemma satisfies_id (id : string) (r : Obj) :
  satisfies [("id", VStr id)] r = sql_eq (prop r "id") (VStr id).
Proof. unfold satisfies. cbn. by rewrite andb_true_r. Qed.

Lemma db_rows_insert name rows (db : Database) :
  db_rows name (<[name := rows]> db) = rows.
Proof. unfold db_rows. by rewrite lookup_insert_eq. Qed.

Lemma db_delete_by_id (t : Table) (id : string) (db : Database) :
  let present := existsb (λ r, sql_eq (prop r "id") (VStr id)) (db_rows (tbl_name t) db) in
  match db_delete t [("id", VStr id)] db with
  | (Ok deleted, db') =>
      bool_decide (0 < length deleted)%nat = present
      ∧ run_select (where_ [("id", VStr id)] (select_from t)) db' = []
  | (Throw err, db') => err = foreign_key_violation ∧ db' = db ∧ present = true
  end.
Proof.
  cbv zeta. unfold db_delete.
  destruct (existsb _ (filter _ _)) eqn:Href.
  - split; [done|]. split; [done|].
    apply existsb_exists in Href as (r & Hr & _).
    apply list_elem_of_In, list_elem_of_filter in Hr as [Hs Hr].
    apply existsb_exists. exists r. split; [by apply list_elem_of_In|].
    by rewrite <-satisfies_id.
  - split.
    + rewrite length_filter_existsb. apply existsb_pointwise, satisfies_id.
    + unfold run_select. cbn. rewrite db_rows_insert. apply filter_filter_neg.
Qed.

(** Expose the method of the backend behind a call through the contract. *)
Ltac reveal :=
  cbn [delete_of get_of table_of tbl_name products checkoutPages coupons emailTemplates
       getUser getUserByEmail createUser updateUser
       getProducts getProduct createProduct updateProduct deleteProduct
       getCheckoutPages getCheckoutPage getCheckoutPageBySlug createCheckoutPage
       updateCheckoutPage deleteCheckoutPage
       getCoupons getCoupon getCouponByCode createCoupon updateCoupon deleteCoupon
       getCustomers getCustomer getCustomerByEmail createCustomer updateCustomer
       getOrders getOrder createOrder updateOrder createOrderItem getOrderItems
       getEmailTemplates getEmailTemplate createEmailTemplate updateEmailTemplate
       deleteEmailTemplate createPixelEvent getPixelEvents
       createAbandonedCart getAbandonedCarts updateAbandonedCart
       FirebaseStorage_IStorage DatabaseStorage_IStorage] in *.



(** ** Defaults on create *)

Lemma db_insert_ok t id now values (db : Database) :
  insertable t id now values db →
  db_insert t id now values db
  = (Ok [new_row t id now values],
     <[tbl_name t := db_rows (tbl_name t) db ++ [new_row t id now values]]> db).
Proof. intros (Hn & Hu & Hf). unfold db_insert. by rewrite Hn, Hu, Hf. Qed.

Lemma db_insert_inv t id now values (db db' : Database) rows :
  db_insert t id now values db = (Ok rows, db') →
  insertable t id now values db
  ∧ rows = [new_row t id now values]
  ∧ db' = <[tbl_name t := db_rows (tbl_name t) db ++ [new_row t id now values]]> db.
Proof.
  unfold db_insert, insertable.
  destruct (not_null_ok _ _); [|discriminate].
  destruct (unique_ok _ _ _); [|discriminate].
  destruct (fk_ok _ _ _); [|discriminate].
  cbn. intros [= <- <-]. done.
Qed.

Lemma new_row_lookup t id now values c name :
  col_name c = name →
  NoDup (col_name <$> tbl_columns t) → c ∈ tbl_columns t →
  new_row t id now values !! name
  = Some (match prop values name with
          | VUndefined => default_value id now (col_default c)
          | v => v
          end).
Proof.
  intros <- Hnd Hc. unfold new_row. apply elem_of_list_to_map.
  - rewrite <-list_fmap_compose. exact Hnd.
  - apply list_elem_of_fmap. by exists c.
Qed.

Lemma schema_NoDup t : t ∈ schema → NoDup (col_name <$> tbl_columns t).
Proof.
  intros Ht. unfold schema in Ht.
  repeat (apply elem_of_cons in Ht as [->|Ht];
          [apply (bool_decide_unpack _); by vm_compute|]).
  by apply not_elem_of_nil in Ht.
Qed.

Lemma stored_lookup (o : Obj) k :
  stored o !! k
  = match o !! k with
    | Some VUndefined | None => None
    | Some v => fs_encode (serializeForFirestore v)
    end.
Proof.
  unfold stored. rewrite lookup_omap, serializeObj_lookup.
  destruct (o !! k) as [[]|]; reflexivity.
Qed.

Lemma createProduct_fs_ok {prims : JsPrims} id now (product : Obj) db :
  fs_faults db !! "products" = None → storable product →
  ∃ p, FirebaseStorage.createProduct id now product db
       = (Ok p, fs_put_docs "products" (<[id := stored p]> (fs_docs "products" db)) db)
     ∧ p = <["isActive" := coalesce (prop product "isActive") (VBool true)]>
             (<["downloadLimit" := coalesce (prop product "downloadLimit") (VNum 5)]>
                (<["createdAt" := VDate (ValidDate now)]> (<["id" := VStr id]> product))).
Proof.
  intros Hf Hs. eexists. split; [|reflexivity].
  unfold FirebaseStorage.createProduct.
  erewrite bind_ok; [reflexivity|]. apply doc_set_ok; [done|].
  apply storable_insert; [|intros Hne; apply storable_coalesce; [done|by eexists|done]].
  apply storable_insert; [|intros Hne; apply storable_coalesce; [done|by eexists|done]].
  apply storable_insert; [|intros _; by eexists].
  apply storable_insert; [done|intros _; by eexists].
Qed.

Lemma createCoupon_fs_ok {prims : JsPrims} id now (coupon : Obj) db :
  fs_faults db !! "coupons" = None → storable coupon →
  ∃ c, FirebaseStorage.createCoupon id now coupon db
       = (Ok c, fs_put_docs "coupons" (<[id := stored c]> (fs_docs "coupons" db)) db)
     ∧ c = <["isActive" := coalesce (prop coupon "isActive") (VBool true)]>
             (<["usedCount" := VNum 0]>
                (<["createdAt" := VDate (ValidDate now)]> (<["id" := VStr id]> coupon))).
Proof.
  intros Hf Hs. eexists. split; [|reflexivity].
  unfold FirebaseStorage.createCoupon.
  erewrite bind_ok; [reflexivity|]. apply doc_set_ok; [done|].
  apply storable_insert; [|intros Hne; apply storable_coalesce; [done|by eexists|done]].
  apply storable_insert; [|intros _; by eexists].
  apply storable_insert; [|intros _; by eexists].
  apply storable_insert; [done|intros _; by eexists].
Qed.

Lemma prop_insert_eq (o : Obj) k v : prop (<[k := v]> o) k = v.
Proof. unfold prop. by rewrite lookup_insert_eq. Qed.

Lemma prop_insert_ne (o : Obj) k k' v : k ≠ k' → prop (<[k := v]> o) k' = prop o k'.
Proof. intros Hk. unfold prop. by rewrite lookup_insert_ne. Qed.

Lemma prop_absent (o : Obj) k : o !! k = None → prop o k = VUndefined.
Proof. intros Hk. unfold prop. by rewrite Hk. Qed.

(** The defaults both backends apply on create: an omitted [downloadLimit]
    becomes 5 and an omitted [isActive] becomes true; the document backend
    sets [usedCount] to 0 whatever the input, the relational backend does so
    for an input without [usedCount]. *)
Lemma default_hydration {prims : JsPrims} (id : string) (now : Z) (input : Obj) :
  (∀ db : Firestore,
     fs_faults db !! "products" = None → storable input →
     ∃ p db', createProduct id now input db = (Ok p, db')
       ∧ (input !! "downloadLimit" = None → prop p "downloadLimit" = VNum 5)
       ∧ (input !! "isActive" = None → prop p "isActive" = VBool true))
  ∧ (∀ db : Firestore,
       fs_faults db !! "coupons" = None → storable input →
       ∃ c db', createCoupon id now input db = (Ok c, db')
         ∧ prop c "usedCount" = VNum 0)
  ∧ (∀ db : Database,
       insertable products id now input db →
       ∃ p db', createProduct id now input db = (Ok p, db')
         ∧ (input !! "downloadLimit" = None → prop p "downloadLimit" = VNum 5)
         ∧ (input !! "isActive" = None → prop p "isActive" = VBool true))
  ∧ (∀ db : Database,
       insertable coupons id now input db → input !! "usedCount" = None →
       ∃ c db', createCoupon id now input db = (Ok c, db')
         ∧ prop c "usedCount" = VNum 0).
Proof.
  split; [|split; [|split]].
  - intros db Hf Hs. destruct (createProduct_fs_ok id now input db Hf Hs) as (p & Hrun & ->).
    eexists _, _. split; [exact Hrun|]. split; intros Ho.
    + rewrite prop_insert_ne, prop_insert_eq by done. by rewrite (prop_absent _ _ Ho).
    + rewrite prop_insert_eq. by rewrite (prop_absent _ _ Ho).
  - intros db Hf Hs. destruct (createCoupon_fs_ok id now input db Hf Hs) as (c & Hrun & ->).
    eexists _, _. split; [exact Hrun|].
    by rewrite prop_insert_ne, prop_insert_eq.
  - intros db Hi. reveal. unfold DatabaseStorage.createProduct.
    eexists _, _. split.
    + erewrite bind_ok by (by apply db_insert_ok). reflexivity.
    + cbn [head from_option Datatypes.id]. split; intros Ho; unfold prop at 1.
      * rewrite (new_row_lookup products id now input
                   (withDefault (DefaultValue (VNum 5)) (col integer "downloadLimit")) "downloadLimit" eq_refl).
        -- cbn. by rewrite (prop_absent _ _ Ho).
        -- apply schema_NoDup. unfold schema. set_solver.
        -- unfold products. cbn. set_solver.
      * rewrite (new_row_lookup products id now input
                   (withDefault (DefaultValue (VBool true)) (col boolean "isActive")) "isActive" eq_refl).
        -- cbn. by rewrite (prop_absent _ _ Ho).
        -- apply schema_NoDup. unfold schema. set_solver.
        -- unfold products. cbn. set_solver.
  - intros db Hi Ho. reveal. unfold DatabaseStorage.createCoupon.
    eexists _, _. split.
    + erewrite bind_ok by (by apply db_insert_ok). reflexivity.
    + cbn [head from_option Datatypes.id]. unfold prop at 1.
      rewrite (new_row_lookup coupons id now input
                 (withDefault (DefaultValue (VNum 0)) (col integer "usedCount")) "usedCount" eq_refl).
      * cbn. by rewrite (prop_absent _ _ Ho).
      * apply schema_NoDup. unfold schema. set_solver.
      * unfold coupons. cbn. set_solver.
Qed.

(** C4 (code defect): [DatabaseStorage.createCoupon] inserts the input as it
    is, so an input that carries [usedCount: 7] comes back with usedCount 7;
    [FirebaseStorage.createCoupon] returns usedCount 0 for the same input. *)
Theorem createCoupon_usedCount_from_input :
  match DatabaseStorage.createCoupon "c1" 10 coupon_input_with_usedCount
          database_with_user with
  | (Ok coupon, _) => prop coupon "usedCount" = VNum 7
  | (Throw _, _) => False
  end
  ∧ match FirebaseStorage.createCoupon "c1" 10 coupon_input_with_usedCount
            empty_firestore with
    | (Ok coupon, _) => prop coupon "usedCount" = VNum 0
    | (Throw _, _) => False
    end.
Proof. split; vm_compute; reflexivity. Qed.

(** ** Sorting *)

Section sort_by.
Context {A : Type} (leb : A → A → bool).
Hypothesis leb_total : ∀ a b, leb a b = true ∨ leb b a = true.
Hypothesis leb_trans : ∀ a b c, leb a b = true → leb b c = true → leb a c = true.

Lemma insert_by_Permutation x l : insert_by leb x l ≡ₚ x :: l.
Proof.
  induction l as [|y l IH]; [done|]. cbn. destruct (leb x y); [done|].
  rewrite IH. apply Permutation_swap.
Qed.

Lemma sort_by_Permutation l : sort_by leb l ≡ₚ l.
Proof.
  induction l as [|x l IH]; [done|]. cbn. fold (sort_by leb l).
  by rewrite insert_by_Permutation, IH.
Qed.

Lemma insert_by_sorted x l :
  StronglySorted (λ a b, leb a b = true) l →
  StronglySorted (λ a b, leb a b = true) (insert_by leb x l).
Proof.
  induction 1 as [|y l Hl IH Hy]; cbn; [repeat constructor|].
  destruct (leb x y) eqn:Hxy.
  - constructor; [by constructor|]. constructor; [done|].
    eapply Forall_impl; [exact Hy|]. intros z Hz. by eapply leb_trans.
  - constructor; [done|]. rewrite insert_by_Permutation. constructor; [|done].
    destruct (leb_total x y); congruence.
Qed.

Lemma sort_by_sorted l : StronglySorted (λ a b, leb a b = true) (sort_by leb l).
Proof.
  induction l as [|x l IH]; [constructor|]. cbn. by apply insert_by_sorted.
Qed.

End sort_by.

Lemma StronglySorted_lookup_lt {A} (R : A → A → Prop) l i j x y :
  StronglySorted R l → (i < j)%nat → l !! i = Some x → l !! j = Some y → R x y.
Proof.
  intros Hs. revert i j. induction Hs as [|z l Hl IH Hz]; intros i j Hij Hi Hj; [done|].
  destruct j as [|j]; [lia|]. destruct i as [|i]; cbn in *.
  - simplify_eq. rewrite Forall_forall in Hz. apply Hz.
    by eapply list_elem_of_lookup_2.
  - apply (IH i j); [lia|done..].
Qed.

Lemma StronglySorted_take {A} (R : A → A → Prop) n l :
  StronglySorted R l → StronglySorted R (take n l).
Proof.
  intros Hs. revert n. induction Hs as [|z l Hl IH Hz]; intros [|n]; cbn; try constructor.
  - apply IH.
  - rewrite Forall_forall in *. intros x Hx. apply Hz.
    apply elem_of_take in Hx as (i & Hi & _). by eapply list_elem_of_lookup_2.
Qed.

(** ** The order on field values *)

Lemma String_leb_trans a b c :
  String.leb a b = true → String.leb b c = true → String.leb a c = true.
Proof.
  unfold String.leb. intros Hab Hbc.
  destruct (String.compare a b) eqn:Eab; [| |discriminate].
  - apply String_as_OT.cmp_eq in Eab. by subst.
  - destruct (String.compare b c) eqn:Ebc; [| |discriminate].
    + apply String_as_OT.cmp_eq in Ebc. subst. by rewrite Eab.
    + apply String_as_OT.cmp_lt in Eab, Ebc.
      pose proof (String_as_OT.lt_trans _ _ _ Eab Ebc) as Hac.
      apply String_as_OT.cmp_lt in Hac. unfold String_as_OT.cmp in Hac.
      by rewrite Hac.
Qed.

Lemma same_type_leb_total a b : same_type_leb a b = true ∨ same_type_leb b a = true.
Proof.
  destruct a as [| |x|x|x|[x|]|x|x|x], b as [| |y|y|y|[y|]|y|y|y]; cbn;
    try (by left); try (by right).
  - destruct x, y; cbn; auto.
  - destruct (Z.leb_spec x y), (Z.leb_spec y x); auto; lia.
  - apply String.leb_total.
  - destruct (Z.leb_spec x y), (Z.leb_spec y x); auto; lia.
  - destruct (Z.leb_spec x y), (Z.leb_spec y x); auto; lia.
Qed.

Lemma same_type_leb_trans nh a b c :
  type_rank nh a = type_rank nh b → type_rank nh b = type_rank nh c →
  same_type_leb a b = true → same_type_leb b c = true → same_type_leb a c = true.
Proof.
  intros Hab Hbc.
  destruct a as [| |x|x|x|[x|]|x|x|x], b as [| |y|y|y|[y|]|y|y|y];
    cbn in Hab; try (destruct nh; discriminate);
    destruct c as [| |z|z|z|[z|]|z|z|z];
    cbn in Hbc; try (destruct nh; discriminate);
    cbn; try done.
  - destruct x, y, z; done.
  - intros H1 H2. apply Z.leb_le in H1, H2. apply Z.leb_le. lia.
  - apply String_leb_trans.
  - intros H1 H2. apply Z.leb_le in H1, H2. apply Z.leb_le. lia.
  - intros H1 H2. apply Z.leb_le in H1, H2. apply Z.leb_le. lia.
Qed.

Lemma value_leb_total nh a b : value_leb nh a b = true ∨ value_leb nh b a = true.
Proof.
  unfold value_leb.
  destruct (Z.ltb_spec (type_rank nh a) (type_rank nh b)); [by left|].
  destruct (Z.ltb_spec (type_rank nh b) (type_rank nh a)); [by right|].
  rewrite !(proj2 (Z.eqb_eq _ _)) by lia. cbn.
  apply same_type_leb_total.
Qed.

Lemma value_leb_trans nh a b c :
  value_leb nh a b = true → value_leb nh b c = true → value_leb nh a c = true.
Proof.
  unfold value_leb. intros Hab Hbc.
  apply orb_true_iff in Hab as [Hab|Hab]; apply orb_true_iff in Hbc as [Hbc|Hbc];
    rewrite ?andb_true_iff, ?Z.ltb_lt, ?Z.eqb_eq in *;
    apply orb_true_iff.
  - left. apply Z.ltb_lt. lia.
  - left. apply Z.ltb_lt. lia.
  - left. apply Z.ltb_lt. lia.
  - right. destruct Hab as [Eab Sab], Hbc as [Ebc Sbc].
    apply andb_true_iff. split; [apply Z.eqb_eq; lia|].
    by apply (same_type_leb_trans nh a b c).
Qed.

Lemma value_leb_timestamps nh x y : value_leb nh (VTimestamp x) (VTimestamp y) = (x <=? y).
Proof. unfold value_leb. by destruct nh. Qed.

Lemma value_leb_dates nh x y :
  value_leb nh (VDate (ValidDate x)) (VDate (ValidDate y)) = (x <=? y).
Proof. unfold value_leb. by destruct nh. Qed.

(** ** Listings are ordered by creation time *)

Lemma sorted_newest_first {A} nh (inj : Z → Value) (key : A → Value)
    (xs : list A) (l : list Obj) :
  (∀ x y, value_leb nh (inj x) (inj y) = (x <=? y)) →
  StronglySorted (λ a b, value_leb nh (key b) (key a) = true) xs →
  Forall2 (λ x o, ∀ t, prop o "createdAt" = VDate (ValidDate t) → key x = inj t) xs l →
  newest_first l.
Proof.
  intros Hinj Hs Hrel i j a b ta tb Hij Ha Hb Hta Htb.
  destruct (Forall2_lookup_r _ _ _ _ _ Hrel Ha) as (x & Hx & Hxa).
  destruct (Forall2_lookup_r _ _ _ _ _ Hrel Hb) as (y & Hy & Hyb).
  pose proof (StronglySorted_lookup_lt _ _ _ _ _ _ Hs Hij Hx Hy) as Hle.
  cbn in Hle. rewrite (Hxa _ Hta), (Hyb _ Htb), Hinj in Hle.
  by apply Z.leb_le.
Qed.

Lemma Array_map_Forall2 {A B} (f : A → Outcome B) xs l :
  Array_map f xs = Ok l → Forall2 (λ x y, f x = Ok y) xs l.
Proof.
  revert l. induction xs as [|x xs IH]; intros l Hl; cbn in Hl.
  - injection Hl as <-. constructor.
  - unfold mbind, Outcome_bind in Hl. destruct (f x) as [y|] eqn:Hy; [|done].
    destruct (Array_map f xs) as [ys|]; [|done].
    injection Hl as <-. constructor; [done|]. by apply IH.
Qed.

Lemma Promise_all_map_Forall2 {S A B} (f : A → M S B) xs l s s' :
  Promise_all_map f xs s = (Ok l, s') →
  Forall2 (λ x y, ∃ s1 s2, f x s1 = (Ok y, s2)) xs l.
Proof.
  revert l s. induction xs as [|x xs IH]; intros l s Hl; cbn in Hl.
  - injection Hl as <- <-. constructor.
  - unfold mbind, M_bind in Hl. destruct (f x s) as [[y|] s1] eqn:Hy; [|done].
    destruct (Promise_all_map f xs s1) as [[ys|] s2] eqn:Hys; [|done].
    injection Hl as <- <-. constructor; [by eauto|]. by eapply IH.
Qed.

Lemma toDate_timestamp {prims : JsPrims} v w t :
  created_typed v = true → toDate v = Ok w → w = VDate (ValidDate t) → v = VTimestamp t.
Proof.
  intros Hv Hw ->. destruct v; try discriminate; cbn in Hw; congruence.
Qed.

Lemma run_query_elem q docs x : x ∈ run_query q docs → docs !! x.1 = Some x.2.
Proof.
  unfold run_query. intros Hx.
  assert (Hhits : ∀ y, y ∈ filter (λ d, matches (q_where q) d.2 = true) (map_to_list docs) →
                       docs !! y.1 = Some y.2).
  { intros [k v] Hy. apply list_elem_of_filter in Hy as [_ Hy].
    by apply elem_of_map_to_list in Hy. }
  assert (Hx' : x ∈ match q_orderBy q with
                    | None => sort_by (λ a b : string * Obj, String.leb a.1 b.1)
                                (filter (λ d, matches (q_where q) d.2 = true)
                                   (map_to_list docs))
                    | Some field =>
                        sort_by (λ a b : string * Obj,
                                   value_leb false (prop b.2 field) (prop a.2 field))
                          (sort_by (λ a b : string * Obj, String.leb b.1 a.1)
                             (filter (λ d : string * Obj, is_Some (d.2 !! field))
                                (filter (λ d, matches (q_where q) d.2 = true)
                                   (map_to_list docs))))
                    end).
  { destruct (q_limit q) as [n|]; [destruct (0 <? n)|]; try exact Hx.
    apply elem_of_take in Hx as (i & Hi & _). by apply list_elem_of_lookup_2 in Hi. }
  clear Hx;
    (destruct (q_orderBy q);
     [rewrite !sort_by_Permutation in Hx'; apply list_elem_of_filter in Hx' as [_ Hx']
     |rewrite sort_by_Permutation in Hx']; by apply Hhits).
Qed.

Lemma run_query_sorted q docs field :
  q_orderBy q = Some field →
  StronglySorted (λ a b : string * Obj,
                    value_leb false (prop b.2 field) (prop a.2 field) = true)
    (run_query q docs).
Proof.
  intros Ho. unfold run_query. rewrite Ho.
  assert (Hs : ∀ l : list (string * Obj),
            StronglySorted (λ a b : string * Obj,
                    value_leb false (prop b.2 field) (prop a.2 field) = true)
              (sort_by (λ a b, value_leb false (prop b.2 field) (prop a.2 field)) l)).
  { intros l. apply (sort_by_sorted (λ a b : string * Obj,
                       value_leb false (prop b.2 field) (prop a.2 field))).
    - intros a b. apply value_leb_total.
    - intros a b c Hab Hbc. by eapply value_leb_trans. }
  destruct (q_limit q) as [n|]; [destruct (0 <? n); [apply StronglySorted_take|]|];
    apply Hs.
Qed.

Lemma Forall2_impl_elem {A B} (P Q : A → B → Prop) xs ys :
  Forall2 P xs ys → (∀ x y, x ∈ xs → P x y → Q x y) → Forall2 Q xs ys.
Proof.
  induction 1 as [|x y xs ys Hxy _ IH]; intros Himp; constructor.
  - apply Himp; [left|done].
  - apply IH. intros x' y' Hx'. apply Himp. by right.
Qed.

Lemma fs_snapshot_newest_first {prims : JsPrims} q db (l : list Obj) :
  timestamps_typed (q_coll q) db → q_orderBy q = Some "createdAt" →
  Forall2 (λ (x : string * Obj) o,
             ∃ w, toDate (prop x.2 "createdAt") = Ok w ∧ prop o "createdAt" = w)
          (run_query q (fs_docs (q_coll q) db)) l →
  newest_first l.
Proof.
  intros Hty Ho Hrel.
  apply (sorted_newest_first false VTimestamp (λ x : string * Obj, prop x.2 "createdAt")
           (run_query q (fs_docs (q_coll q) db))).
  - intros x y. apply value_leb_timestamps.
  - by apply run_query_sorted.
  - eapply Forall2_impl_elem; [exact Hrel|].
    intros x o Hx (w & Hw & Ho') t Ht. cbn beta in *.
    apply (toDate_timestamp _ w t); [|done|congruence].
    apply (Hty x.1 x.2). by apply (run_query_elem q).
Qed.

Lemma newest_first_nil : newest_first [].
Proof. intros i j a b ta tb _ Ha. done. Qed.

(** Inversion of a guarded listing that returned. *)
Lemma guarded_listing_inv {A} q (body : list (string * Obj) → M Firestore (list A)) db l db' :
  catch_not_found [] (snapshot ← query_get q; body snapshot) db = (Ok l, db') →
  l = [] ∨ (fs_faults db !! q_coll q = None
            ∧ ∃ db1, body (run_query q (fs_docs (q_coll q) db)) db = (Ok l, db1)).
Proof.
  unfold catch_not_found, try_catch, mbind, M_bind, query_get, fs_request.
  destruct (fs_faults db !! q_coll q) as [e|] eqn:Hf.
  - destruct (code_is_5 e); cbn; [|discriminate]. intros [= <- <-]. by left.
  - destruct (q_rejected q); [discriminate|].
    destruct (body _ db) as [[l'|e] db1] eqn:Hb.
    + intros [= <- <-]. right. eauto.
    + destruct (code_is_5 e); cbn; [|discriminate]. intros [= <- <-]. by left.
Qed.

(** The same for a listing whose handler covers the query only. *)
Lemma pending_listing_inv {A} q (body : list (string * Obj) → M Firestore (list A)) db l db' :
  (pending ← catch_not_found None (snapshot ← query_get q; mret (Some snapshot));
   match pending with
   | None => mret []
   | Some snapshot => body snapshot
   end) db = (Ok l, db') →
  l = [] ∨ (fs_faults db !! q_coll q = None
            ∧ ∃ db1, body (run_query q (fs_docs (q_coll q) db)) db = (Ok l, db1)).
Proof.
  unfold catch_not_found, try_catch, mbind, M_bind, query_get, fs_request.
  destruct (fs_faults db !! q_coll q) as [e|] eqn:Hf.
  - destruct (code_is_5 e); cbn; [|discriminate]. intros [= <- <-]. by left.
  - destruct (q_rejected q); [discriminate|]. cbn.
    intros Hb. right. split; [done|]. by exists db'.
Qed.

Lemma lift_inv {S A} (o : Outcome A) (s s' : S) a : lift o s = (Ok a, s') → o = Ok a.
Proof. unfold lift. by intros [= -> _]. Qed.

Lemma getProducts_fs_newest_first {prims : JsPrims} userId db l db' :
  timestamps_typed "products" db →
  FirebaseStorage.getProducts userId db = (Ok l, db') → newest_first l.
Proof.
  intros Hty Hrun. apply guarded_listing_inv in Hrun as [->|(Hf & db1 & Hrun)];
    [apply newest_first_nil|].
  apply lift_inv, Array_map_Forall2 in Hrun.
  match type of Hrun with
  | Forall2 _ (run_query ?q _) _ =>
      apply (fs_snapshot_newest_first q db); [exact Hty|reflexivity|]
  end.
  eapply Forall2_impl; [exact Hrun|]. intros [k data] o Ho. cbn in Ho.
  unfold mbind, Outcome_bind in Ho.
  destruct (toDate (prop data "createdAt")) as [w|] eqn:Hw; [|done].
  injection Ho as <-. exists w. split; [done|]. by rewrite prop_insert_eq.
Qed.
Section fs_listings.
Context {prims : JsPrims}.

Ltac listing_start Hty Hrun :=
  apply guarded_listing_inv in Hrun as [->|(_ & ? & Hrun)]; [apply newest_first_nil|].

Ltac listing_snapshot Hty Hrun :=
  match type of Hrun with
  | Forall2 _ (run_query ?q (fs_docs _ ?d)) _ =>
      apply (fs_snapshot_newest_first q d); [exact Hty|reflexivity|]
  end.

Lemma getCoupons_fs_newest_first userId db l db' :
  timestamps_typed "coupons" db →
  FirebaseStorage.getCoupons userId db = (Ok l, db') → newest_first l.
Proof.
  intros Hty Hrun. listing_start Hty Hrun.
  apply lift_inv, Array_map_Forall2 in Hrun. listing_snapshot Hty Hrun.
  eapply Forall2_impl; [exact Hrun|]. intros [k data] o Ho. cbn in Ho.
  unfold FirebaseStorage.coupon_of, mbind, Outcome_bind in Ho.
  destruct (toDate (prop data "createdAt")) as [w|] eqn:Hw; [|done].
  destruct (toDate (prop data "expiresAt")) as [w'|]; [|done].
  injection Ho as <-. exists w. split; [done|].
  by rewrite prop_insert_ne, prop_insert_eq.
Qed.

Lemma getCustomers_fs_newest_first userId db l db' :
  timestamps_typed "customers" db →
  FirebaseStorage.getCustomers userId db = (Ok l, db') → newest_first l.
Proof.
  intros Hty Hrun. listing_start Hty Hrun.
  apply lift_inv, Array_map_Forall2 in Hrun. listing_snapshot Hty Hrun.
  eapply Forall2_impl; [exact Hrun|]. intros [k data] o Ho. cbn in Ho.
  unfold mbind, Outcome_bind in Ho.
  destruct (toDate (prop data "createdAt")) as [w|] eqn:Hw; [|done].
  injection Ho as <-. exists w. split; [done|]. by rewrite prop_insert_eq.
Qed.

Lemma getPixelEvents_fs_newest_first userId lim db l db' :
  timestamps_typed "pixelEvents" db →
  FirebaseStorage.getPixelEvents userId lim db = (Ok l, db') → newest_first l.
Proof.
  intros Hty Hrun. unfold FirebaseStorage.getPixelEvents in Hrun.
  listing_start Hty Hrun.
  apply lift_inv, Array_map_Forall2 in Hrun. listing_snapshot Hty Hrun.
  eapply Forall2_impl; [exact Hrun|]. intros [k data] o Ho. cbn in Ho.
  unfold mbind, Outcome_bind in Ho.
  destruct (toDate (prop data "createdAt")) as [w|] eqn:Hw; [|done].
  destruct (toDate (prop data "eventTime")) as [w'|]; [|done].
  injection Ho as <-. exists w. split; [done|].
  by rewrite prop_insert_ne, prop_insert_eq.
Qed.

Lemma getAbandonedCarts_fs_newest_first userId db l db' :
  timestamps_typed "abandonedCarts" db →
  FirebaseStorage.getAbandonedCarts userId db = (Ok l, db') → newest_first l.
Proof.
  intros Hty Hrun. listing_start Hty Hrun.
  apply lift_inv, Array_map_Forall2 in Hrun. listing_snapshot Hty Hrun.
  eapply Forall2_impl; [exact Hrun|]. intros [k data] o Ho. cbn in Ho.
  unfold mbind, Outcome_bind in Ho.
  destruct (toDate (prop data "createdAt")) as [w|] eqn:Hw; [|done].
  destruct (toDate (prop data "recoveredAt")) as [w'|]; [|done].
  injection Ho as <-. exists w. split; [done|].
  by rewrite prop_insert_ne, prop_insert_eq.
Qed.

Lemma getCheckoutPages_fs_newest_first userId db l db' :
  timestamps_typed "checkoutPages" db →
  FirebaseStorage.getCheckoutPages userId db = (Ok l, db') → newest_first l.
Proof.
  intros Hty Hrun. listing_start Hty Hrun.
  unfold mbind, M_bind in Hrun.
  destruct (Promise_all_map _ _ db) as [[pages|] db2] eqn:Hp; [|done].
  injection Hrun as <- <-.
  apply Promise_all_map_Forall2 in Hp. listing_snapshot Hty Hp.
  eapply Forall2_impl; [exact Hp|]. intros [k data] o (s1 & s2 & Ho). cbn in Ho.
  unfold FirebaseStorage.page_with_product, mbind, M_bind, lift in Ho.
  destruct (toDate (prop data "createdAt")) as [w|] eqn:Hw; [|done].
  destruct (with_id _ _ s1) as [[product|] s3]; [|done].
  injection Ho as <- <-. exists w. split; [done|].
  by rewrite prop_insert_ne, prop_insert_eq.
Qed.

Lemma getOrders_fs_newest_first userId db l db' :
  timestamps_typed "orders" db →
  FirebaseStorage.getOrders userId db = (Ok l, db') → newest_first l.
Proof.
  intros Hty Hrun.
  apply pending_listing_inv in Hrun as [-> |(_ & ? & Hrun)]; [apply newest_first_nil|].
  apply Promise_all_map_Forall2 in Hrun. listing_snapshot Hty Hrun.
  eapply Forall2_impl; [exact Hrun|]. intros [k data] o (s1 & s2 & Ho). cbn in Ho.
  unfold mbind, M_bind, lift in Ho.
  destruct (toDate (prop data "createdAt")) as [w|] eqn:Hw; [|done].
  destruct (with_id _ _ s1) as [[customer|] s3]; [|done].
  destruct (query_get _ s3) as [[items|] s4]; [|done].
  injection Ho as <- <-. exists w. split; [done|].
  do 2 rewrite prop_insert_ne by done. by rewrite prop_insert_eq.
Qed.

End fs_listings.

(** ** The same for the relational backend *)

Lemma run_select_sorted q (db : Database) c :
  s_orderBy q = Some c →
  StronglySorted (λ a b : Obj, value_leb true (prop b c) (prop a c) = true)
    (run_select q db).
Proof.
  intros Ho. unfold run_select. rewrite Ho.
  assert (Hs : ∀ l : list Obj,
            StronglySorted (λ a b : Obj, value_leb true (prop b c) (prop a c) = true)
              (sort_by (λ a b, value_leb true (prop b c) (prop a c)) l)).
  { intros l. apply (sort_by_sorted (λ a b : Obj, value_leb true (prop b c) (prop a c))).
    - intros a b. apply value_leb_total.
    - intros a b d Hab Hbd. by eapply value_leb_trans. }
  destruct (s_limit q) as [n|]; [destruct (0 <=? n); [apply StronglySorted_take|]|];
    apply Hs.
Qed.

Lemma db_rows_newest_first q (db : Database) (l : list Obj) :
  s_orderBy q = Some "createdAt" →
  Forall2 (λ r o : Obj, prop o "createdAt" = prop r "createdAt") (run_select q db) l →
  newest_first l.
Proof.
  intros Ho Hrel.
  apply (sorted_newest_first true (λ t, VDate (ValidDate t)) (λ r : Obj, prop r "createdAt")
           (run_select q db)).
  - intros x y. apply value_leb_dates.
  - by apply run_select_sorted.
  - eapply Forall2_impl; [exact Hrel|]. intros r o Hro t Ht. congruence.
Qed.

Lemma Forall2_same {A} (P : A → A → Prop) (l : list A) :
  (∀ x, P x x) → Forall2 P l l.
Proof. intros HP. induction l; constructor; auto. Qed.

Lemma select_inv q (db db' : Database) l : select q db = (Ok l, db') → l = run_select q db.
Proof. unfold select. by intros [= <- _]. Qed.

Lemma with_product_createdAt page (s1 s2 : Database) o :
  DatabaseStorage.with_product page s1 = (Ok o, s2) →
  prop o "createdAt" = prop page "createdAt".
Proof.
  unfold DatabaseStorage.with_product, mbind, M_bind, select, mret, M_ret.
  intros [= <- _]. by rewrite prop_insert_ne.
Qed.

Lemma db_listing_newest_first (e : Listed) userId (db db' : Database) l :
  list_of e userId db = (Ok l, db') → newest_first l.
Proof.
  destruct e; reveal; cbn [list_of]; reveal; intros Hrun.
  - apply select_inv in Hrun as ->.
    eapply db_rows_newest_first; [|by apply Forall2_same]; reflexivity.
  - unfold DatabaseStorage.getCheckoutPages, mbind, M_bind, select in Hrun.
    destruct (Promise_all_map _ _ db) as [[pages|] db2] eqn:Hp; [|done].
    injection Hrun as <- <-. apply Promise_all_map_Forall2 in Hp.
    eapply db_rows_newest_first; [|eapply Forall2_impl; [exact Hp|]]; [reflexivity|].
    intros r o (s1 & s2 & Ho). by eapply with_product_createdAt.
  - apply select_inv in Hrun as ->.
    eapply db_rows_newest_first; [|by apply Forall2_same]; reflexivity.
  - apply select_inv in Hrun as ->.
    eapply db_rows_newest_first; [|by apply Forall2_same]; reflexivity.
  - unfold DatabaseStorage.getOrders, mbind, M_bind, select in Hrun.
    destruct (Promise_all_map _ _ db) as [[os|] db2] eqn:Hp; [|done].
    injection Hrun as <- <-. apply Promise_all_map_Forall2 in Hp.
    eapply db_rows_newest_first; [|eapply Forall2_impl; [exact Hp|]]; [reflexivity|].
    intros r o (s1 & s2 & Ho). cbn in Ho. injection Ho as <- _.
    by do 2 rewrite prop_insert_ne by done.
  - apply select_inv in Hrun as ->.
    eapply db_rows_newest_first; [|by apply Forall2_same]; reflexivity.
  - apply select_inv in Hrun as ->.
    eapply db_rows_newest_first; [|by apply Forall2_same]; reflexivity.
Qed.

Lemma fs_listing_newest_first {prims : JsPrims} (e : Listed) userId (db db' : Firestore) l :
  timestamps_typed (tbl_name (listed_table e)) db →
  list_of e userId db = (Ok l, db') → newest_first l.
Proof.
  destruct e; cbn [list_of listed_table]; reveal; cbn [pixelEvents customers orders abandonedCarts tbl_name].
  - apply getProducts_fs_newest_first.
  - apply getCheckoutPages_fs_newest_first.
  - apply getCoupons_fs_newest_first.
  - apply getCustomers_fs_newest_first.
  - apply getOrders_fs_newest_first.
  - apply getPixelEvents_fs_newest_first.
  - apply getAbandonedCarts_fs_newest_first.
Qed.

(** ** The ordering scenario *)

Lemma stored_product_fields (id : string) (now : Z) (product : Obj) userId :
  product !! "userId" = Some (VStr userId) →
  let p := <["isActive" := coalesce (prop product "isActive") (VBool true)]>
             (<["downloadLimit" := coalesce (prop product "downloadLimit") (VNum 5)]>
                (<["createdAt" := VDate (ValidDate now)]> (<["id" := VStr id]> product))) in
  stored p !! "createdAt" = Some (VTimestamp now)
  ∧ stored p !! "userId" = Some (VStr userId).
Proof.
  intros Hu p. unfold p. rewrite !stored_lookup. split.
  - do 2 rewrite lookup_insert_ne by done. by rewrite lookup_insert_eq.
  - do 4 rewrite lookup_insert_ne by done. by rewrite Hu.
Qed.

Lemma prop_lookup (o : Obj) k v : o !! k = Some v → prop o k = v.
Proof. intros Hk. unfold prop. by rewrite Hk. Qed.

Lemma sorted_permutation_unique {A} (leb : A → A → bool) (l target : list A) :
  (∀ a b, leb a b = true ∨ leb b a = true) →
  (∀ a b c, leb a b = true → leb b c = true → leb a c = true) →
  (∀ a b, a ∈ target → b ∈ target → leb a b = true → leb b a = true → a = b) →
  StronglySorted (λ a b, leb a b = true) target →
  l ≡ₚ target →
  sort_by leb l = target.
Proof.
  intros Htot Htrans Hanti Htarget Hperm.
  apply (StronglySorted_unique_strong (λ a b, leb a b = true)).
  - intros a b Ha Hb. rewrite sort_by_Permutation, Hperm in Ha. by apply Hanti.
  - by apply sort_by_sorted.
  - done.
  - by rewrite sort_by_Permutation.
Qed.

Lemma three_docs_snapshot userId (docs0 : gmap string Obj) id1 id2 id3 t1 t2 t3 (d1 d2 d3 : Obj) :
  (∀ id doc, docs0 !! id = Some doc → field_is doc "userId" userId = false) →
  NoDup [id1; id2; id3] → t1 < t2 < t3 →
  d1 !! "createdAt" = Some (VTimestamp t1) → d1 !! "userId" = Some (VStr userId) →
  d2 !! "createdAt" = Some (VTimestamp t2) → d2 !! "userId" = Some (VStr userId) →
  d3 !! "createdAt" = Some (VTimestamp t3) → d3 !! "userId" = Some (VStr userId) →
  run_query (orderBy_desc "createdAt" (where_eq "userId" userId (collection "products")))
    (<[id3 := d3]> (<[id2 := d2]> (<[id1 := d1]> docs0)))
  = [(id3, d3); (id2, d2); (id1, d1)].
Proof.
  intros Hnone Hnd [Ht12 Ht23] Hc1 Hu1 Hc2 Hu2 Hc3 Hu3.
  apply prop_lookup in Hc1 as Hp1, Hc2 as Hp2, Hc3 as Hp3.
  assert (id1 ≠ id2 ∧ id1 ≠ id3 ∧ id2 ≠ id3) as (H12 & H13 & H23).
  { apply NoDup_cons in Hnd as [Hn1 Hnd]. apply NoDup_cons in Hnd as [Hn2 _].
    repeat split; intros ->; [apply Hn1; left|apply Hn1; right; left|apply Hn2; left]. }
  unfold run_query. cbn [q_where q_orderBy q_limit orderBy_desc where_eq collection app].
  set (docs := <[id3 := d3]> (<[id2 := d2]> (<[id1 := d1]> docs0))).
  assert (Hm : ∀ d : Obj, d !! "userId" = Some (VStr userId) →
                          matches [("userId", userId)] d = true).
  { intros d Hd. unfold matches, field_is. cbn. rewrite Hd.
    by rewrite bool_decide_eq_true_2. }
  assert (Hhits : filter (λ d : string * Obj, matches [("userId", userId)] d.2 = true)
                    (map_to_list docs) ≡ₚ [(id1, d1); (id2, d2); (id3, d3)]).
  { apply NoDup_Permutation.
    - apply NoDup_filter, NoDup_map_to_list.
    - apply (NoDup_fmap_1 fst). exact Hnd.
    - intros [k v]. rewrite list_elem_of_filter, elem_of_map_to_list. unfold docs. cbn.
      split.
      + intros [Hmatch Hk].
        destruct (decide (k = id3)) as [->|?];
          [rewrite lookup_insert_eq in Hk; injection Hk as <-;
           rewrite !elem_of_cons; tauto|].
        rewrite lookup_insert_ne in Hk by done.
        destruct (decide (k = id2)) as [->|?];
          [rewrite lookup_insert_eq in Hk; injection Hk as <-;
           rewrite !elem_of_cons; tauto|].
        rewrite lookup_insert_ne in Hk by done.
        destruct (decide (k = id1)) as [->|?];
          [rewrite lookup_insert_eq in Hk; injection Hk as <-;
           rewrite !elem_of_cons; tauto|].
        rewrite lookup_insert_ne in Hk by done.
        specialize (Hnone k v Hk). unfold matches in Hmatch. cbn in Hmatch.
        rewrite Hnone in Hmatch. done.
      + intros Hin. repeat (apply elem_of_cons in Hin as [Hin|Hin]);
          [..|by apply not_elem_of_nil in Hin]; injection Hin as -> ->.
        * split; [by apply Hm|].
          do 2 rewrite lookup_insert_ne by done. by rewrite lookup_insert_eq.
        * split; [by apply Hm|].
          rewrite lookup_insert_ne by done. by rewrite lookup_insert_eq.
        * split; [by apply Hm|]. by rewrite lookup_insert_eq. }
  assert (Hall : filter (λ d : string * Obj, is_Some (d.2 !! "createdAt"))
                   [(id1, d1); (id2, d2); (id3, d3)] = [(id1, d1); (id2, d2); (id3, d3)]).
  { rewrite !filter_cons_True by (cbn; eauto). done. }
  apply sorted_permutation_unique.
  - intros a b. apply value_leb_total.
  - intros a b c Hab Hbc. by eapply value_leb_trans.
  - intros a b Ha Hb Hab Hba.
    repeat (apply elem_of_cons in Ha as [Ha|Ha]); try (by apply not_elem_of_nil in Ha);
      repeat (apply elem_of_cons in Hb as [Hb|Hb]); try (by apply not_elem_of_nil in Hb);
      subst; try done; cbn [fst snd] in Hab, Hba;
      rewrite ?Hp1, ?Hp2, ?Hp3, value_leb_timestamps in Hab, Hba;
      apply Z.leb_le in Hab, Hba; lia.
  - repeat (apply SSorted_cons); [apply SSorted_nil|repeat constructor..];
      cbn [fst snd]; rewrite ?Hp1, ?Hp2, ?Hp3, value_leb_timestamps;
      apply Z.leb_le; lia.
  - rewrite sort_by_Permutation, Hhits, Hall.
    apply (Permutation_rev [(id1, d1); (id2, d2); (id3, d3)]).
Qed.
Lemma three_products_fs {prims : JsPrims} userId id1 id2 id3 t1 t2 t3 (p1 p2 p3 : Obj)
    (db : Firestore) :
  fs_faults db !! "products" = None → no_products_fs userId db →
  NoDup [id1; id2; id3] → t1 < t2 < t3 →
  storable p1 → storable p2 → storable p3 →
  p1 !! "userId" = Some (VStr userId) →
  p2 !! "userId" = Some (VStr userId) →
  p3 !! "userId" = Some (VStr userId) →
  ∃ l db', create_three_then_list userId id1 id2 id3 t1 t2 t3 p1 p2 p3 db = (Ok l, db')
    ∧ id_and_created <$> l
      = [(VStr id3, VDate (ValidDate t3)); (VStr id2, VDate (ValidDate t2));
         (VStr id1, VDate (ValidDate t1))].
Proof.
  intros Hf Hnone Hnd Ht Hs1 Hs2 Hs3 Hu1 Hu2 Hu3.
  unfold create_three_then_list. reveal.
  destruct (createProduct_fs_ok id1 t1 p1 db Hf Hs1) as (q1 & Hrun1 & Hq1).
  erewrite bind_ok by exact Hrun1.
  set (db1 := fs_put_docs "products" (<[id1 := stored q1]> (fs_docs "products" db)) db).
  destruct (createProduct_fs_ok id2 t2 p2 db1 Hf Hs2) as (q2 & Hrun2 & Hq2).
  erewrite bind_ok by exact Hrun2.
  set (db2 := fs_put_docs "products" (<[id2 := stored q2]> (fs_docs "products" db1)) db1).
  destruct (createProduct_fs_ok id3 t3 p3 db2 Hf Hs3) as (q3 & Hrun3 & Hq3).
  erewrite bind_ok by exact Hrun3.
  set (db3 := fs_put_docs "products" (<[id3 := stored q3]> (fs_docs "products" db2)) db2).
  destruct (stored_product_fields id1 t1 p1 userId Hu1) as [Hc1 Hw1].
  destruct (stored_product_fields id2 t2 p2 userId Hu2) as [Hc2 Hw2].
  destruct (stored_product_fields id3 t3 p3 userId Hu3) as [Hc3 Hw3].
  rewrite <-Hq1 in Hc1, Hw1. rewrite <-Hq2 in Hc2, Hw2. rewrite <-Hq3 in Hc3, Hw3.
  unfold FirebaseStorage.getProducts.
  eexists _, db3. split.
  - apply catch_not_found_ok.
    erewrite bind_ok by (by apply query_get_ok).
    cbn [q_coll orderBy_desc where_eq collection].
    unfold db3 at 1, db2 at 1, db1 at 1. rewrite !fs_docs_put_same.
    rewrite (three_docs_snapshot userId (fs_docs "products" db) id1 id2 id3 t1 t2 t3
               _ _ _ Hnone Hnd Ht Hc1 Hw1 Hc2 Hw2 Hc3 Hw3).
    cbn [Array_map fst snd]. unfold mbind, Outcome_bind.
    rewrite (prop_lookup _ _ _ Hc1), (prop_lookup _ _ _ Hc2), (prop_lookup _ _ _ Hc3).
    cbn [toDate truthy negb]. reflexivity.
  - cbn [fmap list_fmap]. unfold id_and_created.
    rewrite !prop_insert_eq. rewrite !(prop_insert_ne _ "createdAt" "id") by done.
    by rewrite !prop_insert_eq.
Qed.
Lemma new_product_row id now (product : Obj) userId :
  product !! "userId" = Some (VStr userId) →
  product !! "id" = None → product !! "createdAt" = None →
  prop (new_row products id now product) "userId" = VStr userId
  ∧ prop (new_row products id now product) "id" = VStr id
  ∧ prop (new_row products id now product) "createdAt" = VDate (ValidDate now).
Proof.
  intros Hu Hi Hc.
  assert (Hnd : NoDup (col_name <$> tbl_columns products))
    by (apply schema_NoDup; unfold schema; set_solver).
  unfold prop at 1 2 3.
  rewrite (new_row_lookup products id now product userId_column "userId" eq_refl Hnd)
    by (unfold products; cbn; set_solver).
  rewrite (new_row_lookup products id now product id_column "id" eq_refl Hnd)
    by (unfold products; cbn; set_solver).
  rewrite (new_row_lookup products id now product createdAt_column "createdAt" eq_refl Hnd)
    by (unfold products; cbn; set_solver).
  rewrite (prop_lookup _ _ _ Hu), (prop_absent _ _ Hi), (prop_absent _ _ Hc).
  done.
Qed.

Lemma createProduct_db_inv id now (product : Obj) (db db' : Database) p :
  DatabaseStorage.createProduct id now product db = (Ok p, db') →
  p = new_row products id now product
  ∧ db_rows "products" db' = db_rows "products" db ++ [p].
Proof.
  unfold DatabaseStorage.createProduct, mbind, M_bind.
  destruct (db_insert products id now product db) as [[rows|] db1] eqn:Hins; [|done].
  apply db_insert_inv in Hins as (_ & -> & ->).
  intros [= <- <-]. split; [done|]. apply db_rows_insert.
Qed.

Lemma three_products_db userId id1 id2 id3 t1 t2 t3 (p1 p2 p3 : Obj)
    (db db' : Database) l :
  no_products_db userId db → t1 < t2 < t3 →
  p1 !! "userId" = Some (VStr userId) → p1 !! "id" = None → p1 !! "createdAt" = None →
  p2 !! "userId" = Some (VStr userId) → p2 !! "id" = None → p2 !! "createdAt" = None →
  p3 !! "userId" = Some (VStr userId) → p3 !! "id" = None → p3 !! "createdAt" = None →
  create_three_then_list userId id1 id2 id3 t1 t2 t3 p1 p2 p3 db = (Ok l, db') →
  id_and_created <$> l
  = [(VStr id3, VDate (ValidDate t3)); (VStr id2, VDate (ValidDate t2));
     (VStr id1, VDate (ValidDate t1))].
Proof.
  intros Hnone [Ht12 Ht23] Hu1 Hi1 Hc1 Hu2 Hi2 Hc2 Hu3 Hi3 Hc3.
  unfold create_three_then_list. reveal. unfold mbind, M_bind.
  destruct (DatabaseStorage.createProduct id1 t1 p1 db) as [[r1|] db1] eqn:H1; [|done].
  destruct (DatabaseStorage.createProduct id2 t2 p2 db1) as [[r2|] db2] eqn:H2; [|done].
  destruct (DatabaseStorage.createProduct id3 t3 p3 db2) as [[r3|] db3] eqn:H3; [|done].
  apply createProduct_db_inv in H1 as [Hr1 Hrows1], H2 as [Hr2 Hrows2], H3 as [Hr3 Hrows3].
  destruct (new_product_row id1 t1 p1 userId Hu1 Hi1 Hc1) as (Hw1 & Hid1 & Hcr1).
  destruct (new_product_row id2 t2 p2 userId Hu2 Hi2 Hc2) as (Hw2 & Hid2 & Hcr2).
  destruct (new_product_row id3 t3 p3 userId Hu3 Hi3 Hc3) as (Hw3 & Hid3 & Hcr3).
  rewrite <-Hr1 in Hw1, Hid1, Hcr1. rewrite <-Hr2 in Hw2, Hid2, Hcr2.
  rewrite <-Hr3 in Hw3, Hid3, Hcr3. clear Hr1 Hr2 Hr3.
  unfold DatabaseStorage.getProducts, select. intros [= <- _].
  unfold run_select.
  cbn [s_where s_orderBy s_limit s_from orderBy_desc_col where_ select_from tbl_name products].
  rewrite Hrows3, Hrows2, Hrows1.
  assert (Hsat : ∀ r : Obj, prop r "userId" = VStr userId →
                   satisfies [("userId", VStr userId)] r = true).
  { intros r Hr. unfold satisfies. cbn. rewrite Hr. cbn.
    by rewrite bool_decide_eq_true_2. }
  rewrite !filter_app, (filter_none _ (db_rows "products" db)).
  2:{ intros r Hr. specialize (Hnone r Hr). unfold satisfies. cbn.
      rewrite Hnone. done. }
  rewrite !filter_cons_True, !filter_nil by (by apply Hsat). cbn [app].
  rewrite (sorted_permutation_unique _ [r1; r2; r3] [r3; r2; r1]).
  - cbn [fmap list_fmap]. unfold id_and_created.
    by rewrite Hid1, Hid2, Hid3, Hcr1, Hcr2, Hcr3.
  - intros a b. apply value_leb_total.
  - intros a b c Hab Hbc. by eapply value_leb_trans.
  - intros a b Ha Hb Hab Hba.
    repeat (apply elem_of_cons in Ha as [Ha|Ha]); try (by apply not_elem_of_nil in Ha);
      repeat (apply elem_of_cons in Hb as [Hb|Hb]); try (by apply not_elem_of_nil in Hb);
      subst; try done;
      rewrite ?Hcr1, ?Hcr2, ?Hcr3, value_leb_dates in Hab, Hba;
      apply Z.leb_le in Hab, Hba; lia.
  - repeat (apply SSorted_cons); [apply SSorted_nil|repeat constructor..];
      rewrite ?Hcr1, ?Hcr2, ?Hcr3, value_leb_dates; apply Z.leb_le; lia.
  - apply (Permutation_rev [r1; r2; r3]).
Qed.

Lemma storable_empty : storable ∅.
Proof. intros k v Hk. by rewrite lookup_empty in Hk. Qed.

Lemma sample_product_storable userId name : storable (sample_product userId name).
Proof.
  unfold sample_product. rewrite <-insert_empty.
  repeat (apply storable_insert; [|intros _; by eexists]). apply storable_empty.
Qed.

(** ** Partial updates *)

Lemma existsb_elem {A} (f : A → bool) (l : list A) :
  existsb f l = true ↔ ∃ x, x ∈ l ∧ f x = true.
Proof.
  rewrite existsb_exists. split; intros (x & Hx & Hf); exists x;
    (split; [by apply list_elem_of_In|done]).
Qed.

Lemma defines_value_spec (data : Obj) :
  defines_value data = true ↔ ∃ k v, data !! k = Some v ∧ v ≠ VUndefined.
Proof.
  unfold defines_value. rewrite existsb_elem. split.
  - intros ([k v] & Hkv & Hv). apply elem_of_map_to_list in Hkv.
    exists k, v. split; [done|]. intros ->. discriminate Hv.
  - intros (k & v & Hkv & Hv). exists (k, v). split; [by apply elem_of_map_to_list|].
    by destruct v.
Qed.

(** The serializer leaves an object without properties exactly when the
    object defines no value. *)
Lemma serializeObj_size (data : Obj) :
  size (serializeObj data) = 0%nat ↔ defines_value data = false.
Proof.
  rewrite map_size_empty_iff, <-not_true_iff_false, defines_value_spec. split.
  - intros He (k & v & Hkv & Hv).
    assert (Hs : serializeObj data !! k = None) by (by rewrite He, lookup_empty).
    rewrite serializeObj_lookup, Hkv in Hs. by destruct v.
  - intros Hno. apply map_eq. intros k. rewrite lookup_empty, serializeObj_lookup.
    destruct (data !! k) as [v|] eqn:Hkv; [|done].
    destruct v; try (exfalso; apply Hno; by eauto). done.
Qed.

Lemma doc_update_ok c id (data old : Obj) db :
  fs_faults db !! c = None → storable data → defines_value data = true →
  fs_docs c db !! id = Some old →
  doc_update c id (serializeObj data) db
  = (Ok tt, fs_put_docs c (<[id := stored data ∪ old]> (fs_docs c db)) db).
Proof.
  intros Hf Hs Hd Ho. unfold doc_update.
  rewrite decide_False by (rewrite serializeObj_size; congruence).
  rewrite (fs_encode_obj_stored data Hs).
  unfold fs_request. by rewrite Hf, Ho.
Qed.

Lemma doc_update_empty c id (data : Obj) db :
  defines_value data = false →
  doc_update c id (serializeObj data) db = (Throw NoFieldToUpdate, db).
Proof.
  intros Hd. unfold doc_update. by rewrite decide_True by (by apply serializeObj_size).
Qed.

Lemma doc_update_invalid c id (data : Obj) db :
  fs_encode_obj (serializeObj data) = None →
  doc_update c id (serializeObj data) db = (Throw InvalidArgument, db).
Proof.
  intros He. unfold doc_update. destruct (decide _) as [Hz|_]; [|by rewrite He].
  apply map_size_empty_iff in Hz. rewrite Hz in He. discriminate He.
Qed.

Lemma fs_encode_obj_inv (o o' : Obj) :
  fs_encode_obj o = Some o' → o' = omap fs_encode o.
Proof.
  unfold fs_encode_obj. rewrite fs_encode_VObj.
  destruct (decide _); [|discriminate]. by intros [= <-].
Qed.

(** What an update of the document backend does on a collection without
    fault. *)
Lemma update_fs_run {prims : JsPrims} (e : Updatable) id (data : Obj) db :
  fs_faults db !! tbl_name (updatable_table e) = None →
  update_of e id data db
  = match fs_docs (tbl_name (updatable_table e)) db !! id with
    | None => (Ok None, db)
    | Some old =>
        if defines_value data then
          match fs_encode_obj (serializeObj data) with
          | None => (Throw InvalidArgument, db)
          | Some d =>
              let db' := fs_put_docs (tbl_name (updatable_table e))
                           (<[id := d ∪ old]> (fs_docs (tbl_name (updatable_table e)) db)) db in
              match fs_view e id (d ∪ old) with
              | Ok r => (Ok (Some r), db')
              | Throw err => (Throw err, db')
              end
          end
        else (Throw NoFieldToUpdate, db)
    end.
Proof.
  intros Hf.
  destruct e; cbn [update_of updatable_table tbl_name users products checkoutPages coupons
                   customers orders emailTemplates abandonedCarts] in *; reveal;
    unfold FirebaseStorage.updateUser, FirebaseStorage.updateProduct,
           FirebaseStorage.updateCheckoutPage, FirebaseStorage.updateCoupon,
           FirebaseStorage.updateCustomer, FirebaseStorage.updateOrder,
           FirebaseStorage.updateEmailTemplate, FirebaseStorage.updateAbandonedCart;
    (erewrite bind_ok by (by apply doc_get_ok));
    (destruct (fs_docs _ db !! id) as [old|] eqn:Hold; [|reflexivity]);
    (destruct (defines_value data) eqn:Hdef;
     [|by erewrite bind_throw by (by apply doc_update_empty)]);
    (destruct (fs_encode_obj (serializeObj data)) as [d|] eqn:Hd;
     [|by erewrite bind_throw by (by apply doc_update_invalid)]);
    (erewrite bind_ok;
     [|unfold doc_update, fs_request;
       rewrite decide_False by (rewrite serializeObj_size; congruence);
       rewrite Hd, Hf, Hold; reflexivity]);
    (erewrite bind_ok;
     [|rewrite doc_get_ok by done; rewrite fs_docs_put_same, lookup_insert_eq; reflexivity]);
    cbn [data_of from_option Datatypes.id fs_view];
    unfold mbind, M_bind, Outcome_bind, mret, M_ret, lift;
    repeat (match goal with |- context [toDate ?v] => destruct (toDate v) end);
    reflexivity.
Qed.
Lemma fs_view_spec {prims : JsPrims} (e : Updatable) id (doc r : Obj) :
  fs_view e id doc = Ok r →
  (∀ k, k ∈ date_fields e → toDate (prop doc k) = Ok (prop r k))
  ∧ ("id" ∈ view_fields e → prop r "id" = VStr id)
  ∧ (∀ k, k ∉ view_fields e → prop r k = prop (doc ∪ {["id" := VStr id]}) k).
Proof.
  intros Hv.
  assert (Hother : ∀ k, k ≠ "id" → prop (doc ∪ {["id" := VStr id]}) k = prop doc k).
  { intros k Hk. unfold prop. rewrite lookup_union, lookup_singleton_ne by done.
    by destruct (doc !! k). }
  destruct e; cbn [fs_view date_fields view_fields] in *;
    unfold mbind, Outcome_bind in Hv;
    repeat (match type of Hv with
            | context [toDate ?v] => destruct (toDate v) as [?w|] eqn:?Hw; [|discriminate Hv]
            end);
    injection Hv as <-;
    (split; [|split]).
  all: try (intros k Hk; repeat (apply elem_of_cons in Hk as [->|Hk]);
            try (by apply not_elem_of_nil in Hk);
            rewrite ?prop_insert_eq;
            try (rewrite prop_insert_ne by done; rewrite prop_insert_eq);
            assumption).
  all: try (intros Hk; by apply not_elem_of_nil in Hk).
  all: try (intros _; repeat (rewrite prop_insert_ne by done);
            by rewrite prop_insert_eq).
  all: try (intros k _; reflexivity).
  all: try (intros k Hk; rewrite !not_elem_of_cons in Hk;
            destruct Hk as (? & Hk); repeat (destruct Hk as (? & Hk));
            rewrite Hother by done;
            by repeat (rewrite prop_insert_ne by done)).
Qed.

Lemma view_fields_cases (e : Updatable) k :
  k ∈ view_fields e → (k = "id" ∧ "id" ∈ view_fields e) ∨ k ∈ date_fields e.
Proof.
  destruct e; cbn [view_fields date_fields]; intros Hk;
    try (by apply not_elem_of_nil in Hk);
    (apply elem_of_cons in Hk as [->|Hk]; [left; split; [done|left]|by right]).
Qed.

Lemma date_fields_view (e : Updatable) k : k ∈ date_fields e → k ∈ view_fields e.
Proof.
  destruct e; cbn [view_fields date_fields]; intros Hk;
    try (by apply not_elem_of_nil in Hk); by right.
Qed.

Lemma toDate_typed {prims : JsPrims} v : created_typed v = true → ∃ w, toDate v = Ok w.
Proof. destruct v; try discriminate; intros _; by eexists. Qed.

Lemma fs_view_typed {prims : JsPrims} (e : Updatable) id (doc : Obj) :
  (∀ k, k ∈ date_fields e → created_typed (prop doc k) = true) →
  ∃ r, fs_view e id doc = Ok r.
Proof.
  intros Hty.
  destruct e; cbn [fs_view date_fields] in *; try (by eexists);
    unfold mbind, Outcome_bind;
    repeat (match goal with
            | |- context [toDate (prop doc ?k)] =>
                let Hw := fresh in
                destruct (toDate_typed (prop doc k)) as [? Hw];
                [apply Hty; rewrite !elem_of_cons; tauto|rewrite Hw]
            end);
    by eexists.
Qed.
Lemma set_columns_prop t (data r : Obj) k :
  prop (set_columns t data r) k
  = if decide (k ∈ column_names t)
    then match prop data k with
         | VUndefined => prop r k
         | v => v
         end
    else prop r k.
Proof.
  unfold set_columns, column_names. induction (tbl_columns t) as [|c cs IH].
  - cbn. by rewrite decide_False by apply not_elem_of_nil.
  - cbn [foldr fmap list_fmap].
    destruct (decide (k = col_name c)) as [->|Hk].
    + rewrite (decide_True (P := col_name c ∈ col_name c :: _)) by left.
      destruct (prop data (col_name c)) eqn:Hd; rewrite ?prop_insert_eq; try reflexivity.
      rewrite IH. destruct (decide _); rewrite ?Hd; done.
    + assert (Hiff : k ∈ col_name c :: (col_name <$> cs) ↔ k ∈ (col_name <$> cs))
        by (rewrite elem_of_cons; tauto).
      assert (Hrest : prop (foldr (λ c0 acc, match prop data (col_name c0) with
                                             | VUndefined => acc
                                             | v => <[col_name c0 := v]> acc
                                             end) r cs) k
                      = if decide (k ∈ col_name c :: (col_name <$> cs))
                        then match prop data k with
                             | VUndefined => prop r k
                             | v => v
                             end
                        else prop r k).
      { rewrite IH. destruct (decide (k ∈ col_name <$> cs)) as [Hin|Hin].
        - by rewrite decide_True by (by apply Hiff).
        - by rewrite decide_False by (by rewrite Hiff). }
      destruct (prop data (col_name c)); try exact Hrest;
        rewrite prop_insert_ne by done; exact Hrest.
Qed.

Lemma db_update_inv t (data : Obj) conds (db db' : Database) rows :
  db_update t data conds db = (Ok rows, db') →
  rows = map (set_columns t data)
           (filter (λ r, satisfies conds r = true) (db_rows (tbl_name t) db)).
Proof.
  unfold db_update. destruct (negb (defines_value data)); [discriminate|].
  destruct (negb (sets_column t data)); [discriminate|].
  destruct (bool_decide _) eqn:Hhit.
  - apply bool_decide_eq_true in Hhit. rewrite Hhit. by intros [= <- _].
  - repeat (destruct (negb _); [discriminate|]).
    destruct (existsb _ _); [discriminate|]. by intros [= <- _].
Qed.

Lemma sets_column_defines t (data : Obj) :
  sets_column t data = true → defines_value data = true.
Proof.
  unfold sets_column. rewrite existsb_elem, defines_value_spec.
  intros (c & _ & Hc). unfold prop in Hc.
  destruct (data !! col_name c) as [v|] eqn:Hv; [|discriminate Hc].
  exists (col_name c), v. split; [done|]. intros ->. discriminate Hc.
Qed.

Lemma db_update_none t (data : Obj) id (db : Database) :
  sets_column t data = true →
  (∀ r, r ∈ db_rows (tbl_name t) db → sql_eq (prop r "id") (VStr id) = false) →
  db_update t data [("id", VStr id)] db = (Ok [], db).
Proof.
  intros Hset Hnone. unfold db_update.
  rewrite (sets_column_defines _ _ Hset), Hset. cbn [negb]. rewrite filter_none.
  - by rewrite bool_decide_eq_true_2.
  - intros r Hr. rewrite satisfies_id, (Hnone r Hr). done.
Qed.

(** What an update of the relational backend returns. *)
Lemma update_db_run (e : Updatable) id (data : Obj) (db : Database) :
  update_of e id data db
  = (rows ← db_update (updatable_table e) data [("id", VStr id)]; mret (head rows)) db.
Proof. by destruct e. Qed.

Lemma update_db_spec (e : Updatable) id (data : Obj) (db db' : Database) r :
  update_of e id data db = (Ok (Some r), db') →
  ∃ r0, r0 ∈ db_rows (tbl_name (updatable_table e)) db
        ∧ sql_eq (prop r0 "id") (VStr id) = true
        ∧ (∀ k, k ∈ column_names (updatable_table e) → prop data k ≠ VUndefined →
                prop r k = prop data k)
        ∧ (∀ k, k ∉ column_names (updatable_table e) ∨ prop data k = VUndefined →
                prop r k = prop r0 k).
Proof.
  rewrite update_db_run. unfold mbind, M_bind.
  destruct (db_update _ _ _ db) as [[rows|] db1] eqn:Hup; [|discriminate].
  apply db_update_inv in Hup as ->. intros [= Hhead _].
  destruct (filter _ _) as [|r0 rest] eqn:Hfil; [discriminate|].
  injection Hhead as <-.
  pose proof (list_elem_of_here r0 rest) as Hr0. rewrite <-Hfil in Hr0.
  apply list_elem_of_filter in Hr0 as [Hsat Hin].
  change (satisfies [("id", VStr id)] r0 = true) in Hsat. rewrite satisfies_id in Hsat.
  exists r0. split; [done|]. split; [done|]. split.
  - intros k Hk Hd. rewrite set_columns_prop, decide_True by done.
    by destruct (prop data k).
  - intros k [Hk|Hk]; rewrite set_columns_prop.
    + by rewrite decide_False.
    + destruct (decide _); [by rewrite Hk|done].
Qed.
Lemma stored_absent (data : Obj) k : prop data k = VUndefined → stored data !! k = None.
Proof.
  intros Hk. rewrite stored_lookup. unfold prop in Hk.
  destruct (data !! k) as [v|]; [|done]. cbn in Hk. by subst.
Qed.

Lemma stored_plain (data : Obj) k v :
  data !! k = Some v → v ≠ VUndefined → plain v → stored data !! k = Some v.
Proof.
  intros Hk Hne Hp. rewrite stored_lookup, Hk. by destruct v.
Qed.

Lemma prop_union_l (a b : Obj) k v : a !! k = Some v → prop (a ∪ b) k = v.
Proof. intros Hk. unfold prop. by rewrite (lookup_union_Some_l _ _ _ _ Hk). Qed.

Lemma prop_union_r (a b : Obj) k : a !! k = None → prop (a ∪ b) k = prop b k.
Proof. intros Hk. unfold prop. by rewrite lookup_union_r. Qed.

Section update_fs.
Context {prims : JsPrims}.
Variables (e : Updatable) (id : string) (data old r : Obj) (db db' : Firestore).
Hypothesis Hfault : fs_faults db !! tbl_name (updatable_table e) = None.
Hypothesis Hold : fs_docs (tbl_name (updatable_table e)) db !! id = Some old.
Hypothesis Hrun : update_of e id data db = (Ok (Some r), db').

Lemma update_fs_view : fs_view e id (stored data ∪ old) = Ok r.
Proof.
  rewrite (update_fs_run e id data db Hfault), Hold in Hrun.
  destruct (defines_value data); [|discriminate].
  destruct (fs_encode_obj (serializeObj data)) as [d|] eqn:Hd; [|discriminate].
  apply fs_encode_obj_inv in Hd as ->. fold (stored data) in Hrun. cbv zeta in Hrun.
  destruct (fs_view e id (stored data ∪ old)) as [r'|]; [|discriminate].
  by injection Hrun as <- _.
Qed.

Lemma update_fs_absent k prev :
  prop data k = VUndefined → fs_view e id old = Ok prev → prop r k = prop prev k.
Proof.
  intros Hk Hprev.
  destruct (fs_view_spec e id _ _ update_fs_view) as (Hd & Hi & Ho).
  destruct (fs_view_spec e id _ _ Hprev) as (Hd' & Hi' & Ho').
  pose proof (stored_absent data k Hk) as Hs.
  destruct (decide (k ∈ view_fields e)) as [Hv|Hv].
  - apply view_fields_cases in Hv as [[-> Hv]|Hv].
    + by rewrite Hi, Hi'.
    + specialize (Hd k Hv). specialize (Hd' k Hv).
      rewrite (prop_union_r _ _ _ Hs) in Hd. congruence.
  - rewrite Ho, Ho' by done. unfold prop. rewrite !lookup_union, Hs.
    by destruct (old !! k).
Qed.

Lemma update_fs_supplied k v :
  data !! k = Some v → v ≠ VUndefined → plain v → k ∉ view_fields e → prop r k = v.
Proof.
  intros Hk Hne Hp Hv.
  destruct (fs_view_spec e id _ _ update_fs_view) as (_ & _ & Ho).
  rewrite Ho by done. apply prop_union_l, lookup_union_Some_l.
  by apply stored_plain.
Qed.

Lemma update_fs_supplied_date k t :
  k ∈ date_fields e → data !! k = Some (VDate (ValidDate t)) →
  prop r k = VDate (ValidDate t).
Proof.
  intros Hd Hk.
  destruct (fs_view_spec e id _ _ update_fs_view) as (Hdate & _ & _).
  specialize (Hdate k Hd).
  assert (Hs : stored data !! k = Some (VTimestamp t))
    by (by rewrite stored_lookup, Hk).
  rewrite (prop_union_l _ _ _ _ Hs) in Hdate. cbn in Hdate. congruence.
Qed.

Lemma update_fs_id : "id" ∈ view_fields e → prop r "id" = VStr id.
Proof.
  destruct (fs_view_spec e id _ _ update_fs_view) as (_ & Hi & _). exact Hi.
Qed.

End update_fs.




(** ** Owners *)

Lemma schema_names_NoDup : NoDup (tbl_name <$> schema).
Proof. apply (bool_decide_unpack _). by vm_compute. Qed.

Lemma schema_name_inj t t' :
  t ∈ schema → t' ∈ schema → tbl_name t = tbl_name t' → t = t'.
Proof.
  intros Ht Ht' Hn.
  apply list_elem_of_lookup in Ht as [i Hi]. apply list_elem_of_lookup in Ht' as [j Hj].
  assert (i = j) as ->; [|congruence].
  apply (NoDup_lookup (tbl_name <$> schema) i j (tbl_name t) schema_names_NoDup).
  - by rewrite list_lookup_fmap, Hi.
  - by rewrite list_lookup_fmap, Hj, Hn.
Qed.

(** The owner of a row is a [userId] that is not null and references
    [users]; [users] itself has no owner. *)
Lemma owner_column t :
  t ∈ schema → has_owner t = true →
  tbl_name t ≠ "users"
  ∧ ∃ c, c ∈ tbl_columns t ∧ col_name c = "userId" ∧ col_notNull c = true
         ∧ col_references c = Some "users".
Proof.
  intros Ht Ho. unfold schema in Ht.
  repeat (apply elem_of_cons in Ht as [->|Ht];
          [first [ discriminate Ho
                 | split; [discriminate|]; exists userId_column;
                   split; [|done]; apply list_elem_of_In; cbn; tauto ]|]).
  by apply not_elem_of_nil in Ht.
Qed.

Lemma db_rows_insert_ne name name' rows (db : Database) :
  name ≠ name' → db_rows name' (<[name := rows]> db) = db_rows name' db.
Proof. intros Hn. unfold db_rows. by rewrite lookup_insert_ne. Qed.

Lemma user_exists_spec v (db : Database) :
  user_exists v db = true ↔
  ∃ u, u ∈ db_rows "users" db ∧ sql_eq (prop u "id") v = true.
Proof.
  unfold user_exists. rewrite existsb_exists.
  split; intros (u & Hu & He); exists u; split; try done; by apply list_elem_of_In.
Qed.

Lemma sql_eq_sym a b : sql_eq a b = sql_eq b a.
Proof.
  destruct a, b; try reflexivity. cbn. apply bool_decide_ext. split; congruence.
Qed.

Lemma sql_eq_trans a b c : sql_eq a b = true → sql_eq b c = true → sql_eq a c = true.
Proof.
  destruct a, b; try discriminate. destruct c; try discriminate. cbn.
  intros H1 H2. apply bool_decide_eq_true in H1, H2. apply bool_decide_eq_true. congruence.
Qed.

(** A row that passes the checks of its table has an owner that exists. *)
Lemma checked_owner t r (db : Database) :
  t ∈ schema → has_owner t = true →
  not_null_ok t r = true → fk_ok db t r = true →
  user_exists (prop r "userId") db = true.
Proof.
  intros Ht Ho Hn Hf. destruct (owner_column t Ht Ho) as (_ & c & Hc & Hname & Hnn & Href).
  unfold not_null_ok in Hn. unfold fk_ok in Hf.
  rewrite forallb_forall in Hn, Hf. apply list_elem_of_In in Hc.
  specialize (Hn c Hc). specialize (Hf c Hc). cbv beta in Hn, Hf.
  rewrite Href, Hname in Hf. rewrite Hnn, Hname in Hn. cbn [orb andb] in Hn.
  destruct (is_null (prop r "userId")); [discriminate|]. exact Hf.
Qed.

(** A row with an owner references its user. *)
Lemma owner_referenced t r (u : Obj) (db : Database) :
  t ∈ schema → has_owner t = true → r ∈ db_rows (tbl_name t) db →
  sql_eq (prop u "id") (prop r "userId") = true →
  referenced db users (prop u "id") = true.
Proof.
  intros Ht Ho Hr He. destruct (owner_column t Ht Ho) as (_ & c & Hc & Hname & _ & Href).
  unfold referenced. apply existsb_exists. exists t. split; [by apply list_elem_of_In|].
  apply existsb_exists. exists c. split; [by apply list_elem_of_In|].
  rewrite Href. cbn [tbl_name users]. rewrite bool_decide_eq_true_2 by done. cbn [andb].
  apply existsb_exists. exists r. split; [by apply list_elem_of_In|].
  by rewrite Hname, sql_eq_sym.
Qed.
(** Replacing the rows of one table keeps the owners, when the users that
    rows reference stay and the new rows of a table with an owner are old
    ones or have an owner that exists. *)
Lemma owners_exist_replace t new (db : Database) :
  t ∈ schema → owners_exist db →
  (tbl_name t = "users" → ∀ u v, u ∈ db_rows "users" db →
     sql_eq (prop u "id") v = true → referenced db users (prop u "id") = true →
     ∃ u', u' ∈ new ∧ sql_eq (prop u' "id") v = true) →
  (has_owner t = true → ∀ r, r ∈ new →
     r ∈ db_rows (tbl_name t) db ∨ user_exists (prop r "userId") db = true) →
  owners_exist (<[tbl_name t := new]> db).
Proof.
  intros Ht Hinv Husers Hnew.
  assert (Hold : ∀ t0 r0, t0 ∈ schema → has_owner t0 = true →
            r0 ∈ db_rows (tbl_name t0) db →
            user_exists (prop r0 "userId") (<[tbl_name t := new]> db) = true).
  { intros t0 r0 Ht0 Ho0 Hr0.
    destruct (proj1 (user_exists_spec _ _) (Hinv t0 r0 Ht0 Ho0 Hr0)) as (u & Hu & He).
    apply user_exists_spec. destruct (decide (tbl_name t = "users")) as [Hn|Hn].
    - rewrite Hn, db_rows_insert. apply (Husers Hn u); [done..|].
      by apply (owner_referenced t0 r0).
    - rewrite db_rows_insert_ne by done. by exists u. }
  intros t' r Ht' Ho' Hr. destruct (decide (tbl_name t = tbl_name t')) as [Hn|Hn].
  - assert (t = t') as <- by by apply schema_name_inj.
    rewrite db_rows_insert in Hr. destruct (Hnew Ho' r Hr) as [Hr'|Hu].
    + by apply (Hold t).
    + destruct (owner_column t Ht Ho') as [Hne _].
      apply user_exists_spec. rewrite db_rows_insert_ne by done.
      by apply user_exists_spec.
  - rewrite db_rows_insert_ne in Hr by done. by apply (Hold t').
Qed.

Lemma users_in_schema : users ∈ schema.
Proof. apply list_elem_of_In. cbn. tauto. Qed.

Lemma db_insert_owners t id now values (db : Database) :
  t ∈ schema → owners_exist db → owners_exist (after (db_insert t id now values) db).
Proof.
  intros Ht Hinv. unfold after.
  destruct (db_insert t id now values db) as [[rows|e] db'] eqn:E.
  - apply db_insert_inv in E as ((Hn & _ & Hf) & _ & ->). cbn [snd].
    apply owners_exist_replace; [done..| |].
    + intros Hname u v Hu He _. exists u. split; [|done].
      rewrite Hname. apply elem_of_app. by left.
    + intros Ho r Hr. apply elem_of_app in Hr as [Hr|Hr]; [by left|right].
      apply elem_of_cons in Hr as [->|Hr]; [|by apply not_elem_of_nil in Hr].
      by apply (checked_owner t).
  - unfold db_insert in E. cbn [snd].
    repeat match type of E with
           | (if ?b then _ else _) = _ => destruct b
           end; try discriminate E; by injection E as _ <-.
Qed.

Lemma db_update_owners t data conds (db : Database) :
  t ∈ schema → owners_exist db → owners_exist (after (db_update t data conds) db).
Proof.
  intros Ht Hinv. unfold after, db_update. cbv zeta.
  destruct (defines_value data); [|done].
  destruct (sets_column t data); [|done]. cbn [negb].
  destruct (bool_decide _); [done|].
  destruct (forallb (not_null_ok t) _) eqn:Hn; [|done].
  destruct (unique_after t _); [|done].
  destruct (forallb (fk_ok db t) _) eqn:Hf; [|done].
  destruct (existsb _ _) eqn:Hr; [done|]. cbn [negb snd].
  rewrite forallb_forall in Hn, Hf.
  apply owners_exist_replace; [done..| |].
  - intros Hname u v Hu He Href.
    assert (t = users) as -> by (apply schema_name_inj; [done|apply users_in_schema|done]).
    cbn [tbl_name users] in *.
    destruct (satisfies conds u) eqn:Hs.
    + exists (set_columns users data u). split.
      * apply list_elem_of_In, in_map_iff. exists u. rewrite Hs.
        split; [done|]. by apply list_elem_of_In.
      * destruct (sql_eq (prop u "id") (prop (set_columns users data u) "id")) eqn:Hid.
        -- rewrite sql_eq_sym in Hid. by apply (sql_eq_trans _ (prop u "id")).
        -- exfalso. apply not_true_iff_false in Hr. apply Hr.
           apply existsb_exists. exists u. split.
           ++ apply list_elem_of_In, list_elem_of_filter. by split.
           ++ by rewrite Hid, Href.
    + exists u. split; [|done].
      apply list_elem_of_In, in_map_iff. exists u. rewrite Hs.
      split; [done|]. by apply list_elem_of_In.
  - intros Ho r Hin. apply list_elem_of_In, in_map_iff in Hin as (r0 & <- & Hr0).
    apply list_elem_of_In in Hr0. destruct (satisfies conds r0) eqn:Hs; [right|by left].
    assert (Hup : In (set_columns t data r0)
                    (map (set_columns t data)
                       (filter (λ r, satisfies conds r = true) (db_rows (tbl_name t) db)))).
    { apply in_map, list_elem_of_In, list_elem_of_filter. by split. }
    apply (checked_owner t); [done..|by apply Hn|by apply Hf].
Qed.

Lemma db_delete_owners t conds (db : Database) :
  t ∈ schema → owners_exist db → owners_exist (after (db_delete t conds) db).
Proof.
  intros Ht Hinv. unfold after, db_delete. cbv zeta.
  destruct (existsb _ _) eqn:Hr; [done|]. cbn [snd].
  apply owners_exist_replace; [done..| |].
  - intros Hname u v Hu He Href.
    assert (t = users) as -> by (apply schema_name_inj; [done|apply users_in_schema|done]).
    cbn [tbl_name users] in *.
    exists u. split; [|done]. apply list_elem_of_filter. split; [|done].
    intros Hs. apply not_true_iff_false in Hr. apply Hr.
    apply existsb_exists. exists u. split; [|done].
    apply list_elem_of_In, list_elem_of_filter. by split.
  - intros _ r Hin. left. by apply list_elem_of_filter in Hin as [_ Hin].
Qed.
Lemma after_bind_ret {S A B} (m : M S A) (f : A → B) s :
  after (x ← m; mret (f x)) s = after m s.
Proof. unfold after, mbind, M_bind, mret, M_ret. by destruct (m s) as [[a|e] s']. Qed.

Lemma readonly_ret {S A} (a : A) : readonly (mret a : M S A).
Proof. by intros s. Qed.

Lemma readonly_bind {S A B} (m : M S A) (f : A → M S B) :
  readonly m → (∀ a, readonly (f a)) → readonly (m ≫= f).
Proof.
  intros Hm Hf s. specialize (Hm s). unfold after, mbind, M_bind in *.
  destruct (m s) as [[a|e] s']; cbn [snd] in *; subst s'; [apply Hf|done].
Qed.

Lemma readonly_select q : readonly (select q).
Proof. by intros s. Qed.

Lemma readonly_Promise_all_map {S A B} (f : A → M S B) xs :
  (∀ x, readonly (f x)) → readonly (Promise_all_map f xs).
Proof.
  intros Hf. induction xs as [|x xs IH]; cbn [Promise_all_map].
  - apply readonly_ret.
  - apply readonly_bind; [done|]. intros y.
    apply readonly_bind; [done|]. intros ys. apply readonly_ret.
Qed.

Ltac readonly_steps :=
  repeat first
    [ apply readonly_select
    | apply readonly_ret
    | apply readonly_Promise_all_map; intros ?
    | apply readonly_bind; [|intros ?]
    | match goal with
      | |- readonly (match ?x with _ => _ end) => destruct x
      end ].

Ltac in_schema := apply list_elem_of_In; unfold schema; cbn [In]; tauto.

(** Every call of the relational backend keeps the owners. *)
Lemma perform_owners (c : Call) (db : Database) :
  owners_exist db → owners_exist (perform c db).
Proof.
  intros Hinv.
  destruct c; cbn [perform]; reveal;
    unfold DatabaseStorage.getUser, DatabaseStorage.getUserByEmail,
      DatabaseStorage.createUser, DatabaseStorage.updateUser,
      DatabaseStorage.getProducts, DatabaseStorage.getProduct,
      DatabaseStorage.createProduct, DatabaseStorage.updateProduct,
      DatabaseStorage.deleteProduct,
      DatabaseStorage.getCheckoutPages, DatabaseStorage.getCheckoutPage,
      DatabaseStorage.getCheckoutPageBySlug, DatabaseStorage.createCheckoutPage,
      DatabaseStorage.updateCheckoutPage, DatabaseStorage.deleteCheckoutPage,
      DatabaseStorage.getCoupons, DatabaseStorage.getCoupon,
      DatabaseStorage.getCouponByCode, DatabaseStorage.createCoupon,
      DatabaseStorage.updateCoupon, DatabaseStorage.deleteCoupon,
      DatabaseStorage.getCustomers, DatabaseStorage.getCustomer,
      DatabaseStorage.getCustomerByEmail, DatabaseStorage.createCustomer,
      DatabaseStorage.updateCustomer,
      DatabaseStorage.getOrders, DatabaseStorage.getOrder,
      DatabaseStorage.createOrder, DatabaseStorage.updateOrder,
      DatabaseStorage.createOrderItem, DatabaseStorage.getOrderItems,
      DatabaseStorage.getEmailTemplates, DatabaseStorage.getEmailTemplate,
      DatabaseStorage.createEmailTemplate, DatabaseStorage.updateEmailTemplate,
      DatabaseStorage.deleteEmailTemplate,
      DatabaseStorage.createPixelEvent, DatabaseStorage.getPixelEvents,
      DatabaseStorage.createAbandonedCart, DatabaseStorage.getAbandonedCarts,
      DatabaseStorage.updateAbandonedCart, DatabaseStorage.with_product;
    first
      [ rewrite after_bind_ret;
        first [apply db_insert_owners | apply db_update_owners | apply db_delete_owners];
        [in_schema|done]
      | match goal with
        | |- owners_exist (after ?m db) =>
            assert (Hro : readonly m) by (unfold DatabaseStorage.with_product; readonly_steps);
            by rewrite Hro
        end ].
Qed.

Lemma perform_all_owners (calls : list Call) (db : Database) :
  owners_exist db → owners_exist (perform_all calls db).
Proof.
  revert db. induction calls as [|c calls IH]; intros db Hinv; [done|].
  apply IH. by apply perform_owners.
Qed.

Lemma create_db_owner (e : Owned) id now input (db db' : Database) r :
  create_of e id now input db = (Ok r, db') →
  user_exists (prop r "userId") db = true.
Proof.
  assert (Hgen : ∀ t n, t ∈ schema → has_owner t = true →
            (rows ← db_insert t id n input; mret (default ∅ (head rows))) db = (Ok r, db') →
            user_exists (prop r "userId") db = true).
  { intros t n Ht Ho. unfold mbind, M_bind.
    destruct (db_insert t id n input db) as [[rows|err] db1] eqn:E; [|discriminate].
    apply db_insert_inv in E as ((Hn & _ & Hf) & -> & ->).
    intros Heq. injection Heq as <- _. cbn [head default from_option Datatypes.id].
    by apply (checked_owner t). }
  destruct e; cbn [create_of]; reveal; apply Hgen; first [in_schema | reflexivity].
Qed.
Ltac storable_steps :=
  repeat (apply storable_insert;
          [|first [ intros ?; apply storable_coalesce;
                    [assumption|eexists; vm_compute; reflexivity|assumption]
                  | intros _; eexists; vm_compute; reflexivity ]]).

Lemma prop_union_singleton_ne (o : Obj) k k' v :
  k ≠ k' → prop (o ∪ {[k := v]}) k' = prop o k'.
Proof.
  intros Hk. unfold prop. rewrite lookup_union, lookup_singleton_ne by done.
  by destruct (o !! k').
Qed.

(** A create of the document backend writes its own collection only and
    returns the owner it was given. *)
Lemma create_fs_unchecked {prims : JsPrims} (e : Owned) id now input (db : Firestore) :
  fs_faults db !! tbl_name (owned_table e) = None → storable input →
  ∃ r db', create_of e id now input db = (Ok r, db')
           ∧ prop r "userId" = prop input "userId"
           ∧ fs_docs "users" db' = fs_docs "users" db
           ∧ is_Some (fs_docs (tbl_name (owned_table e)) db' !! id).
Proof.
  intros Hf Hs.
  destruct e; cbn [create_of owned_table tbl_name products checkoutPages coupons customers
                     orders emailTemplates pixelEvents abandonedCarts] in *; reveal;
    unfold FirebaseStorage.createProduct, FirebaseStorage.createCheckoutPage,
      FirebaseStorage.createCoupon, FirebaseStorage.createCustomer,
      FirebaseStorage.createOrder, FirebaseStorage.createEmailTemplate,
      FirebaseStorage.createPixelEvent, FirebaseStorage.createAbandonedCart; cbv zeta.
  all: eexists _, _; split;
       [ erewrite bind_ok; [reflexivity|]; apply doc_set_ok; [exact Hf|];
         storable_steps; exact Hs
       | split; [by repeat first [ rewrite prop_insert_ne by done
                                 | rewrite prop_union_singleton_ne by done ]|];
         split; [by apply fs_docs_put_other|];
         by rewrite fs_docs_put_same, lookup_insert_eq ].
Qed.
(** C5 (amended): foreign-key integrity is an invariant of every storage
    operation of the relational backend: when every row that has an owner
    names an existing user, it is so again after any sequence of calls, and
    a create returns an entity only if its [userId] is the id of an existing
    user.  The store of the document backend has no foreign keys and its
    create operations do not look the owner up: on a store without faults
    the create of a storable input succeeds, stores the entity, returns it
    with the [userId] it was given and leaves the users as they were. *)
Theorem foreign_key_integrity {prims : JsPrims} :
  (∀ (calls : list Call) (db : Database),
     owners_exist db → owners_exist (perform_all calls db))
  ∧ (∀ (e : Owned) id now input (db db' : Database) r,
       create_of e id now input db = (Ok r, db') →
       user_exists (prop r "userId") db = true)
  ∧ (∀ (e : Owned) id now input (db : Firestore),
       fs_faults db !! tbl_name (owned_table e) = None → storable input →
       ∃ r db', create_of e id now input db = (Ok r, db')
                ∧ prop r "userId" = prop input "userId"
                ∧ fs_docs "users" db' = fs_docs "users" db
                ∧ is_Some (fs_docs (tbl_name (owned_table e)) db' !! id)).
Proof.
  split; [|split].
  - apply perform_all_owners.
  - apply create_db_owner.
  - apply create_fs_unchecked.
Qed.

(** C5 (as stated) fails: the document backend creates a product for an
    owner that no user has. *)
Lemma foreign_key_integrity_counterexample :
  match FirebaseStorage.createProduct "p1" 10
          (sample_product "ghost" "Ebook") empty_firestore with
  | (Ok p, db') =>
      prop p "userId" = VStr "ghost"
      ∧ match FirebaseStorage.getProduct (prims:=sample_prims) "p1" db' with
        | (Ok (Some q), _) => prop q "userId" = VStr "ghost"
        | _ => False
        end
      ∧ FirebaseStorage.getUser "ghost" db' = (Ok None, db')
  | _ => False
  end.
Proof. vm_compute. repeat split. Qed.

Lemma foreign_key_integrity_witness :
  owners_exist
    (perform_all [CreateUser "u1" sample_user;
                  CreateProduct "p1" 10 (sample_product "u1" "Ebook");
                  CreateProduct "p2" 11 (sample_product "ghost" "Book");
                  UpdateUser "u1" {["id" := VStr "u2"]};
                  DeleteProduct "p1"] ∅)
  ∧ match create_of OProduct "p2" 11 (sample_product "u1" "Guide") database_with_user with
    | (Ok r, _) => user_exists (prop r "userId") database_with_user = true
    | _ => False
    end
  ∧ ∃ r db', create_of (storage:=FirebaseStorage_IStorage (prims:=sample_prims))
               OProduct "p1" 10 (sample_product "ghost" "Ebook") empty_firestore
             = (Ok r, db')
             ∧ prop r "userId" = VStr "ghost".
Proof.
  destruct (foreign_key_integrity (prims:=sample_prims)) as (Hinv & Hdb & Hfs).
  split; [|split].
  - apply Hinv. intros t r _ _ Hr. unfold db_rows in Hr. rewrite lookup_empty in Hr.
    by apply not_elem_of_nil in Hr.
  - assert (Hrun : match create_of OProduct "p2" 11 (sample_product "u1" "Guide")
                           database_with_user with
                   | (Ok _, _) => True
                   | _ => False
                   end) by (vm_compute; exact I).
    destruct (create_of OProduct "p2" 11 (sample_product "u1" "Guide") database_with_user)
      as [[r|] db'] eqn:E; [|contradiction].
    exact (Hdb OProduct "p2" 11 _ _ _ _ E).
  - destruct (Hfs OProduct "p1" 10 (sample_product "ghost" "Ebook") empty_firestore)
      as (r & db' & Hrun & Hu & _); [reflexivity|apply sample_product_storable|].
    exists r, db'. split; [exact Hrun|]. rewrite Hu. reflexivity.
Defined.

(** ** Parity on products *)

Lemma sql_eq_str v id : sql_eq v (VStr id) = true ↔ v = VStr id.
Proof.
  destruct v; cbn; try (split; discriminate).
  rewrite bool_decide_eq_true. split; congruence.
Qed.

Lemma hit_id (r : Obj) id :
  satisfies [("id", VStr id)] r = true ↔ prop r "id" = VStr id.
Proof. rewrite satisfies_id. apply sql_eq_str. Qed.

Lemma hits_none (rows : list Obj) id :
  (∀ r, r ∈ rows → prop r "id" ≠ VStr id) →
  filter (λ r, satisfies [("id", VStr id)] r = true) rows = [].
Proof. intros Hno. apply filter_none. intros r Hr Hs. by apply (Hno r Hr), hit_id. Qed.

Lemma hits_one (rows : list Obj) (r : Obj) id :
  NoDup ((λ r : Obj, prop r "id") <$> rows) → r ∈ rows → prop r "id" = VStr id →
  filter (λ r, satisfies [("id", VStr id)] r = true) rows = [r].
Proof.
  induction rows as [|x rows IH]; intros Hnd Hr Hid; [by apply not_elem_of_nil in Hr|].
  rewrite fmap_cons in Hnd. apply NoDup_cons in Hnd as [Hx Hnd].
  apply elem_of_cons in Hr as [->|Hr].
  - rewrite filter_cons_True by by apply hit_id. f_equal. apply hits_none.
    intros r' Hr' Hid'. apply Hx. rewrite Hid, <-Hid'.
    by apply (list_elem_of_fmap_2 (λ r : Obj, prop r "id")).
  - rewrite filter_cons_False; [by apply IH|].
    intros Hs. apply hit_id in Hs. apply Hx. rewrite Hs, <-Hid.
    by apply (list_elem_of_fmap_2 (λ r : Obj, prop r "id")).
Qed.

Lemma similar_refl v : similar v v.
Proof. by left. Qed.

(** A row and the entity that the document backend makes of its document. *)
Lemma view_same_entity (r doc : Obj) id t :
  doc_of_row r doc → prop r "id" = VStr id → prop r "createdAt" = VDate (ValidDate t) →
  same_entity r (<["createdAt" := VDate (ValidDate t)]> (<["id" := VStr id]> doc)).
Proof.
  intros Hdoc Hid Ht k.
  destruct (decide (k = "createdAt")) as [->|Hc].
  { rewrite prop_insert_eq, Ht. apply similar_refl. }
  rewrite prop_insert_ne by done.
  destruct (decide (k = "id")) as [->|Hi].
  { rewrite prop_insert_eq, Hid. apply similar_refl. }
  rewrite prop_insert_ne by done.
  specialize (Hdoc k). unfold stored_as in Hdoc.
  destruct (prop r k) as [| | | | |[]| | |]; try contradiction;
    try (rewrite Hdoc; apply similar_refl).
  - destruct Hdoc as [->| ->]; [by left|by right].
  - by destruct Hdoc.
Qed.

Lemma doc_createdAt (r doc : Obj) t :
  doc_of_row r doc → prop r "createdAt" = VDate (ValidDate t) →
  prop doc "createdAt" = VTimestamp t.
Proof. intros Hdoc Ht. specialize (Hdoc "createdAt"). rewrite Ht in Hdoc. apply Hdoc. Qed.

Section product_parity.
Context {prims : JsPrims}.
Context (fs : Firestore) (db : Database).
Hypothesis same : same_products fs db.

Lemma row_of_doc id doc :
  fs_docs "products" fs !! id = Some doc →
  ∃ r t, r ∈ db_rows "products" db ∧ prop r "id" = VStr id
         ∧ prop r "createdAt" = VDate (ValidDate t) ∧ doc_of_row r doc.
Proof.
  intros Hd. destruct (sp_docs _ _ same id doc Hd) as (r & Hr & Hid).
  destruct (sp_rows _ _ same r Hr) as (id' & doc' & t & Hid' & Ht & Hd' & Hdoc).
  assert (id' = id) as -> by congruence.
  assert (doc' = doc) as -> by congruence.
  by exists r, t.
Qed.

Lemma no_row_of_no_doc id r :
  fs_docs "products" fs !! id = None → r ∈ db_rows "products" db → prop r "id" ≠ VStr id.
Proof.
  intros Hd Hr Hid.
  destruct (sp_rows _ _ same r Hr) as (id' & doc' & t & Hid' & _ & Hd' & _).
  assert (id' = id) as -> by (rewrite Hid in Hid'; by injection Hid'). congruence.
Qed.

Lemma getProduct_db_run id :
  answer (GetProduct id) db
  = (Ok (of_option (head (filter (λ r, satisfies [("id", VStr id)] r = true)
                            (db_rows "products" db)))), db).
Proof. reflexivity. Qed.

Lemma getProduct_parity id :
  ∃ a', answer (GetProduct id) fs = (Ok a', fs)
        ∧ same_answer (of_option (head (filter (λ r, satisfies [("id", VStr id)] r = true)
                                          (db_rows "products" db)))) a'.
Proof.
  cbn [answer]. reveal. unfold returning, FirebaseStorage.getProduct.
  destruct (fs_docs "products" fs !! id) as [doc|] eqn:Hd.
  - destruct (row_of_doc id doc Hd) as (r & t & Hr & Hid & Ht & Hdoc).
    rewrite (hits_one _ r id (sp_ids _ _ same) Hr Hid).
    eexists. split.
    + erewrite bind_ok; [reflexivity|]. apply catch_not_found_ok.
      erewrite bind_ok by (apply doc_get_ok, (sp_faults _ _ same)). rewrite Hd.
      rewrite (doc_createdAt r doc t Hdoc Ht). reflexivity.
    + cbn. by apply view_same_entity.
  - rewrite hits_none by (intros r Hr; by apply no_row_of_no_doc).
    eexists. split.
    + erewrite bind_ok; [reflexivity|]. apply catch_not_found_ok.
      erewrite bind_ok by (apply doc_get_ok, (sp_faults _ _ same)). rewrite Hd.
      reflexivity.
    + exact I.
Qed.


Lemma deleteProduct_db_inv id a db' :
  answer (DeleteProduct id) db = (Ok a, db') →
  a = AFlag (bool_decide
               (0 < length (filter (λ r, satisfies [("id", VStr id)] r = true)
                              (db_rows "products" db)))%nat)
  ∧ db_rows "products" db'
    = filter (λ r, satisfies [("id", VStr id)] r ≠ true) (db_rows "products" db).
Proof.
  cbn [answer]. reveal.
  unfold returning, DatabaseStorage.deleteProduct, mbind, M_bind, db_delete. cbv zeta.
  destruct (existsb _ _); [discriminate|]. cbn [tbl_name products].
  intros Heq. injection Heq as <- <-. split; [reflexivity|apply db_rows_insert].
Qed.

Lemma deleteProduct_parity id a db' :
  answer (DeleteProduct id) db = (Ok a, db') →
  ∃ a' fs', answer (DeleteProduct id) fs = (Ok a', fs')
            ∧ same_answer a a' ∧ same_products fs' db'.
Proof.
  intros Hrun. apply deleteProduct_db_inv in Hrun as [-> Hrows].
  assert (Hkept : ∀ r id', r ∈ db_rows "products" db → prop r "id" = VStr id' →
            r ∈ db_rows "products" db' ↔ id' ≠ id).
  { intros r id' Hr Hid. rewrite Hrows, list_elem_of_filter, hit_id, Hid.
    split; [intros [Hne _] ->; by apply Hne|intros Hne; split; [congruence|done]]. }
  assert (Hsub : db_rows "products" db' `sublist_of` db_rows "products" db)
    by (rewrite Hrows; apply sublist_filter).
  cbn [answer]. reveal. unfold returning, FirebaseStorage.deleteProduct.
  destruct (fs_docs "products" fs !! id) as [doc|] eqn:Hd.
  - destruct (row_of_doc id doc Hd) as (r & t & Hr & Hid & Ht & Hdoc).
    rewrite (hits_one _ r id (sp_ids _ _ same) Hr Hid).
    eexists _, _. split; [|split].
    + erewrite bind_ok; [reflexivity|].
      erewrite bind_ok by (apply doc_get_ok, (sp_faults _ _ same)). rewrite Hd.
      erewrite bind_ok by (apply doc_delete_ok, (sp_faults _ _ same)). reflexivity.
    + reflexivity.
    + split.
      * apply (sp_faults _ _ same).
      * intros r' Hr'. assert (Hin : r' ∈ db_rows "products" db).
        { rewrite Hrows in Hr'. by apply list_elem_of_filter in Hr' as [_ ?]. }
        destruct (sp_rows _ _ same r' Hin) as (id' & doc' & t' & Hid' & Ht' & Hd' & Hdoc').
        exists id', doc', t'. repeat split; try done.
        rewrite fs_docs_put_same, lookup_delete_ne; [done|].
        intros ->. by apply (Hkept r' id' Hin Hid').
      * intros id' doc'. rewrite fs_docs_put_same. intros Hd'.
        apply lookup_delete_Some in Hd' as [Hne Hd'].
        destruct (sp_docs _ _ same id' doc' Hd') as (r' & Hr' & Hid').
        exists r'. split; [|done]. apply (Hkept r' id' Hr' Hid'). congruence.
      * exact (sublist_NoDup _ _ (sp_ids _ _ same) (fmap_sublist _ _ _ Hsub)).
      * exact (sublist_NoDup _ _ (sp_times _ _ same) (fmap_sublist _ _ _ Hsub)).
  - rewrite hits_none by (intros r Hr; by apply no_row_of_no_doc).
    eexists _, _. split; [|split].
    + erewrite bind_ok; [reflexivity|].
      erewrite bind_ok by (apply doc_get_ok, (sp_faults _ _ same)). rewrite Hd.
      reflexivity.
    + reflexivity.
    + split.
      * apply (sp_faults _ _ same).
      * intros r' Hr'. assert (Hin : r' ∈ db_rows "products" db).
        { rewrite Hrows in Hr'. by apply list_elem_of_filter in Hr' as [_ ?]. }
        apply (sp_rows _ _ same r' Hin).
      * intros id' doc' Hd'.
        destruct (sp_docs _ _ same id' doc' Hd') as (r' & Hr' & Hid').
        exists r'. split; [|done]. apply (Hkept r' id' Hr' Hid'). congruence.
      * exact (sublist_NoDup _ _ (sp_ids _ _ same) (fmap_sublist _ _ _ Hsub)).
      * exact (sublist_NoDup _ _ (sp_times _ _ same) (fmap_sublist _ _ _ Hsub)).
Qed.

End product_parity.
Lemma simple_value_stored b (o : Obj) k v :
  simple_input b o → o !! k = Some v →
  v ≠ VUndefined ∧ fs_encode (serializeForFirestore v) = Some v ∧ stored_as k v v
  ∧ k ∈ product_fields.
Proof.
  intros Hs Hk. destruct (Hs k v Hk) as [Hf [Hv|[_ ->]]].
  - destruct v; try discriminate; repeat split; done.
  - repeat split; try done. by left.
Qed.

Lemma simple_input_storable b (o : Obj) : simple_input b o → storable o.
Proof.
  intros Hs k v Hk _. destruct (simple_value_stored b o k v Hs Hk) as (_ & He & _).
  rewrite He. by eexists.
Qed.

Lemma simple_input_absent b (o : Obj) k :
  simple_input b o → k ∉ product_fields → o !! k = None.
Proof.
  intros Hs Hk. destruct (o !! k) as [v|] eqn:Hv; [|done].
  by destruct (Hs k v Hv) as [? _].
Qed.

Lemma product_fields_columns k : k ∈ product_fields → k ∈ column_names products.
Proof. unfold product_fields. rewrite list_elem_of_filter. tauto. Qed.

Lemma id_not_field : "id" ∉ product_fields.
Proof. unfold product_fields. rewrite list_elem_of_filter. tauto. Qed.

Lemma createdAt_not_field : "createdAt" ∉ product_fields.
Proof. unfold product_fields. rewrite list_elem_of_filter. tauto. Qed.

(** The row that an update with a simple input makes of a row. *)
Lemma set_simple_prop (data r : Obj) k :
  simple_input true data →
  prop (set_columns products data r) k = default (prop r k) (data !! k).
Proof.
  intros Hs. rewrite set_columns_prop. destruct (data !! k) as [v|] eqn:Hv.
  - destruct (simple_value_stored _ _ _ _ Hs Hv) as (Hne & _ & _ & Hf).
    rewrite decide_True by by apply product_fields_columns.
    rewrite (prop_lookup _ _ _ Hv). cbn. by destruct v.
  - rewrite (prop_absent _ _ Hv). cbn. by destruct (decide _).
Qed.

(** The document that it makes of the document of the row. *)
Lemma stored_simple_prop (data old : Obj) k :
  simple_input true data →
  prop (stored data ∪ old) k = default (prop old k) (data !! k).
Proof.
  intros Hs. destruct (data !! k) as [v|] eqn:Hv.
  - destruct (simple_value_stored _ _ _ _ Hs Hv) as (Hne & He & _ & _).
    cbn [default from_option Datatypes.id]. apply prop_union_l.
    rewrite stored_lookup, Hv. by destruct v.
  - cbn [default from_option Datatypes.id]. apply prop_union_r.
    by rewrite stored_lookup, Hv.
Qed.

Lemma update_doc_of_row (data r old : Obj) :
  simple_input true data → doc_of_row r old →
  doc_of_row (set_columns products data r) (stored data ∪ old).
Proof.
  intros Hs Hdoc k. rewrite set_simple_prop, stored_simple_prop by done.
  destruct (data !! k) as [v|] eqn:Hv; [|apply Hdoc].
  by destruct (simple_value_stored _ _ _ _ Hs Hv) as (_ & _ & ? & _).
Qed.

Lemma map_unless_hit {A} (hit : A → bool) (f : A → A) (l : list A) :
  filter (λ x, hit x = true) l = [] → map (λ x, if hit x then f x else x) l = l.
Proof.
  induction l as [|x l IH]; [done|]. rewrite filter_cons.
  destruct (decide (hit x = true)) as [Hx|Hx]; [discriminate|].
  intros Hl. cbn. rewrite (IH Hl). by destruct (hit x).
Qed.

Lemma updateProduct_db_inv id data (db db' : Database) a :
  answer (UpdateProduct id data) db = (Ok a, db') →
  a = of_option (head (map (set_columns products data)
                         (filter (λ r, satisfies [("id", VStr id)] r = true)
                            (db_rows "products" db))))
  ∧ db_rows "products" db'
    = map (λ r, if satisfies [("id", VStr id)] r then set_columns products data r else r)
        (db_rows "products" db)
  ∧ defines_value data = true.
Proof.
  cbn [answer]. reveal.
  unfold returning, DatabaseStorage.updateProduct, mbind, M_bind, db_update. cbv zeta.
  cbn [tbl_name products].
  destruct (defines_value data); [|discriminate].
  destruct (sets_column products data); [|discriminate]. cbn [negb].
  destruct (bool_decide _) eqn:Hhit.
  - apply bool_decide_eq_true in Hhit. intros Heq. injection Heq as <- <-.
    rewrite Hhit. split; [reflexivity|]. split; [|reflexivity]. by rewrite map_unless_hit.
  - destruct (forallb _ _); [|discriminate]. destruct (unique_after _ _); [|discriminate].
    destruct (forallb _ _); [|discriminate]. destruct (existsb _ _); [discriminate|].
    intros Heq. injection Heq as <- <-.
    split; [reflexivity|split; [apply db_rows_insert|reflexivity]].
Qed.
Lemma fmap_map_if {A B} (key : A → B) (hit : A → bool) (f : A → A) (l : list A) :
  (∀ x, key (f x) = key x) →
  key <$> map (λ x, if hit x then f x else x) l = key <$> l.
Proof.
  intros Hkey. induction l as [|x l IH]; [done|].
  cbn [map fmap list_fmap]. f_equal; [|exact IH]. destruct (hit x); [apply Hkey|done].
Qed.

Section product_update.
Context {prims : JsPrims}.
Context (fs : Firestore) (db : Database).
Hypothesis same : same_products fs db.

Lemma updateProduct_parity id data a db' :
  simple_input true data →
  answer (UpdateProduct id data) db = (Ok a, db') →
  ∃ a' fs', answer (UpdateProduct id data) fs = (Ok a', fs')
            ∧ same_answer a a' ∧ same_products fs' db'.
Proof.
  intros Hs Hrun. apply updateProduct_db_inv in Hrun as (-> & Hrows & Hdef).
  assert (Hfault := sp_faults _ _ same).
  assert (Hids : (λ r : Obj, prop r "id") <$> db_rows "products" db'
                 = (λ r : Obj, prop r "id") <$> db_rows "products" db).
  { rewrite Hrows. apply (fmap_map_if (λ r : Obj, prop r "id")). intros x.
    rewrite set_simple_prop by done.
    by rewrite (simple_input_absent _ _ _ Hs id_not_field). }
  assert (Htimes : (λ r : Obj, prop r "createdAt") <$> db_rows "products" db'
                   = (λ r : Obj, prop r "createdAt") <$> db_rows "products" db).
  { rewrite Hrows. apply (fmap_map_if (λ r : Obj, prop r "createdAt")). intros x.
    rewrite set_simple_prop by done.
    by rewrite (simple_input_absent _ _ _ Hs createdAt_not_field). }
  assert (Hrun' : answer (UpdateProduct id data) fs
                  = returning of_option (update_of UProduct id data) fs) by reflexivity.
  rewrite Hrun'. unfold returning.
  destruct (fs_docs "products" fs !! id) as [old|] eqn:Hd.
  - destruct (row_of_doc fs db same id old Hd) as (r & t & Hr & Hid & Ht & Hdoc).
    rewrite (hits_one _ r id (sp_ids _ _ same) Hr Hid).
    assert (Hdoc' := update_doc_of_row data r old Hs Hdoc).
    assert (Hid' : prop (set_columns products data r) "id" = VStr id).
    { rewrite set_simple_prop by done.
      by rewrite (simple_input_absent _ _ _ Hs id_not_field). }
    assert (Ht' : prop (set_columns products data r) "createdAt" = VDate (ValidDate t)).
    { rewrite set_simple_prop by done.
      by rewrite (simple_input_absent _ _ _ Hs createdAt_not_field). }
    eexists _, _. split; [|split].
    + erewrite bind_ok; [reflexivity|].
      rewrite update_fs_run by exact Hfault. cbn [updatable_table tbl_name products].
      rewrite Hd, Hdef, (fs_encode_obj_stored data (simple_input_storable _ _ Hs)).
      cbv zeta.
      cbn [fs_view]. rewrite (doc_createdAt _ _ t Hdoc' Ht').
      cbn [toDate truthy negb mbind Outcome_bind]. reflexivity.
    + cbn [map head of_option from_option same_answer]. by apply view_same_entity.
    + split.
      * exact Hfault.
      * intros r' Hr'. rewrite Hrows in Hr'.
        apply list_elem_of_In, in_map_iff in Hr' as (r0 & <- & Hr0).
        apply list_elem_of_In in Hr0.
        destruct (sp_rows _ _ same r0 Hr0) as (id0 & doc0 & t0 & Hid0 & Ht0 & Hd0 & Hdoc0).
        destruct (satisfies [("id", VStr id)] r0) eqn:Hhit.
        -- apply hit_id in Hhit. assert (id0 = id) as -> by congruence.
           assert (doc0 = old) as -> by congruence.
           exists id, (stored data ∪ old), t0. repeat split.
           ++ rewrite set_simple_prop by done.
              by rewrite (simple_input_absent _ _ _ Hs id_not_field).
           ++ rewrite set_simple_prop by done.
              by rewrite (simple_input_absent _ _ _ Hs createdAt_not_field).
           ++ by rewrite fs_docs_put_same, lookup_insert_eq.
           ++ by apply update_doc_of_row.
        -- exists id0, doc0, t0. repeat split; try done.
           rewrite fs_docs_put_same, lookup_insert_ne; [done|].
           intros <-. apply hit_id in Hid0. congruence.
      * intros id' doc'. rewrite fs_docs_put_same. intros Hd'.
        destruct (decide (id' = id)) as [->|Hne].
        -- exists (set_columns products data r). split; [|done].
           rewrite Hrows. apply list_elem_of_In, in_map_iff. exists r.
           rewrite (proj2 (hit_id r id) Hid). split; [done|]. by apply list_elem_of_In.
        -- rewrite lookup_insert_ne in Hd' by done.
           destruct (sp_docs _ _ same id' doc' Hd') as (r0 & Hr0 & Hid0).
           exists r0. split; [|done].
           rewrite Hrows. apply list_elem_of_In, in_map_iff. exists r0.
           split; [|by apply list_elem_of_In].
           destruct (satisfies [("id", VStr id)] r0) eqn:Hhit; [|done].
           apply hit_id in Hhit. congruence.
      * rewrite Hids. apply (sp_ids _ _ same).
      * rewrite Htimes. apply (sp_times _ _ same).
  - rewrite hits_none by (intros r Hr; by apply (no_row_of_no_doc fs db same)).
    assert (Hsame : db_rows "products" db' = db_rows "products" db).
    { rewrite Hrows. apply map_unless_hit, hits_none.
      intros r Hr. by apply (no_row_of_no_doc fs db same). }
    eexists _, _. split; [|split].
    + erewrite bind_ok; [reflexivity|].
      rewrite update_fs_run by exact Hfault. cbn [updatable_table tbl_name products].
      by rewrite Hd.
    + exact I.
    + split; rewrite ?Hsame; apply same.
Qed.

End product_update.
Lemma new_row_prop_in t id now (values : Obj) c :
  NoDup (col_name <$> tbl_columns t) → c ∈ tbl_columns t →
  prop (new_row t id now values) (col_name c)
  = match prop values (col_name c) with
    | VUndefined => default_value id now (col_default c)
    | v => v
    end.
Proof. intros Hnd Hc. apply prop_lookup. by apply new_row_lookup. Qed.

Lemma new_row_prop_out t id now (values : Obj) k :
  k ∉ column_names t → prop (new_row t id now values) k = VUndefined.
Proof.
  intros Hk. apply prop_absent, not_elem_of_list_to_map_1.
  intros Hin. apply Hk. unfold column_names.
  apply list_elem_of_fmap in Hin as ([k' v] & -> & Hin).
  apply list_elem_of_In, in_map_iff in Hin as (c & Heq & Hc).
  injection Heq as <- _. apply (list_elem_of_fmap_2 col_name). by apply list_elem_of_In.
Qed.

Lemma stored_prop (o : Obj) k :
  prop (stored o) k
  = match prop o k with
    | VUndefined => VUndefined
    | v => default VUndefined (fs_encode (serializeForFirestore v))
    end.
Proof.
  unfold prop. rewrite stored_lookup.
  destruct (o !! k) as [v|]; [destruct v|]; reflexivity.
Qed.

(** The product that the document backend returns for a simple input, field
    by field against the row that the relational backend inserts. *)
Lemma new_product_fields id now (input : Obj) k :
  simple_input false input →
  let r := new_row products id now input in
  let p := <["isActive" := coalesce (prop input "isActive") (VBool true)]>
             (<["downloadLimit" := coalesce (prop input "downloadLimit") (VNum 5)]>
                (<["createdAt" := VDate (ValidDate now)]> (<["id" := VStr id]> input))) in
  match prop r k with
  | VNull => prop p k = VUndefined
  | VDate (ValidDate t) => k = "createdAt" ∧ t = now ∧ prop p k = VDate (ValidDate now)
  | VStr _ | VNum _ | VBool _ | VUndefined => prop p k = prop r k
  | _ => False
  end.
Proof.
  intros Hs r p. subst r p.
  assert (Hnd : NoDup (col_name <$> tbl_columns products))
    by (apply (bool_decide_unpack _); by vm_compute).
  assert (Hval : ∀ k', prop input k' = VUndefined
                       ∨ ∃ v, input !! k' = Some v ∧ prop input k' = v ∧ scalar v = true).
  { intros k'. unfold prop. destruct (input !! k') as [v|] eqn:Hv; [right|by left].
    exists v. destruct (Hs k' v Hv) as [_ [Hv'|[? _]]]; done. }
  destruct (decide (k ∈ column_names products)) as [Hin|Hout].
  - apply list_elem_of_fmap in Hin as (c & -> & Hc).
    rewrite (new_row_prop_in _ _ _ _ c Hnd Hc).
    unfold products in Hc. cbn [tbl_columns] in Hc.
    repeat (apply elem_of_cons in Hc as [->|Hc];
      [ cbn [col_name col_default id_column userId_column createdAt_column withDefault
             notNull primaryKey references col default_value];
        repeat first [ rewrite prop_insert_eq | rewrite prop_insert_ne by done ];
        match goal with
        | |- context [prop input ?k'] =>
            destruct (Hval k') as [Hu|(v & Hv & -> & Hsc)];
            [ rewrite ?Hu; try (exfalso; by eapply id_not_field, Hs)
            | try (exfalso; by eapply id_not_field, Hs);
              try (exfalso; by eapply createdAt_not_field, Hs);
              destruct v; try discriminate Hsc ]
        | _ => idtac
        end; cbn [coalesce]; try done |]).
    by apply not_elem_of_nil in Hc.
  - rewrite new_row_prop_out by done.
    assert (Hne : ∀ k', k' ∈ column_names products → k' ≠ k) by (intros k' Hk' ->; done).
    rewrite !prop_insert_ne by (apply Hne, list_elem_of_In; cbn; tauto).
    apply prop_absent, (simple_input_absent false); [done|].
    intros Hf. by apply Hout, product_fields_columns.
Qed.
Lemma new_product_same_entity id now (input : Obj) :
  simple_input false input →
  same_entity (new_row products id now input)
    (<["isActive" := coalesce (prop input "isActive") (VBool true)]>
       (<["downloadLimit" := coalesce (prop input "downloadLimit") (VNum 5)]>
          (<["createdAt" := VDate (ValidDate now)]> (<["id" := VStr id]> input)))).
Proof.
  intros Hs k. assert (Hk := new_product_fields id now input k Hs). cbv zeta in Hk.
  destruct (prop (new_row products id now input) k) as [| | | | |[]| | |];
    try contradiction; try (left; by rewrite Hk).
  - by right.
  - destruct Hk as (_ & -> & ->). by left.
Qed.

Lemma new_product_doc_of_row id now (input : Obj) :
  simple_input false input →
  doc_of_row (new_row products id now input)
    (stored (<["isActive" := coalesce (prop input "isActive") (VBool true)]>
               (<["downloadLimit" := coalesce (prop input "downloadLimit") (VNum 5)]>
                  (<["createdAt" := VDate (ValidDate now)]> (<["id" := VStr id]> input))))).
Proof.
  intros Hs k. assert (Hk := new_product_fields id now input k Hs). cbv zeta in Hk.
  rewrite stored_prop. unfold stored_as.
  destruct (prop (new_row products id now input) k) as [| | | | |[]| | |];
    try contradiction; try (by rewrite Hk).
  - rewrite Hk. by right.
  - destruct Hk as (-> & -> & ->). done.
Qed.

Lemma new_product_id id now (input : Obj) :
  simple_input false input → prop (new_row products id now input) "id" = VStr id.
Proof.
  intros Hs. assert (Hk := new_product_fields id now input "id" Hs). cbv zeta in Hk.
  rewrite (prop_insert_ne _ "isActive" "id"), (prop_insert_ne _ "downloadLimit" "id"),
    (prop_insert_ne _ "createdAt" "id"), prop_insert_eq in Hk by discriminate.
  destruct (prop (new_row products id now input) "id") as [| | | | |[]| | |];
    try contradiction; try done. by destruct Hk.
Qed.

Lemma new_product_createdAt id now (input : Obj) :
  simple_input false input →
  prop (new_row products id now input) "createdAt" = VDate (ValidDate now).
Proof.
  intros Hs. assert (Hk := new_product_fields id now input "createdAt" Hs). cbv zeta in Hk.
  rewrite (prop_insert_ne _ "isActive" "createdAt"),
    (prop_insert_ne _ "downloadLimit" "createdAt"), prop_insert_eq in Hk by discriminate.
  destruct (prop (new_row products id now input) "createdAt") as [| | | | |[]| | |];
    try contradiction; try done. by destruct Hk as (_ & -> & _).
Qed.

Lemma unique_ok_id (rows : list Obj) (r : Obj) :
  unique_ok products rows r = true →
  ∀ r', r' ∈ rows → sql_eq (prop r' "id") (prop r "id") = false.
Proof.
  unfold unique_ok. rewrite forallb_forall. intros Hu r' Hr'.
  specialize (Hu id_column). cbn in Hu.
  assert (Hin : In id_column (tbl_columns products)) by (cbn; tauto).
  apply Hu, negb_true_iff in Hin.
  destruct (sql_eq _ _) eqn:He; [|done].
  rewrite <-Hin. symmetry. apply existsb_exists. exists r'.
  split; [by apply list_elem_of_In|done].
Qed.

Lemma createProduct_db_run id now input (db db' : Database) a :
  answer (CreateProduct id now input) db = (Ok a, db') →
  insertable products id now input db
  ∧ a = AEntity (new_row products id now input)
  ∧ db_rows "products" db' = db_rows "products" db ++ [new_row products id now input].
Proof.
  cbn [answer]. reveal.
  unfold returning, DatabaseStorage.createProduct, mbind, M_bind.
  destruct (db_insert products id now input db) as [[rows|e] db1] eqn:E; [|discriminate].
  apply db_insert_inv in E as (Hins & -> & ->).
  unfold mret, M_ret. intros Heq. injection Heq as <- <-.
  split; [done|]. split; [reflexivity|]. apply db_rows_insert.
Qed.

Section product_create.
Context {prims : JsPrims}.
Context (fs : Firestore) (db : Database).
Hypothesis same : same_products fs db.

Lemma createProduct_parity id now input a db' :
  simple_input false input →
  (∀ r, r ∈ db_rows "products" db → row_time r ≠ now) →
  answer (CreateProduct id now input) db = (Ok a, db') →
  ∃ a' fs', answer (CreateProduct id now input) fs = (Ok a', fs')
            ∧ same_answer a a' ∧ same_products fs' db'.
Proof.
  intros Hs Hnow Hrun.
  apply createProduct_db_run in Hrun as ((_ & Huniq & _) & -> & Hrows).
  assert (Hfault := sp_faults _ _ same).
  assert (Hid := new_product_id id now input Hs).
  assert (Ht := new_product_createdAt id now input Hs).
  assert (Hfresh : ∀ r', r' ∈ db_rows "products" db → prop r' "id" ≠ VStr id).
  { intros r' Hr' Hid'. assert (He := unique_ok_id _ _ Huniq r' Hr').
    rewrite Hid, Hid' in He. cbn in He. by rewrite bool_decide_eq_true_2 in He. }
  destruct (createProduct_fs_ok id now input fs Hfault (simple_input_storable _ _ Hs))
    as (p & Hrun & ->).
  eexists _, _. split; [|split].
  - cbn [answer]. reveal. unfold returning. erewrite bind_ok by exact Hrun. reflexivity.
  - cbn [same_answer]. by apply new_product_same_entity.
  - split.
    + exact Hfault.
    + intros r' Hr'. rewrite Hrows in Hr'. apply elem_of_app in Hr' as [Hr'|Hr'].
      * destruct (sp_rows _ _ same r' Hr') as (id' & doc' & t' & Hid' & Ht' & Hd' & Hdoc').
        exists id', doc', t'. repeat split; try done.
        rewrite fs_docs_put_same, lookup_insert_ne; [done|].
        intros <-. by apply (Hfresh r' Hr').
      * apply elem_of_cons in Hr' as [->|Hr']; [|by apply not_elem_of_nil in Hr'].
        eexists id, _, now. split; [exact Hid|]. split; [exact Ht|]. split.
        -- by rewrite fs_docs_put_same, lookup_insert_eq.
        -- by apply new_product_doc_of_row.
    + intros id' doc'. rewrite fs_docs_put_same. intros Hd'.
      destruct (decide (id' = id)) as [->|Hne].
      * exists (new_row products id now input). split; [|done].
        rewrite Hrows. apply elem_of_app. right. left.
      * rewrite lookup_insert_ne in Hd' by done.
        destruct (sp_docs _ _ same id' doc' Hd') as (r0 & Hr0 & Hid0).
        exists r0. split; [|done]. rewrite Hrows. apply elem_of_app. by left.
    + rewrite Hrows, fmap_app. apply NoDup_app. split; [apply (sp_ids _ _ same)|].
      split; [|apply NoDup_singleton].
      intros x Hx Hin. apply list_elem_of_fmap in Hx as (r' & -> & Hr').
      apply elem_of_cons in Hin as [Hin|Hin]; [|by apply not_elem_of_nil in Hin].
      apply (Hfresh r' Hr'). by rewrite Hin.
    + rewrite Hrows, fmap_app. apply NoDup_app. split; [apply (sp_times _ _ same)|].
      split; [|apply NoDup_singleton].
      intros x Hx Hin. apply list_elem_of_fmap in Hx as (r' & -> & Hr').
      apply elem_of_cons in Hin as [Hin|Hin]; [|by apply not_elem_of_nil in Hin].
      apply (Hnow r' Hr'). unfold row_time. by rewrite Hin, Ht.
Qed.

End product_create.
(** Two lists in descending order of keys that are pairwise distinct, whose
    elements correspond through the keys, correspond position by
    position. *)
Lemma sorted_match {A B} (key : A → Z) (key' : B → Z) (P : A → B → Prop) l1 l2 :
  StronglySorted (λ a b, key b ≤ key a) l1 →
  StronglySorted (λ a b, key' b ≤ key' a) l2 →
  NoDup (key <$> l1) → NoDup (key' <$> l2) →
  (∀ x, x ∈ l1 → ∃ y, y ∈ l2 ∧ key' y = key x ∧ P x y) →
  (∀ y, y ∈ l2 → ∃ x, x ∈ l1 ∧ key' y = key x) →
  Forall2 P l1 l2.
Proof.
  revert l2. induction l1 as [|x l1 IH]; intros l2 Hs1 Hs2 Hn1 Hn2 H12 H21.
  - destruct l2 as [|y l2]; [constructor|].
    destruct (H21 y) as (x & Hx & _); [left|]. by apply not_elem_of_nil in Hx.
  - destruct l2 as [|y l2].
    { destruct (H12 x) as (y & Hy & _); [left|]. by apply not_elem_of_nil in Hy. }
    apply StronglySorted_inv in Hs1 as [Hs1 Hx].
    apply StronglySorted_inv in Hs2 as [Hs2 Hy].
    rewrite fmap_cons in Hn1. rewrite fmap_cons in Hn2.
    apply NoDup_cons in Hn1 as [Hnx Hn1]. apply NoDup_cons in Hn2 as [Hny Hn2].
    rewrite Forall_forall in Hx. rewrite Forall_forall in Hy.
    assert (Hkey : key' y = key x).
    { destruct (H12 x) as (y0 & Hy0 & Hk0 & _); [left|].
      destruct (H21 y) as (x0 & Hx0 & Hk1); [left|].
      assert (key' y0 ≤ key' y)
        by (apply elem_of_cons in Hy0 as [->|Hy0]; [lia|by apply Hy]).
      assert (key x0 ≤ key x)
        by (apply elem_of_cons in Hx0 as [->|Hx0]; [lia|by apply Hx]).
      lia. }
    constructor.
    + destruct (H12 x) as (y0 & Hy0 & Hk0 & HP); [left|].
      apply elem_of_cons in Hy0 as [->|Hy0]; [done|].
      exfalso. apply Hny. rewrite Hkey, <-Hk0. by apply list_elem_of_fmap_2.
    + apply IH; try done.
      * intros x' Hx'. destruct (H12 x') as (y' & Hy' & Hk' & HP'); [by right|].
        exists y'. split; [|done].
        apply elem_of_cons in Hy' as [->|Hy']; [|done].
        exfalso. apply Hnx. rewrite <-Hkey, Hk'. by apply list_elem_of_fmap_2.
      * intros y' Hy'. destruct (H21 y') as (x' & Hx' & Hk'); [by right|].
        exists x'. split; [|done].
        apply elem_of_cons in Hx' as [->|Hx']; [|done].
        exfalso. apply Hny. rewrite Hkey, <-Hk'. by apply list_elem_of_fmap_2.
Qed.

Lemma StronglySorted_impl_elem {A} (R R' : A → A → Prop) l :
  StronglySorted R l → (∀ x y, x ∈ l → y ∈ l → R x y → R' x y) → StronglySorted R' l.
Proof.
  induction 1 as [|x l Hl IH Hx]; intros Himp; constructor.
  - apply IH. intros a b Ha Hb. apply Himp; by right.
  - rewrite Forall_forall in *. intros y Hy. apply Himp; [left|by right|by apply Hx].
Qed.

Lemma NoDup_fmap_elem_inj {A B} (f : A → B) (l : list A) x y :
  NoDup (f <$> l) → x ∈ l → y ∈ l → f x = f y → x = y.
Proof.
  intros Hnd Hx Hy Hf.
  apply list_elem_of_lookup in Hx as [i Hi]. apply list_elem_of_lookup in Hy as [j Hj].
  assert (i = j) as ->; [|congruence].
  apply (NoDup_lookup (f <$> l) i j (f x) Hnd).
  - by rewrite list_lookup_fmap, Hi.
  - by rewrite list_lookup_fmap, Hj, Hf.
Qed.

Lemma Array_map_ok {A B} (f : A → Outcome B) xs l :
  Forall2 (λ x y, f x = Ok y) xs l → Array_map f xs = Ok l.
Proof.
  induction 1 as [|x y xs l Hxy _ IH]; [done|].
  cbn [Array_map]. rewrite Hxy. cbn [mbind Outcome_bind]. by rewrite IH.
Qed.

Lemma field_is_prop (o : Obj) k v : field_is o k v = true ↔ prop o k = VStr v.
Proof.
  unfold field_is, prop. destruct (o !! k) as [[]|]; cbn; try (split; discriminate).
  rewrite bool_decide_eq_true. split; congruence.
Qed.

Lemma Forall2_same_elem {A} (P : A → A → Prop) (l : list A) :
  (∀ x, x ∈ l → P x x) → Forall2 P l l.
Proof.
  induction l as [|x l IH]; intros HP; constructor.
  - apply HP. left.
  - apply IH. intros y Hy. apply HP. by right.
Qed.
Section product_listing.
Context {prims : JsPrims}.
Context (fs : Firestore) (db : Database).
Hypothesis same : same_products fs db.
Variable userId : string.

Lemma listed_rows_elem r :
  r ∈ run_select (orderBy_desc_col "createdAt"
                    (where_ [("userId", VStr userId)] (select_from products))) db
  ↔ r ∈ db_rows "products" db ∧ prop r "userId" = VStr userId.
Proof.
  change (run_select _ db)
    with (sort_by (λ a b : Obj, value_leb true (prop b "createdAt") (prop a "createdAt"))
            (filter (λ r, satisfies [("userId", VStr userId)] r = true)
               (db_rows "products" db))).
  rewrite sort_by_Permutation, list_elem_of_filter.
  unfold satisfies. cbn [forallb fst snd]. rewrite andb_true_r, sql_eq_str. tauto.
Qed.

Lemma listed_docs_elem d :
  d ∈ run_query (orderBy_desc "createdAt"
                   (where_eq "userId" userId (collection "products")))
        (fs_docs "products" fs)
  ↔ fs_docs "products" fs !! d.1 = Some d.2 ∧ prop d.2 "userId" = VStr userId.
Proof.
  change (run_query _ _)
    with (sort_by (λ a b : string * Obj,
                     value_leb false (prop b.2 "createdAt") (prop a.2 "createdAt"))
            (sort_by (λ a b : string * Obj, String.leb b.1 a.1)
               (filter (λ d : string * Obj, is_Some (d.2 !! "createdAt"))
                  (filter (λ d : string * Obj, matches [("userId", userId)] d.2 = true)
                     (map_to_list (fs_docs "products" fs)))))).
  rewrite !sort_by_Permutation, !list_elem_of_filter, elem_of_map_to_list'.
  unfold matches. cbn [forallb fst snd]. rewrite andb_true_r, field_is_prop.
  split; [tauto|]. intros [Hd Hu]. split; [|done].
  destruct d as [id doc]. destruct (row_of_doc fs db same id doc Hd) as (r & t & _ & _ & Ht & Hdoc).
  assert (Hc := doc_createdAt r doc t Hdoc Ht). unfold prop in Hc. cbn [snd].
  destruct (doc !! "createdAt"); [by eexists|discriminate].
Qed.

Lemma row_time_spec r :
  r ∈ db_rows "products" db → prop r "createdAt" = VDate (ValidDate (row_time r)).
Proof.
  intros Hr. destruct (sp_rows _ _ same r Hr) as (_ & _ & t & _ & Ht & _).
  unfold row_time. by rewrite Ht.
Qed.

Lemma doc_time_spec d :
  fs_docs "products" fs !! d.1 = Some d.2 → prop d.2 "createdAt" = VTimestamp (doc_time d).
Proof.
  intros Hd. destruct d as [id doc].
  destruct (row_of_doc fs db same id doc Hd) as (r & t & _ & _ & Ht & Hdoc).
  assert (Hc := doc_createdAt r doc t Hdoc Ht). unfold doc_time. cbn [snd] in *. by rewrite Hc.
Qed.

Lemma row_doc_time r id doc :
  r ∈ db_rows "products" db → prop r "id" = VStr id →
  fs_docs "products" fs !! id = Some doc →
  doc_time (id, doc) = row_time r ∧ doc_of_row r doc.
Proof.
  intros Hr Hid Hd.
  destruct (sp_rows _ _ same r Hr) as (id' & doc' & t & Hid' & Ht & Hd' & Hdoc).
  assert (id' = id) as -> by congruence. assert (doc' = doc) as -> by congruence.
  split; [|done]. unfold doc_time, row_time. cbn [snd].
  by rewrite (doc_createdAt r doc t Hdoc Ht), Ht.
Qed.

Lemma listed_rows_sorted :
  StronglySorted (λ a b, row_time b ≤ row_time a)
    (run_select (orderBy_desc_col "createdAt"
                   (where_ [("userId", VStr userId)] (select_from products))) db).
Proof.
  eapply StronglySorted_impl_elem.
  - by apply (run_select_sorted _ db "createdAt").
  - intros x y Hx Hy. apply listed_rows_elem in Hx as [Hx _], Hy as [Hy _].
    cbv beta. rewrite (row_time_spec x Hx), (row_time_spec y Hy), value_leb_dates.
    apply Z.leb_le.
Qed.

Lemma listed_docs_sorted :
  StronglySorted (λ a b, doc_time b ≤ doc_time a)
    (run_query (orderBy_desc "createdAt"
                  (where_eq "userId" userId (collection "products")))
       (fs_docs "products" fs)).
Proof.
  eapply StronglySorted_impl_elem.
  - by apply (run_query_sorted _ _ "createdAt").
  - intros x y Hx Hy. apply listed_docs_elem in Hx as [Hx _], Hy as [Hy _].
    cbv beta. rewrite (doc_time_spec x Hx), (doc_time_spec y Hy), value_leb_timestamps.
    apply Z.leb_le.
Qed.

Lemma rows_time_inj r r' :
  r ∈ db_rows "products" db → r' ∈ db_rows "products" db →
  row_time r = row_time r' → r = r'.
Proof.
  intros Hr Hr' Ht.
  apply (NoDup_fmap_elem_inj (λ r : Obj, prop r "createdAt") _ r r' (sp_times _ _ same));
    [done..|].
  by rewrite (row_time_spec r Hr), (row_time_spec r' Hr'), Ht.
Qed.

Lemma listed_rows_NoDup :
  NoDup (row_time <$>
           run_select (orderBy_desc_col "createdAt"
                         (where_ [("userId", VStr userId)] (select_from products))) db).
Proof.
  apply NoDup_fmap_2_strong.
  - intros x y Hx Hy. apply listed_rows_elem in Hx as [Hx _], Hy as [Hy _].
    by apply rows_time_inj.
  - change (run_select _ db)
      with (sort_by (λ a b : Obj, value_leb true (prop b "createdAt") (prop a "createdAt"))
              (filter (λ r, satisfies [("userId", VStr userId)] r = true)
                 (db_rows "products" db))).
    rewrite sort_by_Permutation.
    eapply sublist_NoDup; [|apply sublist_filter].
    eapply NoDup_fmap_1, (sp_ids _ _ same).
Qed.

Lemma listed_docs_NoDup :
  NoDup (doc_time <$>
           run_query (orderBy_desc "createdAt"
                        (where_eq "userId" userId (collection "products")))
             (fs_docs "products" fs)).
Proof.
  apply NoDup_fmap_2_strong.
  - intros [id doc] [id' doc'] Hx Hy Ht.
    apply listed_docs_elem in Hx as [Hx _], Hy as [Hy _]. cbn [fst snd] in *.
    destruct (row_of_doc fs db same id doc Hx) as (r & t & Hr & Hid & _ & _).
    destruct (row_of_doc fs db same id' doc' Hy) as (r' & t' & Hr' & Hid' & _ & _).
    destruct (row_doc_time r id doc Hr Hid Hx) as [Hrt _].
    destruct (row_doc_time r' id' doc' Hr' Hid' Hy) as [Hrt' _].
    assert (r = r') as <- by (apply rows_time_inj; [done..|congruence]).
    assert (id' = id) as -> by congruence. congruence.
  - change (run_query _ _)
      with (sort_by (λ a b : string * Obj,
                       value_leb false (prop b.2 "createdAt") (prop a.2 "createdAt"))
              (sort_by (λ a b : string * Obj, String.leb b.1 a.1)
                 (filter (λ d : string * Obj, is_Some (d.2 !! "createdAt"))
                    (filter (λ d : string * Obj, matches [("userId", userId)] d.2 = true)
                       (map_to_list (fs_docs "products" fs)))))).
    rewrite !sort_by_Permutation.
    eapply sublist_NoDup; [|apply sublist_filter].
    eapply sublist_NoDup; [|apply sublist_filter].
    apply NoDup_map_to_list.
Qed.

Lemma getProducts_parity :
  ∃ a', answer (GetProducts userId) fs = (Ok a', fs)
        ∧ same_answer
            (AList (run_select (orderBy_desc_col "createdAt"
                                  (where_ [("userId", VStr userId)] (select_from products)))
                      db)) a'.
Proof.
  set (q := orderBy_desc "createdAt" (where_eq "userId" userId (collection "products"))).
  exists (AList (product_of <$> run_query q (fs_docs "products" fs))). split.
  - cbn [answer]. reveal. unfold returning, FirebaseStorage.getProducts. fold q.
    erewrite bind_ok; [reflexivity|]. apply catch_not_found_ok.
    erewrite bind_ok by (apply query_get_ok; [apply (sp_faults _ _ same)|reflexivity]).
    unfold lift. f_equal. f_equal. apply Array_map_ok, Forall2_fmap_r, Forall2_same_elem.
    intros d Hd. apply listed_docs_elem in Hd as [Hd _].
    cbv zeta. rewrite (doc_time_spec d Hd). reflexivity.
  - cbn [same_answer]. apply Forall2_fmap_r.
    apply (sorted_match row_time doc_time);
      [apply listed_rows_sorted|apply listed_docs_sorted
      |apply listed_rows_NoDup|apply listed_docs_NoDup| |].
    + intros r Hr. apply listed_rows_elem in Hr as [Hr Hu].
      destruct (sp_rows _ _ same r Hr) as (id & doc & t & Hid & Ht & Hd & Hdoc).
      destruct (row_doc_time r id doc Hr Hid Hd) as [Hrt _].
      exists (id, doc). split; [|split; [done|]].
      * apply listed_docs_elem. split; [done|]. cbn [snd].
        specialize (Hdoc "userId"). rewrite Hu in Hdoc. exact Hdoc.
      * unfold compose, product_of. cbn [fst snd]. rewrite Hrt. apply view_same_entity; [done..|].
        by apply row_time_spec.
    + intros [id doc] Hd. apply listed_docs_elem in Hd as [Hd Hu]. cbn [fst snd] in *.
      destruct (row_of_doc fs db same id doc Hd) as (r & t & Hr & Hid & Ht & Hdoc).
      destruct (row_doc_time r id doc Hr Hid Hd) as [Hrt _].
      exists r. split; [|done]. apply listed_rows_elem. split; [done|].
      specialize (Hdoc "userId"). rewrite Hu in Hdoc. unfold stored_as in Hdoc.
      destruct (prop r "userId") as [| | | | |[]| | |]; try contradiction; try done.
      * by destruct Hdoc.
      * by destruct Hdoc.
Qed.

End product_listing.
Lemma getProducts_db_run userId (db : Database) :
  answer (GetProducts userId) db
  = (Ok (AList (run_select (orderBy_desc_col "createdAt"
                              (where_ [("userId", VStr userId)] (select_from products)))
                  db)), db).
Proof. reflexivity. Qed.

Lemma product_call_parity {prims : JsPrims} c (fs : Firestore) (db db' : Database) a :
  same_products fs db → product_call db c → answer c db = (Ok a, db') →
  ∃ a' fs', answer c fs = (Ok a', fs') ∧ same_answer a a' ∧ same_products fs' db'.
Proof.
  intros Hsame Hc Hrun. destruct c; try contradiction.
  - rewrite getProducts_db_run in Hrun. injection Hrun as <- <-.
    destruct (getProducts_parity fs db Hsame userId) as (a' & Hrun' & Ha).
    by exists a', fs.
  - rewrite (getProduct_db_run db id) in Hrun. injection Hrun as <- <-.
    destruct (getProduct_parity fs db Hsame id) as (a' & Hrun' & Ha).
    by exists a', fs.
  - destruct Hc as [Hs Hnow]. by apply (createProduct_parity fs db Hsame id now product).
  - by apply (updateProduct_parity fs db Hsame id data).
  - by apply (deleteProduct_parity fs db Hsame id).
Qed.

Lemma sample_product_simple userId name : simple_input false (sample_product userId name).
Proof.
  intros k v Hk. unfold sample_product in Hk.
  apply lookup_insert_Some in Hk as [[<- <-]|[_ Hk]];
    [split; [|by left]; apply (bool_decide_unpack _); by vm_compute|].
  apply lookup_insert_Some in Hk as [[<- <-]|[_ Hk]];
    [split; [|by left]; apply (bool_decide_unpack _); by vm_compute|].
  apply lookup_singleton_Some in Hk as [<- <-].
  split; [|by left]. apply (bool_decide_unpack _). by vm_compute.
Qed.


(** ** Store errors *)

Lemma doc_set_fault c id (o : Obj) db e :
  fs_faults db !! c = Some e → storable o →
  doc_set c id (serializeObj o) db = (Throw e, db).
Proof.
  intros Hf Hs. unfold doc_set. rewrite (fs_encode_obj_stored o Hs).
  unfold fs_request. by rewrite Hf.
Qed.

Ltac unfold_firebase :=
  unfold FirebaseStorage.getUser, FirebaseStorage.getUserByEmail,
    FirebaseStorage.createUser, FirebaseStorage.updateUser,
    FirebaseStorage.getProducts, FirebaseStorage.getProduct,
    FirebaseStorage.createProduct, FirebaseStorage.updateProduct,
    FirebaseStorage.deleteProduct,
    FirebaseStorage.getCheckoutPages, FirebaseStorage.getCheckoutPage,
    FirebaseStorage.getCheckoutPageBySlug, FirebaseStorage.createCheckoutPage,
    FirebaseStorage.updateCheckoutPage, FirebaseStorage.deleteCheckoutPage,
    FirebaseStorage.getCoupons, FirebaseStorage.getCoupon,
    FirebaseStorage.getCouponByCode, FirebaseStorage.createCoupon,
    FirebaseStorage.updateCoupon, FirebaseStorage.deleteCoupon,
    FirebaseStorage.getCustomers, FirebaseStorage.getCustomer,
    FirebaseStorage.getCustomerByEmail, FirebaseStorage.createCustomer,
    FirebaseStorage.updateCustomer,
    FirebaseStorage.getOrders, FirebaseStorage.getOrder,
    FirebaseStorage.createOrder, FirebaseStorage.updateOrder,
    FirebaseStorage.createOrderItem, FirebaseStorage.getOrderItems,
    FirebaseStorage.getEmailTemplates, FirebaseStorage.getEmailTemplate,
    FirebaseStorage.createEmailTemplate, FirebaseStorage.updateEmailTemplate,
    FirebaseStorage.deleteEmailTemplate,
    FirebaseStorage.createPixelEvent, FirebaseStorage.getPixelEvents,
    FirebaseStorage.createAbandonedCart, FirebaseStorage.getAbandonedCarts,
    FirebaseStorage.updateAbandonedCart.

(** X2: in the document backend an error of the store on the collection that
    a call addresses is thrown to the caller, and the store is left as it
    was: by every create (of an input the client accepts), update and
    delete, by the three reads without a handler, and by every other read
    unless the code of the error is 5. *)
Theorem store_errors_propagate {prims : JsPrims} (c : Call) (db : Firestore) (e : JsError) :
  fs_faults db !! call_collection c = Some e →
  (guarded_read c = true → code_is_5 e = false) →
  (∀ o, create_input c = Some o → storable o) →
  answer c db = (Throw e, db).
Proof.
  intros Hf H5 Hs.
  destruct c; cbn [answer call_collection guarded_read create_input] in *; reveal;
    unfold returning; apply bind_throw; unfold_firebase; cbv zeta;
    first
      [ apply catch_not_found_other; [|by apply H5]; apply bind_throw;
        first [by apply doc_get_fault | by apply query_get_fault]
      | apply bind_throw; apply catch_not_found_other; [|by apply H5]; apply bind_throw;
        by apply query_get_fault
      | apply bind_throw; first [by apply doc_get_fault | by apply query_get_fault]
      | apply bind_throw; apply doc_set_fault; [exact Hf|];
        specialize (Hs _ eq_refl); storable_steps; exact Hs ].
Qed.

Lemma store_errors_propagate_witness :
  let db := {| fs_colls := ∅; fs_faults := {["products" := InvalidArgument]} |} in
  answer (storage:=FirebaseStorage_IStorage (prims:=sample_prims)) (GetProducts "u1") db
  = (Throw InvalidArgument, db)
  ∧ answer (storage:=FirebaseStorage_IStorage (prims:=sample_prims))
      (CreateProduct "p1" 10 (sample_product "u1" "Ebook")) db
    = (Throw InvalidArgument, db).
Proof.
  split.
  - apply (store_errors_propagate (prims:=sample_prims)); [reflexivity|reflexivity|].
    intros o Ho. discriminate Ho.
  - apply (store_errors_propagate (prims:=sample_prims)); [reflexivity|discriminate|].
    intros o Ho. injection Ho as <-. apply sample_product_storable.
Defined.

(** ** Listings of an owner *)

Lemma bind_inv {S A B} (m : M S A) (f : A → M S B) s b s' :
  (m ≫= f) s = (Ok b, s') → ∃ a s1, m s = (Ok a, s1) ∧ f a s1 = (Ok b, s').
Proof.
  unfold mbind, M_bind. destruct (m s) as [[a|e] s1]; [|discriminate].
  intros Hf. by exists a, s1.
Qed.

Lemma ret_inv {S A} (a b : A) (s s' : S) :
  (mret a : M S A) s = (Ok b, s') → a = b ∧ s = s'.
Proof. intros Heq. by injection Heq. Qed.

Lemma Outcome_bind_inv {A B} (o : Outcome A) (f : A → Outcome B) b :
  o ≫= f = Ok b → ∃ a, o = Ok a ∧ f a = Ok b.
Proof. destruct o as [a|e]; [|discriminate]. intros Hf. by exists a. Qed.

Lemma Forall2_elem_r {A B} (P : A → B → Prop) xs ys y :
  Forall2 P xs ys → y ∈ ys → ∃ x, x ∈ xs ∧ P x y.
Proof.
  induction 1 as [|x y' xs ys Hxy _ IH]; intros Hy; [by apply not_elem_of_nil in Hy|].
  apply elem_of_cons in Hy as [->|Hy].
  - exists x. split; [left|done].
  - destruct (IH Hy) as (x' & Hx' & HP). exists x'. split; [by right|done].
Qed.

Lemma run_query_matches q docs x :
  x ∈ run_query q docs → matches (q_where q) x.2 = true.
Proof.
  unfold run_query. intros Hx.
  assert (Hin : x ∈ filter (λ d : string * Obj, matches (q_where q) d.2 = true)
                      (map_to_list docs)).
  { destruct (q_limit q) as [n|];
      [destruct (0 <? n);
       [apply elem_of_take in Hx as (i & Hx & _); apply list_elem_of_lookup_2 in Hx|]|];
      (destruct (q_orderBy q);
       [ rewrite !sort_by_Permutation in Hx; by apply list_elem_of_filter in Hx as [_ Hx]
       | by rewrite sort_by_Permutation in Hx ]). }
  by apply list_elem_of_filter in Hin as [Hm _].
Qed.

Lemma run_select_satisfies q (db : Database) x :
  x ∈ run_select q db → satisfies (s_where q) x = true.
Proof.
  unfold run_select. intros Hx.
  assert (Hin : x ∈ filter (λ r, satisfies (s_where q) r = true)
                      (db_rows (tbl_name (s_from q)) db)).
  { destruct (s_limit q) as [n|];
      [destruct (0 <=? n);
       [apply elem_of_take in Hx as (i & Hx & _); apply list_elem_of_lookup_2 in Hx|]|];
      (destruct (s_orderBy q); [by rewrite sort_by_Permutation in Hx|done]). }
  by apply list_elem_of_filter in Hin as [Hm _].
Qed.

Lemma listed_doc_owner q docs userId x :
  ("userId", userId) ∈ q_where q → x ∈ run_query q docs → prop x.2 "userId" = VStr userId.
Proof.
  intros Hw Hx. apply run_query_matches in Hx. unfold matches in Hx.
  rewrite forallb_forall in Hx. apply list_elem_of_In in Hw.
  apply (Hx _) in Hw. by apply field_is_prop in Hw.
Qed.

Lemma listed_row_owner q (db : Database) userId x :
  ("userId", VStr userId) ∈ s_where q → x ∈ run_select q db →
  prop x "userId" = VStr userId.
Proof.
  intros Hw Hx. apply run_select_satisfies in Hx. unfold satisfies in Hx.
  rewrite forallb_forall in Hx. apply list_elem_of_In in Hw.
  apply (Hx _) in Hw. by apply sql_eq_str in Hw.
Qed.

Ltac invert_view H :=
  repeat match type of H with
         | (_ ≫= _) _ = (Ok _, _) =>
             let a := fresh "a" in let s := fresh "s" in let H1 := fresh "H" in
             apply bind_inv in H as (a & s & H1 & H)
         | _ ≫= _ = Ok _ =>
             let a := fresh "a" in let H1 := fresh "H" in
             apply Outcome_bind_inv in H as (a & H1 & H)
         | mret _ _ = (Ok _, _) => apply ret_inv in H as [H _]
         | Ok _ = Ok _ => injection H as H
         end.

Ltac owner_kept :=
  repeat first [ rewrite (prop_insert_ne _ _ "userId") by discriminate ].

Lemma listing_owner_fs {prims : JsPrims} c u (db db' : Firestore) l o :
  listing_owner c = Some u → answer c db = (Ok (AList l), db') → o ∈ l →
  prop o "userId" = VStr u.
Proof.
  intros Hc Hrun Ho. unfold answer in Hrun.
  destruct c; try discriminate Hc; injection Hc as ->; reveal; unfold returning in Hrun;
    apply bind_inv in Hrun as (l0 & db1 & Hrun & Hret);
    apply ret_inv in Hret as [Hret _]; injection Hret as ->;
    unfold_firebase; cbv zeta in Hrun;
    first [ apply guarded_listing_inv in Hrun as [->|(_ & db2 & Hrun)]
          | apply pending_listing_inv in Hrun as [->|(_ & db2 & Hrun)] ];
    try (by apply not_elem_of_nil in Ho).
  - apply lift_inv, Array_map_Forall2 in Hrun.
    destruct (Forall2_elem_r _ _ _ _ Hrun Ho) as (x & Hx & Hv).
    apply listed_doc_owner with (userId := u) in Hx; [|cbn; set_solver].
    cbv zeta in Hv. invert_view Hv. subst o. by owner_kept.
  - apply bind_inv in Hrun as (pages & db3 & Hrun & Hret).
    apply ret_inv in Hret as [-> _]. apply Promise_all_map_Forall2 in Hrun.
    destruct (Forall2_elem_r _ _ _ _ Hrun Ho) as (x & Hx & s1 & s2 & Hv).
    apply listed_doc_owner with (userId := u) in Hx; [|cbn; set_solver].
    unfold FirebaseStorage.page_with_product in Hv. cbv zeta in Hv.
    invert_view Hv. subst o. by owner_kept.
  - apply lift_inv, Array_map_Forall2 in Hrun.
    destruct (Forall2_elem_r _ _ _ _ Hrun Ho) as (x & Hx & Hv).
    apply listed_doc_owner with (userId := u) in Hx; [|cbn; set_solver].
    unfold FirebaseStorage.coupon_of in Hv. invert_view Hv. subst o. by owner_kept.
  - apply lift_inv, Array_map_Forall2 in Hrun.
    destruct (Forall2_elem_r _ _ _ _ Hrun Ho) as (x & Hx & Hv).
    apply listed_doc_owner with (userId := u) in Hx; [|cbn; set_solver].
    cbv zeta in Hv. invert_view Hv. subst o. by owner_kept.
  - apply Promise_all_map_Forall2 in Hrun.
    destruct (Forall2_elem_r _ _ _ _ Hrun Ho) as (x & Hx & s1 & s2 & Hv).
    apply listed_doc_owner with (userId := u) in Hx; [|cbn; set_solver].
    cbv zeta in Hv. invert_view Hv. subst o. by owner_kept.
  - apply ret_inv in Hrun as [<- _].
    apply list_elem_of_In, in_map_iff in Ho as (x & <- & Hx). apply list_elem_of_In in Hx.
    apply listed_doc_owner with (userId := u) in Hx; [|cbn; set_solver].
    by owner_kept.
  - apply lift_inv, Array_map_Forall2 in Hrun.
    destruct (Forall2_elem_r _ _ _ _ Hrun Ho) as (x & Hx & Hv).
    apply listed_doc_owner with (userId := u) in Hx; [|cbn; set_solver].
    cbv zeta in Hv. invert_view Hv. subst o. by owner_kept.
  - apply lift_inv, Array_map_Forall2 in Hrun.
    destruct (Forall2_elem_r _ _ _ _ Hrun Ho) as (x & Hx & Hv).
    apply listed_doc_owner with (userId := u) in Hx; [|cbn; set_solver].
    cbv zeta in Hv. invert_view Hv. subst o. by owner_kept.
Qed.

Lemma listing_owner_db c u (db db' : Database) l o :
  listing_owner c = Some u → answer c db = (Ok (AList l), db') → o ∈ l →
  prop o "userId" = VStr u.
Proof.
  intros Hc Hrun Ho. unfold answer in Hrun.
  destruct c; try discriminate Hc; injection Hc as ->; reveal; unfold returning in Hrun;
    apply bind_inv in Hrun as (l0 & db1 & Hrun & Hret);
    apply ret_inv in Hret as [Hret _]; injection Hret as ->;
    unfold DatabaseStorage.getProducts, DatabaseStorage.getCheckoutPages,
      DatabaseStorage.getCoupons, DatabaseStorage.getCustomers, DatabaseStorage.getOrders,
      DatabaseStorage.getEmailTemplates, DatabaseStorage.getPixelEvents,
      DatabaseStorage.getAbandonedCarts in Hrun; cbv zeta in Hrun;
    try (apply select_inv in Hrun as ->;
         apply listed_row_owner with (userId := u) in Ho; [done|cbn; set_solver]).
  - apply bind_inv in Hrun as (pages & db2 & Hsel & Hrun). apply select_inv in Hsel as ->.
    apply bind_inv in Hrun as (l1 & db3 & Hrun & Hret). apply ret_inv in Hret as [-> _].
    apply Promise_all_map_Forall2 in Hrun.
    destruct (Forall2_elem_r _ _ _ _ Hrun Ho) as (x & Hx & s1 & s2 & Hv).
    apply listed_row_owner with (userId := u) in Hx; [|cbn; set_solver].
    unfold DatabaseStorage.with_product in Hv. invert_view Hv. subst o. by owner_kept.
  - apply bind_inv in Hrun as (found & db2 & Hsel & Hrun). apply select_inv in Hsel as ->.
    apply bind_inv in Hrun as (l1 & db3 & Hrun & Hret). apply ret_inv in Hret as [-> _].
    apply Promise_all_map_Forall2 in Hrun.
    destruct (Forall2_elem_r _ _ _ _ Hrun Ho) as (x & Hx & s1 & s2 & Hv).
    apply listed_row_owner with (userId := u) in Hx; [|cbn; set_solver].
    invert_view Hv. subst o. by owner_kept.
Qed.

(** X3: a listing never returns an entity of another owner.  In both
    backends every entity that getProducts, getCheckoutPages, getCoupons,
    getCustomers, getOrders, getEmailTemplates, getPixelEvents or
    getAbandonedCarts returns for [userId] has that [userId]. *)
Theorem listings_of_owner {prims : JsPrims} (c : Call) (u : string) (l : list Obj) (o : Obj) :
  listing_owner c = Some u → o ∈ l →
  (∀ db db' : Firestore, answer c db = (Ok (AList l), db') → prop o "userId" = VStr u)
  ∧ (∀ db db' : Database, answer c db = (Ok (AList l), db') → prop o "userId" = VStr u).
Proof.
  intros Hc Ho. split; intros db db' Hrun.
  - by apply (listing_owner_fs c u db db' l o).
  - by apply (listing_owner_db c u db db' l o).
Qed.

Lemma listings_of_owner_witness :
  match answer (storage:=FirebaseStorage_IStorage (prims:=sample_prims))
          (GetProducts "u1") firestore_with_product with
  | (Ok (AList (o :: _)), _) => prop o "userId" = VStr "u1"
  | _ => False
  end
  ∧ match answer (GetProducts "u1") database_with_product with
    | (Ok (AList (o :: _)), _) => prop o "userId" = VStr "u1"
    | _ => False
    end.
Proof.
  split.
  - assert (Hok : match answer (storage:=FirebaseStorage_IStorage (prims:=sample_prims))
                          (GetProducts "u1") firestore_with_product with
                  | (Ok (AList (o :: _)), _) => True
                  | _ => False
                  end) by (vm_compute; exact I).
    destruct (answer (GetProducts "u1") firestore_with_product)
      as [[[| |[|o l]|]|] db'] eqn:E; try contradiction.
    destruct (listings_of_owner (prims:=sample_prims) (GetProducts "u1") "u1" (o :: l) o)
      as [Hfs _]; [reflexivity|left|].
    exact (Hfs firestore_with_product db' E).
  - assert (Hok : match answer (GetProducts "u1") database_with_product with
                  | (Ok (AList (o :: _)), _) => True
                  | _ => False
                  end) by (vm_compute; exact I).
    destruct (answer (GetProducts "u1") database_with_product)
      as [[[| |[|o l]|]|] db'] eqn:E; try contradiction.
    destruct (listings_of_owner (prims:=sample_prims) (GetProducts "u1") "u1" (o :: l) o)
      as [_ Hdb]; [reflexivity|left|].
    exact (Hdb database_with_product db' E).
Defined.

(** ** Lookups by a field *)

Lemma catch_not_found_inv {S A} (d : A) (m : M S A) s a s' :
  catch_not_found d m s = (Ok a, s') → m s = (Ok a, s') ∨ a = d.
Proof.
  unfold catch_not_found, try_catch. destruct (m s) as [[a0|e] s1]; [by left|].
  destruct (code_is_5 e); [|discriminate]. intros Heq. injection Heq as <- _. by right.
Qed.

Lemma query_get_inv q db snapshot db' :
  query_get q db = (Ok snapshot, db') →
  snapshot = run_query q (fs_docs (q_coll q) db) ∧ db' = db.
Proof.
  unfold query_get, fs_request. destruct (fs_faults db !! q_coll q); [discriminate|].
  destruct (q_rejected q); [discriminate|].
  intros Heq. by injection Heq as <- <-.
Qed.

Lemma found_doc_fields q docs x rest k v :
  run_query q docs = x :: rest → (k, v) ∈ q_where q → prop x.2 k = VStr v.
Proof.
  intros Hq Hw. assert (Hx : x ∈ run_query q docs) by (rewrite Hq; left).
  apply run_query_matches in Hx. unfold matches in Hx.
  rewrite forallb_forall in Hx. apply list_elem_of_In in Hw.
  apply (Hx _) in Hw. by apply field_is_prop in Hw.
Qed.

Lemma found_row_fields q (db : Database) x k v :
  head (run_select q db) = Some x → (k, VStr v) ∈ s_where q → prop x k = VStr v.
Proof.
  intros Hq Hw. assert (Hx : x ∈ run_select q db).
  { destruct (run_select q db) as [|y l]; [discriminate|]. injection Hq as ->. left. }
  apply run_select_satisfies in Hx. unfold satisfies in Hx.
  rewrite forallb_forall in Hx. apply list_elem_of_In in Hw.
  apply (Hx _) in Hw. by apply sql_eq_str in Hw.
Qed.

Lemma of_option_entity r o : of_option r = AEntity o → r = Some o.
Proof. destruct r; [|discriminate]. intros Heq. by injection Heq as ->. Qed.

Ltac invert_binds :=
  repeat match goal with
         | H : (_ ≫= _) _ = (Ok _, _) |- _ => apply bind_inv in H as (? & ? & ? & H)
         | H : _ ≫= _ = Ok _ |- _ => apply Outcome_bind_inv in H as (? & ? & H)
         | H : mret _ _ = (Ok _, _) |- _ => apply ret_inv in H as [H _]
         | H : lift _ _ = (Ok _, _) |- _ => apply lift_inv in H
         end.

Lemma lookup_fields_fs {prims : JsPrims} c (db db' : Firestore) o k v :
  (k, v) ∈ lookup_fields c → answer c db = (Ok (AEntity o), db') → prop o k = VStr v.
Proof.
  intros Hk Hrun. unfold answer in Hrun.
  destruct c; try (by apply not_elem_of_nil in Hk); reveal; unfold returning in Hrun;
    apply bind_inv in Hrun as (r & db1 & Hrun & Hret);
    apply ret_inv in Hret as [Hret _]; apply of_option_entity in Hret as ->;
    unfold_firebase;
    (apply catch_not_found_inv in Hrun as [Hrun|Hrun]; [|discriminate]);
    apply bind_inv in Hrun as (snapshot & db2 & Hq & Hrun);
    apply query_get_inv in Hq as [Hq ->];
    (destruct snapshot as [|[doc_id data] rest]; [by apply ret_inv in Hrun as [? _]|]);
    symmetry in Hq;
    (eapply found_doc_fields with (k := k) (v := v) in Hq;
     [|cbn [q_where limit where_eq collection app]; exact Hk]); cbn [snd] in Hq.
  - apply ret_inv in Hrun as [Hrun _]. injection Hrun as <-.
    unfold prop in *. rewrite lookup_union.
    destruct (data !! k) as [w|]; [|discriminate]. cbn in Hq. subst w.
    by destruct ({["id" := VStr doc_id]} !! k).
  - unfold FirebaseStorage.page_with_product in Hrun. cbv zeta in Hrun.
    invert_binds. injection Hrun as <-. subst.
    cbn [lookup_fields] in Hk. apply elem_of_cons in Hk as [Hk|Hk];
      [|by apply not_elem_of_nil in Hk]. injection Hk as -> ->.
    by rewrite !(prop_insert_ne _ _ "slug") by discriminate.
  - unfold FirebaseStorage.coupon_of in Hrun. invert_binds. injection Hrun as <-.
    match goal with H : Ok _ = Ok _ |- _ => injection H as <- end.
    cbn [lookup_fields] in Hk.
    apply elem_of_cons in Hk as [Hk|Hk]; [injection Hk as -> ->|].
    { by rewrite !(prop_insert_ne _ _ "code") by discriminate. }
    apply elem_of_cons in Hk as [Hk|Hk]; [injection Hk as -> ->|by apply not_elem_of_nil in Hk].
    by rewrite !(prop_insert_ne _ _ "userId") by discriminate.
  - invert_binds. injection Hrun as <-.
    cbn [lookup_fields] in Hk.
    apply elem_of_cons in Hk as [Hk|Hk]; [injection Hk as -> ->|].
    { by rewrite !(prop_insert_ne _ _ "email") by discriminate. }
    apply elem_of_cons in Hk as [Hk|Hk]; [injection Hk as -> ->|by apply not_elem_of_nil in Hk].
    by rewrite !(prop_insert_ne _ _ "userId") by discriminate.
Qed.

Lemma lookup_fields_db c (db db' : Database) o k v :
  (k, v) ∈ lookup_fields c → answer c db = (Ok (AEntity o), db') → prop o k = VStr v.
Proof.
  intros Hk Hrun. unfold answer in Hrun.
  destruct c; try (by apply not_elem_of_nil in Hk); reveal; unfold returning in Hrun;
    apply bind_inv in Hrun as (r & db1 & Hrun & Hret);
    apply ret_inv in Hret as [Hret _]; apply of_option_entity in Hret as ->;
    unfold DatabaseStorage.getUserByEmail, DatabaseStorage.getCheckoutPageBySlug,
      DatabaseStorage.getCouponByCode, DatabaseStorage.getCustomerByEmail in Hrun;
    apply bind_inv in Hrun as (rows & db2 & Hq & Hrun); apply select_inv in Hq as ->.
  - apply ret_inv in Hrun as [Hrun _].
    apply (found_row_fields _ _ _ k v) in Hrun; [done|].
    cbn [lookup_fields s_where where_ select_from] in *.
    apply elem_of_cons in Hk as [Hk|Hk]; [injection Hk as -> ->; left|].
    by apply not_elem_of_nil in Hk.
  - destruct (head _) as [page|] eqn:Hhead; [|by apply ret_inv in Hrun as [? _]].
    apply (found_row_fields _ _ _ k v) in Hhead.
    + unfold DatabaseStorage.with_product in Hrun. invert_binds.
      injection Hrun as <-. subst.
      cbn [lookup_fields] in Hk. apply elem_of_cons in Hk as [Hk|Hk];
        [|by apply not_elem_of_nil in Hk]. injection Hk as -> ->.
      by rewrite (prop_insert_ne _ _ "slug") by discriminate.
    + cbn [lookup_fields s_where where_ select_from] in *.
      apply elem_of_cons in Hk as [Hk|Hk]; [injection Hk as -> ->; left|].
      by apply not_elem_of_nil in Hk.
  - apply ret_inv in Hrun as [Hrun _].
    apply (found_row_fields _ _ _ k v) in Hrun; [done|].
    cbn [lookup_fields s_where where_ select_from] in *.
    apply elem_of_cons in Hk as [Hk|Hk]; [injection Hk as -> ->; left|].
    apply elem_of_cons in Hk as [Hk|Hk]; [injection Hk as -> ->; right; left|].
    by apply not_elem_of_nil in Hk.
  - apply ret_inv in Hrun as [Hrun _].
    apply (found_row_fields _ _ _ k v) in Hrun; [done|].
    cbn [lookup_fields s_where where_ select_from] in *.
    apply elem_of_cons in Hk as [Hk|Hk]; [injection Hk as -> ->; left|].
    apply elem_of_cons in Hk as [Hk|Hk]; [injection Hk as -> ->; right; left|].
    by apply not_elem_of_nil in Hk.
Qed.

(** X4: a lookup by a field returns an entity with the values asked for.  In
    both backends the user that getUserByEmail returns has that email, the
    page that getCheckoutPageBySlug returns has that slug, and the coupon or
    customer that getCouponByCode or getCustomerByEmail returns has that
    code or email and that owner: the entity of another owner is never
    returned. *)
Theorem lookups_return_what_was_asked {prims : JsPrims} (c : Call) (o : Obj) (k v : string) :
  (k, v) ∈ lookup_fields c →
  (∀ db db' : Firestore, answer c db = (Ok (AEntity o), db') → prop o k = VStr v)
  ∧ (∀ db db' : Database, answer c db = (Ok (AEntity o), db') → prop o k = VStr v).
Proof.
  intros Hk. split; intros db db' Hrun.
  - by apply (lookup_fields_fs c db db' o k v).
  - by apply (lookup_fields_db c db db' o k v).
Qed.

Lemma lookups_return_what_was_asked_witness :
  match answer (GetUserByEmail "demo@example.com") database_with_user with
  | (Ok (AEntity o), _) => prop o "email" = VStr "demo@example.com"
  | _ => False
  end.
Proof.
  assert (Hok : match answer (GetUserByEmail "demo@example.com") database_with_user with
                | (Ok (AEntity o), _) => True
                | _ => False
                end) by (vm_compute; exact I).
  destruct (answer (GetUserByEmail "demo@example.com") database_with_user)
    as [[[o| | |]|] db'] eqn:E; try contradiction.
  destruct (lookups_return_what_was_asked (prims:=sample_prims)
              (GetUserByEmail "demo@example.com") o "email" "demo@example.com") as [_ Hdb];
    [left|].
  exact (Hdb database_with_user db' E).
Defined.

(** ** Create, then get *)

Lemma unique_ok_primary t (rows : list Obj) (r : Obj) :
  id_column ∈ tbl_columns t → unique_ok t rows r = true →
  ∀ r', r' ∈ rows → sql_eq (prop r' "id") (prop r "id") = false.
Proof.
  unfold unique_ok. rewrite forallb_forall. intros Hc Hu r' Hr'.
  apply list_elem_of_In in Hc. apply Hu in Hc. cbn in Hc. apply negb_true_iff in Hc.
  destruct (sql_eq _ _) eqn:He; [|done].
  rewrite <-Hc. symmetry. apply existsb_exists. exists r'.
  split; [by apply list_elem_of_In|done].
Qed.

(** A row that was inserted is the one row that a select by its id finds. *)
Lemma insert_then_select t id now values (db db' : Database) rows i :
  id_column ∈ tbl_columns t →
  db_insert t id now values db = (Ok rows, db') →
  prop (default ∅ (head rows)) "id" = VStr i →
  run_select (where_ [("id", VStr i)] (select_from t)) db' = rows.
Proof.
  intros Hc Hrun Hid. apply db_insert_inv in Hrun as ((_ & Hu & _) & -> & ->).
  cbn [head default from_option Datatypes.id] in Hid.
  unfold run_select.
  cbn [s_from s_where s_orderBy s_limit where_ select_from]. rewrite db_rows_insert.
  rewrite filter_app, filter_cons_True, filter_nil by by apply hit_id.
  rewrite filter_none; [done|].
  intros r' Hr' Hhit. apply hit_id in Hhit.
  assert (He := unique_ok_primary t _ _ Hc Hu r' Hr').
  rewrite Hid, Hhit in He. cbn in He. by rewrite bool_decide_eq_true_2 in He.
Qed.

Ltac in_columns := apply list_elem_of_In; cbn; tauto.

(** X5: in the relational backend a get by the id of an entity that
    createUser, createProduct, createCoupon, createCustomer or
    createEmailTemplate has just returned gives that entity back, and
    leaves the store as the create left it. *)
Theorem create_then_get_db (c g : Call) (i : string) (o : Obj) (db db' : Database) :
  get_created c i = Some g →
  answer c db = (Ok (AEntity o), db') → prop o "id" = VStr i →
  answer g db' = (Ok (AEntity o), db').
Proof.
  intros Hg Hrun Hid. unfold answer in Hrun.
  destruct c; try discriminate Hg; injection Hg as <-; reveal; unfold returning in Hrun;
    apply bind_inv in Hrun as (r & db1 & Hrun & Hret);
    apply ret_inv in Hret as [Hret ->]; injection Hret as ->;
    unfold DatabaseStorage.createUser, DatabaseStorage.createProduct,
      DatabaseStorage.createCoupon, DatabaseStorage.createCustomer,
      DatabaseStorage.createEmailTemplate in Hrun;
    apply bind_inv in Hrun as (rows & db2 & Hrun & Hret);
    apply ret_inv in Hret as [<- ->];
    (assert (Hsel := λ Hc, insert_then_select _ _ _ _ _ _ _ i Hc Hrun Hid);
     specialize (Hsel ltac:(in_columns)));
    apply db_insert_inv in Hrun as (_ & -> & _);
    cbn [answer]; reveal; unfold returning;
    unfold DatabaseStorage.getUser, DatabaseStorage.getProduct, DatabaseStorage.getCoupon,
      DatabaseStorage.getCustomer, DatabaseStorage.getEmailTemplate;
    unfold select, mbind, M_bind, mret, M_ret; rewrite Hsel; reflexivity.
Qed.

Lemma create_then_get_db_witness :
  match answer (CreateProduct "p2" 20 (sample_product "u1" "Book")) database_with_product with
  | (Ok (AEntity o), db') => answer (GetProduct "p2") db' = (Ok (AEntity o), db')
  | _ => False
  end.
Proof.
  assert (Hok : match answer (CreateProduct "p2" 20 (sample_product "u1" "Book"))
                        database_with_product with
                | (Ok (AEntity o), _) => prop o "id" = VStr "p2"
                | _ => False
                end) by (vm_compute; reflexivity).
  destruct (answer (CreateProduct "p2" 20 (sample_product "u1" "Book")) database_with_product)
    as [[[o| | |]|] db'] eqn:E; try contradiction.
  exact (create_then_get_db (CreateProduct "p2" 20 (sample_product "u1" "Book"))
           (GetProduct "p2") "p2" o database_with_product db' eq_refl E Hok).
Defined.

Lemma stored_prop_kept (o : Obj) k :
  prop o k = VUndefined ∨ plain (prop o k) → prop (stored o) k = prop o k.
Proof.
  intros Hk. rewrite stored_prop. destruct Hk as [->|Hp]; [done|].
  unfold plain in Hp. destruct (prop o k); first [reflexivity | rewrite Hp; reflexivity].
Qed.

Lemma round_trip_prop (o : Obj) k :
  round_trip_input o → prop o k = VUndefined ∨ plain (prop o k).
Proof.
  intros [_ Hv]. unfold prop. destruct (o !! k) as [v|] eqn:Hk; [|by left].
  apply (Hv k v Hk).
Qed.

Lemma round_trip_storable (o : Obj) : round_trip_input o → storable o.
Proof.
  intros [_ Hv] k v Hk Hne. destruct (Hv k v Hk) as [->|Hp]; [by destruct Hne|].
  unfold plain in Hp. rewrite Hp. eexists. reflexivity.
Qed.

Lemma round_trip_insert (o : Obj) k v :
  (∀ k', prop o k' = VUndefined ∨ plain (prop o k')) → v = VUndefined ∨ plain v →
  ∀ k', prop (<[k := v]> o) k' = VUndefined ∨ plain (prop (<[k := v]> o) k').
Proof.
  intros Ho Hv k'. destruct (decide (k = k')) as [->|Hne].
  - by rewrite prop_insert_eq.
  - by rewrite prop_insert_ne.
Qed.

Lemma round_trip_coalesce v d : v = VUndefined ∨ plain v → plain d → plain (coalesce v d).
Proof. intros [->|Hv] Hd; [exact Hd|]. destruct v; cbn [coalesce]; assumption. Qed.

Lemma doc_set_inv c id (data : Obj) db db' :
  doc_set c id data db = (Ok tt, db') →
  fs_faults db !! c = None
  ∧ ∃ d, fs_encode_obj data = Some d ∧ db' = fs_put_docs c (<[id := d]> (fs_docs c db)) db.
Proof.
  unfold doc_set. destruct (fs_encode_obj data) as [d|]; [|discriminate].
  unfold fs_request. destruct (fs_faults db !! c); [discriminate|].
  intros Heq. injection Heq as <-. split; [done|]. by exists d.
Qed.

(** What a create of the document backend leaves: the document of the
    entity it returns, under the generated id. *)
Lemma created_doc c id (w o : Obj) (db db' : Firestore) :
  storable w →
  (_ ← doc_set c id (serializeObj w); mret w) db = (Ok o, db') →
  o = w ∧ fs_faults db' !! c = None ∧ fs_docs c db' !! id = Some (stored w).
Proof.
  intros Hs Hrun. apply bind_inv in Hrun as ([] & db1 & Hset & Hret).
  apply ret_inv in Hret as [<- ->]. apply doc_set_inv in Hset as (Hf & d & Hd & ->).
  rewrite (fs_encode_obj_stored w Hs) in Hd. injection Hd as <-.
  split; [done|]. split; [done|]. by rewrite fs_docs_put_same, lookup_insert_eq.
Qed.

Lemma prop_union_id (a : Obj) v k : prop a "id" = v → prop (a ∪ {["id" := v]}) k = prop a k.
Proof.
  intros Hid. unfold prop in *. rewrite lookup_union.
  destruct (a !! k) as [w|] eqn:Hk; [by destruct ({["id" := v]} !! k)|].
  destruct (decide (k = "id")) as [->|Hne].
  - rewrite Hk in Hid. by rewrite lookup_singleton_eq, <-Hid.
  - by rewrite lookup_singleton_ne.
Qed.

Lemma plain_scalar v : scalar v = true → plain v.
Proof. by destruct v. Qed.

Section create_then_get.
Context {prims : JsPrims}.
Variables (db db' : Firestore) (id : string) (input o : Obj).
Hypothesis Hinput : round_trip_input input.

Lemma createUser_then_get :
  answer (CreateUser id input) db = (Ok (AEntity o), db') →
  prop o "id" = VStr id
  ∧ ∃ o', answer (GetUser id) db' = (Ok (AEntity o'), db') ∧ ∀ k, prop o' k = prop o k.
Proof.
  intros Hrun. cbn [answer] in Hrun. reveal. unfold returning in Hrun.
  apply bind_inv in Hrun as (o1 & db1 & Hrun & Hret).
  apply ret_inv in Hret as [Hret ->]. injection Hret as ->.
  unfold FirebaseStorage.createUser in Hrun. cbv zeta in Hrun.
  set (w := <["domainVerified" := _]> _) in Hrun.
  assert (Hrt : ∀ k, prop w k = VUndefined ∨ plain (prop w k)).
  { subst w. apply round_trip_insert;
      [|right; apply round_trip_coalesce; [by apply round_trip_prop|reflexivity]].
    apply round_trip_insert;
      [|right; apply round_trip_coalesce; [by apply round_trip_prop|reflexivity]].
    apply round_trip_insert; [|right; reflexivity]. intros k. by apply round_trip_prop. }
  assert (Hs : storable w).
  { intros k v Hk Hne. destruct (Hrt k) as [Hu|Hp]; rewrite (prop_lookup _ _ _ Hk) in *;
      [by destruct Hne|]. unfold plain in Hp. rewrite Hp. eexists. reflexivity. }
  apply (created_doc _ _ w o) in Hrun as (-> & Hf & Hd); [|exact Hs].
  assert (Hid : prop w "id" = VStr id).
  { subst w. by rewrite (prop_insert_ne _ "domainVerified" "id"),
      (prop_insert_ne _ "primaryColor" "id"), prop_insert_eq by discriminate. }
  split; [exact Hid|]. eexists. split.
  - cbn [answer]. reveal. unfold returning, FirebaseStorage.getUser.
    erewrite bind_ok
      by (apply catch_not_found_ok; erewrite bind_ok by (by apply doc_get_ok);
          rewrite Hd; reflexivity).
    reflexivity.
  - intros k. rewrite prop_union_id; [by apply stored_prop_kept|].
    rewrite <-Hid. by apply stored_prop_kept.
Qed.

Lemma createEmailTemplate_then_get :
  answer (CreateEmailTemplate id input) db = (Ok (AEntity o), db') →
  prop o "id" = VStr id
  ∧ ∃ o', answer (GetEmailTemplate id) db' = (Ok (AEntity o'), db')
          ∧ ∀ k, prop o' k = prop o k.
Proof.
  intros Hrun. cbn [answer] in Hrun. reveal. unfold returning in Hrun.
  apply bind_inv in Hrun as (o1 & db1 & Hrun & Hret).
  apply ret_inv in Hret as [Hret ->]. injection Hret as ->.
  unfold FirebaseStorage.createEmailTemplate in Hrun. cbv zeta in Hrun.
  set (w := <["isActive" := _]> _) in Hrun.
  assert (Hrt : ∀ k, prop w k = VUndefined ∨ plain (prop w k)).
  { subst w. apply round_trip_insert;
      [|right; apply round_trip_coalesce; [by apply round_trip_prop|reflexivity]].
    apply round_trip_insert; [|right; reflexivity]. intros k. by apply round_trip_prop. }
  assert (Hs : storable w).
  { intros k v Hk Hne. destruct (Hrt k) as [Hu|Hp]; rewrite (prop_lookup _ _ _ Hk) in *;
      [by destruct Hne|]. unfold plain in Hp. rewrite Hp. eexists. reflexivity. }
  apply (created_doc _ _ w o) in Hrun as (-> & Hf & Hd); [|exact Hs].
  assert (Hid : prop w "id" = VStr id).
  { subst w. by rewrite (prop_insert_ne _ "isActive" "id"), prop_insert_eq by discriminate. }
  split; [exact Hid|]. eexists. split.
  - cbn [answer]. reveal. unfold returning, FirebaseStorage.getEmailTemplate.
    erewrite bind_ok
      by (erewrite bind_ok by (by apply doc_get_ok); rewrite Hd; reflexivity).
    reflexivity.
  - intros k. rewrite prop_union_id; [by apply stored_prop_kept|].
    rewrite <-Hid. by apply stored_prop_kept.
Qed.

Lemma createProduct_then_get now :
  answer (CreateProduct id now input) db = (Ok (AEntity o), db') →
  prop o "id" = VStr id
  ∧ ∃ o', answer (GetProduct id) db' = (Ok (AEntity o'), db') ∧ ∀ k, prop o' k = prop o k.
Proof.
  intros Hrun. cbn [answer] in Hrun. reveal. unfold returning in Hrun.
  apply bind_inv in Hrun as (o1 & db1 & Hrun & Hret).
  apply ret_inv in Hret as [Hret ->]. injection Hret as ->.
  unfold FirebaseStorage.createProduct in Hrun. cbv zeta in Hrun.
  set (w := <["isActive" := _]> _) in Hrun.
  assert (Hrt : ∀ k, k ≠ "createdAt" → prop w k = VUndefined ∨ plain (prop w k)).
  { intros k Hk. subst w.
    destruct (decide (k = "isActive")) as [->|Ha].
    { rewrite prop_insert_eq. right.
      apply round_trip_coalesce; [by apply round_trip_prop|reflexivity]. }
    rewrite (prop_insert_ne _ "isActive") by done.
    destruct (decide (k = "downloadLimit")) as [->|Hd].
    { rewrite prop_insert_eq. right.
      apply round_trip_coalesce; [by apply round_trip_prop|reflexivity]. }
    rewrite (prop_insert_ne _ "downloadLimit"), (prop_insert_ne _ "createdAt") by done.
    destruct (decide (k = "id")) as [->|Hi].
    { rewrite prop_insert_eq. right. reflexivity. }
    rewrite (prop_insert_ne _ "id") by done. by apply round_trip_prop. }
  assert (Hc : prop w "createdAt" = VDate (ValidDate now)).
  { subst w. by rewrite (prop_insert_ne _ "isActive" "createdAt"),
      (prop_insert_ne _ "downloadLimit" "createdAt"), prop_insert_eq by discriminate. }
  assert (Hid : prop w "id" = VStr id).
  { subst w. by rewrite (prop_insert_ne _ "isActive" "id"),
      (prop_insert_ne _ "downloadLimit" "id"), (prop_insert_ne _ "createdAt" "id"),
      prop_insert_eq by discriminate. }
  assert (Hs : storable w).
  { intros k v Hk Hne. destruct (decide (k = "createdAt")) as [->|Hkc].
    { rewrite (prop_lookup _ _ _ Hk) in Hc. subst v. eexists. reflexivity. }
    destruct (Hrt k Hkc) as [Hu|Hp]; rewrite (prop_lookup _ _ _ Hk) in *;
      [by destruct Hne|]. unfold plain in Hp. rewrite Hp. eexists. reflexivity. }
  apply (created_doc _ _ w o) in Hrun as (-> & Hf & Hd); [|exact Hs].
  split; [exact Hid|]. eexists. split.
  - cbn [answer]. reveal. unfold returning, FirebaseStorage.getProduct.
    erewrite bind_ok
      by (apply catch_not_found_ok; erewrite bind_ok by (by apply doc_get_ok);
          rewrite Hd, stored_prop, Hc; reflexivity).
    reflexivity.
  - intros k. destruct (decide (k = "createdAt")) as [->|Hkc].
    { by rewrite prop_insert_eq, Hc. }
    rewrite (prop_insert_ne _ "createdAt") by done.
    destruct (decide (k = "id")) as [->|Hki].
    { by rewrite prop_insert_eq, Hid. }
    rewrite (prop_insert_ne _ "id") by done. by apply stored_prop_kept, Hrt.
Qed.

Lemma createCustomer_then_get now :
  answer (CreateCustomer id now input) db = (Ok (AEntity o), db') →
  prop o "id" = VStr id
  ∧ ∃ o', answer (GetCustomer id) db' = (Ok (AEntity o'), db') ∧ ∀ k, prop o' k = prop o k.
Proof.
  intros Hrun. cbn [answer] in Hrun. reveal. unfold returning in Hrun.
  apply bind_inv in Hrun as (o1 & db1 & Hrun & Hret).
  apply ret_inv in Hret as [Hret ->]. injection Hret as ->.
  unfold FirebaseStorage.createCustomer in Hrun. cbv zeta in Hrun.
  apply bind_inv in Hrun as ([] & db1 & Hset & Hret). apply ret_inv in Hret as [<- ->].
  set (w := <["createdAt" := VDate (ValidDate now)]> (<["id" := VStr id]> input)) in Hset.
  assert (Hrt : ∀ k, k ≠ "createdAt" → prop w k = VUndefined ∨ plain (prop w k)).
  { intros k Hk. subst w. rewrite (prop_insert_ne _ "createdAt") by done.
    destruct (decide (k = "id")) as [->|Hi].
    { rewrite prop_insert_eq. right. reflexivity. }
    rewrite (prop_insert_ne _ "id") by done. by apply round_trip_prop. }
  assert (Hc : prop w "createdAt" = VDate (ValidDate now))
    by (subst w; by rewrite prop_insert_eq).
  assert (Hid : prop w "id" = VStr id).
  { subst w. by rewrite (prop_insert_ne _ "createdAt" "id"), prop_insert_eq
      by discriminate. }
  assert (Hs : storable w).
  { intros k v Hk Hne. destruct (decide (k = "createdAt")) as [->|Hkc].
    { rewrite (prop_lookup _ _ _ Hk) in Hc. subst v. eexists. reflexivity. }
    destruct (Hrt k Hkc) as [Hu|Hp]; rewrite (prop_lookup _ _ _ Hk) in *;
      [by destruct Hne|]. unfold plain in Hp. rewrite Hp. eexists. reflexivity. }
  apply doc_set_inv in Hset as (Hf & d & Hd & ->).
  rewrite (fs_encode_obj_stored w Hs) in Hd. injection Hd as <-.
  destruct Hinput as [Hnoid _].
  split.
  { rewrite (prop_insert_ne _ "createdAt" "id") by discriminate.
    unfold prop. by rewrite lookup_union, Hnoid, lookup_singleton_eq. }
  eexists. split.
  - cbn [answer]. reveal. unfold returning, FirebaseStorage.getCustomer.
    erewrite bind_ok
      by (apply catch_not_found_ok; erewrite bind_ok by (by apply doc_get_ok);
          rewrite fs_docs_put_same, lookup_insert_eq, stored_prop, Hc; reflexivity).
    reflexivity.
  - intros k. destruct (decide (k = "createdAt")) as [->|Hkc].
    { by rewrite !prop_insert_eq. }
    rewrite !(prop_insert_ne _ "createdAt") by done.
    destruct (decide (k = "id")) as [->|Hki].
    { rewrite prop_insert_eq. unfold prop.
      by rewrite lookup_union, Hnoid, lookup_singleton_eq. }
    rewrite (prop_insert_ne _ "id"), prop_union_singleton_ne by done.
    rewrite (stored_prop_kept _ _ (Hrt k Hkc)). subst w.
    by rewrite (prop_insert_ne _ "createdAt"), (prop_insert_ne _ "id") by done.
Qed.

End create_then_get.

(** X6: in the document backend a get by the generated id, after createUser,
    createProduct, createCustomer or createEmailTemplate has returned an
    entity, finds an entity with the same value in every field, the defaults
    and the creation date included; the input brings no [id] and its values
    are values that the store gives back as written (no [Date], no
    [undefined] inside) or are [undefined]. *)
Theorem create_then_get_fs {prims : JsPrims} (c g : Call) (i : string) (input o : Obj)
    (db db' : Firestore) :
  get_created c i = Some g → call_collection c ≠ "coupons" →
  create_input c = Some input → round_trip_input input →
  answer c db = (Ok (AEntity o), db') → prop o "id" = VStr i →
  ∃ o', answer g db' = (Ok (AEntity o'), db') ∧ ∀ k, prop o' k = prop o k.
Proof.
  intros Hg Hc Hin Hrt Hrun Hid.
  destruct c; try discriminate Hg; injection Hg as <-; injection Hin as ->.
  - destruct (createUser_then_get db db' id input o Hrt Hrun) as (Hid' & Hget).
    assert (i = id) as -> by congruence. exact Hget.
  - destruct (createProduct_then_get db db' id input o Hrt now Hrun) as (Hid' & Hget).
    assert (i = id) as -> by congruence. exact Hget.
  - by destruct Hc.
  - destruct (createCustomer_then_get db db' id input o Hrt now Hrun) as (Hid' & Hget).
    assert (i = id) as -> by congruence. exact Hget.
  - destruct (createEmailTemplate_then_get db db' id input o Hrt Hrun) as (Hid' & Hget).
    assert (i = id) as -> by congruence. exact Hget.
Qed.

Lemma create_then_get_fs_witness :
  match answer (storage:=FirebaseStorage_IStorage (prims:=sample_prims))
          (CreateProduct "p1" 10 (sample_product "u1" "Ebook")) empty_firestore with
  | (Ok (AEntity o), db') =>
      ∃ o', answer (storage:=FirebaseStorage_IStorage (prims:=sample_prims))
              (GetProduct "p1") db' = (Ok (AEntity o'), db')
            ∧ ∀ k, prop o' k = prop o k
  | _ => False
  end.
Proof.
  assert (Hok : match answer (storage:=FirebaseStorage_IStorage (prims:=sample_prims))
                        (CreateProduct "p1" 10 (sample_product "u1" "Ebook"))
                        empty_firestore with
                | (Ok (AEntity o), _) => prop o "id" = VStr "p1"
                | _ => False
                end) by (vm_compute; reflexivity).
  destruct (answer (CreateProduct "p1" 10 (sample_product "u1" "Ebook")) empty_firestore)
    as [[[o| | |]|] db'] eqn:E; try contradiction.
  apply (create_then_get_fs (prims:=sample_prims)
           (CreateProduct "p1" 10 (sample_product "u1" "Ebook")) (GetProduct "p1") "p1"
           (sample_product "u1" "Ebook") o empty_firestore db');
    [reflexivity|discriminate|reflexivity| |exact E|exact Hok].
  split; [vm_compute; reflexivity|].
  intros k v Hk. right. destruct (sample_product_simple "u1" "Ebook" k v Hk) as [_ [Hv|[Hf _]]];
    [by apply plain_scalar|discriminate Hf].
Defined.

(** ** The current user *)

Lemma getUserByEmail_db_run email (db : Database) :
  DatabaseStorage.getUserByEmail email db
  = (Ok (head (filter (λ r, satisfies [("email", VStr email)] r = true)
                 (db_rows "users" db))), db).
Proof. reflexivity. Qed.

Lemma head_filter_None {A} (P : A → Prop) `{∀ x, Decision (P x)} (l : list A) :
  head (filter P l) = None → filter P l = [].
Proof. by destruct (filter P l). Qed.

Lemma with_id_inv {S A} (v : Value) (k : string → M S A) s a s' :
  with_id v k s = (Ok a, s') → ∃ i, v = VStr i ∧ k i s = (Ok a, s').
Proof. destruct v; try discriminate. intros Hk. by eexists. Qed.

Lemma demo_user_email id now (input : Obj) :
  input !! "email" = Some (VStr "demo@example.com") →
  prop (new_row users id now input) "email" = VStr "demo@example.com".
Proof.
  intros He. assert (Hc : notNull (unique (col text "email")) ∈ tbl_columns users)
    by (apply list_elem_of_In; cbn; tauto).
  assert (Hnd : NoDup (col_name <$> tbl_columns users))
    by (apply (bool_decide_unpack _); by vm_compute).
  assert (Hrow := new_row_prop_in users id now input _ Hnd Hc).
  cbn [col_name notNull unique col] in Hrow. rewrite Hrow.
  by rewrite (prop_lookup _ _ _ He).
Qed.

Lemma getCurrentUserId_stable_db (fresh fresh' : string) (db db1 : Database) (u : string) :
  getCurrentUserId fresh db = (Ok u, db1) →
  getCurrentUserId fresh' db1 = (Ok u, db1).
Proof.
  unfold getCurrentUserId. reveal. intros Hrun.
  apply bind_inv in Hrun as (found & db2 & Hget & Hrun).
  rewrite getUserByEmail_db_run in Hget. injection Hget as <- <-.
  apply bind_inv in Hrun as (user & db2 & Huser & Hid).
  apply with_id_inv in Hid as (i & Hid & Hret). apply ret_inv in Hret as [-> ->].
  unfold satisfies in *. cbn [forallb fst snd] in *.
  destruct (head _) as [found|] eqn:Hhead.
  - apply ret_inv in Huser as [-> ->].
    erewrite bind_ok by apply getUserByEmail_db_run.
    unfold satisfies. cbn [forallb fst snd]. rewrite Hhead.
    erewrite bind_ok by reflexivity. by rewrite Hid.
  - apply head_filter_None in Hhead.
    unfold DatabaseStorage.createUser in Huser.
    apply bind_inv in Huser as (rows & db3 & Hins & Hret). apply ret_inv in Hret as [<- ->].
    apply db_insert_inv in Hins as (_ & -> & ->).
    cbn [head default from_option Datatypes.id] in Hid.
    erewrite bind_ok by apply getUserByEmail_db_run.
    unfold satisfies. cbn [forallb fst snd tbl_name users].
    rewrite db_rows_insert, filter_app, Hhead.
    rewrite filter_cons_True, filter_nil.
    + cbn [app head]. erewrite bind_ok by reflexivity. by rewrite Hid.
    + rewrite andb_true_r. apply sql_eq_str, demo_user_email.
      by rewrite lookup_insert_ne, lookup_insert_ne, lookup_singleton_eq.
Qed.


Lemma run_query_first_match field value c (docs : gmap string Obj) i (d : Obj) :
  run_query (limit 1 (where_eq field value (collection c))) docs = [] →
  field_is d field value = true →
  run_query (limit 1 (where_eq field value (collection c))) (<[i := d]> docs) = [(i, d)].
Proof.
  unfold run_query. cbn [q_where q_orderBy q_limit limit where_eq collection app].
  set (P := λ x : string * Obj, matches [(field, value)] x.2 = true).
  intros Hnone Hd.
  assert (Hno : filter P (map_to_list docs) = []).
  { destruct (sort_by _ (filter P (map_to_list docs))) as [|x l] eqn:Hs; [|discriminate].
    apply Permutation_nil_r. by rewrite <-Hs, sort_by_Permutation. }
  assert (Hone : filter P (map_to_list (<[i := d]> docs)) ≡ₚ [(i, d)]).
  { rewrite <-insert_delete_eq, map_to_list_insert by apply lookup_delete_eq.
    rewrite filter_cons_True by (unfold P, matches; cbn; by rewrite Hd).
    rewrite filter_none; [done|]. intros [j x] Hx HP.
    apply elem_of_map_to_list, lookup_delete_Some in Hx as [_ Hx].
    assert (Hin : (j, x) ∈ filter P (map_to_list docs))
      by (apply list_elem_of_filter; split; [done|by apply elem_of_map_to_list]).
    rewrite Hno in Hin. by apply not_elem_of_nil in Hin. }
  rewrite <-(sort_by_Permutation (λ a b : string * Obj, String.leb a.1 b.1)) in Hone.
  apply Permutation_singleton_r in Hone. by rewrite Hone.
Qed.

Lemma getUserByEmail_fs_inv {prims : JsPrims} email (db db' : Firestore) found :
  FirebaseStorage.getUserByEmail email db = (Ok found, db') →
  db' = db
  ∧ (fs_faults db !! "users" = None →
     found = match run_query (limit 1 (where_eq "email" email (collection "users")))
                     (fs_docs "users" db) with
             | [] => None
             | (doc_id, data) :: _ => Some (data ∪ {["id" := VStr doc_id]})
             end).
Proof.
  unfold FirebaseStorage.getUserByEmail, catch_not_found, try_catch.
  unfold mbind at 1. unfold M_bind, query_get, fs_request.
  cbn [q_coll limit where_eq collection].
  destruct (fs_faults db !! "users") as [e|].
  - destruct (code_is_5 e); [|discriminate]. intros Heq. injection Heq as <- <-.
    split; [done|discriminate].
  - destruct (run_query _ _) as [|[doc_id data] rest]; intros Heq; injection Heq as <- <-;
      by split.
Qed.

Lemma getUserByEmail_fs_run {prims : JsPrims} email (db : Firestore) :
  fs_faults db !! "users" = None →
  FirebaseStorage.getUserByEmail email db
  = (Ok match run_query (limit 1 (where_eq "email" email (collection "users")))
                (fs_docs "users" db) with
        | [] => None
        | (doc_id, data) :: _ => Some (data ∪ {["id" := VStr doc_id]})
        end, db).
Proof.
  intros Hf. unfold FirebaseStorage.getUserByEmail. apply catch_not_found_ok.
  erewrite bind_ok by (by apply query_get_ok). cbn [q_coll limit where_eq collection].
  by destruct (run_query _ _) as [|[doc_id data] rest].
Qed.

Lemma getCurrentUserId_stable_fs {prims : JsPrims} (fresh fresh' : string)
    (db db1 : Firestore) (u : string) :
  getCurrentUserId fresh db = (Ok u, db1) →
  getCurrentUserId fresh' db1 = (Ok u, db1).
Proof.
  unfold getCurrentUserId. reveal. intros Hrun.
  apply bind_inv in Hrun as (found & db2 & Hget & Hrun).
  apply bind_inv in Hrun as (user & db3 & Huser & Hid).
  apply with_id_inv in Hid as (i & Hid & Hret). apply ret_inv in Hret as [-> ->].
  destruct (getUserByEmail_fs_inv _ _ _ _ Hget) as [-> Hfound].
  destruct found as [found|].
  - apply ret_inv in Huser as [-> ->].
    erewrite bind_ok by exact Hget. erewrite bind_ok by reflexivity. by rewrite Hid.
  - unfold FirebaseStorage.createUser in Huser. cbv zeta in Huser.
    set (w := <["domainVerified" := _]> _) in Huser.
    assert (Hs : storable w).
    { subst w. do 3 (apply storable_insert;
        [|first [ intros ?; apply storable_coalesce;
                  [|eexists; vm_compute; reflexivity|assumption]
                | intros _; eexists; vm_compute; reflexivity ]]).
      all: rewrite <-insert_empty;
        repeat (apply storable_insert; [|intros _; eexists; vm_compute; reflexivity]);
        apply storable_empty. }
    apply bind_inv in Huser as ([] & db4 & Hset & Hret). apply ret_inv in Hret as [<- ->].
    apply doc_set_inv in Hset as (Hf & d & Hd & ->).
    rewrite (fs_encode_obj_stored w Hs) in Hd. injection Hd as <-.
    specialize (Hfound Hf).
    assert (Hno : run_query (limit 1 (where_eq "email" "demo@example.com"
                                        (collection "users"))) (fs_docs "users" db) = [])
      by (by destruct (run_query _ _) as [|[]]).
    assert (Hemail : field_is (stored w) "email" "demo@example.com" = true).
    { apply field_is_prop. rewrite stored_prop. subst w.
      rewrite (prop_insert_ne _ "domainVerified" "email"),
        (prop_insert_ne _ "primaryColor" "email"), (prop_insert_ne _ "id" "email"),
        (prop_insert_ne _ "businessName" "email"), (prop_insert_ne _ "password" "email")
        by discriminate.
      unfold prop. by rewrite lookup_singleton_eq. }
    assert (Hwid : prop (stored w) "id" = VStr fresh).
    { rewrite stored_prop. subst w.
      by rewrite (prop_insert_ne _ "domainVerified" "id"),
        (prop_insert_ne _ "primaryColor" "id"), prop_insert_eq by discriminate. }
    assert (Hi : u = fresh).
    { subst w. rewrite (prop_insert_ne _ "domainVerified" "id"),
        (prop_insert_ne _ "primaryColor" "id"), prop_insert_eq in Hid by discriminate.
      by injection Hid. }
    subst u.
    erewrite bind_ok by (by apply getUserByEmail_fs_run).
    rewrite fs_docs_put_same, (run_query_first_match _ _ _ _ _ _ Hno Hemail).
    erewrite bind_ok by reflexivity.
    by rewrite prop_union_id, Hwid.
Qed.

(** X7: getCurrentUserId is stable in both backends.  Once it has returned
    an id, every later call on the store it left returns the same id and
    changes nothing: the demo user is created at most once. *)
Theorem getCurrentUserId_stable {prims : JsPrims} (fresh fresh' u : string) :
  (∀ db db1 : Database,
     getCurrentUserId fresh db = (Ok u, db1) →
     getCurrentUserId fresh' db1 = (Ok u, db1))
  ∧ (∀ db db1 : Firestore,
       getCurrentUserId fresh db = (Ok u, db1) →
       getCurrentUserId fresh' db1 = (Ok u, db1)).
Proof.
  split; intros db db1.
  - apply getCurrentUserId_stable_db.
  - apply getCurrentUserId_stable_fs.
Qed.

Lemma getCurrentUserId_stable_witness :
  match getCurrentUserId "u9" (∅ : Database) with
  | (Ok u, db1) => u = "u9" ∧ getCurrentUserId "u10" db1 = (Ok u, db1)
  | _ => False
  end
  ∧ match getCurrentUserId (storage:=FirebaseStorage_IStorage (prims:=sample_prims))
            "u9" empty_firestore with
    | (Ok u, db1) =>
        u = "u9"
        ∧ getCurrentUserId (storage:=FirebaseStorage_IStorage (prims:=sample_prims))
            "u10" db1 = (Ok u, db1)
    | _ => False
    end.
Proof.
  split.
  - assert (Hok : match getCurrentUserId "u9" (∅ : Database) with
                  | (Ok u, _) => u = "u9"
                  | _ => False
                  end) by (vm_compute; reflexivity).
    destruct (getCurrentUserId "u9" (∅ : Database)) as [[u|] db1] eqn:E; [|contradiction].
    split; [exact Hok|].
    destruct (getCurrentUserId_stable (prims:=sample_prims) "u9" "u10" u) as [Hdb _].
    exact (Hdb ∅ db1 E).
  - assert (Hok : match getCurrentUserId
                          (storage:=FirebaseStorage_IStorage (prims:=sample_prims))
                          "u9" empty_firestore with
                  | (Ok u, _) => u = "u9"
                  | _ => False
                  end) by (vm_compute; reflexivity).
    destruct (getCurrentUserId "u9" empty_firestore) as [[u|] db1] eqn:E; [|contradiction].
    split; [exact Hok|].
    destruct (getCurrentUserId_stable (prims:=sample_prims) "u9" "u10" u) as [_ Hfs].
    exact (Hfs empty_firestore db1 E).
Defined.

(** ** Create, then list *)

Lemma run_select_elem q (db : Database) x :
  s_limit q = None →
  x ∈ run_select q db
  ↔ x ∈ db_rows (tbl_name (s_from q)) db ∧ satisfies (s_where q) x = true.
Proof.
  intros Hl. unfold run_select. rewrite Hl.
  destruct (s_orderBy q); rewrite ?sort_by_Permutation, list_elem_of_filter; tauto.
Qed.

(** X8: in the relational backend an entity that createProduct,
    createCoupon, createCustomer, createEmailTemplate or createAbandonedCart
    has just returned is in the listing of its owner. *)
Theorem create_then_list_db (c g : Call) (u : string) (o : Obj) (db db' : Database) :
  listing_of_created c u = Some g →
  answer c db = (Ok (AEntity o), db') → prop o "userId" = VStr u →
  ∃ l, answer g db' = (Ok (AList l), db') ∧ o ∈ l.
Proof.
  intros Hg Hrun Hu. unfold answer in Hrun.
  destruct c; try discriminate Hg; injection Hg as <-; reveal; unfold returning in Hrun;
    apply bind_inv in Hrun as (r & db1 & Hrun & Hret);
    apply ret_inv in Hret as [Hret ->]; injection Hret as ->;
    unfold DatabaseStorage.createProduct, DatabaseStorage.createCoupon,
      DatabaseStorage.createCustomer, DatabaseStorage.createEmailTemplate,
      DatabaseStorage.createAbandonedCart in Hrun;
    apply bind_inv in Hrun as (rows & db2 & Hrun & Hret);
    apply ret_inv in Hret as [<- ->];
    apply db_insert_inv in Hrun as (_ & -> & ->);
    cbn [head default from_option Datatypes.id] in *;
    (eexists; split; [reflexivity|]);
    (apply run_select_elem; [reflexivity|]);
    cbn [s_from s_where where_ orderBy_desc_col select_from tbl_name
         products coupons customers emailTemplates abandonedCarts];
    (split; [rewrite db_rows_insert; apply elem_of_app; right; left|]);
    unfold satisfies; cbn [forallb fst snd]; rewrite andb_true_r; by apply sql_eq_str.
Qed.

Lemma create_then_list_db_witness :
  match answer (CreateProduct "p2" 20 (sample_product "u1" "Book")) database_with_product with
  | (Ok (AEntity o), db') => ∃ l, answer (GetProducts "u1") db' = (Ok (AList l), db') ∧ o ∈ l
  | _ => False
  end.
Proof.
  assert (Hok : match answer (CreateProduct "p2" 20 (sample_product "u1" "Book"))
                        database_with_product with
                | (Ok (AEntity o), _) => prop o "userId" = VStr "u1"
                | _ => False
                end) by (vm_compute; reflexivity).
  destruct (answer (CreateProduct "p2" 20 (sample_product "u1" "Book")) database_with_product)
    as [[[o| | |]|] db'] eqn:E; try contradiction.
  exact (create_then_list_db (CreateProduct "p2" 20 (sample_product "u1" "Book"))
           (GetProducts "u1") "u1" o database_with_product db' eq_refl E Hok).
Defined.

(** ** The serializer *)

Lemma vsize_element l x : x ∈ l → (vsize x < vsize (VArr l))%nat.
Proof.
  cbn [vsize]. induction l as [|y l IH]; intros Hx; [by apply not_elem_of_nil in Hx|].
  apply elem_of_cons in Hx as [->|Hx]; cbn [foldr]; [lia|]. specialize (IH Hx). lia.
Qed.

Lemma vsize_property (o : Obj) k x : o !! k = Some x → (vsize x < vsize (VObj o))%nat.
Proof.
  intros Hk. cbn [vsize].
  rewrite (map_fold_delete_L _ _ k x o); [lia| |done]. intros. lia.
Qed.

Lemma Value_nested_ind (P : Value → Prop) :
  (∀ v, match v with VArr _ | VObj _ => True | _ => P v end) →
  (∀ l, Forall P l → P (VArr l)) →
  (∀ o : Obj, map_Forall (λ _, P) o → P (VObj o)) →
  ∀ v, P v.
Proof.
  intros Hbase Harr Hobj v.
  remember (vsize v) as n eqn:Hn. revert v Hn.
  induction n as [n IH] using lt_wf_ind. intros v ->.
  destruct v; try (match goal with |- P ?x => exact (Hbase x) end).
  - apply Harr, Forall_forall. intros x Hx. apply (IH (vsize x)); [|done].
    by apply vsize_element.
  - apply Hobj. intros k x Hk. apply (IH (vsize x)); [|done].
    by apply (vsize_property _ k).
Qed.

Lemma serialize_defined v : v ≠ VUndefined → serializeForFirestore v ≠ VUndefined.
Proof. destruct v; cbn [serializeForFirestore]; congruence. Qed.

Lemma serialize_lookup (o : Obj) k :
  omap (λ value, match value with
                 | VUndefined => None
                 | _ => Some (serializeForFirestore value)
                 end) o !! k
  = match o !! k with
    | Some VUndefined | None => None
    | Some v => Some (serializeForFirestore v)
    end.
Proof. rewrite lookup_omap. destruct (o !! k) as [[]|]; reflexivity. Qed.

Lemma serialize_idempotent v :
  serializeForFirestore (serializeForFirestore v) = serializeForFirestore v.
Proof.
  revert v. apply Value_nested_ind; [intros v|intros l IH|intros o IH].
  - destruct v; first [exact I | reflexivity].
  - cbn [serializeForFirestore]. f_equal. rewrite map_map. apply map_ext_in.
    intros x Hx. rewrite Forall_forall in IH. by apply IH, list_elem_of_In.
  - cbn [serializeForFirestore]. f_equal. apply map_eq. intros k.
    rewrite !serialize_lookup.
    destruct (o !! k) as [v|] eqn:Hk; [|reflexivity].
    assert (Hv := IH k v Hk). cbv beta in Hv.
    destruct v; cbn [serializeForFirestore] in *; try reflexivity; f_equal; exact Hv.
Qed.

Lemma serialize_no_undefined w :
  undefined_inside w → ∀ v, w = serializeForFirestore v → False.
Proof.
  induction 1 as [o k Hk|o k x Hk Hx IH|l x Hl Hx IH]; intros v Hv.
  - destruct v; try discriminate Hv; cbn [serializeForFirestore] in Hv;
      injection Hv as ->.
    + revert Hk. destruct (decide (k = "_seconds")) as [->|Hs];
        [by rewrite lookup_insert_eq|]. rewrite lookup_insert_ne by done.
      destruct (decide (k = "_nanoseconds")) as [->|Hn];
        [by rewrite lookup_insert_eq|]. by rewrite lookup_insert_ne, lookup_empty.
    + rewrite serialize_lookup in Hk. destruct (o0 !! k) as [x|]; [|discriminate].
      destruct x; try discriminate Hk.
  - destruct v; try discriminate Hv; cbn [serializeForFirestore] in Hv;
      injection Hv as ->.
    + revert Hk. destruct (decide (k = "_seconds")) as [->|Hs].
      { rewrite lookup_insert_eq. intros Heq. injection Heq as <-. inversion Hx. }
      rewrite lookup_insert_ne by done.
      destruct (decide (k = "_nanoseconds")) as [->|Hn].
      { rewrite lookup_insert_eq. intros Heq. injection Heq as <-. inversion Hx. }
      by rewrite lookup_insert_ne, lookup_empty.
    + rewrite serialize_lookup in Hk. destruct (o0 !! k) as [y|]; [|discriminate].
      apply (IH y). destruct y; try discriminate Hk; by injection Hk.
  - destruct v; try discriminate Hv; cbn [serializeForFirestore] in Hv;
      injection Hv as ->.
    apply list_elem_of_In, in_map_iff in Hl as (y & <- & _). by apply (IH y).
Qed.

(** X9: serializeForFirestore strips every [undefined] property and is
    idempotent.  No object inside its result, at any depth, has a property
    whose value is [undefined], and serializing a result again gives the
    same result. *)
Theorem serializer_strips_undefined (v : Value) :
  ¬ undefined_inside (serializeForFirestore v)
  ∧ serializeForFirestore (serializeForFirestore v) = serializeForFirestore v.
Proof.
  split; [|apply serialize_idempotent].
  intros Hu. by apply (serialize_no_undefined _ Hu v).
Qed.

(** ** What a call touches *)

Section keeps.
Context {S : Type} (T : S → S → Prop).
Hypothesis T_refl : ∀ s, T s s.
Hypothesis T_trans : ∀ s1 s2 s3, T s1 s2 → T s2 s3 → T s1 s3.

Lemma keeps_ret {A} (a : A) : keeps T (mret a : M S A).
Proof. intros s. apply T_refl. Qed.

Lemma keeps_throw {A} e : keeps T (throw e : M S A).
Proof. intros s. apply T_refl. Qed.

Lemma keeps_lift {A} (o : Outcome A) : keeps T (lift o : M S A).
Proof. intros s. apply T_refl. Qed.

Lemma keeps_bind {A B} (m : M S A) (f : A → M S B) :
  keeps T m → (∀ a, keeps T (f a)) → keeps T (m ≫= f).
Proof.
  intros Hm Hf s. specialize (Hm s). unfold after, mbind, M_bind in *.
  destruct (m s) as [[a|e] s1]; cbn [snd] in *; [|done].
  eapply T_trans; [exact Hm|apply Hf].
Qed.

Lemma keeps_try_catch {A} (m : M S A) (h : JsError → M S A) :
  keeps T m → (∀ e, keeps T (h e)) → keeps T (try_catch m h).
Proof.
  intros Hm Hh s. specialize (Hm s). unfold after, try_catch in *.
  destruct (m s) as [[a|e] s1]; cbn [snd] in *; [done|].
  eapply T_trans; [exact Hm|apply Hh].
Qed.

Lemma keeps_catch_not_found {A} (d : A) (m : M S A) :
  keeps T m → keeps T (catch_not_found d m).
Proof.
  intros Hm. apply keeps_try_catch; [done|]. intros e.
  destruct (code_is_5 e); [apply keeps_ret|apply keeps_throw].
Qed.

Lemma keeps_with_id {A} v (k : string → M S A) :
  (∀ i, keeps T (k i)) → keeps T (with_id v k).
Proof. intros Hk. destruct v; first [apply Hk | apply keeps_throw]. Qed.

Lemma keeps_data_of snapshot : keeps T (data_of snapshot : M S Obj).
Proof. destruct snapshot; [apply keeps_ret|apply keeps_throw]. Qed.

Lemma keeps_Promise_all_map {A B} (f : A → M S B) xs :
  (∀ x, keeps T (f x)) → keeps T (Promise_all_map f xs).
Proof.
  intros Hf. induction xs as [|x xs IH]; cbn [Promise_all_map].
  - apply keeps_ret.
  - apply keeps_bind; [done|]. intros y.
    apply keeps_bind; [done|]. intros ys. apply keeps_ret.
Qed.

End keeps.

Section firestore_keeps.
Context (T : Firestore → Firestore → Prop).
Hypothesis T_refl : ∀ s, T s s.

Lemma keeps_fs_request_read {A} c (f : Firestore → Outcome A) :
  keeps T (fs_request c (λ db, (f db, db))).
Proof. intros s. unfold after, fs_request. destruct (fs_faults s !! c); apply T_refl. Qed.

Lemma keeps_doc_get c id : keeps T (doc_get c id).
Proof. apply (keeps_fs_request_read c (λ db, Ok (fs_docs c db !! id))). Qed.

Lemma keeps_query_get q : keeps T (query_get q).
Proof.
  intros s. unfold after, query_get, fs_request.
  destruct (fs_faults s !! q_coll q); [apply T_refl|].
  destruct (q_rejected q); apply T_refl.
Qed.

End firestore_keeps.

Lemma only_touches_refl c id db : only_touches c id db db.
Proof. by split. Qed.

Lemma only_touches_trans c id db1 db2 db3 :
  only_touches c id db1 db2 → only_touches c id db2 db3 → only_touches c id db1 db3.
Proof.
  intros [Hf1 Hd1] [Hf2 Hd2]. split; [congruence|].
  intros c' id' Hne. by rewrite Hd2, Hd1.
Qed.

Lemma only_touches_put c id docs' db :
  (∀ id', id' ≠ id → docs' !! id' = fs_docs c db !! id') →
  only_touches c id db (fs_put_docs c docs' db).
Proof.
  intros Hd. split; [done|]. intros c' id' Hne.
  destruct (decide (c' = c)) as [->|Hc].
  - rewrite fs_docs_put_same. apply Hd. congruence.
  - by rewrite fs_docs_put_other.
Qed.

Lemma keeps_doc_set c id data : keeps (only_touches c id) (doc_set c id data).
Proof.
  intros s. unfold after, doc_set.
  destruct (fs_encode_obj data); [|apply only_touches_refl].
  unfold fs_request. destruct (fs_faults s !! c); [apply only_touches_refl|].
  apply only_touches_put. intros id' Hne. by rewrite lookup_insert_ne.
Qed.

Lemma keeps_doc_update c id data : keeps (only_touches c id) (doc_update c id data).
Proof.
  intros s. unfold after, doc_update.
  destruct (decide _); [apply only_touches_refl|].
  destruct (fs_encode_obj data); [|apply only_touches_refl].
  unfold fs_request. destruct (fs_faults s !! c); [apply only_touches_refl|].
  destruct (fs_docs c s !! id); [|apply only_touches_refl].
  apply only_touches_put. intros id' Hne. by rewrite lookup_insert_ne.
Qed.

Lemma keeps_doc_delete c id : keeps (only_touches c id) (doc_delete c id).
Proof.
  intros s. unfold after, doc_delete, fs_request.
  destruct (fs_faults s !! c); [apply only_touches_refl|].
  apply only_touches_put. intros id' Hne. by rewrite lookup_delete_ne.
Qed.

Ltac keeps_steps refl trans :=
  repeat first
    [ apply (keeps_ret _ refl)
    | apply (keeps_lift _ refl)
    | apply (keeps_data_of _ refl)
    | apply (keeps_doc_get _ refl)
    | apply (keeps_query_get _ refl)
    | apply keeps_doc_set
    | apply keeps_doc_update
    | apply keeps_doc_delete
    | apply (keeps_catch_not_found _ refl trans)
    | apply (keeps_with_id _ refl); intros ?
    | apply (keeps_Promise_all_map _ refl trans); intros ?
    | apply (keeps_bind _ trans); [|intros ?]
    | match goal with
      | |- keeps _ (match ?x with _ => _ end) => destruct x
      | |- keeps _ (let '(_, _) := ?x in _) => destruct x
      end ].

Lemma eq_trans_store {S} (s1 s2 s3 : S) : s1 = s2 → s2 = s3 → s1 = s3.
Proof. congruence. Qed.

Lemma firebase_reads_keep {prims : JsPrims} (c : Call) :
  call_target c = None → keeps eq (answer (storage:=FirebaseStorage_IStorage) c).
Proof.
  intros Hc. destruct c; try discriminate Hc; cbn [answer]; reveal; unfold returning;
    unfold_firebase; unfold FirebaseStorage.page_with_product, FirebaseStorage.getProduct,
      FirebaseStorage.getCustomer, FirebaseStorage.getOrderItems;
    cbv zeta;
    keeps_steps (@eq_refl Firestore) (@eq_trans_store Firestore).
Qed.

Lemma firebase_writes_touch {prims : JsPrims} (c : Call) (id : string) :
  call_target c = Some id →
  keeps (only_touches (call_collection c) id) (answer (storage:=FirebaseStorage_IStorage) c).
Proof.
  intros Hc. destruct c; try discriminate Hc; injection Hc as ->;
    cbn [answer call_collection]; reveal; unfold returning;
    unfold_firebase; unfold FirebaseStorage.page_with_product, FirebaseStorage.getProduct,
      FirebaseStorage.getCustomer, FirebaseStorage.getOrderItems;
    cbv zeta;
    keeps_steps uconstr:(only_touches_refl _ _) uconstr:(only_touches_trans _ _).
Qed.

Lemma rows_kept_refl t id db : rows_kept t id db db.
Proof. by split. Qed.

Lemma rows_kept_trans t id db1 db2 db3 :
  rows_kept t id db1 db2 → rows_kept t id db2 db3 → rows_kept t id db1 db3.
Proof.
  intros [Hn1 Hr1] [Hn2 Hr2]. split.
  - intros n Hne. by rewrite Hn2, Hn1.
  - intros r Hr Hid. by apply Hr2; [apply Hr1|].
Qed.

Lemma rows_kept_put (t : Table) id rows' (db : Database) :
  (∀ r, r ∈ db_rows (tbl_name t) db → prop r "id" ≠ VStr id → r ∈ rows') →
  rows_kept (tbl_name t) id db (<[tbl_name t := rows']> db).
Proof.
  intros Hr. split.
  - intros n Hne. by apply db_rows_insert_ne.
  - by rewrite db_rows_insert.
Qed.

Lemma keeps_select q t id : keeps (rows_kept t id) (select q).
Proof. intros s. apply rows_kept_refl. Qed.

Lemma keeps_db_insert (t : Table) new_id now values id :
  keeps (rows_kept (tbl_name t) id) (db_insert t new_id now values).
Proof.
  intros s. unfold after, db_insert.
  repeat (case_match; [apply rows_kept_refl|]). cbn [snd].
  apply rows_kept_put. intros r Hr _. apply elem_of_app. by left.
Qed.

Lemma keeps_db_update (t : Table) data id :
  keeps (rows_kept (tbl_name t) id) (db_update t data [("id", VStr id)]).
Proof.
  intros s. unfold after, db_update. cbv zeta.
  repeat (case_match; [apply rows_kept_refl|]). cbn [snd].
  apply rows_kept_put. intros r Hr Hid.
  apply list_elem_of_fmap. exists r. split; [|done].
  rewrite satisfies_id.
  destruct (sql_eq (prop r "id") (VStr id)) eqn:E; [|done].
  by apply sql_eq_str in E.
Qed.

Lemma keeps_db_delete (t : Table) id :
  keeps (rows_kept (tbl_name t) id) (db_delete t [("id", VStr id)]).
Proof.
  intros s. unfold after, db_delete. cbv zeta.
  case_match; [apply rows_kept_refl|]. cbn [snd].
  apply rows_kept_put. intros r Hr Hid.
  apply list_elem_of_filter. split; [|done].
  rewrite satisfies_id. intros E. by apply sql_eq_str in E.
Qed.

Ltac unfold_database :=
  unfold DatabaseStorage.getUser, DatabaseStorage.getUserByEmail,
    DatabaseStorage.createUser, DatabaseStorage.updateUser,
    DatabaseStorage.getProducts, DatabaseStorage.getProduct,
    DatabaseStorage.createProduct, DatabaseStorage.updateProduct,
    DatabaseStorage.deleteProduct,
    DatabaseStorage.getCheckoutPages, DatabaseStorage.getCheckoutPage,
    DatabaseStorage.getCheckoutPageBySlug, DatabaseStorage.createCheckoutPage,
    DatabaseStorage.updateCheckoutPage, DatabaseStorage.deleteCheckoutPage,
    DatabaseStorage.getCoupons, DatabaseStorage.getCoupon,
    DatabaseStorage.getCouponByCode, DatabaseStorage.createCoupon,
    DatabaseStorage.updateCoupon, DatabaseStorage.deleteCoupon,
    DatabaseStorage.getCustomers, DatabaseStorage.getCustomer,
    DatabaseStorage.getCustomerByEmail, DatabaseStorage.createCustomer,
    DatabaseStorage.updateCustomer,
    DatabaseStorage.getOrders, DatabaseStorage.getOrder,
    DatabaseStorage.createOrder, DatabaseStorage.updateOrder,
    DatabaseStorage.createOrderItem, DatabaseStorage.getOrderItems,
    DatabaseStorage.getEmailTemplates, DatabaseStorage.getEmailTemplate,
    DatabaseStorage.createEmailTemplate, DatabaseStorage.updateEmailTemplate,
    DatabaseStorage.deleteEmailTemplate,
    DatabaseStorage.createPixelEvent, DatabaseStorage.getPixelEvents,
    DatabaseStorage.createAbandonedCart, DatabaseStorage.getAbandonedCarts,
    DatabaseStorage.updateAbandonedCart, DatabaseStorage.with_product.

Lemma database_reads_keep (c : Call) :
  call_target c = None → keeps eq (answer (storage:=DatabaseStorage_IStorage) c).
Proof.
  intros Hc s.
  destruct c; try discriminate Hc; cbn [answer]; reveal; unfold returning; unfold_database;
    match goal with
    | |- s = after ?m s => assert (Hro : readonly m) by readonly_steps; by rewrite Hro
    end.
Qed.

Lemma database_writes_touch (c : Call) (id : string) :
  call_target c = Some id →
  keeps (rows_kept (call_collection c) id) (answer (storage:=DatabaseStorage_IStorage) c).
Proof.
  intros Hc. destruct c; try discriminate Hc; injection Hc as ->;
    cbn [answer call_collection]; reveal; unfold returning; unfold_database;
    (apply (keeps_bind _ (rows_kept_trans _ _)); [|intros ?; apply keeps_ret, rows_kept_refl]);
    (apply (keeps_bind _ (rows_kept_trans _ _)); [|intros ?; apply keeps_ret, rows_kept_refl]);
    first [ apply (keeps_db_insert users) | apply (keeps_db_update users)
          | apply (keeps_db_insert products) | apply (keeps_db_update products)
          | apply (keeps_db_delete products)
          | apply (keeps_db_insert checkoutPages) | apply (keeps_db_update checkoutPages)
          | apply (keeps_db_delete checkoutPages)
          | apply (keeps_db_insert coupons) | apply (keeps_db_update coupons)
          | apply (keeps_db_delete coupons)
          | apply (keeps_db_insert customers) | apply (keeps_db_update customers)
          | apply (keeps_db_insert orders) | apply (keeps_db_update orders)
          | apply (keeps_db_insert orderItems)
          | apply (keeps_db_insert emailTemplates) | apply (keeps_db_update emailTemplates)
          | apply (keeps_db_delete emailTemplates)
          | apply (keeps_db_insert pixelEvents)
          | apply (keeps_db_insert abandonedCarts) | apply (keeps_db_update abandonedCarts) ].
Qed.

(** X10: in both backends a call changes at most the entity it is about.  A
    read leaves the store exactly as it found it.  A create, an update or a
    delete with the id [id] leaves, in the document backend, every document
    other than [id] of its collection (and every other collection, and the
    faults) as they were; in the relational backend it leaves every other
    table as it was and keeps every row of its table whose id is not [id].
    This holds whether the call answers or throws. *)
Theorem calls_touch_one_entity {prims : JsPrims} (c : Call) :
  match call_target c with
  | None =>
      (∀ db : Firestore, after (answer c) db = db)
      ∧ (∀ db : Database, after (answer c) db = db)
  | Some id =>
      (∀ db : Firestore, only_touches (call_collection c) id db (after (answer c) db))
      ∧ (∀ db : Database, rows_kept (call_collection c) id db (after (answer c) db))
  end.
Proof.
  destruct (call_target c) as [id|] eqn:Hc.
  - split; intros db.
    + by apply firebase_writes_touch.
    + by apply database_writes_touch.
  - split; intros db; symmetry.
    + by apply firebase_reads_keep.
    + by apply database_reads_keep.
Qed.

(** ** The routes *)

Lemma delete_route_fs {prims : JsPrims} (e : Deletable) (id : string) (db : Firestore) :
  match delete_route e id db with
  | (Ok resp, db') =>
      match fs_faults db !! tbl_name (table_of e) with
      | Some _ => status resp = 500 ∧ db' = db
      | None =>
          if exists_fs e id db
          then resp = no_content ∧ get_of e id db' = (Ok None, db')
          else status resp = 404 ∧ db' = db
      end
  | (Throw _, _) => False
  end.
Proof.
  unfold exists_fs.
  destruct (fs_faults db !! tbl_name (table_of e)) as [err|] eqn:Hf.
  - destruct e; unfold delete_route, delete_api_products_id, delete_api_checkout_pages_id,
      delete_api_coupons_id, delete_api_email_templates_id, delete_handler, handler;
      reveal; unfold_firebase; unfold try_catch;
      (erewrite bind_throw by (apply bind_throw; apply doc_get_fault; exact Hf));
      by split.
  - destruct (fs_docs (tbl_name (table_of e)) db !! id) as [doc|] eqn:Hd.
    + rewrite bool_decide_eq_true_2 by done.
      destruct e; unfold delete_route, delete_api_products_id, delete_api_checkout_pages_id,
        delete_api_coupons_id, delete_api_email_templates_id, delete_handler, handler;
        reveal; unfold_firebase; unfold try_catch;
        (erewrite bind_ok by
           (erewrite bind_ok by (apply doc_get_ok; exact Hf); reveal; rewrite Hd;
            erewrite bind_ok by (apply doc_delete_ok; exact Hf); reflexivity));
        (split; [reflexivity|]);
        try apply catch_not_found_ok;
        (erewrite bind_ok by (apply doc_get_ok; exact Hf));
        by rewrite fs_docs_put_same, lookup_delete_eq.
    + rewrite bool_decide_eq_false_2 by (by intros [? ?]).
      destruct e; unfold delete_route, delete_api_products_id, delete_api_checkout_pages_id,
        delete_api_coupons_id, delete_api_email_templates_id, delete_handler, handler;
        reveal; unfold_firebase; unfold try_catch;
        (erewrite bind_ok by
           (erewrite bind_ok by (apply doc_get_ok; exact Hf); reveal; rewrite Hd;
            reflexivity));
        by split.
Qed.

Lemma filter_every {A} (P : A → Prop) `{∀ x, Decision (P x)} (l : list A) :
  (∀ x, x ∈ l → P x) → filter P l = l.
Proof.
  induction l as [|x l IH]; intros Hall; [done|].
  rewrite filter_cons_True by (apply Hall; left).
  f_equal. apply IH. intros y Hy. apply Hall. by right.
Qed.

Lemma db_delete_absent (t : Table) (id : string) (db db' : Database) deleted :
  existsb (λ r, sql_eq (prop r "id") (VStr id)) (db_rows (tbl_name t) db) = false →
  db_delete t [("id", VStr id)] db = (Ok deleted, db') →
  ∀ n, db_rows n db' = db_rows n db.
Proof.
  intros Hex. unfold db_delete. cbv zeta. case_match; [discriminate|].
  intros Heq n. injection Heq as _ <-.
  destruct (decide (n = tbl_name t)) as [->|Hn].
  - rewrite db_rows_insert. apply filter_every. intros r Hr.
    change (satisfies [("id", VStr id)] r ≠ true). rewrite satisfies_id. intros Hs.
    assert (existsb (λ r, sql_eq (prop r "id") (VStr id)) (db_rows (tbl_name t) db) = true)
      by (apply existsb_exists; exists r; split; [by apply list_elem_of_In|done]).
    congruence.
  - by apply db_rows_insert_ne.
Qed.

Lemma delete_route_db (e : Deletable) (id : string) (db : Database) :
  match delete_route e id db with
  | (Ok resp, db') =>
      if exists_db e id db
      then (resp = no_content ∧ get_of e id db' = (Ok None, db'))
           ∨ (status resp = 500 ∧ db' = db)
      else status resp = 404 ∧ ∀ n, db_rows n db' = db_rows n db
  | (Throw _, _) => False
  end.
Proof.
  assert (Hdel := db_delete_by_id (table_of e) id db). cbv zeta in Hdel.
  unfold exists_db.
  destruct (db_delete (table_of e) [("id", VStr id)] db) as [[deleted|err] db1] eqn:E.
  - destruct Hdel as [Hlen Hsel].
    assert (Hrun : delete_route e id db
                   = (Ok (if negb (bool_decide (0 < length deleted)%nat)
                          then error_response 404 (match e with
                                                   | DProduct => "Product not found"
                                                   | DCheckoutPage => "Checkout page not found"
                                                   | DCoupon => "Coupon not found"
                                                   | DEmailTemplate => "Email template not found"
                                                   end)
                          else no_content), db1)).
    { destruct e; unfold delete_route, delete_api_products_id, delete_api_checkout_pages_id,
        delete_api_coupons_id, delete_api_email_templates_id, delete_handler, handler;
        reveal; unfold_database; unfold try_catch;
        cbn [table_of] in E;
        (erewrite bind_ok by (erewrite bind_ok by exact E; reflexivity));
        by destruct (bool_decide _). }
    rewrite Hrun, Hlen.
    destruct (existsb _ _) eqn:Hex; cbn [negb].
    + left. split; [reflexivity|].
      destruct e; reveal; unfold_database; cbn [table_of] in Hsel;
        unfold select, mbind, M_bind, mret, M_ret; by rewrite Hsel.
    + split; [reflexivity|]. exact (db_delete_absent _ _ _ _ _ Hex E).
  - destruct Hdel as (-> & -> & ->).
    assert (Hrun : ∃ resp, delete_route e id db = (Ok resp, db) ∧ status resp = 500).
    { destruct e; unfold delete_route, delete_api_products_id, delete_api_checkout_pages_id,
        delete_api_coupons_id, delete_api_email_templates_id, delete_handler, handler;
        reveal; unfold_database; unfold try_catch;
        cbn [table_of] in E;
        (erewrite bind_throw by (apply bind_throw; exact E));
        by eexists. }
    destruct Hrun as (resp & -> & Hs). by right.
Qed.


(** ** POST routes *)

Lemma handler_inv {S} (failure : string) (m : M S Response) s resp s' :
  handler failure m s = (Ok resp, s') → status resp ≠ 500 → m s = (Ok resp, s').
Proof.
  unfold handler, try_catch. destruct (m s) as [[r|e] s1]; [done|].
  intros Heq. injection Heq as <- <-. by intros [].
Qed.

Lemma post_handler_inv {S} {storage : IStorage S}
    (create : Obj → M S Obj) failure fresh req_body (db db' : S) resp :
  post_handler create failure fresh req_body db = (Ok resp, db') → status resp = 201 →
  ∃ u db1 o, getCurrentUserId fresh db = (Ok u, db1)
             ∧ create (<["userId" := VStr u]> req_body) db1 = (Ok o, db')
             ∧ resp = status_json 201 (VObj o).
Proof.
  intros Hrun Hs. apply handler_inv in Hrun; [|by rewrite Hs].
  apply bind_inv in Hrun as (u & db1 & Hu & Hrun).
  apply bind_inv in Hrun as (o & db2 & Ho & Hret).
  apply ret_inv in Hret as [<- ->]. by exists u, db1, o.
Qed.

Lemma current_user_found_db (fresh : string) (db db1 : Database) (u : string) :
  getCurrentUserId fresh db = (Ok u, db1) →
  ∃ user, head (filter (λ r, satisfies [("email", VStr "demo@example.com")] r = true)
                  (db_rows "users" db1)) = Some user
          ∧ prop user "id" = VStr u.
Proof.
  unfold getCurrentUserId. reveal. intros Hrun.
  apply bind_inv in Hrun as (found & db2 & Hget & Hrun).
  rewrite getUserByEmail_db_run in Hget. injection Hget as <- <-.
  apply bind_inv in Hrun as (user & db2 & Huser & Hid).
  apply with_id_inv in Hid as (i & Hid & Hret). apply ret_inv in Hret as [-> ->].
  unfold satisfies in *. cbn [forallb fst snd] in *.
  destruct (head _) as [found|] eqn:Hhead.
  - apply ret_inv in Huser as [-> ->]. by exists user.
  - apply head_filter_None in Hhead.
    unfold DatabaseStorage.createUser in Huser.
    apply bind_inv in Huser as (rows & db3 & Hins & Hret). apply ret_inv in Hret as [<- ->].
    apply db_insert_inv in Hins as (_ & -> & ->).
    cbn [head default from_option Datatypes.id] in Hid.
    cbn [tbl_name users].
    rewrite db_rows_insert, filter_app, Hhead.
    rewrite filter_cons_True, filter_nil.
    + cbn [app head]. by eexists.
    + rewrite andb_true_r. apply sql_eq_str, demo_user_email.
      by rewrite lookup_insert_ne, lookup_insert_ne, lookup_singleton_eq.
Qed.

Lemma current_user_db (fresh u : string) (db : Database) user :
  head (filter (λ r, satisfies [("email", VStr "demo@example.com")] r = true)
          (db_rows "users" db)) = Some user →
  prop user "id" = VStr u →
  getCurrentUserId fresh db = (Ok u, db).
Proof.
  intros Hhead Hid. unfold getCurrentUserId. reveal.
  erewrite bind_ok by apply getUserByEmail_db_run. rewrite Hhead.
  erewrite bind_ok by reflexivity. by rewrite Hid.
Qed.

Lemma created_row_owner (e : Deletable) id now (u : string) (req_body : Obj) :
  prop (new_row (table_of e) id now (<["userId" := VStr u]> req_body)) "userId" = VStr u.
Proof.
  assert (Hc : userId_column ∈ tbl_columns (table_of e))
    by (destruct e; apply list_elem_of_In; cbn; tauto).
  assert (Hnd : NoDup (col_name <$> tbl_columns (table_of e)))
    by (destruct e; apply (bool_decide_unpack _); by vm_compute).
  assert (Hrow := new_row_prop_in (table_of e) id now (<["userId" := VStr u]> req_body) _ Hnd Hc).
  cbn [col_name userId_column references notNull col] in Hrow. rewrite Hrow.
  by rewrite prop_insert_eq.
Qed.

Lemma post_route_db_inv (e : Deletable) id now fresh req_body (db db' : Database) resp :
  post_route e id now fresh req_body db = (Ok resp, db') → status resp = 201 →
  ∃ u db1, getCurrentUserId fresh db = (Ok u, db1)
    ∧ resp = status_json 201 (VObj (new_row (table_of e) id now (<["userId" := VStr u]> req_body)))
    ∧ db' = <[tbl_name (table_of e) :=
               db_rows (tbl_name (table_of e)) db1
               ++ [new_row (table_of e) id now (<["userId" := VStr u]> req_body)]]> db1.
Proof.
  intros Hrun Hs.
  destruct e; cbn [post_route] in Hrun;
    unfold post_api_products, post_api_checkout_pages, post_api_coupons,
      post_api_email_templates in Hrun;
    apply post_handler_inv in Hrun as (u & db1 & o & Hu & Ho & ->); try done;
    reveal; unfold_database;
    apply bind_inv in Ho as (rows & db2 & Hins & Hret); apply ret_inv in Hret as [<- ->];
    apply db_insert_inv in Hins as (_ & -> & ->);
    by exists u, db1.
Qed.

Lemma table_of_not_users (e : Deletable) : tbl_name (table_of e) ≠ "users".
Proof. by destruct e. Qed.

Lemma post_route_owner_db (e : Deletable) id now fresh fresh' req_body
    (db db' : Database) resp :
  post_route e id now fresh req_body db = (Ok resp, db') → status resp = 201 →
  ∃ u o, body resp = VObj o ∧ prop o "userId" = VStr u
         ∧ getCurrentUserId fresh' db' = (Ok u, db').
Proof.
  intros Hrun Hs.
  apply post_route_db_inv in Hrun as (u & db1 & Hu & -> & ->); [|done].
  apply current_user_found_db in Hu as (user & Hhead & Hid).
  exists u, (new_row (table_of e) id now (<["userId" := VStr u]> req_body)).
  split; [reflexivity|]. split; [apply created_row_owner|].
  apply (current_user_db _ _ _ user); [|done].
  by rewrite db_rows_insert_ne by apply table_of_not_users.
Qed.

Lemma with_product_all (pages : list Obj) (db : Database) :
  Promise_all_map DatabaseStorage.with_product pages db
  = (Ok ((λ page, <["product" := from_option VObj VUndefined
                      (head (run_select (where_ [("id", prop page "productId")]
                                           (select_from products)) db))]> page) <$> pages),
     db).
Proof.
  induction pages as [|page pages IH]; [reflexivity|].
  cbn [Promise_all_map]. erewrite bind_ok by reflexivity.
  erewrite bind_ok by exact IH. reflexivity.
Qed.

(** X13: in the relational backend, after POST /api/products,
    /api/checkout-pages, /api/coupons or /api/email-templates has answered
    201, the list route of the same kind answers 200 with an array that
    holds the created entity: as it was returned, or, for a checkout page,
    with only the property [product] added by the join. *)
Theorem post_then_list_db (e : Deletable) id now fresh fresh' req_body
    (db db' : Database) resp :
  post_route e id now fresh req_body db = (Ok resp, db') → status resp = 201 →
  ∃ items created listed,
    list_route e fresh' db' = (Ok (json_response (VArr items)), db')
    ∧ body resp = VObj created ∧ VObj listed ∈ items
    ∧ (∀ k, k ≠ "product" → prop listed k = prop created k)
    ∧ (e ≠ DCheckoutPage → listed = created).
Proof.
  intros Hrun Hs.
  destruct (post_route_owner_db e id now fresh fresh' req_body db db' resp Hrun Hs)
    as (u & o & Hbody & Howner & Hu).
  apply post_route_db_inv in Hrun as (u' & db1 & _ & -> & ->); [|done].
  cbn [body status_json] in Hbody. injection Hbody as <-.
  set (row := new_row _ _ _ _) in *.
  set (db' := <[tbl_name (table_of e) := _]> db1) in *.
  assert (Hin : ∀ q, s_limit q = None → s_from q = table_of e →
                     s_where q = [("userId", VStr u)] → row ∈ run_select q db').
  { intros q Hl Hf Hw. apply run_select_elem; [done|]. rewrite Hf, Hw. split.
    - subst db'. rewrite db_rows_insert. apply elem_of_app. right. left.
    - unfold satisfies. cbn [forallb fst snd]. rewrite andb_true_r. by apply sql_eq_str. }
  destruct e;
    unfold list_route, get_api_products, get_api_checkout_pages, get_api_coupons,
      get_api_email_templates, list_handler, handler, try_catch;
    (erewrite bind_ok by exact Hu); reveal; unfold_database.
  2:{ erewrite bind_ok
        by (erewrite bind_ok by reflexivity; erewrite bind_ok by apply with_product_all;
            reflexivity).
      eexists _, row, _. split; [reflexivity|]. split; [reflexivity|].
      split; [|split; [|intros He; exfalso; by apply He]].
      - apply (list_elem_of_fmap_2 VObj). apply list_elem_of_fmap.
        exists row. split; [reflexivity|]. by apply Hin.
      - intros k Hk. by apply prop_insert_ne. }
  all: (erewrite bind_ok by reflexivity);
    (eexists _, row, row; split; [reflexivity|]); (split; [reflexivity|]);
    (split; [|done]); apply (list_elem_of_fmap_2 VObj); by apply Hin.
Qed.

Lemma current_user_found_fs {prims : JsPrims} (fresh : string) (db db1 : Firestore)
    (u : string) :
  getCurrentUserId fresh db = (Ok u, db1) →
  ∃ user, FirebaseStorage.getUserByEmail "demo@example.com" db1 = (Ok (Some user), db1)
          ∧ prop user "id" = VStr u.
Proof.
  intros Hrun.
  destruct (exist_fresh (dom (fs_docs "users" db1))) as [fresh' Hfresh].
  apply (getCurrentUserId_stable_fs fresh fresh') in Hrun.
  unfold getCurrentUserId in Hrun. reveal.
  apply bind_inv in Hrun as (found & db2 & Hget & Hrun).
  apply bind_inv in Hrun as (user & db3 & Huser & Hid).
  apply with_id_inv in Hid as (i & Hid & Hret). apply ret_inv in Hret as [-> ->].
  destruct (getUserByEmail_fs_inv _ _ _ _ Hget) as [-> _].
  destruct found as [found|].
  - apply ret_inv in Huser as [-> _]. by exists user.
  - exfalso. unfold FirebaseStorage.createUser in Huser. cbv zeta in Huser.
    apply bind_inv in Huser as ([] & db4 & Hset & Hret). apply ret_inv in Hret as [_ ->].
    apply doc_set_inv in Hset as (_ & d & _ & Heq).
    assert (Hdocs := f_equal (fs_docs "users") Heq). rewrite fs_docs_put_same in Hdocs.
    assert (Hd := f_equal (.!! fresh') Hdocs). rewrite lookup_insert_eq in Hd.
    apply Hfresh, elem_of_dom. by exists d.
Qed.

Lemma getUserByEmail_fs_frame {prims : JsPrims} email (db db' : Firestore) found :
  fs_faults db' = fs_faults db → fs_docs "users" db' = fs_docs "users" db →
  FirebaseStorage.getUserByEmail email db = (Ok found, db) →
  FirebaseStorage.getUserByEmail email db' = (Ok found, db').
Proof.
  intros Hf Hd.
  unfold FirebaseStorage.getUserByEmail, catch_not_found, try_catch.
  unfold mbind, M_bind, query_get, fs_request.
  cbn [q_coll limit where_eq collection]. rewrite Hf, Hd.
  destruct (fs_faults db !! "users") as [e|].
  - destruct (code_is_5 e); [|discriminate]. intros Heq. by injection Heq as <-.
  - destruct (run_query _ _) as [|[doc_id data] rest]; intros Heq; by injection Heq as <-.
Qed.

Lemma current_user_fs {prims : JsPrims} (fresh u : string) (db : Firestore) user :
  FirebaseStorage.getUserByEmail "demo@example.com" db = (Ok (Some user), db) →
  prop user "id" = VStr u →
  getCurrentUserId fresh db = (Ok u, db).
Proof.
  intros Hget Hid. unfold getCurrentUserId. reveal.
  erewrite bind_ok by exact Hget. erewrite bind_ok by reflexivity. by rewrite Hid.
Qed.

Lemma post_route_owner_fs {prims : JsPrims} (e : Deletable) id now fresh fresh' req_body
    (db db' : Firestore) resp :
  post_route e id now fresh req_body db = (Ok resp, db') → status resp = 201 →
  ∃ u o, body resp = VObj o ∧ prop o "userId" = VStr u
         ∧ getCurrentUserId fresh' db' = (Ok u, db').
Proof.
  intros Hrun Hs.
  assert (Hinv : ∃ u db1 o c, getCurrentUserId fresh db = (Ok u, db1)
            ∧ resp = status_json 201 (VObj o) ∧ prop o "userId" = VStr u
            ∧ call_target c = Some id ∧ call_collection c = tbl_name (table_of e)
            ∧ after (answer c) db1 = db').
  { destruct e; cbn [post_route] in Hrun;
      unfold post_api_products, post_api_checkout_pages, post_api_coupons,
        post_api_email_templates in Hrun;
      apply post_handler_inv in Hrun as (u & db1 & o & Hu & Ho & ->); try done;
      exists u, db1, o;
      [ exists (CreateProduct id now (<["userId" := VStr u]> req_body))
      | exists (CreateCheckoutPage id now (<["userId" := VStr u]> req_body))
      | exists (CreateCoupon id now (<["userId" := VStr u]> req_body))
      | exists (CreateEmailTemplate id (<["userId" := VStr u]> req_body)) ];
      (split; [done|]); (split; [done|]);
      (split;
         [|split; [done|split; [done|]];
           unfold after; cbn [answer]; unfold returning;
           by erewrite bind_ok by exact Ho]);
      reveal; unfold_firebase; cbv zeta in Ho;
      apply bind_inv in Ho as ([] & db2 & _ & Hret); apply ret_inv in Hret as [<- _];
      repeat (rewrite prop_insert_ne by discriminate); apply prop_insert_eq. }
  destruct Hinv as (u & db1 & o & c & Hu & -> & Ho & Hc & Hcoll & <-).
  exists u, o. split; [done|]. split; [done|].
  apply current_user_found_fs in Hu as (user & Hget & Hid).
  destruct (firebase_writes_touch c id Hc db1) as [Hf Hd].
  apply (current_user_fs _ _ _ user); [|done].
  apply (getUserByEmail_fs_frame _ db1); [done| |done].
  apply map_eq. intros k. apply Hd. rewrite Hcoll.
  intros Heq. injection Heq as Heq _. by apply (table_of_not_users e).
Qed.

Lemma post_then_list_db_witness :
  match post_route DProduct "p1" 5 "u9" (sample_product "intruder" "Book") (∅ : Database) with
  | (Ok resp, db') =>
      ∃ items created listed,
        list_route DProduct "u10" db' = (Ok (json_response (VArr items)), db')
        ∧ body resp = VObj created ∧ VObj listed ∈ items
        ∧ (∀ k, k ≠ "product" → prop listed k = prop created k)
        ∧ (DProduct ≠ DCheckoutPage → listed = created)
  | _ => False
  end.
Proof.
  assert (Hok : match post_route DProduct "p1" 5 "u9" (sample_product "intruder" "Book")
                        (∅ : Database) with
                | (Ok resp, _) => status resp = 201
                | _ => False
                end) by (vm_compute; reflexivity).
  destruct (post_route DProduct "p1" 5 "u9" (sample_product "intruder" "Book") (∅ : Database))
    as [[resp|] db'] eqn:E; [|contradiction].
  exact (post_then_list_db DProduct "p1" 5 "u9" "u10" _ ∅ db' resp E Hok).
Defined.

(** X12: in both backends an entity that a POST route creates belongs to
    the current user, whatever [userId] the request body names: when the
    route answers 201, the [userId] of the entity in the response is the id
    that getCurrentUserId gives on the store the request left. *)
Theorem post_routes_bind_owner {prims : JsPrims} (e : Deletable) (id fresh fresh' : string)
    (now : Z) (req_body : Obj) (resp : Response) :
  status resp = 201 →
  (∀ db db' : Firestore,
     post_route e id now fresh req_body db = (Ok resp, db') →
     ∃ u o, body resp = VObj o ∧ prop o "userId" = VStr u
            ∧ getCurrentUserId fresh' db' = (Ok u, db'))
  ∧ (∀ db db' : Database,
       post_route e id now fresh req_body db = (Ok resp, db') →
       ∃ u o, body resp = VObj o ∧ prop o "userId" = VStr u
              ∧ getCurrentUserId fresh' db' = (Ok u, db')).
Proof.
  intros Hs. split; intros db db' Hrun.
  - by apply (post_route_owner_fs e id now fresh fresh' req_body db).
  - by apply (post_route_owner_db e id now fresh fresh' req_body db).
Qed.

Lemma post_routes_bind_owner_witness :
  match post_route (storage:=FirebaseStorage_IStorage (prims:=sample_prims))
          DProduct "p1" 5 "u9" (sample_product "intruder" "Book") empty_firestore with
  | (Ok resp, db') =>
      status resp = 201
      ∧ ∃ u o, body resp = VObj o ∧ prop o "userId" = VStr u
               ∧ getCurrentUserId (storage:=FirebaseStorage_IStorage (prims:=sample_prims))
                   "u10" db' = (Ok u, db')
  | _ => False
  end.
Proof.
  assert (Hok : match post_route (storage:=FirebaseStorage_IStorage (prims:=sample_prims))
                        DProduct "p1" 5 "u9" (sample_product "intruder" "Book")
                        empty_firestore with
                | (Ok resp, _) => status resp = 201
                | _ => False
                end) by (vm_compute; reflexivity).
  destruct (post_route (storage:=FirebaseStorage_IStorage (prims:=sample_prims))
              DProduct "p1" 5 "u9" (sample_product "intruder" "Book") empty_firestore)
    as [[resp|] db'] eqn:E; [|contradiction].
  split; [exact Hok|].
  destruct (post_routes_bind_owner (prims:=sample_prims) DProduct "p1" "u9" "u10" 5
              (sample_product "intruder" "Book") resp Hok) as [Hfs _].
  exact (Hfs empty_firestore db' E).
Defined.

(** ** Update, then get *)

Lemma update_fs_fault {prims : JsPrims} (e : Updatable) id (data : Obj) db err :
  fs_faults db !! tbl_name (updatable_table e) = Some err →
  update_of e id data db = (Throw err, db).
Proof.
  intros Hf. destruct e; reveal; unfold_firebase; apply bind_throw; by apply doc_get_fault.
Qed.

(** What an update of the document backend that returned an entity did. *)
Lemma update_fs_inv {prims : JsPrims} (e : Updatable) id (data : Obj) db db' r :
  update_of e id data db = (Ok (Some r), db') →
  ∃ doc, fs_faults db' !! tbl_name (updatable_table e) = None
         ∧ fs_docs (tbl_name (updatable_table e)) db' !! id = Some doc
         ∧ fs_view e id doc = Ok r.
Proof.
  intros Hrun.
  destruct (fs_faults db !! tbl_name (updatable_table e)) as [err|] eqn:Hf.
  { by rewrite (update_fs_fault e id data db err Hf) in Hrun. }
  rewrite (update_fs_run e id data db Hf) in Hrun.
  destruct (fs_docs _ db !! id) as [old|]; [|discriminate].
  destruct (defines_value data); [|discriminate].
  destruct (fs_encode_obj _) as [d|]; [|discriminate]. cbv zeta in Hrun.
  destruct (fs_view e id (d ∪ old)) as [r'|] eqn:Hview; [|discriminate].
  injection Hrun as <- <-. exists (d ∪ old).
  split; [done|]. split; [|done]. by rewrite fs_docs_put_same, lookup_insert_eq.
Qed.

Lemma update_then_get_fs {prims : JsPrims} (c g : Call) (r : Obj) (db db' : Firestore) :
  get_updated c = Some g →
  answer c db = (Ok (AEntity r), db') → answer g db' = (Ok (AEntity r), db').
Proof.
  intros Hg Hrun.
  destruct c; try discriminate Hg; injection Hg as <-; cbn [answer] in *;
    unfold returning in *;
    apply bind_inv in Hrun as (a & db1 & Hrun & Hret);
    apply ret_inv in Hret as [Hret ->]; apply of_option_entity in Hret as ->;
    [ apply (update_fs_inv UUser) in Hrun as (doc & Hf & Hdoc & Hview)
    | apply (update_fs_inv UProduct) in Hrun as (doc & Hf & Hdoc & Hview)
    | apply (update_fs_inv UCoupon) in Hrun as (doc & Hf & Hdoc & Hview)
    | apply (update_fs_inv UCustomer) in Hrun as (doc & Hf & Hdoc & Hview)
    | apply (update_fs_inv UEmailTemplate) in Hrun as (doc & Hf & Hdoc & Hview) ];
    cbn [updatable_table tbl_name users products coupons customers emailTemplates] in *;
    reveal; unfold_firebase;
    (rewrite (bind_ok _ _ _ (Some r) db'); [reflexivity|]);
    try apply catch_not_found_ok;
    (erewrite bind_ok by (by apply doc_get_ok)); rewrite Hdoc;
    cbn [fs_view] in Hview; unfold FirebaseStorage.coupon_of;
    unfold mbind, M_bind, Outcome_bind, mret, M_ret, Outcome_ret, lift in *;
    repeat (match goal with |- context [toDate ?v] => destruct (toDate v) end);
    try discriminate Hview; by injection Hview as <-.
Qed.

Lemma filter_map_if {A} (hit : A → bool) (f : A → A) (l : list A) :
  (∀ x, hit (f x) = hit x) →
  filter (λ x, hit x = true) (map (λ x, if hit x then f x else x) l)
  = map f (filter (λ x, hit x = true) l).
Proof.
  intros Hf. induction l as [|x l IH]; [done|]. cbn [map].
  destruct (hit x) eqn:Hx.
  - rewrite !filter_cons_True by (by rewrite ?Hf). cbn [map]. by rewrite IH.
  - rewrite !filter_cons_False by congruence. exact IH.
Qed.

Lemma db_update_some t (data : Obj) conds (db db' : Database) rows r :
  db_update t data conds db = (Ok rows, db') → head rows = Some r →
  db' = <[tbl_name t := map (λ r, if satisfies conds r then set_columns t data r else r)
                            (db_rows (tbl_name t) db)]> db.
Proof.
  unfold db_update. destruct (negb (defines_value data)); [discriminate|].
  destruct (negb (sets_column t data)); [discriminate|].
  destruct (bool_decide _) eqn:Hhit.
  - intros [= <- _]. discriminate.
  - repeat (destruct (negb _); [discriminate|]).
    destruct (existsb _ _); [discriminate|]. by intros [= _ <-].
Qed.

Lemma set_columns_id t (data r : Obj) :
  prop data "id" = VUndefined → prop (set_columns t data r) "id" = prop r "id".
Proof. intros Hd. rewrite set_columns_prop, Hd. by destruct (decide _). Qed.

Lemma update_then_get_db (c g : Call) (r : Obj) (db db' : Database) :
  get_updated c = Some g →
  (∀ data, update_data c = Some data → prop data "id" = VUndefined) →
  answer c db = (Ok (AEntity r), db') → answer g db' = (Ok (AEntity r), db').
Proof.
  intros Hg Hid Hrun.
  assert (Hgen : ∀ t id data,
            prop data "id" = VUndefined →
            (rows ← db_update t data [("id", VStr id)]; mret (head rows)) db
            = (Ok (Some r), db') →
            (rows ← select (where_ [("id", VStr id)] (select_from t)); mret (head rows)) db'
            = (Ok (Some r), db')).
  { intros t id data Hd Hup.
    apply bind_inv in Hup as (rows & db1 & Hup & Hret). apply ret_inv in Hret as [Hhead ->].
    assert (Hdb := db_update_some _ _ _ _ _ _ _ Hup Hhead).
    apply db_update_inv in Hup. subst rows.
    erewrite bind_ok by reflexivity. unfold mret, M_ret. f_equal. f_equal.
    unfold run_select. cbn [s_where s_orderBy s_limit s_from where_ select_from].
    rewrite Hdb, db_rows_insert.
    rewrite (filter_map_if (satisfies [("id", VStr id)])); [done|].
    intros x. rewrite !satisfies_id. by rewrite set_columns_id. }
  destruct c; try discriminate Hg; injection Hg as <-; cbn [answer] in *;
    unfold returning in *;
    apply bind_inv in Hrun as (a & db1 & Hrun & Hret);
    apply ret_inv in Hret as [Hret ->]; apply of_option_entity in Hret as ->;
    (rewrite (bind_ok _ _ _ (Some r) db'); [reflexivity|]);
    reveal; unfold_database; (eapply Hgen; [|exact Hrun]); by apply Hid.
Qed.

(** X14: an update that returned an entity is read back by the get of the
    same id, for users, products, coupons, customers and email templates:
    the get on the store that the update left answers the same entity.  In
    the relational backend this is for an update that does not set the
    column [id]. *)
Theorem update_then_get {prims : JsPrims} (c g : Call) (r : Obj) :
  get_updated c = Some g →
  (∀ db db' : Firestore,
     answer c db = (Ok (AEntity r), db') → answer g db' = (Ok (AEntity r), db'))
  ∧ (∀ db db' : Database,
       (∀ data, update_data c = Some data → prop data "id" = VUndefined) →
       answer c db = (Ok (AEntity r), db') → answer g db' = (Ok (AEntity r), db')).
Proof.
  intros Hg. split; intros db db'.
  - by apply update_then_get_fs.
  - by apply update_then_get_db.
Qed.

Lemma update_then_get_witness :
  match answer (UpdateProduct "p1" {["name" := VStr "Handbook"]}) database_with_product with
  | (Ok (AEntity r), db') =>
      prop r "name" = VStr "Handbook"
      ∧ answer (GetProduct "p1") db' = (Ok (AEntity r), db')
  | _ => False
  end.
Proof.
  assert (Hok : match answer (UpdateProduct "p1" {["name" := VStr "Handbook"]})
                        database_with_product with
                | (Ok (AEntity r), _) => prop r "name" = VStr "Handbook"
                | _ => False
                end) by (vm_compute; reflexivity).
  destruct (answer (UpdateProduct "p1" {["name" := VStr "Handbook"]}) database_with_product)
    as [[[r| | |]|] db'] eqn:E; try contradiction.
  split; [exact Hok|].
  destruct (update_then_get (prims:=sample_prims)
              (UpdateProduct "p1" {["name" := VStr "Handbook"]}) (GetProduct "p1") r eq_refl)
    as [_ Hdb].
  apply (Hdb database_with_product db'); [|exact E].
  intros data Hd. injection Hd as <-. reflexivity.
Defined.

(** ** Unique keys *)

Lemma distinct_on_spec c (l : list Obj) :
  distinct_on c l = true
  ↔ ∀ i j r r', l !! i = Some r → l !! j = Some r' →
                sql_eq (prop r c) (prop r' c) = true → i = j.
Proof.
  induction l as [|x l IH]; cbn [distinct_on].
  - split; [|done]. intros _ i j r r' Hi. by rewrite lookup_nil in Hi.
  - rewrite andb_true_iff, negb_true_iff, IH. split.
    + intros [Hx Hl] i j r r' Hi Hj He.
      destruct i as [|i], j as [|j]; cbn in Hi, Hj.
      * done.
      * injection Hi as <-. exfalso.
        assert (existsb (λ r', sql_eq (prop r' c) (prop x c)) l = true); [|congruence].
        apply existsb_exists. exists r'. split.
        -- apply list_elem_of_In. by eapply list_elem_of_lookup_2.
        -- by rewrite sql_eq_sym.
      * injection Hj as <-. exfalso.
        assert (existsb (λ r', sql_eq (prop r' c) (prop x c)) l = true); [|congruence].
        apply existsb_exists. exists r. split; [|done].
        apply list_elem_of_In. by eapply list_elem_of_lookup_2.
      * f_equal. by apply (Hl i j r r').
    + intros Hall. split.
      * apply not_true_is_false. intros Hex.
        apply existsb_exists in Hex as (r' & Hr' & He).
        apply list_elem_of_In, list_elem_of_lookup in Hr' as [j Hj].
        by specialize (Hall (S j) 0%nat r' x Hj eq_refl He).
      * intros i j r r' Hi Hj He.
        by specialize (Hall (S i) (S j) r r' Hi Hj He) as [= ->].
Qed.

Lemma unique_after_spec t (l : list Obj) :
  unique_after t l = true
  ↔ ∀ c i j r r', c ∈ tbl_columns t → col_unique c || col_primaryKey c = true →
                  l !! i = Some r → l !! j = Some r' →
                  sql_eq (prop r (col_name c)) (prop r' (col_name c)) = true → i = j.
Proof.
  unfold unique_after. rewrite forallb_forall. split.
  - intros Hall c i j r r' Hc Hk. apply distinct_on_spec.
    specialize (Hall c (proj1 (list_elem_of_In _ _) Hc)). rewrite Hk in Hall. exact Hall.
  - intros Hall c Hc. destruct (col_unique c || col_primaryKey c) eqn:Hk; [|done].
    cbn [negb orb]. apply distinct_on_spec. intros i j r r'.
    apply (Hall c); [by apply list_elem_of_In|done].
Qed.

Lemma keys_unique_spec (db : Database) :
  keys_unique db ↔ ∀ t, t ∈ schema → unique_after t (db_rows (tbl_name t) db) = true.
Proof.
  split.
  - intros Hinv t Ht. apply unique_after_spec. intros c i j r r' Hc Hk. by apply (Hinv t).
  - intros Hall t c i j r r' Ht Hc Hk.
    by apply (proj1 (unique_after_spec t _) (Hall t Ht) c).
Qed.

Lemma keys_unique_replace t new (db : Database) :
  t ∈ schema → keys_unique db → unique_after t new = true →
  keys_unique (<[tbl_name t := new]> db).
Proof.
  rewrite !keys_unique_spec. intros Ht Hinv Hnew t' Ht'.
  destruct (decide (tbl_name t = tbl_name t')) as [Hn|Hn].
  - assert (t = t') as <- by by apply schema_name_inj. by rewrite db_rows_insert.
  - rewrite db_rows_insert_ne by done. by apply Hinv.
Qed.

Lemma unique_after_snoc t (l : list Obj) (r : Obj) :
  unique_after t l = true → unique_ok t l r = true → unique_after t (l ++ [r]) = true.
Proof.
  rewrite !unique_after_spec. unfold unique_ok. rewrite forallb_forall.
  intros Hl Hr c i j x y Hc Hk Hi Hj He.
  specialize (Hr c (proj1 (list_elem_of_In _ _) Hc)). rewrite Hk in Hr.
  cbn [andb] in Hr. apply negb_true_iff in Hr.
  assert (Hno : ∀ k z, l !! k = Some z →
                  sql_eq (prop z (col_name c)) (prop r (col_name c)) = false).
  { intros k z Hz. apply not_true_is_false. intros Hz'.
    assert (existsb (λ r', sql_eq (prop r' (col_name c)) (prop r (col_name c))) l = true);
      [|congruence].
    apply existsb_exists. exists z. split; [|done].
    apply list_elem_of_In. by eapply list_elem_of_lookup_2. }
  apply lookup_snoc_Some in Hi as [[Hil Hi]|[-> <-]];
    apply lookup_snoc_Some in Hj as [[Hjl Hj]|[-> <-]].
  - by apply (Hl c i j x y).
  - by rewrite (Hno i x Hi) in He.
  - rewrite sql_eq_sym, (Hno j y Hj) in He. discriminate.
  - done.
Qed.

Lemma sublist_lookup_mono {A} (l k : list A) :
  sublist l k →
  ∃ f : nat → nat, (∀ i j, f i = f j → i = j) ∧ ∀ i x, l !! i = Some x → k !! f i = Some x.
Proof.
  induction 1 as [|x l k _ (f & Hinj & Hf)|x l k _ (f & Hinj & Hf)].
  - exists (λ i, i). split; [done|]. intros i x. by rewrite lookup_nil.
  - exists (λ i, match i with O => O | S i' => S (f i') end). split.
    + intros [|i] [|j]; try done. intros [= Heq]. f_equal. by apply Hinj.
    + intros [|i] y; [done|]. cbn. apply Hf.
  - exists (λ i, S (f i)). split.
    + intros i j [= Heq]. by apply Hinj.
    + intros i y. cbn. apply Hf.
Qed.

Lemma unique_after_sublist t (l k : list Obj) :
  sublist l k → unique_after t k = true → unique_after t l = true.
Proof.
  rewrite !unique_after_spec. intros Hsub Hk c i j r r' Hc Hkey Hi Hj He.
  destruct (sublist_lookup_mono l k Hsub) as (f & Hinj & Hf).
  apply Hinj. by apply (Hk c (f i) (f j) r r'); [..|apply Hf|apply Hf|].
Qed.

Lemma db_insert_unique t id now values (db : Database) :
  t ∈ schema → keys_unique db → keys_unique (after (db_insert t id now values) db).
Proof.
  intros Ht Hinv. unfold after.
  destruct (db_insert t id now values db) as [[rows|e] db'] eqn:E.
  - apply db_insert_inv in E as ((_ & Hu & _) & _ & ->). cbn [snd].
    apply keys_unique_replace; [done..|].
    apply unique_after_snoc; [|done]. by apply keys_unique_spec.
  - unfold db_insert in E. cbn [snd].
    repeat match type of E with
           | (if ?b then _ else _) = _ => destruct b
           end; try discriminate E; by injection E as _ <-.
Qed.

Lemma db_update_unique t data conds (db : Database) :
  t ∈ schema → keys_unique db → keys_unique (after (db_update t data conds) db).
Proof.
  intros Ht Hinv. unfold after, db_update. cbv zeta.
  destruct (negb (defines_value data)); [done|].
  destruct (negb (sets_column t data)); [done|].
  destruct (bool_decide _); [done|].
  destruct (negb (forallb _ _)); [done|].
  destruct (negb (unique_after t _)) eqn:Hu; [done|].
  destruct (negb (forallb _ _)); [done|].
  destruct (existsb _ _); [done|]. cbn [snd].
  apply keys_unique_replace; [done..|]. by apply negb_false_iff in Hu.
Qed.

Lemma db_delete_unique t conds (db : Database) :
  t ∈ schema → keys_unique db → keys_unique (after (db_delete t conds) db).
Proof.
  intros Ht Hinv. unfold after, db_delete. cbv zeta.
  destruct (existsb _ _); [done|]. cbn [snd].
  apply keys_unique_replace; [done..|].
  apply (unique_after_sublist t _ (db_rows (tbl_name t) db)); [apply sublist_filter|].
  by apply keys_unique_spec.
Qed.

(** Every call of the relational backend keeps the keys unique. *)
Lemma perform_unique (c : Call) (db : Database) :
  keys_unique db → keys_unique (perform c db).
Proof.
  intros Hinv.
  destruct c; cbn [perform]; reveal; unfold_database;
    first
      [ rewrite after_bind_ret;
        first [apply db_insert_unique | apply db_update_unique | apply db_delete_unique];
        [in_schema|done]
      | match goal with
        | |- keys_unique (after ?m db) =>
            assert (Hro : readonly m) by readonly_steps; by rewrite Hro
        end ].
Qed.

Lemma perform_all_unique (calls : list Call) (db : Database) :
  keys_unique db → keys_unique (perform_all calls db).
Proof.
  revert db. induction calls as [|c calls IH]; intros db Hinv; [done|].
  apply IH. by apply perform_unique.
Qed.

Lemma createUser_duplicate_email id (user : Obj) (db : Database) u v :
  u ∈ db_rows "users" db → prop u "email" = VStr v → prop user "email" = VStr v →
  ∃ err, DatabaseStorage.createUser id user db = (Throw err, db).
Proof.
  intros Hu Hue Hv.
  assert (Hc : unique (notNull (col text "email")) ∈ tbl_columns users)
    by (apply list_elem_of_In; cbn; tauto).
  assert (Hnd : NoDup (col_name <$> tbl_columns users))
    by (apply (bool_decide_unpack _); by vm_compute).
  assert (Hrow := new_row_prop_in users id 0 user _ Hnd Hc).
  cbn [col_name notNull unique col] in Hrow. rewrite Hv in Hrow.
  assert (Hdup : unique_ok users (db_rows "users" db) (new_row users id 0 user) = false).
  { apply not_true_is_false. unfold unique_ok. rewrite forallb_forall. intros Hall.
    specialize (Hall _ (proj1 (list_elem_of_In _ _) Hc)).
    apply negb_true_iff, andb_false_iff in Hall as [Hk|Hex]; [discriminate Hk|].
    assert (existsb (λ r', sql_eq (prop r' "email") (prop (new_row users id 0 user) "email"))
              (db_rows "users" db) = true); [|cbn [col_name unique notNull col] in Hex; congruence].
    apply existsb_exists. exists u. split; [by apply list_elem_of_In|].
    rewrite Hrow, Hue. by apply sql_eq_str. }
  unfold DatabaseStorage.createUser, db_insert. cbn [tbl_name users] in *.
  unfold mbind, M_bind. fold users.
  destruct (negb (not_null_ok users _)); [by eexists|].
  change (db_rows (tbl_name users) db) with (db_rows "users" db).
  rewrite Hdup. by eexists.
Qed.

(** X15: the relational backend keeps its keys unique.  If in no table two
    rows agree on the primary key or on a column declared unique (the email
    of a user), then after any sequence of calls of the storage contract,
    whatever they answer, this is still so; and a createUser with the email
    of a stored user throws and leaves the database as it was. *)
Theorem unique_keys_kept :
  (∀ (calls : list Call) (db : Database),
     keys_unique db → keys_unique (perform_all calls db))
  ∧ (∀ id (user : Obj) (db : Database) u v,
       u ∈ db_rows "users" db → prop u "email" = VStr v → prop user "email" = VStr v →
       ∃ err, createUser id user db = (Throw err, db)).
Proof.
  split.
  - apply perform_all_unique.
  - apply createUser_duplicate_email.
Qed.

Lemma unique_keys_kept_witness :
  keys_unique
    (perform_all [CreateUser "u1" sample_user;
                  CreateUser "u2" sample_user;
                  CreateProduct "p1" 10 (sample_product "u1" "Ebook");
                  UpdateProduct "p1" {["name" := VStr "Handbook"]};
                  DeleteProduct "p1"] ∅)
  ∧ ∃ err, createUser "u2" sample_user database_with_user = (Throw err, database_with_user).
Proof.
  destruct unique_keys_kept as [Hinv Hdup].
  split.
  - apply Hinv. intros t c i j r r' _ _ _ Hi. unfold db_rows in Hi.
    rewrite lookup_empty in Hi. cbn in Hi. by rewrite lookup_nil in Hi.
  - assert (Hu : match db_rows "users" database_with_user with
                 | [u] => prop u "email" = VStr "demo@example.com"
                 | _ => False
                 end) by (vm_compute; reflexivity).
    destruct (db_rows "users" database_with_user) as [|u [|]] eqn:E; try contradiction.
    apply (Hdup "u2" sample_user database_with_user u "demo@example.com").
    + rewrite E. left.
    + exact Hu.
    + reflexivity.
Defined.

(** ** Calls that throw *)

Lemma db_insert_throw t id now values (db db' : Database) err :
  db_insert t id now values db = (Throw err, db') → db' = db.
Proof.
  unfold db_insert. cbv zeta.
  repeat (case_match; [by intros [= _ <-]|]). discriminate.
Qed.

Lemma db_update_throw t data conds (db db' : Database) err :
  db_update t data conds db = (Throw err, db') → db' = db.
Proof.
  unfold db_update. cbv zeta.
  case_match; [by intros [= _ <-]|]. case_match; [by intros [= _ <-]|].
  case_match; [discriminate|].
  repeat (case_match; [by intros [= _ <-]|]). discriminate.
Qed.

Lemma db_delete_throw t conds (db db' : Database) err :
  db_delete t conds db = (Throw err, db') → db' = db.
Proof. unfold db_delete. cbv zeta. case_match; [by intros [= _ <-]|discriminate]. Qed.

Lemma bind_ret_throw {S A B} (m : M S A) (f : A → B) s err s' :
  (x ← m; mret (f x)) s = (Throw err, s') → m s = (Throw err, s').
Proof.
  unfold mbind, M_bind, mret, M_ret.
  destruct (m s) as [[a|e] s1]; [discriminate|]. by intros [= <- <-].
Qed.

Lemma database_throw_unchanged (c : Call) (db db' : Database) err :
  answer c db = (Throw err, db') → db' = db.
Proof.
  intros Hrun. destruct (call_target c) as [id|] eqn:Hc.
  - destruct c; try discriminate Hc; cbn [answer] in Hrun; reveal; unfold returning in Hrun;
      apply bind_ret_throw in Hrun; unfold_database; apply bind_ret_throw in Hrun;
      first [ by apply db_insert_throw in Hrun
            | by apply db_update_throw in Hrun
            | by apply db_delete_throw in Hrun ].
  - assert (Hro := database_reads_keep c Hc db). unfold after in Hro.
    rewrite Hrun in Hro. by cbn in Hro.
Qed.

Lemma toDate_number {prims : JsPrims} (n : Z) :
  n ≠ 0 → toDate (VNum n) = Throw (TypeError "Cannot use 'in' operator to search for 'toDate'").
Proof.
  intros Hn. unfold toDate. cbn [truthy].
  by rewrite (proj2 (Z.eqb_neq n 0) Hn).
Qed.

Lemma fs_view_number {prims : JsPrims} (e : Updatable) id (doc : Obj) f n :
  f ∈ date_fields e → n ≠ 0 → prop doc f = VNum n → ∃ err, fs_view e id doc = Throw err.
Proof.
  intros Hf Hn Hp.
  destruct e; cbn [date_fields] in Hf;
    repeat (apply elem_of_cons in Hf as [->|Hf]); try (by apply not_elem_of_nil in Hf);
    cbn [fs_view]; unfold mbind, Outcome_bind;
    rewrite ?Hp, ?(toDate_number n Hn);
    repeat (match goal with |- context [toDate ?v] => destruct (toDate v) end);
    rewrite ?Hp, ?(toDate_number n Hn); by eexists.
Qed.

Lemma update_fs_writes_then_throws {prims : JsPrims} (e : Updatable) (f id : string) (n : Z)
    (data old : Obj) (db : Firestore) :
  f ∈ date_fields e → n ≠ 0 → data !! f = Some (VNum n) → storable data →
  fs_faults db !! tbl_name (updatable_table e) = None →
  fs_docs (tbl_name (updatable_table e)) db !! id = Some old →
  ∃ err db', update_of e id data db = (Throw err, db')
             ∧ fs_docs (tbl_name (updatable_table e)) db' !! id = Some (stored data ∪ old)
             ∧ prop (stored data ∪ old) f = VNum n.
Proof.
  intros Hf Hn Hd Hs Hfault Hold.
  assert (Hp : prop (stored data ∪ old) f = VNum n).
  { apply prop_union_l, stored_plain; [done|done|reflexivity]. }
  destruct (fs_view_number e id _ f n Hf Hn Hp) as [err Hview].
  assert (Hdef : defines_value data = true)
    by (apply defines_value_spec; by exists f, (VNum n)).
  rewrite (update_fs_run e id data db Hfault), Hold, Hdef, (fs_encode_obj_stored data Hs).
  cbv zeta. rewrite Hview. eexists _, _. split; [reflexivity|]. split; [|done].
  by rewrite fs_docs_put_same, lookup_insert_eq.
Qed.

(** X16: what a call that throws leaves behind.  In the relational backend
    every call of the storage contract that throws leaves the database as
    it was.  The document backend does not: an update that gives a date
    field (createdAt, expiresAt, recoveredAt) a number other than 0 writes
    the document and then throws while it reads the date back, so the
    caller gets an error and the store holds the number. *)
Theorem failed_calls {prims : JsPrims} :
  (∀ (c : Call) (db db' : Database) err, answer c db = (Throw err, db') → db' = db)
  ∧ (∀ (e : Updatable) (f id : string) (n : Z) (data old : Obj) (db : Firestore),
       f ∈ date_fields e → n ≠ 0 → data !! f = Some (VNum n) → storable data →
       fs_faults db !! tbl_name (updatable_table e) = None →
       fs_docs (tbl_name (updatable_table e)) db !! id = Some old →
       ∃ err db', update_of e id data db = (Throw err, db')
                  ∧ fs_docs (tbl_name (updatable_table e)) db' !! id = Some (stored data ∪ old)
                  ∧ prop (stored data ∪ old) f = VNum n).
Proof.
  split.
  - apply database_throw_unchanged.
  - apply update_fs_writes_then_throws.
Qed.

Lemma failed_calls_witness :
  match answer (CreateProduct "p2" 11 (sample_product "ghost" "Book")) database_with_user with
  | (Throw _, db') => db' = database_with_user
  | _ => False
  end
  ∧ ∃ old err db',
      fs_docs "products" firestore_with_product !! "p1" = Some old
      ∧ update_of (storage:=FirebaseStorage_IStorage (prims:=sample_prims))
          UProduct "p1" {["createdAt" := VNum 5]} firestore_with_product = (Throw err, db')
      ∧ fs_docs "products" db' !! "p1" = Some (stored {["createdAt" := VNum 5]} ∪ old).
Proof.
  destruct (failed_calls (prims:=sample_prims)) as [Hdb Hfs].
  split.
  - assert (Hthrow : match answer (CreateProduct "p2" 11 (sample_product "ghost" "Book"))
                             database_with_user with
                     | (Throw _, _) => True
                     | _ => False
                     end) by (vm_compute; exact I).
    destruct (answer (CreateProduct "p2" 11 (sample_product "ghost" "Book")) database_with_user)
      as [[a|err] db'] eqn:E; [contradiction|].
    exact (Hdb _ _ _ _ E).
  - assert (Hold : is_Some (fs_docs "products" firestore_with_product !! "p1"))
      by (apply (bool_decide_unpack _); vm_compute; exact I).
    destruct Hold as [old Hold]. exists old.
    destruct (Hfs UProduct "createdAt" "p1" 5 {["createdAt" := VNum 5]} old
                firestore_with_product) as (err & db' & Hrun & Hdoc & _).
    + left.
    + lia.
    + apply lookup_singleton_eq.
    + rewrite <-insert_empty. apply storable_insert; [apply storable_empty|].
      intros _. eexists. reflexivity.
    + reflexivity.
    + exact Hold.
    + exists err, db'. split; [done|]. split; [exact Hrun|exact Hdoc].
Defined.

(** ** Joins *)

Lemma sql_eq_eq a b : sql_eq a b = true → a = b.
Proof.
  destruct a, b; try discriminate. cbn. intros Hb. by apply bool_decide_eq_true in Hb as ->.
Qed.

Lemma joined_row (t : Table) (v : Value) (db : Database) (x : Obj) :
  from_option VObj VUndefined (head (run_select (where_ [("id", v)] (select_from t)) db))
  = VObj x →
  prop x "id" = v.
Proof.
  destruct (head _) as [r|] eqn:Hhead; [|discriminate]. intros [= ->].
  assert (Hin : x ∈ run_select (where_ [("id", v)] (select_from t)) db).
  { destruct (run_select _ _) as [|r rest]; [discriminate|]. injection Hhead as ->. left. }
  apply run_select_satisfies in Hin. cbn [s_where where_] in Hin.
  unfold satisfies in Hin. cbn [forallb fst snd] in Hin. rewrite andb_true_r in Hin.
  by apply sql_eq_eq.
Qed.

Lemma with_product_joined (page : Obj) (s1 s2 : Database) (p x : Obj) :
  DatabaseStorage.with_product page s1 = (Ok p, s2) → prop p "product" = VObj x →
  prop x "id" = prop p "productId".
Proof.
  unfold DatabaseStorage.with_product, mbind, M_bind, select, mret, M_ret.
  intros [= <- _]. rewrite prop_insert_eq, prop_insert_ne by discriminate.
  by apply (joined_row products _ s1).
Qed.

Lemma with_customer_joined (order : Obj) (items : Value) (db : Database) (x : Obj) :
  prop (<["items" := items]>
          (<["customer" := from_option VObj VUndefined
                             (head (run_select (where_ [("id", prop order "customerId")]
                                                  (select_from customers)) db))]> order))
       "customer" = VObj x →
  prop x "id"
  = prop (<["items" := items]>
            (<["customer" := from_option VObj VUndefined
                               (head (run_select (where_ [("id", prop order "customerId")]
                                                    (select_from customers)) db))]> order))
         "customerId".
Proof.
  rewrite prop_insert_ne, prop_insert_eq by discriminate.
  rewrite !(prop_insert_ne _ _ "customerId") by discriminate.
  by apply (joined_row customers _ db).
Qed.

Lemma joins_db (c : Call) j k (o x : Obj) (db db' : Database) a :
  (j, k) ∈ joins c → prop o j = VObj x →
  answer c db = (Ok a, db') → answered a o → prop x "id" = prop o k.
Proof.
  intros Hj Hx Hrun Ho. unfold answer in Hrun.
  destruct c; try (by apply not_elem_of_nil in Hj); cbn [joins] in Hj;
    (apply elem_of_cons in Hj as [Hj|Hj]; [|by apply not_elem_of_nil in Hj]);
    injection Hj as -> ->;
    reveal; unfold returning in Hrun;
    apply bind_inv in Hrun as (r & db1 & Hrun & Hret);
    apply ret_inv in Hret as [<- _]; unfold_database.
  - (* getCheckoutPages *)
    apply bind_inv in Hrun as (pages & db2 & Hsel & Hrun).
    apply bind_inv in Hrun as (l1 & db3 & Hrun & Hret). apply ret_inv in Hret as [-> _].
    apply Promise_all_map_Forall2 in Hrun. cbn [answered] in Ho.
    destruct (Forall2_elem_r _ _ _ _ Hrun Ho) as (page & _ & s1 & s2 & Hv).
    by apply (with_product_joined page s1 s2).
  - (* getCheckoutPage *)
    apply bind_inv in Hrun as (rows & db2 & Hsel & Hrun).
    destruct (head rows) as [page|]; [|apply ret_inv in Hrun as [<- _]; contradiction].
    apply bind_inv in Hrun as (p & db3 & Hv & Hret). apply ret_inv in Hret as [<- _].
    cbn [of_option from_option answered] in Ho. subst o.
    by apply (with_product_joined page db2 db3).
  - (* getCheckoutPageBySlug *)
    apply bind_inv in Hrun as (rows & db2 & Hsel & Hrun).
    destruct (head rows) as [page|]; [|apply ret_inv in Hrun as [<- _]; contradiction].
    apply bind_inv in Hrun as (p & db3 & Hv & Hret). apply ret_inv in Hret as [<- _].
    cbn [of_option from_option answered] in Ho. subst o.
    by apply (with_product_joined page db2 db3).
  - (* getOrders *)
    apply bind_inv in Hrun as (found & db2 & Hsel & Hrun).
    apply bind_inv in Hrun as (l1 & db3 & Hrun & Hret). apply ret_inv in Hret as [-> _].
    apply Promise_all_map_Forall2 in Hrun. cbn [answered] in Ho.
    destruct (Forall2_elem_r _ _ _ _ Hrun Ho) as (order & _ & s1 & s2 & Hv).
    apply bind_inv in Hv as (customer & s3 & Hc & Hv). apply select_inv in Hc as ->.
    apply bind_inv in Hv as (items & s4 & Hi & Hv). apply ret_inv in Hv as [<- _].
    by apply with_customer_joined.
  - (* getOrder *)
    apply bind_inv in Hrun as (rows & db2 & Hsel & Hrun).
    destruct (head rows) as [order|]; [|apply ret_inv in Hrun as [<- _]; contradiction].
    apply bind_inv in Hrun as (customer & s3 & Hc & Hrun). apply select_inv in Hc as ->.
    apply bind_inv in Hrun as (items & s4 & Hi & Hrun).
    apply bind_inv in Hrun as (itemsWithProducts & s5 & Hp & Hrun).
    apply ret_inv in Hrun as [<- _].
    cbn [of_option from_option answered] in Ho. subst o.
    by apply with_customer_joined.
  - (* getOrderItems *)
    apply bind_inv in Hrun as (items & db2 & Hsel & Hrun).
    apply bind_inv in Hrun as (l1 & db3 & Hrun & Hret). apply ret_inv in Hret as [-> _].
    apply Promise_all_map_Forall2 in Hrun. cbn [answered] in Ho.
    destruct (Forall2_elem_r _ _ _ _ Hrun Ho) as (item & _ & s1 & s2 & Hv).
    by apply (with_product_joined item s1 s2).
Qed.

Lemma getProduct_fs_id {prims : JsPrims} i (s s' : Firestore) x :
  FirebaseStorage.getProduct i s = (Ok (Some x), s') → prop x "id" = VStr i.
Proof.
  unfold FirebaseStorage.getProduct. intros Hrun.
  apply catch_not_found_inv in Hrun as [Hrun|Hrun]; [|discriminate].
  apply bind_inv in Hrun as (doc & s1 & _ & Hrun).
  destruct doc as [data|]; [|by apply ret_inv in Hrun as [? _]].
  apply bind_inv in Hrun as (createdAt & s2 & _ & Hrun).
  apply ret_inv in Hrun as [Hrun _]. injection Hrun as <-.
  by rewrite prop_insert_ne, prop_insert_eq by discriminate.
Qed.

Lemma getCustomer_fs_id {prims : JsPrims} i (s s' : Firestore) x :
  FirebaseStorage.getCustomer i s = (Ok (Some x), s') → prop x "id" = VStr i.
Proof.
  unfold FirebaseStorage.getCustomer. intros Hrun.
  apply catch_not_found_inv in Hrun as [Hrun|Hrun]; [|discriminate].
  apply bind_inv in Hrun as (doc & s1 & _ & Hrun).
  destruct doc as [data|]; [|by apply ret_inv in Hrun as [? _]].
  apply bind_inv in Hrun as (createdAt & s2 & _ & Hrun).
  apply ret_inv in Hrun as [Hrun _]. injection Hrun as <-.
  by rewrite prop_insert_ne, prop_insert_eq by discriminate.
Qed.

(** The join [{ ...entity, joined: await get(entity.key) }] of the document
    backend. *)
Lemma joined_doc {prims : JsPrims} (get : string → M Firestore (option Obj))
    (entity : Obj) (k : string) (s s' : Firestore) found x :
  (∀ i s s' x, get i s = (Ok (Some x), s') → prop x "id" = VStr i) →
  with_id (prop entity k) get s = (Ok found, s') →
  from_option VObj VUndefined found = VObj x →
  prop x "id" = prop entity k.
Proof.
  intros Hget Hrun Hx. destruct found as [y|]; [|discriminate]. injection Hx as ->.
  apply with_id_inv in Hrun as (i & -> & Hrun). by apply (Hget i s s').
Qed.

Lemma page_with_product_joined {prims : JsPrims} doc_id data (s s' : Firestore) p x :
  FirebaseStorage.page_with_product doc_id data s = (Ok p, s') →
  prop p "product" = VObj x → prop x "id" = prop p "productId".
Proof.
  unfold FirebaseStorage.page_with_product. cbv zeta. intros Hrun.
  apply bind_inv in Hrun as (createdAt & s1 & _ & Hrun).
  apply bind_inv in Hrun as (product & s2 & Hp & Hrun).
  apply ret_inv in Hrun as [<- _].
  rewrite prop_insert_eq, (prop_insert_ne _ "product" "productId") by discriminate.
  by apply (joined_doc FirebaseStorage.getProduct _ "productId" s1 s2 product);
    [apply @getProduct_fs_id|].
Qed.

Lemma joins_fs {prims : JsPrims} (c : Call) j k (o x : Obj) (db db' : Firestore) a :
  (j, k) ∈ joins c → prop o j = VObj x →
  answer c db = (Ok a, db') → answered a o → prop x "id" = prop o k.
Proof.
  intros Hj Hx Hrun Ho. unfold answer in Hrun.
  destruct c; try (by apply not_elem_of_nil in Hj); cbn [joins] in Hj;
    (apply elem_of_cons in Hj as [Hj|Hj]; [|by apply not_elem_of_nil in Hj]);
    injection Hj as -> ->;
    reveal; unfold returning in Hrun;
    apply bind_inv in Hrun as (r & db1 & Hrun & Hret);
    apply ret_inv in Hret as [<- _]; unfold_firebase.
  - (* getCheckoutPages *)
    cbn [answered] in Ho.
    apply guarded_listing_inv in Hrun as [-> |(_ & db2 & Hrun)];
      [by apply not_elem_of_nil in Ho|].
    apply bind_inv in Hrun as (pages & db3 & Hrun & Hret). apply ret_inv in Hret as [-> _].
    apply Promise_all_map_Forall2 in Hrun.
    destruct (Forall2_elem_r _ _ _ _ Hrun Ho) as (doc & _ & s1 & s2 & Hv).
    by apply (page_with_product_joined doc.1 doc.2 s1 s2).
  - (* getCheckoutPage *)
    apply catch_not_found_inv in Hrun as [Hrun| ->]; [|contradiction].
    apply bind_inv in Hrun as (doc & db2 & _ & Hrun).
    destruct doc as [data|]; [|apply ret_inv in Hrun as [<- _]; contradiction].
    apply bind_inv in Hrun as (p & db3 & Hv & Hret). apply ret_inv in Hret as [<- _].
    cbn [of_option from_option answered] in Ho. subst o.
    by apply (page_with_product_joined id data db2 db3).
  - (* getCheckoutPageBySlug *)
    apply catch_not_found_inv in Hrun as [Hrun| ->]; [|contradiction].
    apply bind_inv in Hrun as (snapshot & db2 & _ & Hrun).
    destruct snapshot as [|[doc_id data] rest];
      [apply ret_inv in Hrun as [<- _]; contradiction|].
    apply bind_inv in Hrun as (p & db3 & Hv & Hret). apply ret_inv in Hret as [<- _].
    cbn [of_option from_option answered] in Ho. subst o.
    by apply (page_with_product_joined doc_id data db2 db3).
  - (* getOrders *)
    cbn [answered] in Ho.
    apply pending_listing_inv in Hrun as [-> |(_ & db2 & Hrun)];
      [by apply not_elem_of_nil in Ho|].
    apply Promise_all_map_Forall2 in Hrun.
    destruct (Forall2_elem_r _ _ _ _ Hrun Ho) as (doc & _ & s1 & s2 & Hv).
    cbv zeta in Hv.
    apply bind_inv in Hv as (createdAt & s3 & _ & Hv).
    apply bind_inv in Hv as (customer & s4 & Hc & Hv).
    apply bind_inv in Hv as (items & s5 & _ & Hv). apply ret_inv in Hv as [<- _].
    rewrite prop_insert_ne, prop_insert_eq in Hx by discriminate.
    rewrite !(prop_insert_ne _ _ "customerId") by discriminate.
    rewrite !(prop_insert_ne _ _ "customerId") in Hc by discriminate.
    by apply (joined_doc FirebaseStorage.getCustomer doc.2 "customerId"
                s3 s4 customer x (@getCustomer_fs_id _)).
  - (* getOrder *)
    apply bind_inv in Hrun as (doc & db2 & _ & Hrun).
    destruct doc as [data|]; [|apply ret_inv in Hrun as [<- _]; contradiction].
    cbv zeta in Hrun.
    apply bind_inv in Hrun as (createdAt & s3 & _ & Hrun).
    apply bind_inv in Hrun as (customer & s4 & Hc & Hrun).
    apply bind_inv in Hrun as (items & s5 & _ & Hrun). apply ret_inv in Hrun as [<- _].
    cbn [of_option from_option answered] in Ho. subst o.
    rewrite prop_insert_ne, prop_insert_eq in Hx by discriminate.
    rewrite !(prop_insert_ne _ _ "customerId") by discriminate.
    rewrite !(prop_insert_ne _ _ "customerId") in Hc by discriminate.
    by apply (joined_doc FirebaseStorage.getCustomer data "customerId"
                s3 s4 customer x (@getCustomer_fs_id _)).
  - (* getOrderItems *)
    cbn [answered] in Ho.
    apply bind_inv in Hrun as (snapshot & db2 & _ & Hrun).
    apply Promise_all_map_Forall2 in Hrun.
    destruct (Forall2_elem_r _ _ _ _ Hrun Ho) as (doc & _ & s1 & s2 & Hv).
    cbv zeta in Hv.
    apply bind_inv in Hv as (tokenExpiresAt & s3 & _ & Hv).
    apply bind_inv in Hv as (product & s4 & Hp & Hv). apply ret_inv in Hv as [<- _].
    rewrite prop_insert_eq in Hx.
    rewrite !(prop_insert_ne _ _ "productId") by discriminate.
    rewrite !(prop_insert_ne _ _ "productId") in Hp by discriminate.
    by apply (joined_doc FirebaseStorage.getProduct doc.2 "productId"
                s3 s4 product x (@getProduct_fs_id _)).
Qed.

(** X17: a read that attaches an entity attaches the one that the key names.
    In both backends, when getCheckoutPages, getCheckoutPage,
    getCheckoutPageBySlug or getOrderItems answer an entity whose [product]
    is an object, the id of that object is the entity's [productId]; and
    when getOrders or getOrder answer an order whose [customer] is an
    object, its id is the order's [customerId]. *)
Theorem joins_follow_keys {prims : JsPrims} (c : Call) (j k : string) (o x : Obj) :
  (j, k) ∈ joins c → prop o j = VObj x →
  (∀ (db db' : Firestore) a,
     answer c db = (Ok a, db') → answered a o → prop x "id" = prop o k)
  ∧ (∀ (db db' : Database) a,
       answer c db = (Ok a, db') → answered a o → prop x "id" = prop o k).
Proof.
  intros Hj Hx. split; intros db db' a Hrun Ho.
  - by apply (joins_fs c j k o x db db' a).
  - by apply (joins_db c j k o x db db' a).
Qed.

Lemma joins_follow_keys_witness :
  match answer (GetCheckoutPage "cp1")
          (perform (CreateCheckoutPage "cp1" 20 (sample_page "u1" "p1" "offer"))
             database_with_product) with
  | (Ok (AEntity o), _) =>
      ∃ x, prop o "product" = VObj x ∧ prop x "id" = VStr "p1"
           ∧ prop x "id" = prop o "productId"
  | _ => False
  end.
Proof.
  assert (Hok : match answer (GetCheckoutPage "cp1")
                        (perform (CreateCheckoutPage "cp1" 20 (sample_page "u1" "p1" "offer"))
                           database_with_product) with
                | (Ok (AEntity o), _) =>
                    match prop o "product" with
                    | VObj x => prop x "id" = VStr "p1"
                    | _ => False
                    end
                | _ => False
                end) by (vm_compute; reflexivity).
  destruct (answer (GetCheckoutPage "cp1")
              (perform (CreateCheckoutPage "cp1" 20 (sample_page "u1" "p1" "offer"))
                 database_with_product))
    as [[[o| | |]|] db'] eqn:E; try contradiction.
  destruct (prop o "product") as [| | | | | | | |x] eqn:Hp; try contradiction.
  exists x. split; [reflexivity|]. split; [exact Hok|].
  destruct (joins_follow_keys (prims:=sample_prims) (GetCheckoutPage "cp1")
              "product" "productId" o x) as [_ Hdb].
  - left.
  - exact Hp.
  - exact (Hdb _ _ _ E eq_refl).
Defined.


(** ** Listings: which entries, in which order *)

Lemma filter_all {A} (P : A → Prop) `{∀ x, Decision (P x)} (l : list A) :
  (∀ x, x ∈ l → P x) → filter P l = l.
Proof.
  induction l as [|x l IH]; intros Hall; [done|].
  rewrite filter_cons_True by (apply Hall; left). f_equal. apply IH.
  intros y Hy. apply Hall. by right.
Qed.

Lemma stamp_lookup (doc : Obj) k :
  is_stamp (prop doc k) = true → ∃ t, doc !! k = Some (VTimestamp t).
Proof.
  unfold prop. destruct (doc !! k) as [[]|]; try discriminate. intros _. by eexists.
Qed.

Lemma dates_typed_field c db id doc k :
  dates_typed c db → fs_docs c db !! id = Some doc →
  k ∈ ["createdAt"; "expiresAt"; "eventTime"; "recoveredAt"] →
  created_typed (prop doc k) = true.
Proof.
  intros Hty Hd Hk. specialize (Hty id doc Hd). rewrite forallb_forall in Hty.
  apply Hty. by apply list_elem_of_In.
Qed.

Lemma doc_ref_string v : is_doc_ref v = true → ∃ r, v = VStr r.
Proof. destruct v; try discriminate. intros _. by eexists. Qed.


Lemma owner_query_docs c userId db :
  stamped c db →
  run_query (owner_query c userId) (fs_docs c db) ≡ₚ owner_docs c userId db.
Proof.
  intros Hst. unfold run_query, owner_query, owner_docs.
  cbn [q_where q_orderBy q_limit orderBy_desc where_eq collection app].
  rewrite !sort_by_Permutation.
  rewrite filter_all.
  - erewrite (list_filter_iff _ (λ d : string * Obj, field_is d.2 "userId" userId = true));
      [done|].
    intros [k d]. cbn. unfold matches. cbn. by rewrite andb_true_r.
  - intros [k d] Hd. apply list_elem_of_filter in Hd as [_ Hd].
    apply elem_of_map_to_list in Hd. destruct (stamp_lookup _ _ (Hst k d Hd)) as [t Ht].
    cbn. by rewrite Ht.
Qed.

Lemma owner_query_descend c userId db :
  stamps_descend (run_query (owner_query c userId) (fs_docs c db)).
Proof.
  intros i j a b ta tb Hij Ha Hb Hta Htb.
  pose proof (run_query_sorted (owner_query c userId) (fs_docs c db) "createdAt" eq_refl)
    as Hs.
  pose proof (StronglySorted_lookup_lt _ _ _ _ _ _ Hs Hij Ha Hb) as Hle. cbn in Hle.
  rewrite Hta, Htb, value_leb_timestamps in Hle. by apply Z.leb_le.
Qed.

Lemma owner_query_limit c userId docs n :
  0 < n →
  run_query (limit n (owner_query c userId)) docs
  = take (Z.to_nat n) (run_query (owner_query c userId) docs).
Proof.
  intros Hn. unfold run_query.
  cbn [q_where q_orderBy q_limit limit owner_query orderBy_desc where_eq collection].
  by rewrite (proj2 (Z.ltb_lt 0 n) Hn).
Qed.

Lemma owner_query_stamped c userId db d :
  stamped c db → d ∈ run_query (owner_query c userId) (fs_docs c db) →
  ∃ t, prop d.2 "createdAt" = VTimestamp t.
Proof.
  intros Hst Hd. apply run_query_elem in Hd.
  destruct (stamp_lookup _ _ (Hst _ _ Hd)) as [t Ht].
  exists t. by apply prop_lookup.
Qed.

Lemma stamps_descend_first {n} docs : stamps_descend docs → stamps_descend (first_of n docs).
Proof.
  destruct n as [n|]; [|done]. cbn [first_of].
  intros Hd i j a b ta tb Hij Ha Hb. apply lookup_take_Some in Ha as [Ha _].
  apply lookup_take_Some in Hb as [Hb _]. by apply (Hd i j).
Qed.

Lemma first_of_elem {A} n (l : list A) x : x ∈ first_of n l → x ∈ l.
Proof.
  destruct n as [n|]; [|done]. cbn [first_of]. intros Hx.
  apply elem_of_take in Hx as (i & Hi & _). by eapply list_elem_of_lookup_2.
Qed.

(** Entries that show documents with descending stamps come most recent
    first. *)
Lemma shown_newest_first e docs l :
  (∀ d, d ∈ docs → ∃ t, prop d.2 "createdAt" = VTimestamp t) →
  stamps_descend docs → Forall2 (shows_doc e) docs l → newest_first l.
Proof.
  intros Hst Hd Hrel i j a b ta tb Hij Ha Hb Hta Htb.
  destruct (Forall2_lookup_r _ _ _ _ _ Hrel Ha) as (x & Hx & _ & Hxa & _).
  destruct (Forall2_lookup_r _ _ _ _ _ Hrel Hb) as (y & Hy & _ & Hyb & _).
  destruct (Hst x (list_elem_of_lookup_2 _ _ _ Hx)) as [tx Htx].
  destruct (Hst y (list_elem_of_lookup_2 _ _ _ Hy)) as [ty Hty].
  specialize (Hxa _ Htx). specialize (Hyb _ Hty).
  assert (tx = ta) as -> by congruence. assert (ty = tb) as -> by congruence.
  by apply (Hd i j x y).
Qed.

Lemma Array_map_total {A B} (f : A → Outcome B) (P : A → B → Prop) xs :
  (∀ x, x ∈ xs → ∃ y, f x = Ok y ∧ P x y) →
  ∃ l, Array_map f xs = Ok l ∧ Forall2 P xs l.
Proof.
  induction xs as [|x xs IH]; intros Hall.
  - exists []. by split; [|constructor].
  - destruct (Hall x) as (y & Hy & HP); [left|].
    destruct IH as (l & Hl & HPl); [intros x' Hx'; apply Hall; by right|].
    exists (y :: l). split; [|by constructor].
    cbn [Array_map]. rewrite Hy. cbn [mbind Outcome_bind]. by rewrite Hl.
Qed.

Lemma Promise_all_map_total {S A B} (f : A → M S B) (P : A → B → Prop) xs s :
  (∀ x, x ∈ xs → ∃ y, f x s = (Ok y, s) ∧ P x y) →
  ∃ l, Promise_all_map f xs s = (Ok l, s) ∧ Forall2 P xs l.
Proof.
  induction xs as [|x xs IH]; intros Hall.
  - exists []. by split; [|constructor].
  - destruct (Hall x) as (y & Hy & HP); [left|].
    destruct IH as (l & Hl & HPl); [intros x' Hx'; apply Hall; by right|].
    exists (y :: l). split; [|by constructor].
    cbn [Promise_all_map]. erewrite bind_ok by exact Hy. by erewrite bind_ok by exact Hl.
Qed.

Section fs_listing_entries.
Context {prims : JsPrims}.

Lemma toDate_stamp t : toDate (VTimestamp t) = Ok (VDate (ValidDate t)).
Proof. reflexivity. Qed.

Lemma getProduct_fs_total id db :
  fs_faults db !! "products" = None → dates_typed "products" db →
  ∃ r, FirebaseStorage.getProduct id db = (Ok r, db).
Proof.
  intros Hf Hty. unfold FirebaseStorage.getProduct.
  destruct (fs_docs "products" db !! id) as [data|] eqn:Hd.
  - destruct (toDate_typed (prop data "createdAt")) as [w Hw].
    { apply (dates_typed_field _ _ id data _ Hty); [done|set_solver]. }
    eexists. apply catch_not_found_ok.
    erewrite bind_ok by (by apply doc_get_ok). rewrite Hd.
    unfold lift, mbind, M_bind. rewrite Hw. reflexivity.
  - eexists. apply catch_not_found_ok.
    erewrite bind_ok by (by apply doc_get_ok). by rewrite Hd.
Qed.

Lemma getCustomer_fs_total id db :
  fs_faults db !! "customers" = None → dates_typed "customers" db →
  ∃ r, FirebaseStorage.getCustomer id db = (Ok r, db).
Proof.
  intros Hf Hty. unfold FirebaseStorage.getCustomer.
  destruct (fs_docs "customers" db !! id) as [data|] eqn:Hd.
  - destruct (toDate_typed (prop data "createdAt")) as [w Hw].
    { apply (dates_typed_field _ _ id data _ Hty); [done|set_solver]. }
    eexists. apply catch_not_found_ok.
    erewrite bind_ok by (by apply doc_get_ok). rewrite Hd.
    unfold lift, mbind, M_bind. rewrite Hw. reflexivity.
  - eexists. apply catch_not_found_ok.
    erewrite bind_ok by (by apply doc_get_ok). by rewrite Hd.
Qed.

End fs_listing_entries.

Section fs_listings_total.
Context {prims : JsPrims}.

Ltac shows_entry Ht :=
  split; [|split];
  [ repeat (rewrite prop_insert_ne by done); by rewrite prop_insert_eq
  | intros t' Ht'; repeat (rewrite prop_insert_ne by done); rewrite prop_insert_eq;
    cbn [snd] in *; congruence
  | intros k Hk; cbn [listing_fields] in Hk; rewrite !not_elem_of_cons in Hk;
    repeat (rewrite prop_insert_ne by (intros <-; tauto)); reflexivity ].

Ltac listing_runs Hf Hl :=
  apply catch_not_found_ok;
  erewrite bind_ok
    by (apply query_get_ok;
        [exact Hf
        |first [reflexivity|cbn [q_rejected q_limit limit]; apply Z.ltb_ge; lia]]);
  cbn [q_coll limit orderBy_desc where_eq collection];
  unfold owner_query in Hl; unfold lift; rewrite Hl; reflexivity.

Lemma getPixelEvents_fs_total userId lim db :
  listing_ready LPixelEvents db → 0 < default 100 lim →
  ∃ l, FirebaseStorage.getPixelEvents userId lim db = (Ok l, db)
       ∧ Forall2 (shows_doc LPixelEvents)
           (take (Z.to_nat (default 100 lim))
              (run_query (owner_query "pixelEvents" userId) (fs_docs "pixelEvents" db))) l.
Proof.
  intros (Hf & Hst & Hty & _) Hn. cbn [listed_table tbl_name pixelEvents] in *.
  unfold FirebaseStorage.getPixelEvents. cbv zeta.
  rewrite <-(owner_query_limit "pixelEvents" userId _ _ Hn).
  edestruct (Array_map_total
               (λ doc : string * Obj,
                  createdAt ← toDate (prop doc.2 "createdAt");
                  eventTime ← toDate (prop doc.2 "eventTime");
                  Ok (<["eventTime" := eventTime]>
                        (<["createdAt" := createdAt]> (<["id" := VStr doc.1]> doc.2))))
               (shows_doc LPixelEvents)) as (l & Hl & Hrel); [|exists l; split; [|exact Hrel]].
  - intros d Hd. rewrite owner_query_limit in Hd by done. apply first_of_elem with (n := Some _) in Hd.
    destruct (owner_query_stamped _ _ _ _ Hst Hd) as [t Ht].
    apply run_query_elem in Hd.
    destruct (toDate_typed (prop d.2 "eventTime")) as [w Hw].
    { apply (dates_typed_field _ _ d.1 d.2 _ Hty); [done|set_solver]. }
    eexists. split; [rewrite Ht, Hw; reflexivity|]. shows_entry Ht.
  - listing_runs Hf Hl.
Qed.

Lemma fs_listing_total (e : Listed) userId db :
  listing_ready e db →
  ∃ l, list_of e userId db = (Ok l, db)
       ∧ Forall2 (shows_doc e)
           (first_of (listing_cap e)
              (run_query (owner_query (tbl_name (listed_table e)) userId)
                 (fs_docs (tbl_name (listed_table e)) db))) l.
Proof.
  intros Hready.
  destruct e;
    [| | | | |exact (getPixelEvents_fs_total userId None db Hready eq_refl)|];
    destruct Hready as (Hf & Hst & Hty & Hjoin);
    cbn [listed_table tbl_name products checkoutPages coupons customers orders
         abandonedCarts listing_cap first_of list_of] in *; reveal.
  - (* getProducts *)
    unfold FirebaseStorage.getProducts.
    edestruct (Array_map_total
                 (λ doc : string * Obj,
                    createdAt ← toDate (prop doc.2 "createdAt");
                    Ok (<["createdAt" := createdAt]> (<["id" := VStr doc.1]> doc.2)))
                 (shows_doc LProducts)) as (l & Hl & Hrel);
      [|exists l; split; [|exact Hrel]].
    + intros d Hd. destruct (owner_query_stamped _ _ _ _ Hst Hd) as [t Ht].
      eexists. split; [rewrite Ht; reflexivity|]. shows_entry Ht.
    + listing_runs Hf Hl.
  - (* getCheckoutPages *)
    destruct Hjoin as (Hfp & Htp & Href).
    unfold FirebaseStorage.getCheckoutPages.
    edestruct (Promise_all_map_total
                 (λ doc : string * Obj, FirebaseStorage.page_with_product doc.1 doc.2)
                 (shows_doc LCheckoutPages)) as (l & Hl & Hrel);
      [|exists l; split; [|exact Hrel]].
    + intros d Hd. destruct (owner_query_stamped _ _ _ _ Hst Hd) as [t Ht].
      apply run_query_elem in Hd. destruct (doc_ref_string _ (Href _ _ Hd)) as (pid & Hpid).
      destruct (getProduct_fs_total pid db Hfp Htp) as [p Hp].
      eexists. split.
      * unfold FirebaseStorage.page_with_product. rewrite Ht. unfold lift at 1.
        erewrite bind_ok by reflexivity. cbv zeta.
        do 2 rewrite prop_insert_ne by done. rewrite Hpid. cbn [with_id].
        erewrite bind_ok by exact Hp. reflexivity.
      * shows_entry Ht.
    + apply catch_not_found_ok.
      erewrite bind_ok by (apply query_get_ok; [exact Hf|reflexivity]).
      cbn [q_coll orderBy_desc where_eq collection]. unfold owner_query in Hl.
      by erewrite bind_ok by exact Hl.
  - (* getCoupons *)
    unfold FirebaseStorage.getCoupons.
    edestruct (Array_map_total
                 (λ doc : string * Obj, FirebaseStorage.coupon_of doc.1 doc.2)
                 (shows_doc LCoupons)) as (l & Hl & Hrel);
      [|exists l; split; [|exact Hrel]].
    + intros d Hd. destruct (owner_query_stamped _ _ _ _ Hst Hd) as [t Ht].
      apply run_query_elem in Hd.
      destruct (toDate_typed (prop d.2 "expiresAt")) as [w Hw].
      { apply (dates_typed_field _ _ d.1 d.2 _ Hty); [done|set_solver]. }
      eexists. split; [unfold FirebaseStorage.coupon_of; rewrite Ht, Hw; reflexivity|].
      shows_entry Ht.
    + listing_runs Hf Hl.
  - (* getCustomers *)
    unfold FirebaseStorage.getCustomers.
    edestruct (Array_map_total
                 (λ doc : string * Obj,
                    createdAt ← toDate (prop doc.2 "createdAt");
                    Ok (<["createdAt" := createdAt]> (<["id" := VStr doc.1]> doc.2)))
                 (shows_doc LCustomers)) as (l & Hl & Hrel);
      [|exists l; split; [|exact Hrel]].
    + intros d Hd. destruct (owner_query_stamped _ _ _ _ Hst Hd) as [t Ht].
      eexists. split; [rewrite Ht; reflexivity|]. shows_entry Ht.
    + listing_runs Hf Hl.
  - (* getOrders *)
    destruct Hjoin as (Hfc & Htc & Hfi & Href).
    unfold FirebaseStorage.getOrders.
    erewrite bind_ok.
    2:{ apply catch_not_found_ok.
        erewrite bind_ok by (apply query_get_ok; [exact Hf|reflexivity]). reflexivity. }
    cbn [q_coll orderBy_desc where_eq collection].
    match goal with
    | |- ∃ l, Promise_all_map ?f _ _ = _ ∧ _ =>
        edestruct (Promise_all_map_total f (shows_doc LOrders)) as (l & Hl & Hrel);
          [|exists l; split; [exact Hl|exact Hrel]]
    end.
    intros d Hd. destruct (owner_query_stamped _ _ _ _ Hst Hd) as [t Ht].
    apply run_query_elem in Hd. destruct (doc_ref_string _ (Href _ _ Hd)) as (cid & Hcid).
    destruct (getCustomer_fs_total cid db Hfc Htc) as [c Hc].
    eexists. split.
    + cbv zeta. rewrite Ht. unfold lift at 1. erewrite bind_ok by reflexivity.
      do 2 rewrite prop_insert_ne by done. rewrite Hcid. cbn [with_id].
      erewrite bind_ok by exact Hc.
      erewrite bind_ok by (apply query_get_ok; [exact Hfi|reflexivity]). reflexivity.
    + shows_entry Ht.
  - (* getAbandonedCarts *)
    unfold FirebaseStorage.getAbandonedCarts.
    edestruct (Array_map_total
                 (λ doc : string * Obj,
                    createdAt ← toDate (prop doc.2 "createdAt");
                    recoveredAt ← toDate (prop doc.2 "recoveredAt");
                    Ok (<["recoveredAt" := recoveredAt]>
                          (<["createdAt" := createdAt]> (<["id" := VStr doc.1]> doc.2))))
                 (shows_doc LAbandonedCarts)) as (l & Hl & Hrel);
      [|exists l; split; [|exact Hrel]].
    + intros d Hd. destruct (owner_query_stamped _ _ _ _ Hst Hd) as [t Ht].
      apply run_query_elem in Hd.
      destruct (toDate_typed (prop d.2 "recoveredAt")) as [w Hw].
      { apply (dates_typed_field _ _ d.1 d.2 _ Hty); [done|set_solver]. }
      eexists. split; [rewrite Ht, Hw; reflexivity|]. shows_entry Ht.
    + listing_runs Hf Hl.
Qed.

End fs_listings_total.

(** The relational listings. *)


Lemma owner_select_rows t userId (db : Database) :
  run_select (owner_select t userId) db ≡ₚ owner_rows t userId db.
Proof.
  unfold run_select, owner_select, owner_rows.
  cbn [s_where s_orderBy s_limit s_from orderBy_desc_col where_ select_from].
  rewrite sort_by_Permutation.
  erewrite (list_filter_iff _ (λ r : Obj, sql_eq (prop r "userId") (VStr userId) = true));
    [done|].
  intros r. unfold satisfies. cbn. by rewrite andb_true_r.
Qed.

Lemma owner_select_newest t userId (db : Database) :
  newest_first (run_select (owner_select t userId) db).
Proof. eapply db_rows_newest_first; [|by apply Forall2_same]; reflexivity. Qed.

Lemma owner_select_limit t userId (db : Database) n :
  run_select (limit_rows n (owner_select t userId)) db
  = first_of (if 0 <=? n then Some (Z.to_nat n) else None)
      (run_select (owner_select t userId) db).
Proof.
  unfold run_select.
  cbn [s_where s_orderBy s_limit s_from limit_rows owner_select orderBy_desc_col where_
       select_from].
  by destruct (0 <=? n).
Qed.

Lemma newest_first_first {n} l : newest_first l → newest_first (first_of n l).
Proof.
  destruct n as [n|]; [|done]. cbn [first_of].
  intros Hd i j a b ta tb Hij Ha Hb. apply lookup_take_Some in Ha as [Ha _].
  apply lookup_take_Some in Hb as [Hb _]. by apply (Hd i j).
Qed.

Lemma shown_rows_newest_first e rows l :
  newest_first rows → Forall2 (shows_row e) rows l → newest_first l.
Proof.
  intros Hd Hrel i j a b ta tb Hij Ha Hb Hta Htb.
  destruct (Forall2_lookup_r _ _ _ _ _ Hrel Ha) as (x & Hx & Hxa).
  destruct (Forall2_lookup_r _ _ _ _ _ Hrel Hb) as (y & Hy & Hyb).
  assert (Hc : "createdAt" ∉ joined_fields e)
    by (destruct e; apply (bool_decide_unpack _); vm_compute; exact I).
  rewrite (Hxa _ Hc) in Hta. rewrite (Hyb _ Hc) in Htb. by apply (Hd i j x y).
Qed.

Lemma shows_row_refl e r : shows_row e r r.
Proof. by intros k _. Qed.

Lemma db_listing_total (e : Listed) userId (db : Database) :
  ∃ l, list_of e userId db = (Ok l, db)
       ∧ Forall2 (shows_row e)
           (first_of (listing_cap e) (run_select (owner_select (listed_table e) userId) db)) l.
Proof.
  destruct e; cbn [list_of listed_table listing_cap first_of]; reveal.
  - eexists. split; [reflexivity|]. apply Forall2_same, shows_row_refl.
  - unfold DatabaseStorage.getCheckoutPages.
    edestruct (Promise_all_map_total DatabaseStorage.with_product (shows_row LCheckoutPages))
      as (l & Hl & Hrel); [|exists l; split; [|exact Hrel]].
    + intros page _. eexists. split; [reflexivity|].
      intros k Hk. cbn [joined_fields] in Hk. rewrite prop_insert_ne; [done|].
      intros <-. apply Hk. left.
    + erewrite bind_ok by reflexivity. by erewrite bind_ok by exact Hl.
  - eexists. split; [reflexivity|]. apply Forall2_same, shows_row_refl.
  - eexists. split; [reflexivity|]. apply Forall2_same, shows_row_refl.
  - unfold DatabaseStorage.getOrders.
    erewrite bind_ok by reflexivity.
    match goal with
    | |- ∃ l, (Promise_all_map ?f _ ≫= _) _ = _ ∧ _ =>
        edestruct (Promise_all_map_total f (shows_row LOrders)) as (l & Hl & Hrel);
          [|exists l; split; [|exact Hrel]]
    end.
    + intros order _. eexists. split; [reflexivity|].
      intros k Hk. cbn [joined_fields] in Hk. rewrite !not_elem_of_cons in Hk.
      do 2 rewrite prop_insert_ne by (intros <-; tauto). done.
    + by erewrite bind_ok by exact Hl.
  - eexists. split; [reflexivity|].
    change (run_select (limit_rows (default 100 None) _) db)
      with (run_select (limit_rows 100 (owner_select pixelEvents userId)) db).
    rewrite owner_select_limit. apply Forall2_same, shows_row_refl.
  - eexists. split; [reflexivity|]. apply Forall2_same, shows_row_refl.
Qed.


(** C6 (as stated) fails in the document backend: an update stores the
    [createdAt] string of its partial, the store orders a string above
    every Timestamp, and the listing puts the product first whose creation
    time then reads as the oldest. *)
Lemma listings_newest_first_counterexample :
  id_and_created <$> relisted_products
  = [(VStr product_1, VDate (ValidDate 5)); (VStr product_2, VDate (ValidDate 20))]
  ∧ ¬ newest_first relisted_products.
Proof.
  assert (Hl : id_and_created <$> relisted_products
               = [(VStr product_1, VDate (ValidDate 5));
                  (VStr product_2, VDate (ValidDate 20))])
    by (vm_compute; reflexivity).
  split; [exact Hl|]. intros Hnew.
  destruct relisted_products as [|a [|b [|c l]]]; try discriminate Hl.
  injection Hl as _ Ha _ Hb.
  specialize (Hnew 0%nat 1%nat a b 5 20). cbn in Hnew.
  assert (20 ≤ 5) by (apply Hnew; [lia|done..]). lia.
Qed.

Lemma listing_ready_products (db : Firestore) :
  fs_faults db !! "products" = None →
  map_Forall (λ _ doc, is_stamp (prop doc "createdAt") = true) (fs_docs "products" db) →
  map_Forall (λ _ doc, forallb (λ k, created_typed (prop doc k))
                         ["createdAt"; "expiresAt"; "eventTime"; "recoveredAt"] = true)
    (fs_docs "products" db) →
  listing_ready LProducts db.
Proof. intros Hf Hs Hd. by repeat split. Qed.


(** ** The limit of the pixel-event listing *)

Lemma Forall2_length_first {A B} (P : A → B → Prop) n xs l :
  Forall2 P (take n xs) l → (length l ≤ n)%nat.
Proof. intros Hl. apply Forall2_length in Hl. rewrite <-Hl, length_take. lia. Qed.


(** C10 (as stated) fails.  The relational backend, asked for the events
    of an owner with the limit -1, returns both stored events: the query
    builder writes no LIMIT clause for a negative limit.  And in the
    document backend an event that was created with a number as
    [eventTime] makes the listing throw. *)
Lemma pixel_events_limit_counterexample :
  match DatabaseStorage.getPixelEvents user_1 (Some (-1)) tables_with_events with
  | (Ok l, _) => length l = 2%nat
  | (Throw _, _) => False
  end
  ∧ match (_ ← FirebaseStorage.createPixelEvent event_1 10
                 (<["eventTime" := VNum 1700000000000]> (sample_event user_1 "PageView" 9));
           FirebaseStorage.getPixelEvents (prims:=sample_prims) user_1 None)
            empty_firestore with
    | (Throw _, _) => True
    | (Ok _, _) => False
    end.
Proof. split; vm_compute; [reflexivity|exact I]. Qed.

Lemma listing_ready_events (db : Firestore) :
  fs_faults db !! "pixelEvents" = None →
  map_Forall (λ _ doc, is_stamp (prop doc "createdAt") = true) (fs_docs "pixelEvents" db) →
  map_Forall (λ _ doc, forallb (λ k, created_typed (prop doc k))
                         ["createdAt"; "expiresAt"; "eventTime"; "recoveredAt"] = true)
    (fs_docs "pixelEvents" db) →
  listing_ready LPixelEvents db.
Proof. intros Hf Hs Hd. by repeat split. Qed.

